(** * STABS decoder (stabs.c): a shallow embedding and its properties

    The development follows the second half of [src/stabs.c], the decoder of
    STABS debugging records ([parse_stab], [parse_stab_string],
    [parse_stab_type] and the helpers they call).

    Conventions of the embedding.
    - A C string is a [string]; a pointer into it ([const char *p]) is the
      suffix that starts at the pointed character, so [*p] is the first
      character of the suffix (NUL when the suffix is empty) and [p + 1] is
      its tail.  A cursor [const char **pp] is passed in and returned.
    - [bfd_vma] is a 64-bit unsigned integer (config.h: the target is
      x86_64-pc-linux-gnu, [SIZEOF_LONG] is 8, so [BFD64] is defined); it is
      a [Z] in [0, 2^64) with the wrap-around written out.
    - Memory that the code shares through pointers (the chunks of type
      slots, the undefined-tag nodes, the N_BINCL nodes) lives in arenas
      indexed by allocation order; a pointer is an index.
    - [stderr] is a list of messages and the debug-information sink (debug.c,
      not part of this repository) is a trace of the calls it accepted. *)

From Stdlib Require Import ZArith String Ascii List Bool Lia DecimalString.
From stdpp Require Import base list.
Import ListNotations.

Local Open Scope string_scope.
Local Open Scope Z_scope.

(** ** C strings *)

Module CStr.

Definition NUL : ascii := "000"%char.

(** [*p] *)
Definition peek (p : string) : ascii :=
  match p with
  | EmptyString => NUL
  | String c _ => c
  end.

(** [p + 1]; the embedding never moves a pointer past the terminator. *)
Definition advance (p : string) : string :=
  match p with
  | EmptyString => EmptyString
  | String _ r => r
  end.

(** [p + n] *)
Fixpoint skip (n : nat) (p : string) : string :=
  match n with
  | O => p
  | S k => skip k (advance p)
  end.

(** [p[n]] *)
Definition at_ (p : string) (n : nat) : ascii := peek (skip n p).

Definition code (c : ascii) : Z := Z.of_N (N_of_ascii c).

Definition cheq (c d : ascii) : bool := Ascii.eqb c d.

(** [strchr (p, c)] for a non-NUL [c]: the suffix at the first [c]. *)
Fixpoint strchr (p : string) (c : ascii) : option string :=
  match p with
  | EmptyString => None
  | String d r => if Ascii.eqb d c then Some p else strchr r c
  end.

(** [strstr (p, needle)] *)
Fixpoint strstr (p : string) (needle : string) : option string :=
  if String.prefix needle p then Some p
  else match p with
       | EmptyString => None
       | String _ r => strstr r needle
       end.

(** [strspn (p, "_")]: length of the leading run of [c]. *)
Fixpoint strspn1 (p : string) (c : ascii) : nat :=
  match p with
  | String d r => if Ascii.eqb d c then S (strspn1 r c) else O
  | EmptyString => O
  end.

(** [strcmp (a, b) == 0] *)
Definition streq (a b : string) : bool := String.eqb a b.

(** [startswith (s, prefix)], that is [strncmp (s, prefix, strlen (prefix)) == 0] *)
Definition startswith (s pre : string) : bool := String.prefix pre s.

(** [strncmp (a, b, n) == 0] *)
Fixpoint strneq (a b : string) (n : nat) : bool :=
  match n with
  | O => true
  | S k =>
      match a, b with
      | EmptyString, EmptyString => true
      | String x a', String y b' => Ascii.eqb x y && strneq a' b' k
      | _, _ => false
      end
  end.

(** [q - p] for [q] a pointer into the string of [p], at or after it. *)
Definition diff (p q : string) : nat := String.length p - String.length q.

(** the [n] characters at [p], as [savestring (p, n)] copies them *)
Fixpoint take (n : nat) (p : string) : string :=
  match n, p with
  | S k, String c r => String c (take k r)
  | _, _ => EmptyString
  end.

Definition isdigit (c : ascii) : bool := (48 <=? code c) && (code c <=? 57).
Definition isupper (c : ascii) : bool := (65 <=? code c) && (code c <=? 90).
Definition islower (c : ascii) : bool := (97 <=? code c) && (code c <=? 122).
Definition isspace (c : ascii) : bool :=
  (code c =? 32) || ((9 <=? code c) && (code c <=? 13)).

End CStr.

(** ** Machine integers *)

Definition two64 : Z := 2 ^ 64.
Definition two32 : Z := 2 ^ 32.

(** conversion to [bfd_vma] / [unsigned long long] *)
Definition to_vma (z : Z) : Z := z mod two64.

(** conversion to [bfd_signed_vma] *)
Definition to_signed_vma (z : Z) : Z :=
  let u := z mod two64 in if u <? 2 ^ 63 then u else u - two64.

(** conversion to [int] *)
Definition to_int (z : Z) : Z :=
  let u := z mod two32 in if u <? 2 ^ 31 then u else u - two32.

(** conversion to [unsigned int] *)
Definition to_uint (z : Z) : Z := z mod two32.

Definition ULONG_MAX : Z := two64 - 1.
Definition sizeof_bfd_vma : Z := 8.
Definition sizeof_unsigned_long_long : Z := 8.

(** ** The C library's [strtoul], base 0 (ISO C 7.22.1.4)

    White space is skipped, a sign is read, a leading [0x] before a
    hexadecimal digit selects base 16, another leading [0] base 8, anything
    else base 10.  With no digit the end pointer is the start pointer and the
    value is 0; a magnitude above [ULONG_MAX] gives [ULONG_MAX] and [ERANGE];
    a negative number is negated in [unsigned long]. *)

Module Libc.
Import CStr.

Fixpoint skip_spaces (p : string) : string :=
  match p with
  | String c r => if isspace c then skip_spaces r else p
  | EmptyString => p
  end.

Definition digit_val (c : ascii) : option Z :=
  if isdigit c then Some (code c - 48)
  else if islower c then Some (code c - 87)
  else if isupper c then Some (code c - 55)
  else None.

Definition is_digit_in (base : Z) (c : ascii) : bool :=
  match digit_val c with
  | Some d => d <? base
  | None => false
  end.

(** the digits of the subject sequence: value, end pointer, any digit seen *)
Fixpoint digits (base : Z) (p : string) (acc : Z) (any : bool) : Z * string * bool :=
  match p with
  | String c r =>
      match digit_val c with
      | Some d => if d <? base then digits base r (acc * base + d) true
                  else (acc, p, any)
      | None => (acc, p, any)
      end
  | EmptyString => (acc, p, any)
  end.

(** value, end pointer, and whether [errno] was set to [ERANGE] *)
Definition strtoul (nptr : string) : Z * string * bool :=
  let p0 := skip_spaces nptr in
  let '(neg, p1) :=
    if cheq (peek p0) "-" then (true, advance p0)
    else if cheq (peek p0) "+" then (false, advance p0)
    else (false, p0) in
  let '(base, p2) :=
    if cheq (peek p1) "0" then
      if (cheq (at_ p1 1) "x" || cheq (at_ p1 1) "X") && is_digit_in 16 (at_ p1 2)
      then (16, skip 2 p1)
      else (8, p1)
    else (10, p1) in
  let '(v, endp, any) := digits base p2 0 false in
  if negb any then (0, nptr, false)
  else if ULONG_MAX <? v then (ULONG_MAX, endp, true)
  else (if neg then to_vma (- v) else v, endp, false).

(** the decimal prefix read by [atoi], as an [int] *)
Definition atoi (nptr : string) : Z :=
  let p0 := skip_spaces nptr in
  let '(neg, p1) :=
    if cheq (peek p0) "-" then (true, advance p0)
    else if cheq (peek p0) "+" then (false, advance p0)
    else (false, p0) in
  let '(v, _, _) := digits 10 p1 0 false in
  to_int (if neg then - v else v).

End Libc.

(** ** The debug-information sink (debug.h)

    The sink is an external collaborator, specified at its interface only:
    debug.c and debug.h are not among the sources.  A type handle is the
    term of the call that made it, NULL is [None]; the calls that answer
    [bool] are events that the sink may accept or refuse, and what the sink
    answers to a query is left to [externals] below. *)

Inductive debug_type_kind :=
| DEBUG_KIND_ILLEGAL | DEBUG_KIND_INDIRECT | DEBUG_KIND_VOID | DEBUG_KIND_INT
| DEBUG_KIND_FLOAT | DEBUG_KIND_COMPLEX | DEBUG_KIND_BOOL | DEBUG_KIND_STRUCT
| DEBUG_KIND_UNION | DEBUG_KIND_CLASS | DEBUG_KIND_UNION_CLASS | DEBUG_KIND_ENUM
| DEBUG_KIND_POINTER | DEBUG_KIND_FUNCTION | DEBUG_KIND_REFERENCE
| DEBUG_KIND_RANGE | DEBUG_KIND_ARRAY | DEBUG_KIND_SET | DEBUG_KIND_OFFSET
| DEBUG_KIND_METHOD | DEBUG_KIND_CONST | DEBUG_KIND_VOLATILE | DEBUG_KIND_NAMED
| DEBUG_KIND_TAGGED.

Inductive debug_var_kind :=
| DEBUG_VAR_ILLEGAL | DEBUG_GLOBAL | DEBUG_STATIC | DEBUG_LOCAL_STATIC
| DEBUG_LOCAL | DEBUG_REGISTER.

Inductive debug_parm_kind :=
| DEBUG_PARM_ILLEGAL | DEBUG_PARM_STACK | DEBUG_PARM_REG | DEBUG_PARM_REFERENCE
| DEBUG_PARM_REF_REG.

Inductive debug_visibility :=
| DEBUG_VISIBILITY_PUBLIC | DEBUG_VISIBILITY_PROTECTED
| DEBUG_VISIBILITY_PRIVATE | DEBUG_VISIBILITY_IGNORE.

(** The place an indirect type points at: a slot of a chunk of type slots
    (the address [types + tindex] inside a chunk) or the slot of an undefined tag ([&st->slot]). *)
Inductive slot_ref :=
| TypeSlot (chunk : nat) (tindex : nat)
| TagSlot (tag : nat).

#[local] Unset Elimination Schemes.

(** Modelled from the spec: the type nodes of the debug-information sink
    (the [debug_make_..._type] functions of debug.c, which is missing).
    The sink allocates and stores the nodes and the decoder does not read
    them back, so a node is the record of the call that made it, with the
    arguments of the call. *)
Inductive dtype : Type :=
| DIndirect (slot : slot_ref) (tag : option string)
| DVoid
| DInt (size : Z) (unsignedp : bool)
| DFloat (size : Z)
| DComplex (size : Z)
| DBool (size : Z)
| DStruct (structp : bool) (size : Z) (fields : option (list dfield))
| DObject (structp : bool) (size : Z) (fields : option (list dfield))
    (baseclasses : option (list dbaseclass)) (methods : option (list dmethod))
    (vptrbase : option dtype) (ownvptr : bool)
| DEnum (names : list string) (values : list Z)
| DPointer (t : dtype)
| DReference (t : dtype)
| DFunction (ret : dtype) (args : option (list dtype)) (varargs : bool)
| DConst (t : dtype)
| DVolatile (t : dtype)
| DOffset (domain : dtype) (member : dtype)
| DMethod (ret : dtype) (domain : option dtype) (args : option (list dtype))
    (varargs : bool)
| DRange (t : dtype) (lower upper : Z)
| DArray (element : dtype) (range : dtype) (lower upper : Z) (stringp : bool)
| DSet (t : dtype) (bitstringp : bool)
| DNamed (name : string) (t : dtype)
| DTagged (name : string) (t : dtype)
| DUndefinedTagged (name : string) (kind : debug_type_kind)
with dfield : Type :=
| DField (name : string) (t : dtype) (bitpos bitsize : Z) (v : debug_visibility)
| DStaticMember (name : string) (t : dtype) (physname : string)
    (v : debug_visibility)
with dbaseclass : Type :=
| DBaseclass (t : dtype) (bitpos : Z) (is_virtual : bool) (v : debug_visibility)
with dmethod : Type :=
| DMethodGroup (name : string) (variants : list dmethod_variant)
with dmethod_variant : Type :=
| DMethodVariant (physname : string) (t : dtype) (v : debug_visibility)
    (constp volatilep : bool) (voffset : Z) (context : option dtype)
| DStaticMethodVariant (physname : string) (t : dtype) (v : debug_visibility)
    (constp volatilep : bool).

#[local] Set Elimination Schemes.

(** [debug_type]; [DEBUG_TYPE_NULL] is [None] *)
Definition debug_type : Type := option dtype.
Definition DEBUG_TYPE_NULL : debug_type := None.

(** Modelled from the spec: the calls of debug.c (missing) by which the
    decoder hands a function, a variable, a line, a block, a source file
    or a named type to the sink. *)
Inductive sink_event :=
| Ev_set_filename (name : string)
| Ev_start_source (name : option string)
| Ev_start_block (addr : Z)
| Ev_end_block (addr : Z)
| Ev_end_function (addr : Z)
| Ev_record_line (lineno : Z) (addr : Z)
| Ev_start_common_block (name : string)
| Ev_end_common_block (name : string)
| Ev_record_function (name : option string) (ret : debug_type)
    (global : bool) (addr : Z)
| Ev_record_variable (name : option string) (t : debug_type)
    (kind : debug_var_kind) (val : Z)
| Ev_record_parameter (name : option string) (t : debug_type)
    (kind : debug_parm_kind) (val : Z)
| Ev_record_label (name : option string) (t : debug_type) (addr : Z)
| Ev_record_int_const (name : option string) (val : Z)
| Ev_record_float_const (name : option string) (text : string)
| Ev_record_typed_const (name : option string) (t : debug_type) (val : Z)
| Ev_name_type (name : string) (t : dtype)
| Ev_tag_type (name : string) (t : dtype)
| Ev_record_type_size (t : dtype) (size : Z).

(** What goes to [stderr]. *)
Inductive diag :=
| Bad_stab (p : string)
| Warning (err : string) (p : string)
| Type_file_number_out_of_range (filenum : Z)
| Unrecognized_XCOFF_type (typenum : Z)
| N_LBRAC_not_within_function
| Too_many_N_RBRACs
| Bad_mangled_name (s : string)
| No_argument_types_in_mangled_string.

(** ** The decoder's own data (struct stab_handle and what it points to) *)

(** [struct stab_pending_var]; the [next] field is the tail of the list. *)
Record stab_pending_var : Type := mkPending {
  pv_name : option string;
  pv_type : debug_type;
  pv_kind : debug_var_kind;
  pv_val : Z
}.

Definition STAB_TYPES_SLOTS : Z := 16.

(** [struct stab_types]: sixteen type slots starting at [base_index]. *)
Record stab_types : Type := mkChunk {
  st_next : option nat;
  base_index : Z;
  types : list debug_type
}.

(** [struct stab_tag]; the [next] field is the tail of [tags]. *)
Record stab_tag : Type := mkTag {
  tag_name : string;
  tag_kind : debug_type_kind;
  tag_slot : debug_type;
  tag_type : debug_type
}.

(** [struct bincl_file]; [next] and [next_stack] are the tails of
    [bincl_list] and [bincl_stack]. *)
Record bincl_file : Type := mkBincl {
  bf_name : string;
  bf_hash : Z;
  bf_file : Z;
  bf_file_types : option nat
}.

(** The state of a decode session: the fields of [struct stab_handle], the
    arenas its pointers point into, the sink's trace and [stderr]. *)
Record world : Type := mkWorld {
  (** [bfd_get_symbol_leading_char (abfd)] *)
  leading_char : ascii;
  (** TRUE if this is stabs in sections *)
  sections : bool;
  (** the symbol table: name and value of each symbol *)
  syms : list (string * Z);
  (** the accumulated file name string *)
  so_string : option string;
  (** the value of the last N_SO symbol *)
  so_value : Z;
  (** the value of the start of the file *)
  file_start_offset : Z;
  (** the offset of the start of the function *)
  function_start_offset : Z;
  (** the version of gcc which compiled the unit, 0 if not gcc *)
  gcc_compiled : Z;
  (** an N_OPT symbol not generated by gcc was seen *)
  n_opt_found : bool;
  (** the main file name *)
  main_filename : option string;
  (** the unfinished N_BINCL files, innermost first *)
  bincl_stack : list nat;
  (** every N_BINCL file, latest first *)
  bincl_list : list nat;
  (** whether we are inside a function *)
  within_function : bool;
  (** the end of the function, -1 (all ones) if unknown *)
  function_end : Z;
  (** the depth of block nesting *)
  block_depth : Z;
  (** pending variable definitions, head first *)
  pending : list stab_pending_var;
  (** number of files for which we have types *)
  files : Z;
  (** per file, the first chunk of its list of types *)
  file_types : list (option nat);
  (** predefined XCOFF types *)
  xcoff_types : list debug_type;
  (** the undefined tags, head first *)
  tags : list nat;
  (** set when a structure is a cross reference to itself *)
  self_crossref : bool;
  (** arena of [struct stab_types] *)
  chunks : list stab_types;
  (** arena of [struct stab_tag] *)
  tag_nodes : list stab_tag;
  (** arena of [struct bincl_file] *)
  bincl_nodes : list bincl_file;
  (** the calls the sink accepted, oldest first *)
  sink : list sink_event;
  (** the messages printed, oldest first *)
  stderr : list diag
}.

Definition upd_leading_char (f : ascii -> ascii) (w : world) : world :=
  mkWorld (f (leading_char w)) (sections w) (syms w) (so_string w) (so_value
    w) (file_start_offset w) (function_start_offset w) (gcc_compiled w)
    (n_opt_found w) (main_filename w) (bincl_stack w) (bincl_list w)
    (within_function w) (function_end w) (block_depth w) (pending w) (files w)
    (file_types w) (xcoff_types w) (tags w) (self_crossref w) (chunks w)
    (tag_nodes w) (bincl_nodes w) (sink w) (stderr w).
Definition set_leading_char (v : ascii) : world -> world := upd_leading_char (fun _ => v).

Definition upd_sections (f : bool -> bool) (w : world) : world :=
  mkWorld (leading_char w) (f (sections w)) (syms w) (so_string w) (so_value
    w) (file_start_offset w) (function_start_offset w) (gcc_compiled w)
    (n_opt_found w) (main_filename w) (bincl_stack w) (bincl_list w)
    (within_function w) (function_end w) (block_depth w) (pending w) (files w)
    (file_types w) (xcoff_types w) (tags w) (self_crossref w) (chunks w)
    (tag_nodes w) (bincl_nodes w) (sink w) (stderr w).
Definition set_sections (v : bool) : world -> world := upd_sections (fun _ => v).

Definition upd_syms (f : list (string * Z) -> list (string * Z)) (w : world) : world :=
  mkWorld (leading_char w) (sections w) (f (syms w)) (so_string w) (so_value
    w) (file_start_offset w) (function_start_offset w) (gcc_compiled w)
    (n_opt_found w) (main_filename w) (bincl_stack w) (bincl_list w)
    (within_function w) (function_end w) (block_depth w) (pending w) (files w)
    (file_types w) (xcoff_types w) (tags w) (self_crossref w) (chunks w)
    (tag_nodes w) (bincl_nodes w) (sink w) (stderr w).
Definition set_syms (v : list (string * Z)) : world -> world := upd_syms (fun _ => v).

Definition upd_so_string (f : option string -> option string) (w : world) : world :=
  mkWorld (leading_char w) (sections w) (syms w) (f (so_string w)) (so_value
    w) (file_start_offset w) (function_start_offset w) (gcc_compiled w)
    (n_opt_found w) (main_filename w) (bincl_stack w) (bincl_list w)
    (within_function w) (function_end w) (block_depth w) (pending w) (files w)
    (file_types w) (xcoff_types w) (tags w) (self_crossref w) (chunks w)
    (tag_nodes w) (bincl_nodes w) (sink w) (stderr w).
Definition set_so_string (v : option string) : world -> world := upd_so_string (fun _ => v).

Definition upd_so_value (f : Z -> Z) (w : world) : world :=
  mkWorld (leading_char w) (sections w) (syms w) (so_string w) (f (so_value
    w)) (file_start_offset w) (function_start_offset w) (gcc_compiled w)
    (n_opt_found w) (main_filename w) (bincl_stack w) (bincl_list w)
    (within_function w) (function_end w) (block_depth w) (pending w) (files w)
    (file_types w) (xcoff_types w) (tags w) (self_crossref w) (chunks w)
    (tag_nodes w) (bincl_nodes w) (sink w) (stderr w).
Definition set_so_value (v : Z) : world -> world := upd_so_value (fun _ => v).

Definition upd_file_start_offset (f : Z -> Z) (w : world) : world :=
  mkWorld (leading_char w) (sections w) (syms w) (so_string w) (so_value w) (f
    (file_start_offset w)) (function_start_offset w) (gcc_compiled w)
    (n_opt_found w) (main_filename w) (bincl_stack w) (bincl_list w)
    (within_function w) (function_end w) (block_depth w) (pending w) (files w)
    (file_types w) (xcoff_types w) (tags w) (self_crossref w) (chunks w)
    (tag_nodes w) (bincl_nodes w) (sink w) (stderr w).
Definition set_file_start_offset (v : Z) : world -> world := upd_file_start_offset (fun _ => v).

Definition upd_function_start_offset (f : Z -> Z) (w : world) : world :=
  mkWorld (leading_char w) (sections w) (syms w) (so_string w) (so_value w)
    (file_start_offset w) (f (function_start_offset w)) (gcc_compiled w)
    (n_opt_found w) (main_filename w) (bincl_stack w) (bincl_list w)
    (within_function w) (function_end w) (block_depth w) (pending w) (files w)
    (file_types w) (xcoff_types w) (tags w) (self_crossref w) (chunks w)
    (tag_nodes w) (bincl_nodes w) (sink w) (stderr w).
Definition set_function_start_offset (v : Z) : world -> world := upd_function_start_offset (fun _ => v).

Definition upd_gcc_compiled (f : Z -> Z) (w : world) : world :=
  mkWorld (leading_char w) (sections w) (syms w) (so_string w) (so_value w)
    (file_start_offset w) (function_start_offset w) (f (gcc_compiled w))
    (n_opt_found w) (main_filename w) (bincl_stack w) (bincl_list w)
    (within_function w) (function_end w) (block_depth w) (pending w) (files w)
    (file_types w) (xcoff_types w) (tags w) (self_crossref w) (chunks w)
    (tag_nodes w) (bincl_nodes w) (sink w) (stderr w).
Definition set_gcc_compiled (v : Z) : world -> world := upd_gcc_compiled (fun _ => v).

Definition upd_n_opt_found (f : bool -> bool) (w : world) : world :=
  mkWorld (leading_char w) (sections w) (syms w) (so_string w) (so_value w)
    (file_start_offset w) (function_start_offset w) (gcc_compiled w) (f
    (n_opt_found w)) (main_filename w) (bincl_stack w) (bincl_list w)
    (within_function w) (function_end w) (block_depth w) (pending w) (files w)
    (file_types w) (xcoff_types w) (tags w) (self_crossref w) (chunks w)
    (tag_nodes w) (bincl_nodes w) (sink w) (stderr w).
Definition set_n_opt_found (v : bool) : world -> world := upd_n_opt_found (fun _ => v).

Definition upd_main_filename (f : option string -> option string) (w : world) : world :=
  mkWorld (leading_char w) (sections w) (syms w) (so_string w) (so_value w)
    (file_start_offset w) (function_start_offset w) (gcc_compiled w)
    (n_opt_found w) (f (main_filename w)) (bincl_stack w) (bincl_list w)
    (within_function w) (function_end w) (block_depth w) (pending w) (files w)
    (file_types w) (xcoff_types w) (tags w) (self_crossref w) (chunks w)
    (tag_nodes w) (bincl_nodes w) (sink w) (stderr w).
Definition set_main_filename (v : option string) : world -> world := upd_main_filename (fun _ => v).

Definition upd_bincl_stack (f : list nat -> list nat) (w : world) : world :=
  mkWorld (leading_char w) (sections w) (syms w) (so_string w) (so_value w)
    (file_start_offset w) (function_start_offset w) (gcc_compiled w)
    (n_opt_found w) (main_filename w) (f (bincl_stack w)) (bincl_list w)
    (within_function w) (function_end w) (block_depth w) (pending w) (files w)
    (file_types w) (xcoff_types w) (tags w) (self_crossref w) (chunks w)
    (tag_nodes w) (bincl_nodes w) (sink w) (stderr w).
Definition set_bincl_stack (v : list nat) : world -> world := upd_bincl_stack (fun _ => v).

Definition upd_bincl_list (f : list nat -> list nat) (w : world) : world :=
  mkWorld (leading_char w) (sections w) (syms w) (so_string w) (so_value w)
    (file_start_offset w) (function_start_offset w) (gcc_compiled w)
    (n_opt_found w) (main_filename w) (bincl_stack w) (f (bincl_list w))
    (within_function w) (function_end w) (block_depth w) (pending w) (files w)
    (file_types w) (xcoff_types w) (tags w) (self_crossref w) (chunks w)
    (tag_nodes w) (bincl_nodes w) (sink w) (stderr w).
Definition set_bincl_list (v : list nat) : world -> world := upd_bincl_list (fun _ => v).

Definition upd_within_function (f : bool -> bool) (w : world) : world :=
  mkWorld (leading_char w) (sections w) (syms w) (so_string w) (so_value w)
    (file_start_offset w) (function_start_offset w) (gcc_compiled w)
    (n_opt_found w) (main_filename w) (bincl_stack w) (bincl_list w) (f
    (within_function w)) (function_end w) (block_depth w) (pending w) (files
    w) (file_types w) (xcoff_types w) (tags w) (self_crossref w) (chunks w)
    (tag_nodes w) (bincl_nodes w) (sink w) (stderr w).
Definition set_within_function (v : bool) : world -> world := upd_within_function (fun _ => v).

Definition upd_function_end (f : Z -> Z) (w : world) : world :=
  mkWorld (leading_char w) (sections w) (syms w) (so_string w) (so_value w)
    (file_start_offset w) (function_start_offset w) (gcc_compiled w)
    (n_opt_found w) (main_filename w) (bincl_stack w) (bincl_list w)
    (within_function w) (f (function_end w)) (block_depth w) (pending w)
    (files w) (file_types w) (xcoff_types w) (tags w) (self_crossref w)
    (chunks w) (tag_nodes w) (bincl_nodes w) (sink w) (stderr w).
Definition set_function_end (v : Z) : world -> world := upd_function_end (fun _ => v).

Definition upd_block_depth (f : Z -> Z) (w : world) : world :=
  mkWorld (leading_char w) (sections w) (syms w) (so_string w) (so_value w)
    (file_start_offset w) (function_start_offset w) (gcc_compiled w)
    (n_opt_found w) (main_filename w) (bincl_stack w) (bincl_list w)
    (within_function w) (function_end w) (f (block_depth w)) (pending w)
    (files w) (file_types w) (xcoff_types w) (tags w) (self_crossref w)
    (chunks w) (tag_nodes w) (bincl_nodes w) (sink w) (stderr w).
Definition set_block_depth (v : Z) : world -> world := upd_block_depth (fun _ => v).

Definition upd_pending (f : list stab_pending_var -> list stab_pending_var) (w : world) : world :=
  mkWorld (leading_char w) (sections w) (syms w) (so_string w) (so_value w)
    (file_start_offset w) (function_start_offset w) (gcc_compiled w)
    (n_opt_found w) (main_filename w) (bincl_stack w) (bincl_list w)
    (within_function w) (function_end w) (block_depth w) (f (pending w))
    (files w) (file_types w) (xcoff_types w) (tags w) (self_crossref w)
    (chunks w) (tag_nodes w) (bincl_nodes w) (sink w) (stderr w).
Definition set_pending (v : list stab_pending_var) : world -> world := upd_pending (fun _ => v).

Definition upd_files (f : Z -> Z) (w : world) : world :=
  mkWorld (leading_char w) (sections w) (syms w) (so_string w) (so_value w)
    (file_start_offset w) (function_start_offset w) (gcc_compiled w)
    (n_opt_found w) (main_filename w) (bincl_stack w) (bincl_list w)
    (within_function w) (function_end w) (block_depth w) (pending w) (f (files
    w)) (file_types w) (xcoff_types w) (tags w) (self_crossref w) (chunks w)
    (tag_nodes w) (bincl_nodes w) (sink w) (stderr w).
Definition set_files (v : Z) : world -> world := upd_files (fun _ => v).

Definition upd_file_types (f : list (option nat) -> list (option nat)) (w : world) : world :=
  mkWorld (leading_char w) (sections w) (syms w) (so_string w) (so_value w)
    (file_start_offset w) (function_start_offset w) (gcc_compiled w)
    (n_opt_found w) (main_filename w) (bincl_stack w) (bincl_list w)
    (within_function w) (function_end w) (block_depth w) (pending w) (files w)
    (f (file_types w)) (xcoff_types w) (tags w) (self_crossref w) (chunks w)
    (tag_nodes w) (bincl_nodes w) (sink w) (stderr w).

Definition upd_xcoff_types (f : list debug_type -> list debug_type) (w : world) : world :=
  mkWorld (leading_char w) (sections w) (syms w) (so_string w) (so_value w)
    (file_start_offset w) (function_start_offset w) (gcc_compiled w)
    (n_opt_found w) (main_filename w) (bincl_stack w) (bincl_list w)
    (within_function w) (function_end w) (block_depth w) (pending w) (files w)
    (file_types w) (f (xcoff_types w)) (tags w) (self_crossref w) (chunks w)
    (tag_nodes w) (bincl_nodes w) (sink w) (stderr w).
Definition set_xcoff_types (v : list debug_type) : world -> world := upd_xcoff_types (fun _ => v).

Definition upd_tags (f : list nat -> list nat) (w : world) : world :=
  mkWorld (leading_char w) (sections w) (syms w) (so_string w) (so_value w)
    (file_start_offset w) (function_start_offset w) (gcc_compiled w)
    (n_opt_found w) (main_filename w) (bincl_stack w) (bincl_list w)
    (within_function w) (function_end w) (block_depth w) (pending w) (files w)
    (file_types w) (xcoff_types w) (f (tags w)) (self_crossref w) (chunks w)
    (tag_nodes w) (bincl_nodes w) (sink w) (stderr w).
Definition set_tags (v : list nat) : world -> world := upd_tags (fun _ => v).

Definition upd_self_crossref (f : bool -> bool) (w : world) : world :=
  mkWorld (leading_char w) (sections w) (syms w) (so_string w) (so_value w)
    (file_start_offset w) (function_start_offset w) (gcc_compiled w)
    (n_opt_found w) (main_filename w) (bincl_stack w) (bincl_list w)
    (within_function w) (function_end w) (block_depth w) (pending w) (files w)
    (file_types w) (xcoff_types w) (tags w) (f (self_crossref w)) (chunks w)
    (tag_nodes w) (bincl_nodes w) (sink w) (stderr w).
Definition set_self_crossref (v : bool) : world -> world := upd_self_crossref (fun _ => v).

Definition upd_chunks (f : list stab_types -> list stab_types) (w : world) : world :=
  mkWorld (leading_char w) (sections w) (syms w) (so_string w) (so_value w)
    (file_start_offset w) (function_start_offset w) (gcc_compiled w)
    (n_opt_found w) (main_filename w) (bincl_stack w) (bincl_list w)
    (within_function w) (function_end w) (block_depth w) (pending w) (files w)
    (file_types w) (xcoff_types w) (tags w) (self_crossref w) (f (chunks w))
    (tag_nodes w) (bincl_nodes w) (sink w) (stderr w).
Definition set_chunks (v : list stab_types) : world -> world := upd_chunks (fun _ => v).

Definition upd_tag_nodes (f : list stab_tag -> list stab_tag) (w : world) : world :=
  mkWorld (leading_char w) (sections w) (syms w) (so_string w) (so_value w)
    (file_start_offset w) (function_start_offset w) (gcc_compiled w)
    (n_opt_found w) (main_filename w) (bincl_stack w) (bincl_list w)
    (within_function w) (function_end w) (block_depth w) (pending w) (files w)
    (file_types w) (xcoff_types w) (tags w) (self_crossref w) (chunks w) (f
    (tag_nodes w)) (bincl_nodes w) (sink w) (stderr w).
Definition set_tag_nodes (v : list stab_tag) : world -> world := upd_tag_nodes (fun _ => v).

Definition upd_bincl_nodes (f : list bincl_file -> list bincl_file) (w : world) : world :=
  mkWorld (leading_char w) (sections w) (syms w) (so_string w) (so_value w)
    (file_start_offset w) (function_start_offset w) (gcc_compiled w)
    (n_opt_found w) (main_filename w) (bincl_stack w) (bincl_list w)
    (within_function w) (function_end w) (block_depth w) (pending w) (files w)
    (file_types w) (xcoff_types w) (tags w) (self_crossref w) (chunks w)
    (tag_nodes w) (f (bincl_nodes w)) (sink w) (stderr w).
Definition set_bincl_nodes (v : list bincl_file) : world -> world := upd_bincl_nodes (fun _ => v).

Definition upd_sink (f : list sink_event -> list sink_event) (w : world) : world :=
  mkWorld (leading_char w) (sections w) (syms w) (so_string w) (so_value w)
    (file_start_offset w) (function_start_offset w) (gcc_compiled w)
    (n_opt_found w) (main_filename w) (bincl_stack w) (bincl_list w)
    (within_function w) (function_end w) (block_depth w) (pending w) (files w)
    (file_types w) (xcoff_types w) (tags w) (self_crossref w) (chunks w)
    (tag_nodes w) (bincl_nodes w) (f (sink w)) (stderr w).
Definition set_sink (v : list sink_event) : world -> world := upd_sink (fun _ => v).

Definition upd_stderr (f : list diag -> list diag) (w : world) : world :=
  mkWorld (leading_char w) (sections w) (syms w) (so_string w) (so_value w)
    (file_start_offset w) (function_start_offset w) (gcc_compiled w)
    (n_opt_found w) (main_filename w) (bincl_stack w) (bincl_list w)
    (within_function w) (function_end w) (block_depth w) (pending w) (files w)
    (file_types w) (xcoff_types w) (tags w) (self_crossref w) (chunks w)
    (tag_nodes w) (bincl_nodes w) (sink w) (f (stderr w)).
Definition set_stderr (v : list diag) : world -> world := upd_stderr (fun _ => v).
(** ** The session monad

    A computation takes the state and gives a value and the next state, or
    nothing when the C code would not return (a walk over a cyclic chain, a
    recursion deeper than the fuel). *)

Definition M (A : Type) : Type := world -> option (A * world).

Definition ret {A : Type} (a : A) : M A := fun w => Some (a, w).

Definition bind {A B : Type} (c : M A) (k : A -> M B) : M B :=
  fun w => match c w with
           | Some (a, w') => k a w'
           | None => None
           end.

Definition get {A : Type} (f : world -> A) : M A := fun w => Some (f w, w).
Definition modify (f : world -> world) : M unit := fun w => Some (tt, f w).
Definition diverge {A : Type} : M A := fun _ => None.

Declare Scope stab_scope.
Delimit Scope stab_scope with stab.
Notation "x <- c ;; k" := (bind c (fun x => k))
  (at level 100, c at next level, right associativity) : stab_scope.
Notation "c ;;; k" := (bind c (fun _ => k))
  (at level 100, right associativity) : stab_scope.
Local Open Scope stab_scope.

(** [bad_stab], [warn_stab] and the other [fprintf (stderr, ...)] calls *)
Definition print (d : diag) : M unit := modify (upd_stderr (fun l => (l ++ [d])%list)).
Definition bad_stab (p : string) : M unit := print (Bad_stab p).
Definition warn_stab (p err : string) : M unit := print (Warning err p).

(** ** What the decoder gets from outside

    [sink_accepts] says whether the sink accepts a call, given the calls it
    accepted so far; the [debug_get_...] and [debug_find_...] fields are the
    sink's answers to queries.  [IS_ABSOLUTE_PATH] is the macro of
    filenames.h.  The remaining fields are functions of stabs.c that this
    development does not unfold: the parsers of the type descriptors that no
    property below is about, and the parts of the demangler below its entry
    points. *)

Record demangle_info : Type := mkMinfo {
  args : option (list dtype);
  varargs : bool;
  typestrings : list string
}.

Record externals : Type := mkExternals {
  sink_accepts : list sink_event -> sink_event -> bool;
  debug_find_tagged_type : list sink_event -> string -> debug_type;
  debug_get_type_kind : world -> debug_type -> debug_type_kind;
  debug_get_parameter_types : world -> debug_type -> option (list dtype);
  debug_get_return_type : world -> debug_type -> debug_type;
  parse_stab_sun_builtin_type : string -> M (debug_type * string);
  parse_stab_sun_floating_type : string -> M (debug_type * string);
  parse_stab_enum_type : string -> M (debug_type * string);
  parse_stab_array_type : string -> bool -> M (debug_type * string);
  parse_stab_baseclasses : string -> M (bool * option (list dbaseclass) * string);
  parse_stab_struct_fields :
    string -> M (bool * option (list dfield) * bool * string);
  parse_stab_tilde_field :
    string -> Z * Z -> M (bool * debug_type * bool * string);
  stab_demangle_v3_argtypes : string -> M (option (list dtype) * bool);
  stab_demangle_type : demangle_info -> string -> M (bool * demangle_info * string);
  stab_demangle_qualified :
    demangle_info -> string -> M (bool * demangle_info * string);
  stab_demangle_class : demangle_info -> string -> M (bool * demangle_info * string);
  stab_demangle_template :
    demangle_info -> string -> M (bool * demangle_info * string);
  stab_demangle_args : demangle_info -> string -> M (bool * demangle_info * string);
  stab_demangle_remember_type :
    demangle_info -> string -> nat -> M (bool * demangle_info);
  IS_ABSOLUTE_PATH : string -> bool
}.

(** ** The sink's calls *)

(** Modelled from the spec: the constructors of debug.c (missing).  Each
    returns the node of its call; the sizes are [unsigned int] parameters;
    a constructor over a NULL operand returns NULL. *)
Definition debug_make_void_type : debug_type := Some DVoid.
Definition debug_make_int_type (size : Z) (unsignedp : bool) : debug_type :=
  Some (DInt (to_uint size) unsignedp).
Definition debug_make_float_type (size : Z) : debug_type :=
  Some (DFloat (to_uint size)).
Definition debug_make_complex_type (size : Z) : debug_type :=
  Some (DComplex (to_uint size)).
Definition debug_make_bool_type (size : Z) : debug_type :=
  Some (DBool (to_uint size)).
Definition debug_make_indirect_type (slot : slot_ref) (tag : option string)
  : debug_type := Some (DIndirect slot tag).
Definition debug_make_pointer_type (t : debug_type) : debug_type :=
  option_map DPointer t.
Definition debug_make_reference_type (t : debug_type) : debug_type :=
  option_map DReference t.
Definition debug_make_const_type (t : debug_type) : debug_type :=
  option_map DConst t.
Definition debug_make_volatile_type (t : debug_type) : debug_type :=
  option_map DVolatile t.
Definition debug_make_function_type (t : debug_type)
    (arg_types : option (list dtype)) (va : bool) : debug_type :=
  option_map (fun r => DFunction r arg_types va) t.
Definition debug_make_offset_type (base target : debug_type) : debug_type :=
  match base, target with
  | Some b, Some t => Some (DOffset b t)
  | _, _ => None
  end.
Definition debug_make_method_type (return_type domain_type : debug_type)
    (arg_types : option (list dtype)) (va : bool) : debug_type :=
  option_map (fun r => DMethod r domain_type arg_types va) return_type.
Definition debug_make_range_type (t : debug_type) (lower upper : Z) : debug_type :=
  option_map (fun r => DRange r lower upper) t.
Definition debug_make_set_type (t : debug_type) (bitstringp : bool) : debug_type :=
  option_map (fun r => DSet r bitstringp) t.
Definition debug_make_undefined_tagged_type (name : string)
    (kind : debug_type_kind) : debug_type := Some (DUndefinedTagged name kind).
Definition debug_make_struct_type (structp : bool) (size : Z)
    (fields : option (list dfield)) : debug_type :=
  Some (DStruct structp size fields).
Definition debug_make_object_type (structp : bool) (size : Z)
    (fields : option (list dfield)) (baseclasses : option (list dbaseclass))
    (methods : option (list dmethod)) (vptrbase : debug_type) (ownvptr : bool)
  : debug_type :=
  Some (DObject structp size fields baseclasses methods vptrbase ownvptr).
Definition debug_make_method (name : string) (variants : list dmethod_variant)
  : dmethod := DMethodGroup name variants.
Definition debug_make_method_variant (physname : string) (t : debug_type)
    (v : debug_visibility) (constp volatilep : bool) (voffset : Z)
    (context : debug_type) : option dmethod_variant :=
  option_map (fun ty => DMethodVariant physname ty v constp volatilep voffset context) t.
Definition debug_make_static_method_variant (physname : string) (t : debug_type)
    (v : debug_visibility) (constp volatilep : bool) : option dmethod_variant :=
  option_map (fun ty => DStaticMethodVariant physname ty v constp volatilep) t.

Section Decoder.

Variable E : externals.

(** a call that the sink accepts, and then records, or refuses *)
Definition sink_call (e : sink_event) : M bool :=
  fun w => if sink_accepts E (sink w) e
           then Some (true, upd_sink (fun l => (l ++ [e])%list) w)
           else Some (false, w).

Definition query {A : Type} (f : world -> A) : M A := get f.

Definition debug_set_filename (name : string) : M bool :=
  sink_call (Ev_set_filename name).
Definition debug_start_source (name : option string) : M bool :=
  sink_call (Ev_start_source name).
Definition debug_start_block (addr : Z) : M bool := sink_call (Ev_start_block addr).
Definition debug_end_block (addr : Z) : M bool := sink_call (Ev_end_block addr).
Definition debug_end_function (addr : Z) : M bool :=
  sink_call (Ev_end_function addr).
Definition debug_record_line (lineno addr : Z) : M bool :=
  sink_call (Ev_record_line lineno addr).
Definition debug_start_common_block (name : string) : M bool :=
  sink_call (Ev_start_common_block name).
Definition debug_end_common_block (name : string) : M bool :=
  sink_call (Ev_end_common_block name).
Definition debug_record_function (name : option string) (t : debug_type)
    (global : bool) (addr : Z) : M bool :=
  sink_call (Ev_record_function name t global addr).
Definition debug_record_variable (name : option string) (t : debug_type)
    (kind : debug_var_kind) (val : Z) : M bool :=
  sink_call (Ev_record_variable name t kind val).
Definition debug_record_parameter (name : option string) (t : debug_type)
    (kind : debug_parm_kind) (val : Z) : M bool :=
  sink_call (Ev_record_parameter name t kind val).
Definition debug_record_label (name : option string) (t : debug_type)
    (addr : Z) : M bool :=
  sink_call (Ev_record_label name t addr).
Definition debug_record_int_const (name : option string) (val : Z) : M bool :=
  sink_call (Ev_record_int_const name val).
Definition debug_record_float_const (name : option string) (text : string)
  : M bool := sink_call (Ev_record_float_const name text).
Definition debug_record_typed_const (name : option string) (t : debug_type)
    (val : Z) : M bool :=
  sink_call (Ev_record_typed_const name t val).

(** [debug_name_type] and [debug_tag_type] answer the new handle, or NULL. *)
Definition debug_name_type (name : string) (t : debug_type) : M debug_type :=
  match t with
  | None => ret None
  | Some ty =>
      ok <- sink_call (Ev_name_type name ty) ;;
      ret (if ok then Some (DNamed name ty) else None)
  end.

Definition debug_tag_type (name : string) (t : debug_type) : M debug_type :=
  match t with
  | None => ret None
  | Some ty =>
      ok <- sink_call (Ev_tag_type name ty) ;;
      ret (if ok then Some (DTagged name ty) else None)
  end.

Definition debug_record_type_size (t : debug_type) (size : Z) : M bool :=
  match t with
  | None => ret false
  | Some ty => sink_call (Ev_record_type_size ty size)
  end.

(** *** Numbers *)

(** "Our own version of strtoul, for a bfd_vma", compiled in only when
    [bfd_vma] is wider than [unsigned long long].  The loop looks at the
    digits without adding them to [v].  The result is the value when no
    overflow was seen. *)
Fixpoint own_strtoul_loop (base over lastdig v : Z) (p : string) : bool :=
  match p with
  | EmptyString => false
  | String c r =>
      let d := CStr.code c in
      if CStr.isdigit c || CStr.isupper c || CStr.islower c then
        let d := if CStr.isdigit c then d - 48
                 else if CStr.isupper c then d - 65 else d - 97 in
        if base <=? d then false
        else if (over <? v) || ((v =? over) && (lastdig <? d)) then true
        else own_strtoul_loop base over lastdig v r
      else false
  end.

Definition own_strtoul (orig : string) : option Z :=
  let p := orig in
  let '(neg, p) :=
    if CStr.cheq (CStr.peek p) "+" then (false, CStr.advance p)
    else if CStr.cheq (CStr.peek p) "-" then (true, CStr.advance p)
    else (false, p) in
  let '(base, p) :=
    if CStr.cheq (CStr.peek p) "0" then
      if CStr.cheq (CStr.at_ p 1) "x" || CStr.cheq (CStr.at_ p 1) "X"
      then (16, CStr.skip 2 p)
      else (8, CStr.advance p)
    else (10, p) in
  let over := (two64 - 1) / base in
  let lastdig := (two64 - 1) mod base in
  let v := 0 in
  if own_strtoul_loop base over lastdig v p then None
  else Some (if neg then to_vma (- v) else v).

(** [parse_number (pp, poverflow, p_end)].  [poverflow] says whether the
    caller passed a flag; the result is the number, the cursor and the
    flag (false when none was passed). *)
Definition parse_number (pp : string) (poverflow : bool)
  : M (Z * string * bool) :=
  let orig := pp in
  if String.eqb orig "" then ret (0, pp, false)
  else if CStr.cheq (CStr.peek orig) CStr.NUL then ret (0, pp, false)
  else
    let '(ul, pp, erange) := Libc.strtoul pp in
    if negb (to_vma (ul + 1) =? 0) || negb erange then
      if CStr.cheq (CStr.peek orig) "-"
      then ret (to_vma (to_signed_vma ul), pp, false)
      else ret (to_vma ul, pp, false)
    else
      match (if sizeof_unsigned_long_long <? sizeof_bfd_vma
             then own_strtoul orig else None) with
      | Some v => ret (v, pp, false)
      | None =>
          if poverflow then ret (0, pp, true)
          else warn_stab orig "numeric overflow" ;;; ret (0, pp, false)
      end.

(** *** The type number registry *)

(** A place that holds a [struct stab_types *]: an element of
    [file_types] or the [next] field of a chunk. *)
Inductive chunk_cell :=
| FileCell (filenum : nat)
| NextCell (chunk : nat).

Definition read_cell (ps : chunk_cell) (w : world) : option nat :=
  match ps with
  | FileCell f => default None (file_types w !! f)
  | NextCell c => default None (st_next <$> chunks w !! c)
  end.

Definition write_cell (ps : chunk_cell) (v : option nat) : world -> world :=
  match ps with
  | FileCell f => upd_file_types (fun l => <[f := v]> l)
  | NextCell c =>
      upd_chunks (alter (fun ch => mkChunk v (base_index ch) (types ch)) c)
  end.

(** [while ( *ps && ( *ps)->base_index < base_index) ps = &( *ps)->next;]
    The chain is followed for at most [fuel] chunks. *)
Fixpoint seek_chunk (fuel : nat) (w : world) (ps : chunk_cell) (base : Z)
  : option chunk_cell :=
  match read_cell ps w with
  | None => Some ps
  | Some c =>
      match chunks w !! c with
      | None => None
      | Some ch =>
          if base_index ch <? base then
            match fuel with
            | O => None
            | S k => seek_chunk k w (NextCell c) base
            end
          else Some ps
      end
  end.

Definition read_slot (sl : slot_ref) (w : world) : option debug_type :=
  match sl with
  | TypeSlot c i => ch ← chunks w !! c; types ch !! i
  | TagSlot t => tag_slot <$> tag_nodes w !! t
  end.

Definition write_slot (sl : slot_ref) (v : debug_type) : world -> world :=
  match sl with
  | TypeSlot c i =>
      upd_chunks
        (alter (fun ch => mkChunk (st_next ch) (base_index ch) (<[i := v]> (types ch))) c)
  | TagSlot t =>
      upd_tag_nodes
        (alter (fun st => mkTag (tag_name st) (tag_kind st) v (tag_type st)) t)
  end.

(** [*slot] *)
Definition load (sl : slot_ref) : M debug_type :=
  fun w => match read_slot sl w with
           | Some v => Some (v, w)
           | None => None
           end.

(** [stab_find_slot]: the slot of a type number, NULL when the file number
    is out of range.  A missing chunk is allocated, zeroed, and linked in
    at the place the walk stopped. *)
Definition stab_find_slot (typenums : Z * Z) : M (option slot_ref) :=
  let filenum := to_uint (fst typenums) in
  let tindex := to_uint (snd typenums) in
  nfiles <- get files ;;
  if nfiles <=? filenum then
    print (Type_file_number_out_of_range filenum) ;;; ret None
  else
    let base := tindex / STAB_TYPES_SLOTS * STAB_TYPES_SLOTS in
    let tindex := tindex - base in
    fun w =>
      match seek_chunk (length (chunks w)) w (FileCell (Z.to_nat filenum)) base with
      | None => None
      | Some ps =>
          let found :=
            match read_cell ps w with
            | None => None
            | Some c =>
                match chunks w !! c with
                | Some ch => if base_index ch =? base then Some c else None
                | None => None
                end
            end in
          match found with
          | Some c => Some (Some (TypeSlot c (Z.to_nat tindex)), w)
          | None =>
              let n := length (chunks w) in
              let node :=
                mkChunk (read_cell ps w) base
                  (replicate (Z.to_nat STAB_TYPES_SLOTS) DEBUG_TYPE_NULL) in
              let w := upd_chunks (fun l => (l ++ [node])%list) w in
              let w := write_cell ps (Some n) w in
              Some (Some (TypeSlot n (Z.to_nat tindex)), w)
          end
      end.

(** The table of [stab_xcoff_builtin_type]: the name and the type made
    for each of the [XCOFF_TYPE_COUNT] predefined types; the [default:] of
    the switch is [abort ()]. *)
Definition XCOFF_TYPE_COUNT : Z := 34.

Definition xcoff_builtin (typenum : Z) : option (string * debug_type) :=
  match typenum with
  | 0 => Some ("int", debug_make_int_type 4 false)
  | 1 => Some ("char", debug_make_int_type 1 false)
  | 2 => Some ("short", debug_make_int_type 2 false)
  | 3 => Some ("long long", debug_make_int_type 4 false)
  | 4 => Some ("unsigned char", debug_make_int_type 1 true)
  | 5 => Some ("signed char", debug_make_int_type 1 false)
  | 6 => Some ("unsigned short", debug_make_int_type 2 true)
  | 7 => Some ("unsigned int", debug_make_int_type 4 true)
  | 8 => Some ("unsigned", debug_make_int_type 4 true)
  | 9 => Some ("unsigned long long", debug_make_int_type 4 true)
  | 10 => Some ("void", debug_make_void_type)
  | 11 => Some ("float", debug_make_float_type 4)
  | 12 => Some ("double", debug_make_float_type 8)
  | 13 => Some ("long long double", debug_make_float_type 8)
  | 14 => Some ("integer", debug_make_int_type 4 false)
  | 15 => Some ("boolean", debug_make_bool_type 4)
  | 16 => Some ("short real", debug_make_float_type 4)
  | 17 => Some ("real", debug_make_float_type 8)
  | 18 => Some ("stringptr", None)
  | 19 => Some ("character", debug_make_int_type 1 true)
  | 20 => Some ("logical*1", debug_make_bool_type 1)
  | 21 => Some ("logical*2", debug_make_bool_type 2)
  | 22 => Some ("logical*4", debug_make_bool_type 4)
  | 23 => Some ("logical", debug_make_bool_type 4)
  | 24 => Some ("complex", debug_make_complex_type 8)
  | 25 => Some ("double complex", debug_make_complex_type 16)
  | 26 => Some ("integer*1", debug_make_int_type 1 false)
  | 27 => Some ("integer*2", debug_make_int_type 2 false)
  | 28 => Some ("integer*4", debug_make_int_type 4 false)
  | 29 => Some ("wchar", debug_make_int_type 2 false)
  | 30 => Some ("long long", debug_make_int_type 8 false)
  | 31 => Some ("unsigned long long", debug_make_int_type 8 true)
  | 32 => Some ("logical*8", debug_make_bool_type 8)
  | 33 => Some ("integer*8", debug_make_int_type 8 false)
  | _ => None
  end.

Definition stab_xcoff_builtin_type (typenum : Z) : M debug_type :=
  let typenum := to_uint (- to_uint typenum - 1) in
  if XCOFF_TYPE_COUNT <=? typenum then
    print (Unrecognized_XCOFF_type (to_int (- typenum - 1))) ;;; ret DEBUG_TYPE_NULL
  else
    known <- get (fun w => default None (xcoff_types w !! Z.to_nat typenum)) ;;
    match known with
    | Some t => ret (Some t)
    | None =>
        match xcoff_builtin typenum with
        | None => diverge
        | Some (name, rettype) =>
            rettype <- debug_name_type name rettype ;;
            modify (upd_xcoff_types (fun l => <[Z.to_nat typenum := rettype]> l)) ;;;
            ret rettype
        end
    end.

(** [stab_find_type]: the type of a type number; an indirect type on its
    slot when the slot is still empty. *)
Definition stab_find_type (typenums : Z * Z) : M debug_type :=
  if (fst typenums =? 0) && (snd typenums <? 0) then
    stab_xcoff_builtin_type (snd typenums)
  else
    slot <- stab_find_slot typenums ;;
    match slot with
    | None => ret DEBUG_TYPE_NULL
    | Some sl =>
        v <- load sl ;;
        match v with
        | None => ret (debug_make_indirect_type sl None)
        | Some t => ret (Some t)
        end
    end.

(** [stab_record_type]: [*slot = type]. *)
Definition stab_record_type (typenums : Z * Z) (type : debug_type) : M bool :=
  slot <- stab_find_slot typenums ;;
  match slot with
  | None => ret false
  | Some sl => modify (write_slot sl type) ;;; ret true
  end.

(** *** N_BINCL, N_EINCL, N_EXCL *)

(** [xrealloc (info->file_types, info->files * sizeof ...)] *)
Definition realloc_file_types : M unit :=
  modify (fun w => upd_file_types (resize (Z.to_nat (files w)) None) w).

Definition push_bincl (name : string) (hash : Z) : M unit :=
  fun w =>
    let n := length (bincl_nodes w) in
    let node := mkBincl name hash (files w) None in
    let w := upd_bincl_nodes (fun l => (l ++ [node])%list) w in
    let w := upd_bincl_list (cons n) w in
    let w := upd_bincl_stack (cons n) w in
    let w := upd_files (fun f => to_uint (f + 1)) w in
    let w := upd_file_types (resize (Z.to_nat (files w)) None) w in
    let w := upd_file_types (fun l => <[Z.to_nat (bf_file node) := None]> l) w in
    Some (tt, w).

Definition pop_bincl : M (option string) :=
  stack <- get bincl_stack ;;
  match stack with
  | [] => get main_filename
  | o :: next_stack =>
      modify (set_bincl_stack next_stack) ;;;
      fun w =>
        match bincl_nodes w !! o with
        | None => None
        | Some node =>
            if files w <=? bf_file node then Some (main_filename w, w)
            else
              let ft := default None (file_types w !! Z.to_nat (bf_file node)) in
              let w :=
                upd_bincl_nodes
                  (alter (fun b => mkBincl (bf_name b) (bf_hash b) (bf_file b) ft) o) w in
              match next_stack with
              | [] => Some (main_filename w, w)
              | top :: _ =>
                  match bincl_nodes w !! top with
                  | Some t => Some (Some (bf_name t), w)
                  | None => None
                  end
              end
        end
  end.

(** the loop of [find_excl] over [bincl_list] *)
Fixpoint find_bincl (nodes : list bincl_file) (l : list nat) (name : string)
    (hash : Z) : option bincl_file :=
  match l with
  | [] => None
  | i :: next =>
      match nodes !! i with
      | Some b =>
          if (bf_hash b =? hash) && CStr.streq (bf_name b) name then Some b
          else find_bincl nodes next name hash
      | None => find_bincl nodes next name hash
      end
  end.

Definition find_excl (name : string) (hash : Z) : M bool :=
  modify (upd_files (fun f => to_uint (f + 1))) ;;;
  realloc_file_types ;;;
  l <- get (fun w => find_bincl (bincl_nodes w) (bincl_list w) name hash) ;;
  match l with
  | None =>
      warn_stab name "Undefined N_EXCL" ;;;
      modify (fun w => upd_file_types (fun ft => <[Z.to_nat (files w - 1) := None]> ft) w) ;;;
      ret true
  | Some b =>
      modify (fun w => upd_file_types
                (fun ft => <[Z.to_nat (files w - 1) := bf_file_types b]> ft) w) ;;;
      ret true
  end.

(** *** Pending variables *)

Definition is_global_or_static (kind : debug_var_kind) : bool :=
  match kind with
  | DEBUG_GLOBAL | DEBUG_STATIC => true
  | _ => false
  end.

Definition stab_record_variable (name : option string) (type : debug_type)
    (kind : debug_var_kind) (val : Z) : M bool :=
  inside <- get within_function ;;
  gcc <- get gcc_compiled ;;
  n_opt <- get n_opt_found ;;
  if is_global_or_static kind || negb inside || ((gcc =? 0) && n_opt) then
    debug_record_variable name type kind val
  else
    modify (upd_pending (cons (mkPending name type kind val))) ;;; ret true.

(** the [while (v != NULL)] loop of [stab_emit_pending_vars] *)
Fixpoint emit_pending_loop (v : list stab_pending_var) : M bool :=
  match v with
  | [] => ret true
  | x :: next =>
      ok <- debug_record_variable (pv_name x) (pv_type x) (pv_kind x) (pv_val x) ;;
      if negb ok then ret false else emit_pending_loop next
  end.

Definition stab_emit_pending_vars : M bool :=
  v <- get pending ;;
  ok <- emit_pending_loop v ;;
  if negb ok then ret false
  else modify (set_pending []) ;;; ret true.

(** *** Undefined tags *)

(** the search of [stab_find_tagged_type] in [info->tags] *)
Fixpoint find_tag (nodes : list stab_tag) (l : list nat) (name : string)
  : option nat :=
  match l with
  | [] => None
  | i :: next =>
      match nodes !! i with
      | Some st =>
          if CStr.cheq (CStr.peek (tag_name st)) (CStr.peek name)
             && CStr.streq (tag_name st) name
          then Some i
          else find_tag nodes next name
      | None => find_tag nodes next name
      end
  end.

Definition kind_is_illegal (k : debug_type_kind) : bool :=
  match k with
  | DEBUG_KIND_ILLEGAL => true
  | _ => false
  end.

Definition stab_find_tagged_type (p : string) (len : nat)
    (kind : debug_type_kind) : M debug_type :=
  let name := CStr.take len p in
  dtype <- query (fun w => debug_find_tagged_type E (sink w) name) ;;
  match dtype with
  | Some t => ret (Some t)
  | None =>
      fun w =>
        match find_tag (tag_nodes w) (tags w) name with
        | Some i =>
            let w :=
              upd_tag_nodes
                (alter (fun st =>
                          if kind_is_illegal (tag_kind st)
                          then mkTag (tag_name st) kind (tag_slot st) (tag_type st)
                          else st) i) w in
            Some (default None (tag_type <$> tag_nodes w !! i), w)
        | None =>
            let i := length (tag_nodes w) in
            let type := debug_make_indirect_type (TagSlot i) (Some name) in
            let st := mkTag name kind DEBUG_TYPE_NULL type in
            let w := upd_tag_nodes (fun l => (l ++ [st])%list) w in
            let w := upd_tags (cons i) w in
            Some (type, w)
        end
  end.

(** *** Type numbers and range types *)

(** [orig >= p_end]: the cursor is at the end of the stab string *)
Definition at_end (p : string) : bool := String.eqb p "".

(** [parse_stab_type_number]: [N] or [(FILENUM,TYPENUM)]; nothing when
    the function answers false. *)
Definition parse_stab_type_number (pp : string) : M (option (Z * Z) * string) :=
  let orig := pp in
  if negb (CStr.cheq (CStr.peek pp) "(") then
    r <- parse_number pp false ;;
    let '(n, pp, _) := r in
    ret (Some (0, to_int n), pp)
  else
    let pp := CStr.advance pp in
    r <- parse_number pp false ;;
    let '(n0, pp, _) := r in
    if negb (CStr.cheq (CStr.peek pp) ",") then bad_stab orig ;;; ret (None, pp)
    else
      let pp := CStr.advance pp in
      r <- parse_number pp false ;;
      let '(n1, pp, _) := r in
      if negb (CStr.cheq (CStr.peek pp) ")") then bad_stab orig ;;; ret (None, pp)
      else ret (Some (to_int n0, to_int n1), CStr.advance pp).

Definition LLLOW : string := "01000000000000000000000;".
Definition LLHIGH : string := "0777777777777777777777;".
Definition ULLHIGH : string := "01777777777777777777777;".

(** The bound table of [parse_stab_range_type], entered when there is no
    explicit index type: the type the code returns for the bounds, or
    nothing when it falls through to the code after the table. *)
Definition range_builtin_type (type_name : option string) (self_subrange : bool)
    (n2 n3 : Z) : option debug_type :=
  if self_subrange && (n2 =? 0) && (n3 =? 0) then
    Some debug_make_void_type
  else if self_subrange && (n3 =? 0) && (0 <? n2) then
    Some (debug_make_complex_type n2)
  else if (n3 =? 0) && (0 <? n2) then
    Some (debug_make_float_type n2)
  else if (n2 =? 0) && (n3 =? -1) then
    match type_name with
    | Some name =>
        if CStr.streq name "long long int" then
          Some (debug_make_int_type 8 false)
        else if CStr.streq name "long long unsigned int" then
          Some (debug_make_int_type 8 true)
        else Some (debug_make_int_type 4 true)
    | None => Some (debug_make_int_type 4 true)
    end
  else if self_subrange && (n2 =? 0) && (n3 =? 127) then
    Some (debug_make_int_type 1 false)
  else if n2 =? 0 then
    if n3 <? 0 then Some (debug_make_int_type (- n3) true)
    else if n3 =? 0xff then Some (debug_make_int_type 1 true)
    else if n3 =? 0xffff then Some (debug_make_int_type 2 true)
    else if n3 =? 0xffffffff then Some (debug_make_int_type 4 true)
    else if n3 =? to_signed_vma 0xffffffffffffffff then
      Some (debug_make_int_type 8 true)
    else None
  else if (n3 =? 0) && (n2 <? 0) && (self_subrange || (n2 =? -8)) then
    Some (debug_make_int_type (- n2) true)
  else if (n2 =? to_signed_vma (- n3 - 1)) || (n2 =? to_signed_vma (n3 + 1)) then
    if n3 =? 0x7f then Some (debug_make_int_type 1 false)
    else if n3 =? 0x7fff then Some (debug_make_int_type 2 false)
    else if n3 =? 0x7fffffff then Some (debug_make_int_type 4 false)
    else if to_vma n3 =? 0x7fffffffffffffff then
      Some (debug_make_int_type 8 false)
    else None
  else None.

(** What [parse_stab_type] is to its callers: the type name (non-NULL
    for a typedef or a tag definition), the cursor, whether a [slotp] is
    passed; the result is the type, the slot stored through [slotp] and
    the cursor. *)
Definition parser : Type :=
  option string -> string -> bool -> M (debug_type * option slot_ref * string).

(** What [parse_stab_range_type] does with the two bounds once they are
    scanned and an overflow is dealt with: the table when there is no
    explicit index type ([no_index]), and the range type after it.  [pp]
    is the cursor after the bounds. *)
Definition range_from_bounds (orig : string) (type_name : option string)
    (self_subrange : bool) (rangenums : Z * Z) (no_index : bool) (n2 n3 : Z)
    (pp : string) : M (debug_type * string) :=
  match (if no_index
         then range_builtin_type type_name self_subrange n2 n3
         else None) with
  | Some t => ret (t, pp)
  | None =>
      if self_subrange then
        bad_stab orig ;;; ret (DEBUG_TYPE_NULL, pp)
      else
        index_type <- stab_find_type rangenums ;;
        index_type <-
          match index_type with
          | None =>
              warn_stab orig "missing index type" ;;;
              ret (debug_make_int_type 4 false)
          | Some _ => ret index_type
          end ;;
        ret (debug_make_range_type index_type n2 n3, pp)
  end.

Definition parse_stab_range_type (parse_stab_type : parser)
    (type_name : option string) (pp : string) (typenums : Z * Z)
  : M (debug_type * string) :=
  let orig := pp in
  if at_end orig then ret (DEBUG_TYPE_NULL, pp)
  else
    r <- parse_stab_type_number pp ;;
    let '(rn, pp) := r in
    match rn with
    | None => ret (DEBUG_TYPE_NULL, pp)
    | Some rangenums =>
        let self_subrange :=
          (fst rangenums =? fst typenums) && (snd rangenums =? snd typenums) in
        r <- (if CStr.cheq (CStr.peek pp) "=" then
                r <- parse_stab_type None orig false ;;
                let '(t, _, pp) := r in
                ret (t, pp, match t with None => true | Some _ => false end)
              else ret (DEBUG_TYPE_NULL, pp, false)) ;;
        let '(index_type, pp, failed) := r in
        if failed then ret (DEBUG_TYPE_NULL, pp)
        else
          let pp := if CStr.cheq (CStr.peek pp) ";" then CStr.advance pp else pp in
          let s2 := pp in
          r <- parse_number pp true ;;
          let '(n2, pp, ov2) := r in
          let n2 := to_signed_vma n2 in
          if negb (CStr.cheq (CStr.peek pp) ";") then
            bad_stab orig ;;; ret (DEBUG_TYPE_NULL, pp)
          else
            let pp := CStr.advance pp in
            let s3 := pp in
            r <- parse_number pp true ;;
            let '(n3, pp, ov3) := r in
            let n3 := to_signed_vma n3 in
            if negb (CStr.cheq (CStr.peek pp) ";") then
              bad_stab orig ;;; ret (DEBUG_TYPE_NULL, pp)
            else
              let pp := CStr.advance pp in
              let no_index :=
                match index_type with None => true | Some _ => false end in
              let long_long :=
                if (ov2 || ov3) && no_index then
                  if CStr.startswith s2 LLLOW && CStr.startswith s3 LLHIGH then
                    Some (debug_make_int_type 8 false)
                  else if negb ov2 && (n2 =? 0) && CStr.startswith s3 ULLHIGH then
                    Some (debug_make_int_type 8 true)
                  else None
                else None in
              match long_long with
              | Some t => ret (t, pp)
              | None =>
                  (if ov2 || ov3 then warn_stab orig "numeric overflow" else ret tt) ;;;
                  range_from_bounds orig type_name self_subrange rangenums no_index
                    n2 n3 pp
              end
    end.

(** *** The demangler's entry points *)

Definition stab_bad_demangle (s : string) : M unit := print (Bad_mangled_name s).

(** [stab_demangle_function_name]: [scan] points to the double underscore
    which separates the function name from the signature. *)
Definition stab_demangle_function_name (minfo : demangle_info) (pp scan : string)
  : M (bool * demangle_info * string) :=
  let name := pp in
  let pp := CStr.skip 2 scan in
  if (5 <=? CStr.diff name pp)%nat
     && CStr.startswith name "type"
     && (CStr.cheq (CStr.at_ name 4) "$" || CStr.cheq (CStr.at_ name 4) ".")
  then
    let tem := CStr.skip 5 name in
    r <- stab_demangle_type E minfo tem ;;
    let '(ok, minfo, _) := r in
    ret (ok, minfo, pp)
  else if CStr.cheq (CStr.at_ name 0) "_" && CStr.cheq (CStr.at_ name 1) "_"
          && CStr.cheq (CStr.at_ name 2) "o" && CStr.cheq (CStr.at_ name 3) "p"
  then
    let tem := CStr.skip 4 name in
    r <- stab_demangle_type E minfo tem ;;
    let '(ok, minfo, _) := r in
    ret (ok, minfo, pp)
  else ret (true, minfo, pp).

(** [do scan = strchr (scan, '_'); while (scan != NULL && *++scan != '_');]
    followed by [--scan]: the suffix at the first pair of underscores *)
Fixpoint find_double_underscore (scan : string) : option string :=
  match scan with
  | EmptyString => None
  | String c r =>
      if CStr.cheq c "_" && CStr.cheq (CStr.peek r) "_" then Some scan
      else find_double_underscore r
  end.

(** [while ( *scan == '_') ++scan;] *)
Fixpoint skip_underscores (scan : string) : string :=
  match scan with
  | String c r => if CStr.cheq c "_" then skip_underscores r else scan
  | EmptyString => scan
  end.

Definition stab_demangle_prefix (minfo : demangle_info) (pp : string)
    (physname_len : nat) : M (bool * demangle_info * string) :=
  let found :=
    if negb (physname_len =? 0)%nat then Some (CStr.skip physname_len pp)
    else
      match find_double_underscore pp with
      | None => None
      | Some scan =>
          let i := CStr.strspn1 scan "_" in
          if (2 <? i)%nat then Some (CStr.skip (i - 2) scan) else Some scan
      end in
  match found with
  | None => stab_bad_demangle pp ;;; ret (false, minfo, pp)
  | Some scan =>
      let at_start := (String.length scan =? String.length pp)%nat in
      let c2 := CStr.at_ scan 2 in
      if at_start && (CStr.isdigit c2 || CStr.cheq c2 "Q" || CStr.cheq c2 "t") then
        ret (true, minfo, CStr.skip 2 scan)
      else if at_start && negb (CStr.isdigit c2) && negb (CStr.cheq c2 "t") then
        let scan := skip_underscores scan in
        match CStr.strstr scan "__" with
        | None => stab_bad_demangle pp ;;; ret (false, minfo, pp)
        | Some scan =>
            if CStr.cheq (CStr.at_ scan 2) CStr.NUL then
              stab_bad_demangle pp ;;; ret (false, minfo, pp)
            else stab_demangle_function_name minfo pp scan
        end
      else if negb (CStr.cheq c2 CStr.NUL) then
        stab_demangle_function_name minfo pp scan
      else stab_bad_demangle pp ;;; ret (false, minfo, pp)
  end.

(** one of [stab_demangle_qualified], [_class], [_template] followed by
    [stab_demangle_remember_type (minfo, hold, *pp - hold)] *)
Definition demangle_and_remember
    (f : demangle_info -> string -> M (bool * demangle_info * string))
    (minfo : demangle_info) (hold pp : string) : M (bool * demangle_info * string) :=
  r <- f minfo pp ;;
  let '(ok, minfo, pp) := r in
  if negb ok then ret (false, minfo, pp)
  else
    r <- stab_demangle_remember_type E minfo hold (CStr.diff hold pp) ;;
    let '(ok, minfo) := r in
    ret (ok, minfo, pp).

(** the [while ( **pp != '\0')] loop of [stab_demangle_signature]; the
    result is whether it went through, and [func_done] *)
Fixpoint demangle_signature_loop (fuel : nat) (orig : string)
    (minfo : demangle_info) (pp : string) (expect_func func_done : bool)
    (hold : option string) : M (bool * bool * demangle_info * string) :=
  if CStr.cheq (CStr.peek pp) CStr.NUL then ret (true, func_done, minfo, pp)
  else
    let c := CStr.peek pp in
    let hold_here := match hold with None => Some pp | Some _ => hold end in
    r <-
      (if CStr.cheq c "Q" then
         r <- demangle_and_remember (stab_demangle_qualified E) minfo pp pp ;;
         let '(ok, minfo, pp) := r in
         ret (ok, minfo, pp, true, func_done, None)
       else if CStr.cheq c "S" || CStr.cheq c "C" then
         ret (true, minfo, CStr.advance pp, expect_func, func_done, hold_here)
       else if CStr.isdigit c then
         r <- demangle_and_remember (stab_demangle_class E) minfo
                (default pp hold) pp ;;
         let '(ok, minfo, pp) := r in
         ret (ok, minfo, pp, true, func_done, None)
       else if CStr.cheq c "F" then
         r <- stab_demangle_args E minfo (CStr.advance pp) ;;
         let '(ok, minfo, pp) := r in
         ret (ok, minfo, pp, expect_func, true, None)
       else if CStr.cheq c "t" then
         r <- demangle_and_remember (stab_demangle_template E) minfo
                (default pp hold) pp ;;
         let '(ok, minfo, pp) := r in
         ret (ok, minfo, pp, true, func_done, None)
       else if CStr.cheq c "_" then
         stab_bad_demangle orig ;;;
         ret (false, minfo, pp, expect_func, func_done, hold)
       else
         r <- stab_demangle_args E minfo pp ;;
         let '(ok, minfo, pp) := r in
         ret (ok, minfo, pp, expect_func, true, hold)) ;;
    let '(ok, minfo, pp, expect_func, func_done, hold) := r in
    if negb ok then ret (false, func_done, minfo, pp)
    else
      r <- (if expect_func then
              r <- stab_demangle_args E minfo pp ;;
              let '(ok, minfo, pp) := r in
              ret (ok, minfo, pp, true)
            else ret (true, minfo, pp, func_done)) ;;
      let '(ok, minfo, pp, func_done) := r in
      if negb ok then ret (false, func_done, minfo, pp)
      else
        match fuel with
        | O => diverge
        | S k => demangle_signature_loop k orig minfo pp expect_func func_done hold
        end.

Definition stab_demangle_signature (fuel : nat) (minfo : demangle_info)
    (pp : string) : M (bool * demangle_info * string) :=
  let orig := pp in
  r <- demangle_signature_loop fuel orig minfo pp false false None ;;
  let '(ok, func_done, minfo, pp) := r in
  if negb ok then ret (false, minfo, pp)
  else if negb func_done then stab_demangle_args E minfo pp
  else ret (true, minfo, pp).

(** [stab_demangle_argtypes]: the argument types of a physical name and
    whether the method is varargs; NULL when the name does not demangle
    or holds no argument types. *)
Definition stab_demangle_argtypes (physname : string) (physname_len : nat)
  : M (option (list dtype) * bool) :=
  if CStr.cheq (CStr.at_ physname 0) "_" && CStr.cheq (CStr.at_ physname 1) "Z" then
    stab_demangle_v3_argtypes E physname
  else
    let minfo := mkMinfo None false [] in
    r <- stab_demangle_prefix minfo physname physname_len ;;
    let '(ok, minfo, physname) := r in
    if negb ok then ret (None, false)
    else
      r <- (if negb (CStr.cheq (CStr.peek physname) CStr.NUL)
            then stab_demangle_signature (String.length physname) minfo physname
            else ret (true, minfo, physname)) ;;
      let '(ok, minfo, physname) := r in
      if negb ok then ret (None, false)
      else
        (match args minfo with
         | None => print No_argument_types_in_mangled_string
         | Some _ => ret tt
         end) ;;;
        ret (args minfo, varargs minfo).

(** *** Member functions of C++ classes *)

(** [sprintf ("%d", len)] *)
Definition decimal (n : nat) : string := NilEmpty.string_of_uint (Nat.to_uint n).

(** [is_destructor] of [parse_stab_argtypes] *)
Definition is_destructor_name (argtypes : string) : bool :=
  let a0 := CStr.at_ argtypes 0 in
  let a1 := CStr.at_ argtypes 1 in
  let a2 := CStr.at_ argtypes 2 in
  (CStr.cheq a0 "_" && (CStr.cheq a1 "$" || CStr.cheq a1 ".") && CStr.cheq a2 "_")
  || CStr.startswith argtypes "__dt".

(** The first half of [parse_stab_argtypes]: the physical name of the
    method and [physname_len], or nothing where the function returns
    [DEBUG_TYPE_NULL] for an operator name.  [physname] is [*pphysname]
    on entry. *)
Definition mangled_physname (fieldname : string) (tagname : option string)
    (argtypes : string) (constp volatilep : bool) (physname : string)
  : option (string * nat) :=
  let a0 := CStr.at_ argtypes 0 in
  let a1 := CStr.at_ argtypes 1 in
  let a2 := CStr.at_ argtypes 2 in
  let is_full_physname_constructor :=
    (CStr.cheq a0 "_" && CStr.cheq a1 "_"
     && (CStr.isdigit a2 || CStr.cheq a2 "Q" || CStr.cheq a2 "t"))
    || CStr.startswith argtypes "__ct" in
  let is_constructor :=
    is_full_physname_constructor
    || match tagname with
       | Some t => CStr.streq fieldname t
       | None => false
       end in
  let is_destructor := is_destructor_name argtypes in
  let is_v3 := CStr.cheq a0 "_" && CStr.cheq a1 "Z" in
  if negb (is_destructor || is_full_physname_constructor || is_v3) then
    let len := match tagname with None => O | Some t => String.length t end in
    let const_prefix := if constp then "C" else "" in
    let volatile_prefix := if volatilep then "V" else "" in
    let '(buf, tagname) :=
      if (len =? 0)%nat then ("__" ++ const_prefix ++ volatile_prefix, tagname)
      else if match CStr.strchr (default "" tagname) "<" with
              | Some _ => true
              | None => false
              end
      then ("__" ++ const_prefix ++ volatile_prefix, None)
      else ("__" ++ const_prefix ++ volatile_prefix ++ decimal len, tagname) in
    if CStr.cheq (CStr.at_ fieldname 0) "o" && CStr.cheq (CStr.at_ fieldname 1) "p"
       && (CStr.cheq (CStr.at_ fieldname 2) "$" || CStr.cheq (CStr.at_ fieldname 2) ".")
    then None
    else
      let start := if is_constructor then "" else fieldname in
      Some (start ++ buf ++ default "" tagname ++ argtypes, String.length start)
  else Some (physname, O).

(** [parse_stab_argtypes]: the method type of a stub, from the mangled
    argument types; the second result is [*pphysname]. *)
Definition parse_stab_argtypes (class_type : debug_type) (fieldname : string)
    (tagname : option string) (return_type : debug_type) (argtypes : string)
    (constp volatilep : bool) (physname : string) : M (debug_type * string) :=
  match mangled_physname fieldname tagname argtypes constp volatilep physname with
  | None => ret (DEBUG_TYPE_NULL, physname)
  | Some (physname, physname_len) =>
      if CStr.cheq (CStr.peek argtypes) CStr.NUL || is_destructor_name argtypes then
        ret (debug_make_method_type return_type class_type (Some []) false, physname)
      else
        r <- stab_demangle_argtypes physname physname_len ;;
        let '(arg_types, va) := r in
        match arg_types with
        | None => ret (DEBUG_TYPE_NULL, physname)
        | Some _ =>
            ret (debug_make_method_type return_type class_type arg_types va, physname)
        end
  end.

Definition kind_is_method (k : debug_type_kind) : bool :=
  match k with
  | DEBUG_KIND_METHOD => true
  | _ => false
  end.

Definition kind_is_void (k : debug_type_kind) : bool :=
  match k with
  | DEBUG_KIND_VOID => true
  | _ => false
  end.

Definition is_null {A : Type} (o : option A) : bool :=
  match o with
  | None => true
  | Some _ => false
  end.

(** The locals of [parse_stab_members] for one variant at the statement
    [physname = argtypes;], where its text has been read and its type is
    not yet completed. *)
Record variant_head := mkVariantHead {
  vh_type : debug_type;
  vh_argtypes : string;
  vh_visibility : debug_visibility;
  vh_constp : bool;
  vh_volatilep : bool;
  vh_staticp : bool;
  vh_voffset : Z;
  vh_context : debug_type;
  vh_look_ahead_type : debug_type;
  vh_stub : bool
}.

(** One turn of the [do ... while] loop of [parse_stab_members], up to
    [physname = argtypes;].  Nothing is the [goto fail]. *)
Definition parse_member_variant_head (parse_stab_type : parser) (orig : string)
    (name : string) (pp : string) (look_ahead_type : debug_type)
  : M (option variant_head * string) :=
  r <- match look_ahead_type with
       | Some _ => ret (look_ahead_type, pp)
       | None =>
           r <- parse_stab_type None pp false ;;
           let '(type, _, pp) := r in
           match type with
           | None => ret (None, pp)
           | Some _ =>
               if negb (CStr.cheq (CStr.peek pp) ":") then
                 bad_stab orig ;;; ret (None, pp)
               else ret (type, pp)
           end
       end ;;
  let '(type, pp) := r in
  match type with
  | None => ret (None, pp)
  | Some _ =>
  let pp := CStr.advance pp in
  match CStr.strchr pp ";" with
  | None => bad_stab orig ;;; ret (None, pp)
  | Some p =>
  kind <- query (fun w => debug_get_type_kind E w type) ;;
  params <- query (fun w => debug_get_parameter_types E w type) ;;
  let stub := kind_is_method kind && is_null params in
  let argtypes := CStr.take (CStr.diff pp p) pp in
  let pp := CStr.advance p in
  if CStr.cheq (CStr.peek pp) CStr.NUL then bad_stab orig ;;; ret (None, pp)
  else
  let visibility :=
    if CStr.cheq (CStr.peek pp) "0" then DEBUG_VISIBILITY_PRIVATE
    else if CStr.cheq (CStr.peek pp) "1" then DEBUG_VISIBILITY_PROTECTED
    else DEBUG_VISIBILITY_PUBLIC in
  let pp := CStr.advance pp in
  let c := CStr.peek pp in
  r <- (if CStr.cheq c "A" then ret (false, false, CStr.advance pp)
        else if CStr.cheq c "B" then ret (true, false, CStr.advance pp)
        else if CStr.cheq c "C" then ret (false, true, CStr.advance pp)
        else if CStr.cheq c "D" then ret (true, true, CStr.advance pp)
        else if CStr.cheq c "*" || CStr.cheq c "?" || CStr.cheq c "." then
          ret (false, false, pp)
        else
          warn_stab orig "const/volatile indicator missing" ;;;
          ret (false, false, pp)) ;;
  let '(constp, volatilep, pp) := r in
  let c := CStr.peek pp in
  r <- (if CStr.cheq c "*" then
          let pp := CStr.advance pp in
          r <- parse_number pp false ;;
          let '(voffset, pp, _) := r in
          if negb (CStr.cheq (CStr.peek pp) ";") then
            bad_stab orig ;;; ret (None, pp)
          else
            let pp := CStr.advance pp in
            let voffset := Z.land voffset 0x7fffffff in
            if CStr.cheq (CStr.peek pp) ";" || CStr.cheq (CStr.peek pp) CStr.NUL then
              ret (Some (false, voffset, DEBUG_TYPE_NULL, DEBUG_TYPE_NULL, stub), pp)
            else
              r <- parse_stab_type None pp false ;;
              let '(look_ahead_type, _, pp) := r in
              if CStr.cheq (CStr.peek pp) ":" then
                ret (Some (false, voffset, DEBUG_TYPE_NULL, look_ahead_type, stub), pp)
              else if negb (CStr.cheq (CStr.peek pp) ";") then
                bad_stab orig ;;; ret (None, pp)
              else
                ret (Some (false, voffset, look_ahead_type, DEBUG_TYPE_NULL, stub),
                     CStr.advance pp)
        else if CStr.cheq c "?" then
          let stub :=
            if negb (CStr.strneq argtypes name (String.length name)) then true
            else stub in
          ret (Some (true, 0, DEBUG_TYPE_NULL, DEBUG_TYPE_NULL, stub), CStr.advance pp)
        else if CStr.cheq c "." then
          ret (Some (false, 0, DEBUG_TYPE_NULL, DEBUG_TYPE_NULL, stub), CStr.advance pp)
        else
          warn_stab orig "member function type missing" ;;;
          ret (Some (false, 0, DEBUG_TYPE_NULL, DEBUG_TYPE_NULL, stub), pp)) ;;
  let '(dispatch, pp) := r in
  match dispatch with
  | None => ret (None, pp)
  | Some (staticp, voffset, context, look_ahead_type, stub) =>
      ret (Some (mkVariantHead type argtypes visibility constp volatilep staticp
                   voffset context look_ahead_type stub), pp)
  end
  end
  end.

(** The [if (stub)] block of [parse_stab_members]: the type of the stub
    [type], completed from the mangled argument types, and the physical
    name; [DEBUG_TYPE_NULL] is the [goto fail]. *)
Definition parse_stub_method_type (orig : string) (tagname : option string)
    (typenums : Z * Z) (name : string) (type : debug_type) (argtypes : string)
    (constp volatilep : bool) : M (debug_type * string) :=
  let physname := argtypes in
  class_type <- stab_find_type typenums ;;
  match class_type with
  | None => ret (DEBUG_TYPE_NULL, physname)
  | Some _ =>
      return_type <- query (fun w => debug_get_return_type E w type) ;;
      match return_type with
      | None => bad_stab orig ;;; ret (DEBUG_TYPE_NULL, physname)
      | Some _ =>
          parse_stab_argtypes class_type name tagname return_type
            argtypes constp volatilep physname
      end
  end.

(** One turn of the [do ... while] loop of [parse_stab_members]: a
    variant of the method [name].  Nothing is the [goto fail]; otherwise
    the variant and the type read ahead for the next turn. *)
Definition parse_stab_member_variant (parse_stab_type : parser) (orig : string)
    (tagname : option string) (typenums : Z * Z) (name : string) (pp : string)
    (look_ahead_type : debug_type)
  : M (option (dmethod_variant * debug_type) * string) :=
  r <- parse_member_variant_head parse_stab_type orig name pp look_ahead_type ;;
  let '(head, pp) := r in
  match head with
  | None => ret (None, pp)
  | Some h =>
      r <- (if vh_stub h then
              parse_stub_method_type orig tagname typenums name (vh_type h)
                (vh_argtypes h) (vh_constp h) (vh_volatilep h)
            else ret (vh_type h, vh_argtypes h)) ;;
      let '(type, physname) := r in
      match type with
      | None => ret (None, pp)
      | Some _ =>
          let variant :=
            if negb (vh_staticp h) then
              debug_make_method_variant physname type (vh_visibility h) (vh_constp h)
                (vh_volatilep h) (vh_voffset h) (vh_context h)
            else
              debug_make_static_method_variant physname type (vh_visibility h)
                (vh_constp h) (vh_volatilep h) in
          match variant with
          | None => ret (None, pp)
          | Some v => ret (Some (v, vh_look_ahead_type h), pp)
          end
      end
  end.

(** the [do ... while ( **pp != ';' && **pp != '\0')] loop over the
    variants of one method *)
Fixpoint parse_stab_member_variants (fuel : nat) (parse_stab_type : parser)
    (orig : string) (tagname : option string) (typenums : Z * Z) (name : string)
    (pp : string) (look_ahead_type : debug_type) (variants : list dmethod_variant)
  : M (option (list dmethod_variant) * string) :=
  r <- parse_stab_member_variant parse_stab_type orig tagname typenums name pp
         look_ahead_type ;;
  let '(v, pp) := r in
  match v with
  | None => ret (None, pp)
  | Some (variant, look_ahead_type) =>
      let variants := (variants ++ [variant])%list in
      if negb (CStr.cheq (CStr.peek pp) ";") && negb (CStr.cheq (CStr.peek pp) CStr.NUL)
      then
        match fuel with
        | O => diverge
        | S k =>
            parse_stab_member_variants k parse_stab_type orig tagname typenums name
              pp look_ahead_type variants
        end
      else ret (Some variants, pp)
  end.

(** the [while ( **pp != ';')] loop of [parse_stab_members] over the
    methods; nothing is the [goto fail] *)
Fixpoint parse_stab_members_loop (fuel : nat) (parse_stab_type : parser)
    (orig : string) (tagname : option string) (typenums : Z * Z) (pp : string)
    (methods : option (list dmethod))
  : M (option (option (list dmethod)) * string) :=
  if CStr.cheq (CStr.peek pp) ";" then ret (Some methods, pp)
  else
    match CStr.strchr pp ":" with
    | None => ret (Some methods, pp)
    | Some p =>
        if negb (CStr.cheq (CStr.at_ p 1) ":") then ret (Some methods, pp)
        else
          r <- (if negb (CStr.cheq (CStr.at_ pp 0) "o" && CStr.cheq (CStr.at_ pp 1) "p"
                         && CStr.cheq (CStr.at_ pp 2) "$")
                then ret (Some (CStr.take (CStr.diff pp p) pp), CStr.skip 2 p)
                else
                  let pp := CStr.skip 2 p in
                  match CStr.strchr pp "." with
                  | None => bad_stab orig ;;; ret (None, pp)
                  | Some p => ret (Some (CStr.take (CStr.diff pp p) pp), CStr.advance p)
                  end) ;;
          let '(name, pp) := r in
          match name with
          | None => ret (None, pp)
          | Some name =>
              r <- parse_stab_member_variants (String.length pp) parse_stab_type
                     orig tagname typenums name pp DEBUG_TYPE_NULL [] ;;
              let '(variants, pp) := r in
              match variants with
              | None => ret (None, pp)
              | Some xvariants =>
                  let pp :=
                    if negb (CStr.cheq (CStr.peek pp) CStr.NUL) then CStr.advance pp
                    else pp in
                  let methods :=
                    Some (default [] methods ++ [debug_make_method name xvariants])%list in
                  match fuel with
                  | O => diverge
                  | S k =>
                      parse_stab_members_loop k parse_stab_type orig tagname typenums
                        pp methods
                  end
              end
          end
    end.

(** [parse_stab_members]: the result is the answer, [*retp] and the cursor. *)
Definition parse_stab_members (parse_stab_type : parser) (tagname : option string)
    (pp : string) (typenums : Z * Z) : M (bool * option (list dmethod) * string) :=
  let orig := pp in
  if at_end orig then ret (false, None, pp)
  else
    r <- parse_stab_members_loop (String.length pp) parse_stab_type orig tagname
           typenums pp None ;;
    let '(methods, pp) := r in
    match methods with
    | None => ret (false, None, pp)
    | Some xmethods => ret (true, xmethods, pp)
    end.

(** [parse_stab_struct_type] *)
Definition parse_stab_struct_type (parse_stab_type : parser)
    (tagname : option string) (pp : string) (structp : bool) (typenums : Z * Z)
  : M (debug_type * string) :=
  r <- parse_number pp false ;;
  let '(size, pp, _) := r in
  r <- parse_stab_baseclasses E pp ;;
  let '(ok, baseclasses, pp) := r in
  if negb ok then ret (DEBUG_TYPE_NULL, pp)
  else
    r <- parse_stab_struct_fields E pp ;;
    let '(ok, fields, statics, pp) := r in
    if negb ok then ret (DEBUG_TYPE_NULL, pp)
    else
      r <- parse_stab_members parse_stab_type tagname pp typenums ;;
      let '(ok, methods, pp) := r in
      if negb ok then ret (DEBUG_TYPE_NULL, pp)
      else
        r <- parse_stab_tilde_field E pp typenums ;;
        let '(ok, vptrbase, ownvptr, pp) := r in
        if negb ok then ret (DEBUG_TYPE_NULL, pp)
        else if negb statics && is_null baseclasses && is_null methods
                && is_null vptrbase && negb ownvptr
        then ret (debug_make_struct_type structp size fields, pp)
        else
          ret (debug_make_object_type structp size fields baseclasses methods
                 vptrbase ownvptr, pp).

(** *** Type expressions *)

(** [for (; *p != ';'; ++p) if ( *p == '\0') ...]: the suffix at the ';',
    nothing when the string ends first *)
Fixpoint scan_attribute (p : string) : option string :=
  match p with
  | EmptyString => None
  | String c r =>
      if CStr.cheq c ";" then Some p
      else if CStr.cheq c CStr.NUL then None
      else scan_attribute r
  end.

(** The [while ( **pp == '@')] loop of type attributes.  The result is
    [size] and [stringp], or nothing when the function returns NULL. *)
Fixpoint parse_type_attributes (fuel : nat) (orig pp : string) (size : Z)
    (stringp : bool) : M (option (Z * bool) * string) :=
  if negb (CStr.cheq (CStr.peek pp) "@") then ret (Some (size, stringp), pp)
  else
    let p := CStr.advance pp in
    if CStr.isdigit (CStr.peek p) || CStr.cheq (CStr.peek p) "("
       || CStr.cheq (CStr.peek p) "-"
    then ret (Some (size, stringp), pp)
    else
      let attr := p in
      match scan_attribute p with
      | None => bad_stab orig ;;; ret (None, pp)
      | Some p =>
          let pp := CStr.advance p in
          let c := CStr.peek attr in
          if CStr.cheq c CStr.NUL then bad_stab orig ;;; ret (None, pp)
          else
            let size :=
              if CStr.cheq c "s" then
                let sz := Z.quot (Libc.atoi (CStr.advance attr)) 8 in
                if sz <=? 0 then -1 else sz
              else size in
            let stringp := if CStr.cheq c "S" then true else stringp in
            match fuel with
            | O => diverge
            | S k => parse_type_attributes k orig pp size stringp
            end
      end.

(** [for (q2 = q1; *q2 != '\0'; ++q2)] over a template argument list: the
    suffix at the first colon outside angle brackets *)
Fixpoint skip_template_args (q2 : string) (nest : Z) : string :=
  match q2 with
  | EmptyString => q2
  | String c r =>
      if CStr.cheq c "<" then skip_template_args r (nest + 1)
      else if CStr.cheq c ">" then skip_template_args r (nest - 1)
      else if CStr.cheq c ":" && (nest =? 0) then q2
      else skip_template_args r nest
  end.

(** the [while ( **pp != ';')] loop over the arguments of a method type *)
Fixpoint parse_method_arguments (fuel : nat) (parse_stab_type : parser)
    (orig pp : string) (arg_types : list dtype) : M (option (list dtype) * string) :=
  if CStr.cheq (CStr.peek pp) ";" then ret (Some arg_types, pp)
  else if negb (CStr.cheq (CStr.peek pp) ",") then bad_stab orig ;;; ret (None, pp)
  else
    let pp := CStr.advance pp in
    r <- parse_stab_type None pp false ;;
    let '(t, _, pp) := r in
    match t with
    | None => ret (None, pp)
    | Some a =>
        match fuel with
        | O => diverge
        | S k => parse_method_arguments k parse_stab_type orig pp (arg_types ++ [a])%list
        end
    end.

(** How a case of the descriptor switch ends: [return] of a value, or
    [break] with [dtype]. *)
Inductive case_end :=
| Returns (t : debug_type)
| Breaks (dtype : debug_type).

(** the [case 'x':] of [parse_stab_type], a cross reference to a tag *)
Definition parse_cross_reference (orig : string) (type_name : option string)
    (pp : string) : M (case_end * string) :=
  let c := CStr.peek pp in
  if CStr.cheq c CStr.NUL then bad_stab orig ;;; ret (Returns DEBUG_TYPE_NULL, pp)
  else
    code <- (if CStr.cheq c "s" then ret DEBUG_KIND_STRUCT
             else if CStr.cheq c "u" then ret DEBUG_KIND_UNION
             else if CStr.cheq c "e" then ret DEBUG_KIND_ENUM
             else
               warn_stab orig "unrecognized cross reference type" ;;;
               ret DEBUG_KIND_STRUCT) ;;
    let pp := CStr.advance pp in
    let q1 := CStr.strchr pp "<" in
    match CStr.strchr pp ":" with
    | None => bad_stab orig ;;; ret (Returns DEBUG_TYPE_NULL, pp)
    | Some p =>
        let p' :=
          match q1 with
          | Some q1 =>
              if (String.length p <? String.length q1)%nat
                 && CStr.cheq (CStr.at_ p 1) ":"
              then
                let q2 := skip_template_args q1 0 in
                if negb (CStr.cheq (CStr.peek q2) ":") then None else Some q2
              else Some p
          | None => Some p
          end in
        match p' with
        | None => bad_stab orig ;;; ret (Returns DEBUG_TYPE_NULL, pp)
        | Some p =>
            let len := CStr.diff pp p in
            (match type_name with
             | Some name =>
                 if CStr.strneq name pp len && CStr.cheq (CStr.at_ name len) CStr.NUL
                 then modify (set_self_crossref true)
                 else ret tt
             | None => ret tt
             end) ;;;
            dtype <- stab_find_tagged_type pp len code ;;
            ret (Breaks dtype, CStr.advance p)
        end
    end.

(** The start of [parse_stab_type]: the type number, when there is one,
    and the attributes.  The left result is what the function returns
    there; the right one is [typenums], the slot stored through [slotp],
    the cursor, [size] and [stringp] for the descriptor that follows. *)
Definition parse_type_header (orig : string) (pp : string) (slotp : bool)
  : M (debug_type * option slot_ref * string
       + (Z * Z) * option slot_ref * string * Z * bool) :=
  if negb (CStr.isdigit (CStr.peek pp)) && negb (CStr.cheq (CStr.peek pp) "(")
     && negb (CStr.cheq (CStr.peek pp) "-")
  then ret (inr ((-1, -1), None, pp, -1, false))
  else
    r <- parse_stab_type_number pp ;;
    let '(tn, pp) := r in
    match tn with
    | None => ret (inl (DEBUG_TYPE_NULL, None, pp))
    | Some typenums =>
        if negb (CStr.cheq (CStr.peek pp) "=") then
          t <- stab_find_type typenums ;;
          ret (inl (t, None, pp))
        else
          slot <- (if slotp && (0 <=? fst typenums) && (0 <=? snd typenums)
                   then stab_find_slot typenums
                   else ret None) ;;
          let pp := CStr.advance pp in
          r <- parse_type_attributes (String.length pp) orig pp (-1) false ;;
          let '(attrs, pp) := r in
          match attrs with
          | None => ret (inl (DEBUG_TYPE_NULL, slot, pp))
          | Some (size, stringp) => ret (inr (typenums, slot, pp, size, stringp))
          end
    end.

(** The [switch (descriptor)] of [parse_stab_type].  [hold] is the cursor
    at the descriptor and [pp] the cursor after it. *)
Definition parse_type_descriptor (parse_stab_type : parser) (orig : string)
    (type_name : option string) (typenums : Z * Z) (stringp : bool)
    (descriptor : ascii) (hold pp : string) : M (case_end * string) :=
  let sub := parse_stab_type None in
  if CStr.cheq descriptor "x" then parse_cross_reference orig type_name pp
  else if CStr.cheq descriptor "-" || CStr.isdigit descriptor
          || CStr.cheq descriptor "("
  then
    r <- parse_stab_type_number hold ;;
    let '(xtn, pp) := r in
    match xtn with
    | None => ret (Returns DEBUG_TYPE_NULL, pp)
    | Some xtypenums =>
        r <- (if (fst typenums =? fst xtypenums)
                 && (snd typenums =? snd xtypenums)
              then ret (debug_make_void_type, pp)
              else
                r <- sub hold false ;;
                let '(t, _, pp) := r in
                ret (t, pp)) ;;
        let '(dtype, pp) := r in
        match dtype with
        | None => ret (Returns DEBUG_TYPE_NULL, pp)
        | Some _ =>
            if negb (fst typenums =? -1) then
              ok <- stab_record_type typenums dtype ;;
              if negb ok then ret (Returns DEBUG_TYPE_NULL, pp)
              else ret (Breaks dtype, pp)
            else ret (Breaks dtype, pp)
        end
    end
  else if CStr.cheq descriptor "*" then
    r <- sub pp false ;;
    let '(t, _, pp) := r in
    ret (Breaks (debug_make_pointer_type t), pp)
  else if CStr.cheq descriptor "&" then
    r <- sub pp false ;;
    let '(t, _, pp) := r in
    ret (Breaks (debug_make_reference_type t), pp)
  else if CStr.cheq descriptor "f" then
    r <- sub pp false ;;
    let '(t, _, pp) := r in
    ret (Breaks (debug_make_function_type t None false), pp)
  else if CStr.cheq descriptor "k" then
    r <- sub pp false ;;
    let '(t, _, pp) := r in
    ret (Breaks (debug_make_const_type t), pp)
  else if CStr.cheq descriptor "B" then
    r <- sub pp false ;;
    let '(t, _, pp) := r in
    ret (Breaks (debug_make_volatile_type t), pp)
  else if CStr.cheq descriptor "@" then
    r <- sub pp false ;;
    let '(domain, _, pp) := r in
    match domain with
    | None => ret (Returns DEBUG_TYPE_NULL, pp)
    | Some _ =>
        if negb (CStr.cheq (CStr.peek pp) ",") then
          bad_stab orig ;;; ret (Returns DEBUG_TYPE_NULL, pp)
        else
          r <- sub (CStr.advance pp) false ;;
          let '(memtype, _, pp) := r in
          match memtype with
          | None => ret (Returns DEBUG_TYPE_NULL, pp)
          | Some _ => ret (Breaks (debug_make_offset_type domain memtype), pp)
          end
    end
  else if CStr.cheq descriptor "#" then
    if CStr.cheq (CStr.peek pp) "#" then
      r <- sub (CStr.advance pp) false ;;
      let '(return_type, _, pp) := r in
      match return_type with
      | None => ret (Returns DEBUG_TYPE_NULL, pp)
      | Some _ =>
          if negb (CStr.cheq (CStr.peek pp) ";") then
            bad_stab orig ;;; ret (Returns DEBUG_TYPE_NULL, pp)
          else
            ret (Breaks (debug_make_method_type return_type DEBUG_TYPE_NULL
                           None false), CStr.advance pp)
      end
    else
      r <- sub pp false ;;
      let '(domain, _, pp) := r in
      match domain with
      | None => ret (Returns DEBUG_TYPE_NULL, pp)
      | Some _ =>
          if negb (CStr.cheq (CStr.peek pp) ",") then
            bad_stab orig ;;; ret (Returns DEBUG_TYPE_NULL, pp)
          else
            r <- sub (CStr.advance pp) false ;;
            let '(return_type, _, pp) := r in
            match return_type with
            | None => ret (Returns DEBUG_TYPE_NULL, pp)
            | Some _ =>
                r <- parse_method_arguments (String.length pp)
                       parse_stab_type orig pp [] ;;
                let '(arg_types, pp) := r in
                match arg_types with
                | None => ret (Returns DEBUG_TYPE_NULL, pp)
                | Some l =>
                    let pp := CStr.advance pp in
                    last_kind <-
                      query (fun w => debug_get_type_kind E w (last l)) ;;
                    let '(l, va) :=
                      if is_null (last l) || negb (kind_is_void last_kind)
                      then (l, true)
                      else (removelast l, false) in
                    ret (Breaks (debug_make_method_type return_type domain
                                   (Some l) va), pp)
                end
            end
      end
  else if CStr.cheq descriptor "r" then
    r <- parse_stab_range_type parse_stab_type type_name pp typenums ;;
    let '(t, pp) := r in
    ret (Breaks t, pp)
  else if CStr.cheq descriptor "b" then
    r <- parse_stab_sun_builtin_type E pp ;;
    let '(t, pp) := r in
    ret (Breaks t, pp)
  else if CStr.cheq descriptor "R" then
    r <- parse_stab_sun_floating_type E pp ;;
    let '(t, pp) := r in
    ret (Breaks t, pp)
  else if CStr.cheq descriptor "e" then
    r <- parse_stab_enum_type E pp ;;
    let '(t, pp) := r in
    ret (Breaks t, pp)
  else if CStr.cheq descriptor "s" || CStr.cheq descriptor "u" then
    r <- parse_stab_struct_type parse_stab_type type_name pp
           (CStr.cheq descriptor "s") typenums ;;
    let '(t, pp) := r in
    ret (Breaks t, pp)
  else if CStr.cheq descriptor "a" then
    if negb (CStr.cheq (CStr.peek pp) "r") then
      bad_stab orig ;;; ret (Returns DEBUG_TYPE_NULL, pp)
    else
      r <- parse_stab_array_type E (CStr.advance pp) stringp ;;
      let '(t, pp) := r in
      ret (Breaks t, pp)
  else if CStr.cheq descriptor "S" then
    r <- sub pp false ;;
    let '(t, _, pp) := r in
    ret (Breaks (debug_make_set_type t stringp), pp)
  else bad_stab orig ;;; ret (Returns DEBUG_TYPE_NULL, pp).

(** The end of [parse_stab_type], after the switch: the type is recorded
    under its number and its size is recorded. *)
Definition record_parsed_type (typenums : Z * Z) (size : Z) (slot : option slot_ref)
    (ending : case_end) (pp : string) : M (debug_type * option slot_ref * string) :=
  match ending with
  | Returns t => ret (t, slot, pp)
  | Breaks dtype =>
      match dtype with
      | None => ret (DEBUG_TYPE_NULL, slot, pp)
      | Some _ =>
          ok <- (if negb (fst typenums =? -1)
                 then stab_record_type typenums dtype
                 else ret true) ;;
          if negb ok then ret (DEBUG_TYPE_NULL, slot, pp)
          else
            ok <- (if negb (size =? -1)
                   then debug_record_type_size dtype (to_uint size)
                   else ret true) ;;
            if negb ok then ret (DEBUG_TYPE_NULL, slot, pp)
            else ret (dtype, slot, pp)
      end
  end.

(** The body of [parse_stab_type]; [parse_stab_type] in it is the
    function itself, called on a sub-expression. *)
Definition parse_stab_type_body (parse_stab_type : parser)
    (type_name : option string) (pp : string) (slotp : bool)
  : M (debug_type * option slot_ref * string) :=
  let orig := pp in
  if at_end orig then ret (DEBUG_TYPE_NULL, None, pp)
  else
    modify (set_self_crossref false) ;;;
    header <- parse_type_header orig pp slotp ;;
    match header with
    | inl r => ret r
    | inr (typenums, slot, pp, size, stringp) =>
        let descriptor := CStr.peek pp in
        let hold := pp in
        let pp := CStr.advance pp in
        r <- parse_type_descriptor parse_stab_type orig type_name typenums stringp
               descriptor hold pp ;;
        let '(ending, pp) := r in
        record_parsed_type typenums size slot ending pp
    end.

(** [parse_stab_type]: the recursion of the C function is followed to a
    depth of [fuel] nested type expressions. *)
Fixpoint parse_stab_type (fuel : nat) : parser :=
  fun type_name pp slotp =>
    match fuel with
    | O => diverge
    | S k => parse_stab_type_body (parse_stab_type k) type_name pp slotp
    end.

(** *** Stab strings *)

(** the kinds of stab record that [parse_stab] tells apart (stab.def) *)
Inductive stab_kind :=
| N_FN | N_FN_SEQ | N_LBRAC | N_RBRAC | N_SO | N_SOL | N_BINCL | N_EINCL
| N_EXCL | N_SLINE | N_BCOMM | N_ECOMM | N_FUN | N_OPT | N_OBJ | N_ENDM
| N_MAIN | N_WARNING
| N_other (code : Z).

Definition is_N_FUN (k : stab_kind) : bool :=
  match k with
  | N_FUN => true
  | _ => false
  end.

Definition is_N_SO (k : stab_kind) : bool :=
  match k with
  | N_SO => true
  | _ => false
  end.

(** [while (p[1] == ':') { p += 2; p = strchr (p, ':'); ... }]: the colon
    that ends the name, nothing when a double colon is the last one *)
Fixpoint skip_double_colons (fuel : nat) (p : string) : M (option string) :=
  if CStr.cheq (CStr.at_ p 1) ":" then
    match CStr.strchr (CStr.skip 2 p) ":" with
    | None => ret None
    | Some p =>
        match fuel with
        | O => diverge
        | S k => skip_double_colons k p
        end
    end
  else ret (Some p).

(** [while ( *p == ';') { ++p; if (parse_stab_type (...) == NULL) return false; }] *)
Fixpoint parse_declared_types (fuel : nat) (parse_stab_type : parser) (p : string)
  : M (bool * string) :=
  if CStr.cheq (CStr.peek p) ";" then
    r <- parse_stab_type None (CStr.advance p) false ;;
    let '(t, _, p) := r in
    match t with
    | None => ret (false, p)
    | Some _ =>
        match fuel with
        | O => diverge
        | S k => parse_declared_types k parse_stab_type p
        end
    end
  else ret (true, p).

(** the search of the symbol table for a global symbol: its value *)
Fixpoint find_symbol (leading : ascii) (syms : list (string * Z)) (name : string)
  : option Z :=
  match syms with
  | [] => None
  | (n, v) :: ps =>
      let n :=
        if negb (CStr.cheq leading CStr.NUL) && CStr.cheq (CStr.peek n) leading
        then CStr.advance n else n in
      if CStr.cheq (CStr.peek n) (CStr.peek name) && CStr.streq n name then Some v
      else find_symbol leading ps name
  end.

(** the loop of [parse_stab_string] that fills in a cross reference to
    the tag just defined: [( *pst)->slot = dtype; *pst = ( *pst)->next;] *)
Definition fill_in_tag (name : string) (dtype : debug_type) : M unit :=
  fun w =>
    match find_tag (tag_nodes w) (tags w) name with
    | None => Some (tt, w)
    | Some i =>
        let w := write_slot (TagSlot i) dtype w in
        let w :=
          upd_tags (fun l =>
                      match list_find (fun j => j = i) l with
                      | Some (k, _) => delete k l
                      | None => l
                      end) w in
        Some (tt, w)
    end.

(** a variable, parameter or label: parse the type, then record *)
Definition parse_then (parse_stab_type : parser) (p : string)
    (record : debug_type -> M bool) : M bool :=
  r <- parse_stab_type None p false ;;
  let '(dtype, _, _) := r in
  match dtype with
  | None => ret false
  | Some _ => record dtype
  end.

(** The name of the symbol of [parse_stab_string]: the special names that
    start with a dollar sign, and otherwise the text before the colon at
    [p], when there is any. *)
Definition stab_symbol_name (string p : String.string) : M (option String.string) :=
  name <-
    (if CStr.cheq (CStr.at_ string 0) "$" then
       let c := CStr.at_ string 1 in
       if CStr.cheq c "t" then ret (Some "this")
       else if CStr.cheq c "v" then ret None
       else if CStr.cheq c "e" then ret (Some "eh_throw")
       else if CStr.cheq c "_" then ret None
       else if CStr.cheq c "X" then ret None
       else warn_stab string "unknown C++ encoded name" ;;; ret None
     else ret None) ;;
  ret match name with
      | Some _ => name
      | None =>
          if (String.length p =? String.length string)%nat
             || (CStr.cheq (CStr.at_ string 0) " "
                 && (String.length p =? String.length (CStr.advance string))%nat)
          then None
          else Some (CStr.take (CStr.diff string p) string)
      end.

(** The [switch (type)] of [parse_stab_string] on the symbol descriptor;
    [p] is the cursor after the descriptor. *)
Definition parse_symbol_descriptor (parse_stab_type : parser) (stabtype : stab_kind)
    (value : Z) (string : String.string) (name : option String.string) (type : ascii)
    (p : String.string) : M bool :=
  let variable kind :=
    parse_then parse_stab_type p
      (fun dtype => stab_record_variable name dtype kind value) in
  let parameter kind :=
    parse_then parse_stab_type p
      (fun dtype => debug_record_parameter name dtype kind value) in
  let register_parameter := parameter DEBUG_PARM_REG in
  if CStr.cheq type "c" then
    if negb (CStr.cheq (CStr.peek p) "=") then bad_stab string ;;; ret false
    else
      let p := CStr.advance p in
      let c := CStr.peek p in
      let p := CStr.advance p in
      if CStr.cheq c "r" then debug_record_float_const name p
      else if CStr.cheq c "i" then debug_record_int_const name (Libc.atoi p)
      else if CStr.cheq c "e" then
        r <- parse_stab_type None p false ;;
        let '(dtype, _, p) := r in
        match dtype with
        | None => ret false
        | Some _ =>
            if negb (CStr.cheq (CStr.peek p) ",") then bad_stab string ;;; ret false
            else debug_record_typed_const name dtype (Libc.atoi p)
        end
      else bad_stab string ;;; ret false
  else if CStr.cheq type "C" then
    parse_then parse_stab_type p (fun dtype => debug_record_label name dtype value)
  else if CStr.cheq type "f" || CStr.cheq type "F" then
    r <- parse_stab_type None p false ;;
    let '(dtype, _, p) := r in
    match dtype with
    | None => ret false
    | Some _ =>
        ok <- debug_record_function name dtype (CStr.cheq type "F") value ;;
        if negb ok then ret false
        else
          r <- parse_declared_types (String.length p) parse_stab_type p ;;
          ret (fst r)
    end
  else if CStr.cheq type "G" then
    r <- parse_stab_type None p false ;;
    let '(dtype, _, _) := r in
    match dtype with
    | None => ret false
    | Some _ =>
        found <- get (fun w =>
                        match name with
                        | Some n => find_symbol (leading_char w) (syms w) n
                        | None => None
                        end) ;;
        stab_record_variable name dtype DEBUG_GLOBAL (default value found)
    end
  else if CStr.cheq type "l" || CStr.cheq type "s" then variable DEBUG_LOCAL
  else if CStr.cheq type "p" then
    r <- (if negb (CStr.cheq (CStr.peek p) "F") then
            r <- parse_stab_type None p false ;;
            ret (fst (fst r))
          else
            r <- parse_stab_type None (CStr.advance p) false ;;
            let ftype := debug_make_function_type (fst (fst r)) None false in
            ret (debug_make_pointer_type ftype)) ;;
    match r with
    | None => ret false
    | Some _ => debug_record_parameter name r DEBUG_PARM_STACK value
    end
  else if CStr.cheq type "P" then
    if is_N_FUN stabtype then
      r <- parse_declared_types (String.length p) parse_stab_type p ;;
      ret (fst r)
    else register_parameter
  else if CStr.cheq type "R" then register_parameter
  else if CStr.cheq type "r" then variable DEBUG_REGISTER
  else if CStr.cheq type "S" then variable DEBUG_STATIC
  else if CStr.cheq type "t" then
    r <- parse_stab_type name p true ;;
    let '(dtype, slot, _) := r in
    match dtype, name with
    | None, _ => ret false
    | Some _, None => ret true
    | Some _, Some n =>
        dtype <- debug_name_type n dtype ;;
        match dtype with
        | None => ret false
        | Some _ =>
            (match slot with
             | Some sl => modify (write_slot sl dtype)
             | None => ret tt
             end) ;;;
            ret true
        end
    end
  else if CStr.cheq type "T" then
    let '(synonym, p) :=
      if negb (CStr.cheq (CStr.peek p) "t") then (false, p)
      else (true, CStr.advance p) in
    r <- parse_stab_type name p true ;;
    let '(dtype, slot, _) := r in
    match dtype, name with
    | None, _ => ret false
    | Some _, None => ret true
    | Some _, Some n =>
        self_crossref <- get self_crossref ;;
        dtype <- debug_tag_type n dtype ;;
        match dtype with
        | None => ret false
        | Some _ =>
            (match slot with
             | Some sl => modify (write_slot sl dtype)
             | None => ret tt
             end) ;;;
            (if negb self_crossref then fill_in_tag n dtype else ret tt) ;;;
            if synonym then
              dtype <- debug_name_type n dtype ;;
              match dtype with
              | None => ret false
              | Some _ =>
                  (match slot with
                   | Some sl => modify (write_slot sl dtype)
                   | None => ret tt
                   end) ;;;
                  ret true
              end
            else ret true
        end
    end
  else if CStr.cheq type "V" then variable DEBUG_LOCAL_STATIC
  else if CStr.cheq type "v" then parameter DEBUG_PARM_REFERENCE
  else if CStr.cheq type "a" then parameter DEBUG_PARM_REF_REG
  else if CStr.cheq type "X" then variable DEBUG_LOCAL
  else if CStr.cheq type "Y" then
    if negb (CStr.cheq (CStr.at_ p 0) CStr.NUL) && CStr.cheq (CStr.at_ p 1) "n"
       && CStr.cheq (CStr.at_ p 2) "0"
    then
      match CStr.strchr (CStr.skip 3 p) ";" with
      | Some _ => ret true
      | None => bad_stab string ;;; ret false
      end
    else bad_stab string ;;; ret false
  else bad_stab string ;;; ret false.

Definition parse_stab_string (parse_stab_type : parser) (stabtype : stab_kind)
    (desc : Z) (value : Z) (string : string) : M bool :=
  match CStr.strchr string ":" with
  | None => ret true
  | Some p =>
      p <- skip_double_colons (String.length p) p ;;
      match p with
      | None => bad_stab string ;;; ret false
      | Some p =>
          name <- stab_symbol_name string p ;;
          let p := CStr.advance p in
          if negb (CStr.isdigit (CStr.peek p) || CStr.cheq (CStr.peek p) "("
                   || CStr.cheq (CStr.peek p) "-")
             && CStr.cheq (CStr.peek p) CStr.NUL
          then bad_stab string ;;; ret false
          else
            let '(type, p) :=
              if CStr.isdigit (CStr.peek p) || CStr.cheq (CStr.peek p) "("
                 || CStr.cheq (CStr.peek p) "-"
              then ("l"%char, p)
              else (CStr.peek p, CStr.advance p) in
            parse_symbol_descriptor parse_stab_type stabtype value string name type p
      end
  end.

(** *** The dispatcher *)

Definition all_ones : Z := two64 - 1.

(** [!stab_emit_pending_vars (...) || !debug_end_function (..., endval)] is
    false *)
Definition end_function (endval : Z) : M bool :=
  ok <- stab_emit_pending_vars ;;
  if negb ok then ret false else debug_end_function endval.

(** The start of a compilation unit, when [so_string] is set and the
    record is not another fragment of the same N_SO. *)
Definition start_compilation_unit (type : stab_kind) (value : Z) (string : string)
  : M bool :=
  so <- get so_string ;;
  so_val <- get so_value ;;
  match so with
  | None => ret true
  | Some copy =>
      if negb (is_N_SO type) || CStr.cheq (CStr.peek string) CStr.NUL
         || negb (value =? so_val)
      then
        ok <- debug_set_filename copy ;;
        if negb ok then ret false
        else
          modify (set_main_filename (Some copy)) ;;;
          modify (set_so_string None) ;;;
          modify (set_gcc_compiled 0) ;;;
          modify (set_n_opt_found false) ;;;
          modify (fun w => if negb (sections w)
                           then set_file_start_offset (so_value w) w else w) ;;;
          modify (set_files 1) ;;;
          realloc_file_types ;;;
          modify (upd_file_types (fun l => <[O := None]> l)) ;;;
          ret true
      else ret true
  end.

(** the [default:] case of [parse_stab], also reached from N_FUN *)
Definition parse_stab_default (fuel : nat) (type : stab_kind) (desc value : Z)
    (string : string) : M bool :=
  let starts_function :=
    match CStr.strchr string ":" with
    | Some colon => CStr.cheq (CStr.at_ colon 1) "f" || CStr.cheq (CStr.at_ colon 1) "F"
    | None => false
    end in
  ok <- (if starts_function then
           inside <- get within_function ;;
           ok <- (if inside then
                    fn_end <- get function_end ;;
                    let endval :=
                      if negb (fn_end =? all_ones) && (fn_end <? value)
                      then fn_end else value in
                    ok <- end_function endval ;;
                    if negb ok then ret false
                    else modify (set_function_end all_ones) ;;; ret true
                  else ret true) ;;
           if negb ok then ret false
           else
             modify (fun w => if sections w
                              then set_function_start_offset value w else w) ;;;
             modify (set_within_function true) ;;;
             ret true
         else ret true) ;;
  if negb ok then ret false
  else parse_stab_string (parse_stab_type fuel) type desc value string.

(** [parse_stab]: handle a single stabs symbol. *)
Definition parse_stab (fuel : nat) (type : stab_kind) (desc value : Z)
    (string : string) : M bool :=
  ok <- start_compilation_unit type value string ;;
  if negb ok then ret false
  else
    match type with
    | N_FN | N_FN_SEQ => ret true
    | N_LBRAC =>
        n_opt <- get n_opt_found ;;
        if n_opt && (desc =? 1) then ret true
        else
          inside <- get within_function ;;
          if negb inside then print N_LBRAC_not_within_function ;;; ret false
          else
            addr <- get (fun w => to_vma (value + file_start_offset w
                                          + function_start_offset w)) ;;
            ok <- debug_start_block addr ;;
            if negb ok then ret false
            else
              ok <- stab_emit_pending_vars ;;
              if negb ok then ret false
              else modify (upd_block_depth (fun d => d + 1)) ;;; ret true
    | N_RBRAC =>
        n_opt <- get n_opt_found ;;
        if n_opt && (desc =? 1) then ret true
        else
          ok <- stab_emit_pending_vars ;;
          if negb ok then ret false
          else
            addr <- get (fun w => to_vma (value + file_start_offset w
                                          + function_start_offset w)) ;;
            ok <- debug_end_block addr ;;
            if negb ok then ret false
            else
              modify (upd_block_depth (fun d => d - 1)) ;;;
              depth <- get block_depth ;;
              if depth <? 0 then print Too_many_N_RBRACs ;;; ret false
              else ret true
    | N_SO =>
        inside <- get within_function ;;
        ok <- (if inside then
                 fn_end <- get function_end ;;
                 let endval :=
                   if negb (CStr.cheq (CStr.peek string) CStr.NUL)
                      && negb (fn_end =? all_ones) && (fn_end <? value)
                   then fn_end else value in
                 ok <- end_function endval ;;
                 if negb ok then ret false
                 else
                   modify (set_within_function false) ;;;
                   modify (set_function_end all_ones) ;;;
                   ret true
               else ret true) ;;
        if negb ok then ret false
        else if CStr.cheq (CStr.peek string) CStr.NUL then ret true
        else
          modify (upd_so_string
                    (fun so =>
                       match so with
                       | None => Some string
                       | Some f =>
                           if IS_ABSOLUTE_PATH E string then Some string
                           else Some (f ++ string)
                       end)) ;;;
          modify (set_so_value value) ;;;
          ret true
    | N_SOL => debug_start_source (Some string)
    | N_BINCL =>
        push_bincl string value ;;;
        debug_start_source (Some string)
    | N_EINCL =>
        name <- pop_bincl ;;
        debug_start_source name
    | N_EXCL => find_excl string value
    | N_SLINE =>
        addr <- get (fun w => to_vma (value + (if within_function w
                                               then function_start_offset w
                                               else 0))) ;;
        debug_record_line desc addr
    | N_BCOMM => debug_start_common_block string
    | N_ECOMM => debug_end_common_block string
    | N_FUN =>
        if CStr.cheq (CStr.peek string) CStr.NUL then
          inside <- get within_function ;;
          if inside then
            value <- get (fun w => if sections w
                                   then to_vma (value + function_start_offset w)
                                   else value) ;;
            ok <- end_function value ;;
            if negb ok then ret false
            else
              modify (set_within_function false) ;;;
              modify (set_function_end all_ones) ;;;
              ret true
          else ret true
        else
          modify (fun w => if within_function w
                              && ((function_end w =? all_ones)
                                  || (value <? function_end w))
                           then set_function_end value w else w) ;;;
          parse_stab_default fuel type desc value string
    | N_OPT =>
        if CStr.streq string "gcc2_compiled." then
          modify (set_gcc_compiled 2) ;;; ret true
        else if CStr.streq string "gcc_compiled." then
          modify (set_gcc_compiled 1) ;;; ret true
        else modify (set_n_opt_found true) ;;; ret true
    | N_OBJ | N_ENDM | N_MAIN | N_WARNING => ret true
    | N_other _ => parse_stab_default fuel type desc value string
    end.

(** [start_stab]: the state of a new session *)
Definition start_stab (leading : ascii) (in_sections : bool)
    (symbols : list (string * Z)) : world :=
  {| leading_char := leading; sections := in_sections; syms := symbols;
     so_string := None; so_value := 0; file_start_offset := 0;
     function_start_offset := 0; gcc_compiled := 0; n_opt_found := false;
     main_filename := None; bincl_stack := []; bincl_list := [];
     within_function := false; function_end := all_ones; block_depth := 0;
     pending := []; files := 1; file_types := [None];
     xcoff_types := replicate (Z.to_nat XCOFF_TYPE_COUNT) DEBUG_TYPE_NULL;
     tags := []; self_crossref := false; chunks := []; tag_nodes := [];
     bincl_nodes := []; sink := []; stderr := [] |}.

(** the loop of [finish_stab] over the tags that were never defined *)
Fixpoint finish_tags (l : list nat) : M bool :=
  match l with
  | [] => ret true
  | i :: next =>
      st <- (fun w => match tag_nodes w !! i with
                      | Some st => Some (st, w)
                      | None => None
                      end) ;;
      let kind := if kind_is_illegal (tag_kind st) then DEBUG_KIND_STRUCT
                  else tag_kind st in
      let slot := debug_make_undefined_tagged_type (tag_name st) kind in
      modify (write_slot (TagSlot i) slot) ;;;
      if is_null slot then ret false else finish_tags next
  end.

(** [finish_stab]: end the open function and fill in the undefined tags *)
Definition finish_stab (emit : bool) : M bool :=
  inside <- get within_function ;;
  ok <- (if emit && inside then
           fn_end <- get function_end ;;
           end_function fn_end
         else ret true) ;;
  if emit && ok then
    l <- get tags ;;
    finish_tags l
  else ret ok.

End Decoder.

(** ** A sink that accepts every call

    An instance of [externals], for the examples.  The answers of this
    sink are read off the terms: the kind of a type is the kind of the
    call that made it, looked up through indirect, named and tagged types;
    a tag is known once [debug_tag_type] has been called for it.  The
    functions of stabs.c that are not unfolded here answer with a failure;
    no example reaches them. *)

(** Modelled from the spec: [debug_find_tagged_type] of debug.c (missing),
    which finds a tag by its name among the tags given to the sink. *)

Fixpoint find_tagged (trace : list sink_event) (name : string) : debug_type :=
  match trace with
  | [] => None
  | Ev_tag_type n t :: rest =>
      if String.eqb n name then Some (DTagged n t) else find_tagged rest name
  | _ :: rest => find_tagged rest name
  end.

(** Modelled from the spec: [debug_get_real_type] of debug.c (missing),
    which looks through indirect, named and tagged types. *)
Fixpoint real_type (fuel : nat) (w : world) (t : dtype) : dtype :=
  match fuel with
  | O => t
  | S k =>
      match t with
      | DIndirect sl _ =>
          match read_slot sl w with
          | Some (Some t') => real_type k w t'
          | _ => t
          end
      | DNamed _ t' | DTagged _ t' => real_type k w t'
      | _ => t
      end
  end.

(** Modelled from the spec: the kind of a type node, as
    [debug_get_type_kind] of debug.c (missing) answers it. *)
Definition kind_of (t : dtype) : debug_type_kind :=
  match t with
  | DIndirect _ _ => DEBUG_KIND_INDIRECT
  | DVoid => DEBUG_KIND_VOID
  | DInt _ _ => DEBUG_KIND_INT
  | DFloat _ => DEBUG_KIND_FLOAT
  | DComplex _ => DEBUG_KIND_COMPLEX
  | DBool _ => DEBUG_KIND_BOOL
  | DStruct structp _ _ => if structp then DEBUG_KIND_STRUCT else DEBUG_KIND_UNION
  | DObject structp _ _ _ _ _ _ =>
      if structp then DEBUG_KIND_CLASS else DEBUG_KIND_UNION_CLASS
  | DEnum _ _ => DEBUG_KIND_ENUM
  | DPointer _ => DEBUG_KIND_POINTER
  | DReference _ => DEBUG_KIND_REFERENCE
  | DFunction _ _ _ => DEBUG_KIND_FUNCTION
  | DConst _ => DEBUG_KIND_CONST
  | DVolatile _ => DEBUG_KIND_VOLATILE
  | DOffset _ _ => DEBUG_KIND_OFFSET
  | DMethod _ _ _ _ => DEBUG_KIND_METHOD
  | DRange _ _ _ => DEBUG_KIND_RANGE
  | DArray _ _ _ _ _ => DEBUG_KIND_ARRAY
  | DSet _ _ => DEBUG_KIND_SET
  | DNamed _ _ => DEBUG_KIND_NAMED
  | DTagged _ _ => DEBUG_KIND_TAGGED
  | DUndefinedTagged _ k => k
  end.

Definition plain_kind (w : world) (t : debug_type) : debug_type_kind :=
  match t with
  | None => DEBUG_KIND_ILLEGAL
  | Some t => kind_of (real_type (length (chunks w) + length (tag_nodes w) + 8) w t)
  end.

Definition plain_parameter_types (w : world) (t : debug_type) : option (list dtype) :=
  match t with
  | Some (DFunction _ a _) => a
  | Some (DMethod _ _ a _) => a
  | _ => None
  end.

Definition plain_return_type (w : world) (t : debug_type) : debug_type :=
  match t with
  | Some (DFunction r _ _) => Some r
  | Some (DMethod r _ _ _) => Some r
  | _ => None
  end.

Definition rejected {A : Type} (pp : string) : M (option A * string) :=
  fun w => Some ((None, pp), w).

Definition plain_sink : externals :=
  {| sink_accepts := fun _ _ => true;
     debug_find_tagged_type := find_tagged;
     debug_get_type_kind := plain_kind;
     debug_get_parameter_types := plain_parameter_types;
     debug_get_return_type := plain_return_type;
     parse_stab_sun_builtin_type := rejected;
     parse_stab_sun_floating_type := rejected;
     parse_stab_enum_type := rejected;
     parse_stab_array_type := fun pp _ => rejected pp;
     parse_stab_baseclasses := fun pp w => Some ((false, None, pp), w);
     parse_stab_struct_fields := fun pp w => Some ((false, None, false, pp), w);
     parse_stab_tilde_field := fun pp _ w => Some ((false, None, false, pp), w);
     stab_demangle_v3_argtypes := fun _ w => Some ((None, false), w);
     stab_demangle_type := fun minfo pp w => Some ((false, minfo, pp), w);
     stab_demangle_qualified := fun minfo pp w => Some ((false, minfo, pp), w);
     stab_demangle_class := fun minfo pp w => Some ((false, minfo, pp), w);
     stab_demangle_template := fun minfo pp w => Some ((false, minfo, pp), w);
     stab_demangle_args := fun minfo pp w => Some ((false, minfo, pp), w);
     stab_demangle_remember_type := fun minfo _ _ w => Some ((false, minfo), w);
     IS_ABSOLUTE_PATH := fun f => CStr.cheq (CStr.peek f) "/" |}.

(** * Properties

    ** Notions used in the statements *)

(** ** The invariant of the type slot tables *)

(** a chunk has its 16 slots, and the chunk after it, if any, is there and
    has a greater base index *)
Definition chunk_ok (w : world) (ch : stab_types) : Prop :=
  length (types ch) = Z.to_nat STAB_TYPES_SLOTS /\
  match st_next ch with
  | None => True
  | Some d => exists ch', chunks w !! d = Some ch' /\ base_index ch < base_index ch'
  end.

(** [files] counts the file tables, the head of a table is a chunk that is
    there, and every chunk is as [chunk_ok] says: the chains are sorted by
    base index, the way [stab_find_slot] builds them *)
Definition types_wf (w : world) : Prop :=
  files w = Z.of_nat (length (file_types w)) /\
  (forall f c, file_types w !! f = Some (Some c) -> is_Some (chunks w !! c)) /\
  (forall c ch, chunks w !! c = Some ch -> chunk_ok w ch).

(** the number of chunks with a base index above [b]; it decreases along
    a chain, which bounds the walk of [seek_chunk] *)
Definition rank (l : list stab_types) (b : Z) : nat :=
  length (filter (fun ch => b < base_index ch) l).

(** a cell that is there *)
Definition cell_ok (w : world) (ps : chunk_cell) : Prop :=
  match ps with
  | FileCell f => (f < length (file_types w))%nat
  | NextCell c => is_Some (chunks w !! c)
  end.

(** what [seek_chunk] stops at *)
Definition seek_post (w : world) (ps0 : chunk_cell) (base : Z) (ps : chunk_cell) : Prop :=
  cell_ok w ps /\
  (ps = ps0 \/ exists p chp, ps = NextCell p /\ chunks w !! p = Some chp /\ base_index chp < base) /\
  match read_cell ps w with
  | None => True
  | Some c => exists ch, chunks w !! c = Some ch /\ base <= base_index ch
  end.

(** the slot of a type number whose chunk is already there *)
Definition lookup_slot (typenums : Z * Z) (w : world) : option slot_ref :=
  let filenum := to_uint (fst typenums) in
  let tindex := to_uint (snd typenums) in
  let base := tindex / STAB_TYPES_SLOTS * STAB_TYPES_SLOTS in
  match seek_chunk (length (chunks w)) w (FileCell (Z.to_nat filenum)) base with
  | None => None
  | Some ps =>
      match read_cell ps w with
      | None => None
      | Some c =>
          match chunks w !! c with
          | Some ch =>
              if base_index ch =? base then Some (TypeSlot c (Z.to_nat (tindex - base)))
              else None
          | None => None
          end
      end
  end.

(** the state after a new chunk for [base] is linked in at [ps] *)
Definition link_chunk (ps : chunk_cell) (base : Z) (w : world) : world :=
  write_cell ps (Some (length (chunks w)))
    (upd_chunks
       (fun l => (l ++ [mkChunk (read_cell ps w) base
                          (replicate (Z.to_nat STAB_TYPES_SLOTS) DEBUG_TYPE_NULL)])%list) w).

(** a slot that is there: its chunk exists and has the index *)
Definition slot_ok (w : world) (sl : slot_ref) : Prop := is_Some (read_slot sl w).

(** what the registry leaves alone *)
Definition registry_frame (w w' : world) : Prop :=
  tags w' = tags w /\ tag_nodes w' = tag_nodes w /\
  self_crossref w' = self_crossref w /\ pending w' = pending w /\
  bincl_nodes w' = bincl_nodes w.

(** a negative type number in file 0: an XCOFF builtin type *)
Definition is_xcoff_number (n : Z * Z) : bool := (fst n =? 0) && (snd n <? 0).

(** what an indirect type stands for in state [w]: the contents of its
    slot *)
Definition resolve (w : world) (t : dtype) : debug_type :=
  match t with
  | DIndirect sl _ => default DEBUG_TYPE_NULL (read_slot sl w)
  | _ => Some t
  end.

(** the undefined tags are the pending ones: their slot is empty and their
    type is the indirect type on that slot *)
Definition tags_wf (w : world) : Prop :=
  forall j, In j (tags w) ->
    exists st, tag_nodes w !! j = Some st /\ tag_slot st = DEBUG_TYPE_NULL /\
               tag_type st = Some (DIndirect (TagSlot j) (Some (tag_name st))).

(** [c] does not occur in [s] *)
Definition no_char (c : ascii) (s : string) : Prop := ~ In c (list_ascii_of_string s).

(** messages added to what was printed *)
Definition log (msgs : list diag) : world -> world :=
  upd_stderr (fun l => (l ++ msgs)%list).

(** the start of a type number: a digit, [(] or [-] *)
Definition starts_type_number (s : string) : bool :=
  CStr.isdigit (CStr.peek s) || CStr.cheq (CStr.peek s) "(" || CStr.cheq (CStr.peek s) "-".


(** a tag name that [parse_stab_string] and the cross reference both read
    up to the first colon *)
Definition plain_tag_name (name : string) : Prop :=
  name <> "" /\ no_char ":" name /\ no_char "<" name /\
  CStr.peek name <> "$"%char /\ CStr.peek name <> " "%char.

(** [q] is where the members loop finds the method [name], whose variants
    start at [pp]: [name::variants]. *)
Definition method_start (q name pp : string) : Prop :=
  q = name ++ "::" ++ pp /\ no_char ":" name /\
  CStr.cheq (CStr.peek q) ";" = false /\
  CStr.cheq (CStr.at_ q 0) "o" && CStr.cheq (CStr.at_ q 1) "p"
    && CStr.cheq (CStr.at_ q 2) "$" = false.


(** [files] counts the elements of [file_types] and one more fits in an
    [unsigned int] *)
Definition files_wf (w : world) : Prop :=
  files w = Z.of_nat (length (file_types w)) /\ files w + 1 < two32.


(** the state a computation ends in *)
Definition state_after {A : Type} (c : M A) (w : world) : world :=
  match c w with
  | Some (_, w') => w'
  | None => w
  end.

(** A range descriptor at [pp] without an explicit index type: the number
    of the type it is a subrange of, then the two bounds, each closed by a
    semicolon, scanned without overflow. *)
Definition scans_range (pp : string) (typenums : Z * Z) (w : world)
    (self_subrange : bool) (lower upper : Z) (rest : string) (w1 : world) : Prop :=
  exists rangenums p1 p2,
    pp <> "" /\
    parse_stab_type_number pp w = Some ((Some rangenums, p1), w1) /\
    CStr.cheq (CStr.peek p1) "=" = false /\
    self_subrange = (fst rangenums =? fst typenums) && (snd rangenums =? snd typenums) /\
    parse_number (if CStr.cheq (CStr.peek p1) ";" then CStr.advance p1 else p1) true w1
    = Some ((to_vma lower, String ";" p2, false), w1) /\
    parse_number p2 true w1 = Some ((to_vma upper, String ";" rest, false), w1) /\
    - 2 ^ 63 <= lower < 2 ^ 63 /\ - 2 ^ 63 <= upper < 2 ^ 63.

(** The bound pairs of the amended property C2 and the type each of them
    stands for, in the words of the specification; [DInt size unsignedp]. *)
Definition bound_synthesis (type_name : option string) (self_subrange : bool)
    (lower upper : Z) : option dtype :=
  if self_subrange && (lower =? 0) && (upper =? 0) then Some DVoid
  else if self_subrange && (lower =? 0) && (upper =? 127) then Some (DInt 1 false)
  else if (lower =? 0) && (upper =? -1) then
    match type_name with
    | Some name =>
        if String.eqb name "long long int" then Some (DInt 8 false)
        else if String.eqb name "long long unsigned int" then Some (DInt 8 true)
        else Some (DInt 4 true)
    | None => Some (DInt 4 true)
    end
  else if lower =? - upper - 1 then
    if upper =? 0x7f then Some (DInt 1 false)
    else if upper =? 0x7fff then Some (DInt 2 false)
    else if upper =? 0x7fffffff then Some (DInt 4 false)
    else if upper =? 0x7fffffffffffffff then Some (DInt 8 false)
    else None
  else None.

(** queueing a sequence of variable records, in order *)
Fixpoint record_variables (E : externals) (vars : list stab_pending_var) : M bool :=
  match vars with
  | [] => ret true
  | v :: rest =>
      bind (stab_record_variable E (pv_name v) (pv_type v) (pv_kind v) (pv_val v))
        (fun ok => if ok then record_variables E rest else ret false)
  end.

(** the call to the sink for a pending variable *)
Definition variable_event (v : stab_pending_var) : sink_event :=
  Ev_record_variable (pv_name v) (pv_type v) (pv_kind v) (pv_val v).

(** * The parsers behind [externals]

    The parsers of the type descriptors that [externals] holds as fields,
    unfolded from stabs.c.  They keep the names of the C functions, inside
    a module; the recursive call of [parse_stab_type] is the parameter
    [parse_stab_type], as in the functions above. *)

(** Modelled from the spec: the constructors of debug.c (missing) for
    enumerations, arrays, base classes and fields.  As above, a
    constructor returns the node of its call, and NULL over a NULL
    operand. *)
Definition debug_make_enum_type (names : list string) (values : list Z)
  : debug_type := Some (DEnum names values).
Definition debug_make_array_type (element_type range_type : debug_type)
    (lower upper : Z) (stringp : bool) : debug_type :=
  match element_type, range_type with
  | Some e, Some r => Some (DArray e r lower upper stringp)
  | _, _ => None
  end.
Definition debug_make_baseclass (t : debug_type) (bitpos : Z) (is_virtual : bool)
    (v : debug_visibility) : option dbaseclass :=
  option_map (fun ty => DBaseclass ty bitpos is_virtual v) t.
Definition debug_make_field (name : string) (t : debug_type) (bitpos bitsize : Z)
    (v : debug_visibility) : option dfield :=
  option_map (fun ty => DField name ty bitpos bitsize v) t.
Definition debug_make_static_member (name : string) (t : debug_type)
    (physname : string) (v : debug_visibility) : option dfield :=
  option_map (fun ty => DStaticMember name ty physname v) t.

(** a NULL terminated array of fields, as the sink reads it: the elements
    before the first NULL *)
Fixpoint null_terminated {A : Type} (l : list (option A)) : list A :=
  match l with
  | Some x :: r => x :: null_terminated r
  | _ => []
  end.

Module Unfolded.

(** [while ( *p != ':' && *p != 0) ++p;] *)
Fixpoint scan_to_colon (p : string) : string :=
  match p with
  | EmptyString => p
  | String c r =>
      if CStr.cheq c ":" || CStr.cheq c CStr.NUL then p else scan_to_colon r
  end.

(** [parse_stab_sun_builtin_type]: [b], then [s] or [u], an optional
    format character, and three numbers of which the third is the size in
    bits. *)
Definition parse_stab_sun_builtin_type (pp : string) : M (debug_type * string) :=
  let orig := pp in
  if at_end orig then ret (DEBUG_TYPE_NULL, pp)
  else
    let c := CStr.peek pp in
    if negb (CStr.cheq c "s") && negb (CStr.cheq c "u") then
      bad_stab orig ;;; ret (DEBUG_TYPE_NULL, pp)
    else
      let unsignedp := CStr.cheq c "u" in
      let pp := CStr.advance pp in
      let pp :=
        if CStr.cheq (CStr.peek pp) "c" || CStr.cheq (CStr.peek pp) "b"
           || CStr.cheq (CStr.peek pp) "v"
        then CStr.advance pp else pp in
      r <- parse_number pp false ;;
      let '(_, pp, _) := r in
      if negb (CStr.cheq (CStr.peek pp) ";") then
        bad_stab orig ;;; ret (DEBUG_TYPE_NULL, pp)
      else
        let pp := CStr.advance pp in
        r <- parse_number pp false ;;
        let '(_, pp, _) := r in
        if negb (CStr.cheq (CStr.peek pp) ";") then
          bad_stab orig ;;; ret (DEBUG_TYPE_NULL, pp)
        else
          let pp := CStr.advance pp in
          r <- parse_number pp false ;;
          let '(bits, pp, _) := r in
          let pp := if CStr.cheq (CStr.peek pp) ";" then CStr.advance pp else pp in
          if bits =? 0 then ret (debug_make_void_type, pp)
          else ret (debug_make_int_type (bits / 8) unsignedp, pp).

Section SunFloating.

(** the codes of the complex types, from aout/stab_gnu.h, which is not
    among the sources *)
Variables NF_COMPLEX NF_COMPLEX16 NF_COMPLEX32 : Z.

(** [parse_stab_sun_floating_type]: [R], the details and the size in
    bytes.  The cursor is not moved between the test for the first
    semicolon and the second call of [parse_number]. *)
Definition parse_stab_sun_floating_type (pp : string) : M (debug_type * string) :=
  let orig := pp in
  if at_end orig then ret (DEBUG_TYPE_NULL, pp)
  else
    r <- parse_number pp false ;;
    let '(details, pp, _) := r in
    if negb (CStr.cheq (CStr.peek pp) ";") then
      bad_stab orig ;;; ret (DEBUG_TYPE_NULL, pp)
    else
      r <- parse_number pp false ;;
      let '(bytes, pp, _) := r in
      if negb (CStr.cheq (CStr.peek pp) ";") then
        bad_stab orig ;;; ret (DEBUG_TYPE_NULL, pp)
      else if (details =? to_vma NF_COMPLEX) || (details =? to_vma NF_COMPLEX16)
              || (details =? to_vma NF_COMPLEX32)
      then ret (debug_make_complex_type bytes, pp)
      else ret (debug_make_float_type bytes, pp).

End SunFloating.

(** the [while ( **pp != '\0' && **pp != ';' && **pp != ',')] loop of
    [parse_stab_enum_type] over the members [NAME:VALUE,]; nothing when
    the function returns NULL there *)
Fixpoint parse_enum_members (fuel : nat) (orig pp : string) (names : list string)
    (values : list Z) : M (option (list string * list Z) * string) :=
  let c := CStr.peek pp in
  if CStr.cheq c CStr.NUL || CStr.cheq c ";" || CStr.cheq c "," then
    ret (Some (names, values), pp)
  else
    let p := scan_to_colon pp in
    if CStr.cheq (CStr.peek p) CStr.NUL then bad_stab orig ;;; ret (None, pp)
    else
      let name := CStr.take (CStr.diff pp p) pp in
      let pp := CStr.advance p in
      r <- parse_number pp false ;;
      let '(val, pp, _) := r in
      let val := to_signed_vma val in
      if negb (CStr.cheq (CStr.peek pp) ",") then bad_stab orig ;;; ret (None, pp)
      else
        let pp := CStr.advance pp in
        match fuel with
        | O => diverge
        | S k => parse_enum_members k orig pp (names ++ [name])%list (values ++ [val])%list
        end.

(** [parse_stab_enum_type] *)
Definition parse_stab_enum_type (pp : string) : M (debug_type * string) :=
  let orig := pp in
  if at_end orig then ret (DEBUG_TYPE_NULL, pp)
  else
    let skipped :=
      if CStr.cheq (CStr.peek pp) "-" then
        let p := scan_to_colon pp in
        if CStr.cheq (CStr.peek p) CStr.NUL then inl p else inr (CStr.advance p)
      else inr pp in
    match skipped with
    | inl p => bad_stab orig ;;; ret (DEBUG_TYPE_NULL, p)
    | inr pp =>
        r <- parse_enum_members (String.length pp) orig pp [] [] ;;
        let '(members, pp) := r in
        match members with
        | None => ret (DEBUG_TYPE_NULL, pp)
        | Some (names, values) =>
            let pp := if CStr.cheq (CStr.peek pp) ";" then CStr.advance pp else pp in
            ret (debug_make_enum_type names values, pp)
        end
    end.

(** [parse_stab_tilde_field]: the [~%] field that names the class which
    holds the virtual function table.  The results are the answer,
    [*retvptrbase], [*retownvptr] and the cursor. *)
Definition parse_stab_tilde_field (parse_stab_type : parser) (pp : string)
    (typenums : Z * Z) : M (bool * debug_type * bool * string) :=
  let orig := pp in
  if at_end orig then ret (false, DEBUG_TYPE_NULL, false, pp)
  else
    let pp := if CStr.cheq (CStr.peek pp) ";" then CStr.advance pp else pp in
    if negb (CStr.cheq (CStr.peek pp) "~") then ret (true, DEBUG_TYPE_NULL, false, pp)
    else
      let pp := CStr.advance pp in
      let pp :=
        if CStr.cheq (CStr.peek pp) "=" || CStr.cheq (CStr.peek pp) "+"
           || CStr.cheq (CStr.peek pp) "-"
        then CStr.advance pp else pp in
      if negb (CStr.cheq (CStr.peek pp) "%") then ret (true, DEBUG_TYPE_NULL, false, pp)
      else
        let pp := CStr.advance pp in
        let hold := pp in
        r <- parse_stab_type_number pp ;;
        let '(vtn, pp) := r in
        match vtn with
        | None => ret (false, DEBUG_TYPE_NULL, false, pp)
        | Some vtypenums =>
            if (fst vtypenums =? fst typenums) && (snd vtypenums =? snd typenums)
            then ret (true, DEBUG_TYPE_NULL, true, pp)
            else
              r <- parse_stab_type None hold false ;;
              let '(vtype, _, pp) := r in
              match scan_attribute pp with
              | None => bad_stab orig ;;; ret (false, DEBUG_TYPE_NULL, false, pp)
              | Some p => ret (true, vtype, false, CStr.advance p)
              end
        end.

Section Sink.

(** Modelled from the spec: [debug_find_named_type] and
    [debug_get_type_name] of debug.c (missing), the sink's answers to two
    more queries. *)
Variable debug_find_named_type : list sink_event -> string -> debug_type.
Variable debug_get_type_name : world -> debug_type -> option string.

(** [if ( !ISDIGIT ( **pp) && **pp != '-' && **pp != 0) { ++*pp; adjustable = true; }] *)
Definition adjustable_bound (pp : string) (adjustable : bool) : bool * string :=
  if negb (CStr.isdigit (CStr.peek pp)) && negb (CStr.cheq (CStr.peek pp) "-")
     && negb (CStr.cheq (CStr.peek pp) CStr.NUL)
  then (true, CStr.advance pp) else (adjustable, pp).

(** [parse_stab_array_type]: [ar], the index type, the bounds and the
    element type *)
Definition parse_stab_array_type (parse_stab_type : parser) (pp : string)
    (stringp : bool) : M (debug_type * string) :=
  let orig := pp in
  if at_end orig then ret (DEBUG_TYPE_NULL, pp)
  else
    r <- parse_stab_type_number pp ;;
    let '(tn, p) := r in
    match tn with
    | None => ret (DEBUG_TYPE_NULL, pp)
    | Some typenums =>
        r <- (if (fst typenums =? 0) && (snd typenums =? 0)
                 && negb (CStr.cheq (CStr.peek pp) "=")
              then
                index_type <- query (fun w => debug_find_named_type (sink w) "int") ;;
                match index_type with
                | Some _ => ret (Some (index_type, p))
                | None =>
                    match debug_make_int_type 4 false with
                    | None => ret None
                    | Some t => ret (Some (Some t, p))
                    end
                end
              else
                r <- parse_stab_type None pp false ;;
                let '(t, _, pp) := r in
                ret (Some (t, pp))) ;;
        match r with
        | None => ret (DEBUG_TYPE_NULL, pp)
        | Some (index_type, pp) =>
            if negb (CStr.cheq (CStr.peek pp) ";") then
              bad_stab orig ;;; ret (DEBUG_TYPE_NULL, pp)
            else
              let pp := CStr.advance pp in
              let '(adjustable, pp) := adjustable_bound pp false in
              r <- parse_number pp false ;;
              let '(lower, pp, _) := r in
              let lower := to_signed_vma lower in
              if negb (CStr.cheq (CStr.peek pp) ";") then
                bad_stab orig ;;; ret (DEBUG_TYPE_NULL, pp)
              else
                let pp := CStr.advance pp in
                let '(adjustable, pp) := adjustable_bound pp adjustable in
                r <- parse_number pp false ;;
                let '(upper, pp, _) := r in
                let upper := to_signed_vma upper in
                if negb (CStr.cheq (CStr.peek pp) ";") then
                  bad_stab orig ;;; ret (DEBUG_TYPE_NULL, pp)
                else
                  let pp := CStr.advance pp in
                  r <- parse_stab_type None pp false ;;
                  let '(element_type, _, pp) := r in
                  match element_type with
                  | None => ret (DEBUG_TYPE_NULL, pp)
                  | Some _ =>
                      let '(lower, upper) :=
                        if adjustable then (0, -1) else (lower, upper) in
                      ret (debug_make_array_type element_type index_type lower upper
                             stringp, pp)
                  end
        end
    end.

(** the visibility character of a base class or of a field; nothing at
    the end of the string *)
Definition parse_visibility (orig : string) (c : ascii) (what : string)
  : M (option debug_visibility) :=
  if CStr.cheq c "0" then ret (Some DEBUG_VISIBILITY_PRIVATE)
  else if CStr.cheq c "1" then ret (Some DEBUG_VISIBILITY_PROTECTED)
  else if CStr.cheq c "2" then ret (Some DEBUG_VISIBILITY_PUBLIC)
  else if CStr.cheq c CStr.NUL then bad_stab orig ;;; ret None
  else warn_stab orig what ;;; ret (Some DEBUG_VISIBILITY_PUBLIC).

(** the [for (i = 0; i < c; i++)] loop of [parse_stab_baseclasses];
    nothing when the function returns false there *)
Fixpoint parse_baseclass_list (parse_stab_type : parser) (orig : string) (c : nat)
    (pp : string) (classes : list dbaseclass)
  : M (option (list dbaseclass) * string) :=
  match c with
  | O => ret (Some classes, pp)
  | S c' =>
      let ch := CStr.peek pp in
      if CStr.cheq ch CStr.NUL then bad_stab orig ;;; ret (None, pp)
      else
        is_virtual <-
          (if CStr.cheq ch "0" then ret false
           else if CStr.cheq ch "1" then ret true
           else warn_stab orig "unknown virtual character for baseclass" ;;; ret false) ;;
        let pp := CStr.advance pp in
        v <- parse_visibility orig (CStr.peek pp)
               "unknown visibility character for baseclass" ;;
        match v with
        | None => ret (None, pp)
        | Some visibility =>
            let pp := CStr.advance pp in
            r <- parse_number pp false ;;
            let '(bitpos, pp, _) := r in
            if negb (CStr.cheq (CStr.peek pp) ",") then bad_stab orig ;;; ret (None, pp)
            else
              let pp := CStr.advance pp in
              r <- parse_stab_type None pp false ;;
              let '(type, _, pp) := r in
              match type with
              | None => ret (None, pp)
              | Some _ =>
                  match debug_make_baseclass type bitpos is_virtual visibility with
                  | None => ret (None, pp)
                  | Some b =>
                      if negb (CStr.cheq (CStr.peek pp) ";") then ret (None, pp)
                      else
                        parse_baseclass_list parse_stab_type orig c' (CStr.advance pp)
                          (classes ++ [b])%list
                  end
              end
        end
  end.

(** [parse_stab_baseclasses]: [!], the number of base classes, and for
    each its virtual and visibility characters, its offset and its type.
    The results are the answer, [*retp] and the cursor. *)
Definition parse_stab_baseclasses (parse_stab_type : parser) (pp : string)
  : M (bool * option (list dbaseclass) * string) :=
  let orig := pp in
  if at_end orig then ret (false, None, pp)
  else if negb (CStr.cheq (CStr.peek pp) "!") then ret (true, None, pp)
  else
    let pp := CStr.advance pp in
    r <- parse_number pp false ;;
    let '(c, pp, _) := r in
    let c := to_uint c in
    if negb (CStr.cheq (CStr.peek pp) ",") then bad_stab orig ;;; ret (false, None, pp)
    else
      let pp := CStr.advance pp in
      r <- parse_baseclass_list parse_stab_type orig (Z.to_nat c) pp [] ;;
      let '(classes, pp) := r in
      match classes with
      | None => ret (false, None, pp)
      | Some l => ret (true, Some l, pp)
      end.

(** [parse_stab_cpp_abbrev]: a field whose name is a special GNU C++
    abbreviation, [$vf] or [$vb]; the cursor is after the [$].  The
    results are the answer, [*retp] and the cursor. *)
Definition parse_stab_cpp_abbrev (parse_stab_type : parser) (pp : string)
  : M (bool * option dfield * string) :=
  let orig := pp in
  if at_end orig then ret (false, None, pp)
  else if negb (CStr.cheq (CStr.peek pp) "v") then bad_stab pp ;;; ret (false, None, pp)
  else
    let pp := CStr.advance pp in
    let cpp_abbrev := CStr.peek pp in
    if CStr.cheq cpp_abbrev CStr.NUL then bad_stab orig ;;; ret (false, None, pp)
    else
      let pp := CStr.advance pp in
      r <- parse_stab_type None pp false ;;
      let '(context, _, pp) := r in
      match context with
      | None => ret (false, None, pp)
      | Some _ =>
          name <-
            (if CStr.cheq cpp_abbrev "f" then ret "_vptr$"
             else if CStr.cheq cpp_abbrev "b" then
               type_name <- query (fun w => debug_get_type_name w context) ;;
               match type_name with
               | Some n => ret ("_vb$" ++ n)
               | None => warn_stab orig "unnamed $vb type" ;;; ret ("_vb$" ++ "FOO")
               end
             else
               warn_stab orig "unrecognized C++ abbreviation" ;;;
               ret "INVALID_CPLUSPLUS_ABBREV") ;;
          if negb (CStr.cheq (CStr.peek pp) ":") then
            bad_stab orig ;;; ret (false, None, pp)
          else
            let pp := CStr.advance pp in
            r <- parse_stab_type None pp false ;;
            let '(type, _, pp) := r in
            if negb (CStr.cheq (CStr.peek pp) ",") then
              bad_stab orig ;;; ret (false, None, pp)
            else
              let pp := CStr.advance pp in
              r <- parse_number pp false ;;
              let '(bitpos, pp, _) := r in
              if negb (CStr.cheq (CStr.peek pp) ";") then
                bad_stab orig ;;; ret (false, None, pp)
              else
                let pp := CStr.advance pp in
                match debug_make_field name type bitpos 0 DEBUG_VISIBILITY_PRIVATE with
                | None => ret (false, None, pp)
                | Some f => ret (true, Some f, pp)
                end
      end.

(** [parse_stab_one_struct_field]: a field [NAME:TYPE,BITPOS,BITSIZE;] or a
    static member [NAME:TYPE:PHYSNAME;]; [p] is the colon after the name.
    The results are the answer, [*retp], [*staticsp] and the cursor. *)
Definition parse_stab_one_struct_field (parse_stab_type : parser) (pp p : string)
    (statics : bool) : M (bool * option dfield * bool * string) :=
  let orig := pp in
  if at_end orig then ret (false, None, statics, pp)
  else
    let name := CStr.take (CStr.diff pp p) pp in
    let pp := CStr.advance p in
    r <- (if negb (CStr.cheq (CStr.peek pp) "/") then
            ret (Some DEBUG_VISIBILITY_PUBLIC, pp)
          else
            let pp := CStr.advance pp in
            v <- parse_visibility orig (CStr.peek pp)
                   "unknown visibility character for field" ;;
            match v with
            | None => ret (None, pp)
            | Some _ => ret (v, CStr.advance pp)
            end) ;;
    let '(v, pp) := r in
    match v with
    | None => ret (false, None, statics, pp)
    | Some visibility =>
        r <- parse_stab_type None pp false ;;
        let '(type, _, pp) := r in
        match type with
        | None => ret (false, None, statics, pp)
        | Some _ =>
            if CStr.cheq (CStr.peek pp) ":" then
              let pp := CStr.advance pp in
              match CStr.strchr pp ";" with
              | None => bad_stab orig ;;; ret (false, None, statics, pp)
              | Some p =>
                  let varname := CStr.take (CStr.diff pp p) pp in
                  ret (true, debug_make_static_member name type varname visibility,
                       true, CStr.advance p)
              end
            else if negb (CStr.cheq (CStr.peek pp) ",") then
              bad_stab orig ;;; ret (false, None, statics, pp)
            else
              let pp := CStr.advance pp in
              r <- parse_number pp false ;;
              let '(bitpos, pp, _) := r in
              if negb (CStr.cheq (CStr.peek pp) ",") then
                bad_stab orig ;;; ret (false, None, statics, pp)
              else
                let pp := CStr.advance pp in
                r <- parse_number pp false ;;
                let '(bitsize, pp, _) := r in
                if negb (CStr.cheq (CStr.peek pp) ";") then
                  bad_stab orig ;;; ret (false, None, statics, pp)
                else
                  let pp := CStr.advance pp in
                  let visibility :=
                    if (bitpos =? 0) && (bitsize =? 0) then DEBUG_VISIBILITY_IGNORE
                    else visibility in
                  ret (true, debug_make_field name type bitpos bitsize visibility,
                       statics, pp)
        end
    end.

(** the [while ( **pp != ';')] loop of [parse_stab_struct_fields]; it ends
    at the semicolon after the last field or, with [break], at the name of
    the first member function *)
Fixpoint parse_struct_field_list (fuel : nat) (parse_stab_type : parser)
    (orig pp : string) (fields : list (option dfield)) (statics : bool)
  : M (option (list (option dfield)) * bool * string) :=
  if CStr.cheq (CStr.peek pp) ";" then ret (Some fields, statics, pp)
  else
    let p := pp in
    if (CStr.cheq (CStr.peek p) "$" || CStr.cheq (CStr.peek p) ".")
       && negb (CStr.cheq (CStr.at_ p 1) "_")
    then
      r <- parse_stab_cpp_abbrev parse_stab_type (CStr.advance pp) ;;
      let '(ok, f, pp) := r in
      if negb ok then ret (None, statics, pp)
      else
        match fuel with
        | O => diverge
        | S k =>
            parse_struct_field_list k parse_stab_type orig pp (fields ++ [f])%list
              statics
        end
    else
      match CStr.strchr p ":" with
      | None => bad_stab orig ;;; ret (None, statics, pp)
      | Some p =>
          if CStr.cheq (CStr.at_ p 1) ":" then ret (Some fields, statics, pp)
          else
            r <- parse_stab_one_struct_field parse_stab_type pp p statics ;;
            let '(ok, f, statics, pp) := r in
            if negb ok then ret (None, statics, pp)
            else
              match fuel with
              | O => diverge
              | S k =>
                  parse_struct_field_list k parse_stab_type orig pp
                    (fields ++ [f])%list statics
              end
      end.

(** [parse_stab_struct_fields].  The results are the answer, [*retp],
    [*staticsp] and the cursor. *)
Definition parse_stab_struct_fields (parse_stab_type : parser) (pp : string)
  : M (bool * option (list dfield) * bool * string) :=
  let orig := pp in
  if at_end orig then ret (false, None, false, pp)
  else
    r <- parse_struct_field_list (String.length pp) parse_stab_type orig pp [] false ;;
    let '(fields, statics, pp) := r in
    match fields with
    | None => ret (false, None, statics, pp)
    | Some l => ret (true, Some (null_terminated l), statics, pp)
    end.

End Sink.

(** *** Counts and class names of the demangler *)

(** [count *= 10; count += c - '0';] on an [unsigned int] *)
Definition count_digit (count : Z) (c : ascii) : Z :=
  to_uint (to_uint (count * 10) + (CStr.code c - CStr.code "0")).

(** [while (ISDIGIT ( *p)) { count *= 10; count += *p - '0'; ++p; }] *)
Fixpoint count_digits (p : string) (count : Z) : Z * string :=
  match p with
  | EmptyString => (count, p)
  | String c r =>
      if CStr.isdigit c then count_digits r (count_digit count c) else (count, p)
  end.

(** [stab_demangle_count]: the count and the cursor *)
Definition stab_demangle_count (pp : string) : Z * string := count_digits pp 0.

(** [stab_demangle_get_count]: nothing when the answer is false; else
    [*pi] and the cursor.  The [do ... while] loop runs on a copy of the
    cursor, which is only stored back at an underscore. *)
Definition stab_demangle_get_count (pp : string) : option (Z * string) :=
  if negb (CStr.isdigit (CStr.peek pp)) then None
  else
    let pi := CStr.code (CStr.peek pp) - CStr.code "0" in
    let pp := CStr.advance pp in
    if CStr.isdigit (CStr.peek pp) then
      let count := pi in
      let p := pp in
      let '(count, p) := count_digits (CStr.advance p) (count_digit count (CStr.peek p)) in
      if CStr.cheq (CStr.peek p) "_" then Some (count, CStr.advance p)
      else Some (pi, pp)
    else Some (pi, pp).

(** [stab_demangle_class]: the answer, [*pstart] and the cursor *)
Definition stab_demangle_class (pp : string) : M (bool * option string * string) :=
  let orig := pp in
  let '(n, pp) := stab_demangle_count pp in
  if Z.of_nat (String.length pp) <? n then
    stab_bad_demangle orig ;;; ret (false, None, pp)
  else ret (true, Some pp, CStr.skip (Z.to_nat n) pp).

End Unfolded.

(** ** Numbers as the producer writes them *)

(** the text of a [long] as [printf ("%ld")] writes it *)
Definition signed_decimal (z : Z) : string :=
  if z <? 0 then String "-" (decimal (Z.to_nat (- z))) else decimal (Z.to_nat z).

(** the character after a number does not continue it: it is no digit,
    and no [x] that would turn a leading [0] into the prefix of a
    hexadecimal number *)
Definition ends_number (rest : string) : bool :=
  negb (CStr.isdigit (CStr.peek rest)) && negb (CStr.cheq (CStr.peek rest) "x")
  && negb (CStr.cheq (CStr.peek rest) "X").

(** the members of an enumeration as the producer writes them,
    [NAME:VALUE,] for each *)
Fixpoint enum_members (l : list (string * Z)) : string :=
  match l with
  | [] => ""
  | (name, value) :: r => name ++ ":" ++ signed_decimal value ++ "," ++ enum_members r
  end.

(** the name of an enumeration constant: it is not empty, holds no colon
    and starts with none of the characters that end the list or start the
    extra field of the aix4 compiler *)
Definition enum_name (name : string) : Prop :=
  no_char ":" name /\ no_char CStr.NUL name /\ name <> "" /\
  CStr.peek name <> ";"%char /\ CStr.peek name <> ","%char /\ CStr.peek name <> "-"%char.

(** ** Tags *)

(** the node that stands for a tag name: the one on the list of undefined
    tags, or the one that is allocated next *)
Definition tag_index (name : string) (w : world) : nat :=
  default (length (tag_nodes w)) (find_tag (tag_nodes w) (tags w) name).

(** the type that [finish_stab] gives a tag that was never defined *)
Definition undefined_tag (st : stab_tag) : dtype :=
  DUndefinedTagged (tag_name st)
    (if kind_is_illegal (tag_kind st) then DEBUG_KIND_STRUCT else tag_kind st).

(** ** Type numbers as the producer writes them *)

(** the form [(FILENUM,TYPENUM)] of a type number *)
Definition type_number_text (filenum index : Z) : string :=
  "(" ++ signed_decimal filenum ++ "," ++ signed_decimal index ++ ")".


(** ** Types given by their number *)

(** the type number [n] is defined as [t]: it is a number of a file of
    the compilation unit, it is no builtin type of XCOFF, and its slot
    holds [t] *)
Definition type_recorded (w : world) (n : Z * Z) (t : dtype) : Prop :=
  0 <= fst n < 2 ^ 31 /\ fst n < files w /\ 0 <= snd n < 2 ^ 31 /\
  exists sl, lookup_slot n w = Some sl /\ read_slot sl w = Some (Some t).

(** a reference to a type by its number *)
Definition type_reference (n : Z * Z) : string := type_number_text (fst n) (snd n).

(** the state after [n] calls of [parse_stab_type]: each call clears the
    mark of a self cross reference *)
Definition after_types (n : nat) (w : world) : world :=
  match n with
  | O => w
  | S _ => set_self_crossref false w
  end.

(** ** Structures as the producer writes them *)

(** a data member: its name, the number of its type and the type, its
    position and its size in bits *)
Record data_member := mkMember
  { dm_name : string;
    dm_number : Z * Z;
    dm_type : dtype;
    dm_bitpos : Z;
    dm_bitsize : Z }.

(** [NAME:TYPE,BITPOS,BITSIZE;] for each member *)
Fixpoint struct_fields_text (l : list data_member) : string :=
  match l with
  | [] => ""
  | m :: r =>
      dm_name m ++ ":" ++ type_reference (dm_number m) ++ ","
      ++ signed_decimal (dm_bitpos m) ++ "," ++ signed_decimal (dm_bitsize m) ++ ";"
      ++ struct_fields_text r
  end.

(** the name of a data member: it is not empty, holds no colon and does
    not start with a semicolon or with a marker of a C++ abbreviation *)
Definition field_name (name : string) : Prop :=
  name <> "" /\ no_char ":" name /\ no_char CStr.NUL name /\
  CStr.peek name <> ";"%char /\ CStr.peek name <> "$"%char /\ CStr.peek name <> "."%char.

Definition member_ok (w : world) (m : data_member) : Prop :=
  field_name (dm_name m) /\ type_recorded w (dm_number m) (dm_type m) /\
  0 <= dm_bitpos m < 2 ^ 63 /\ 0 <= dm_bitsize m < 2 ^ 63.

(** the field that the sink gets for a member: a member at bit 0 of size
    0 is marked as one to ignore *)
Definition field_of (m : data_member) : dfield :=
  DField (dm_name m) (dm_type m) (dm_bitpos m) (dm_bitsize m)
    (if (dm_bitpos m =? 0) && (dm_bitsize m =? 0) then DEBUG_VISIBILITY_IGNORE
     else DEBUG_VISIBILITY_PUBLIC).

(** ** Arrays as the producer writes them *)

(** a bound of an array: the number, after a letter when the bound is
    adjustable ([A] or [T] in Fortran) *)
Definition bound_text (mark : option ascii) (z : Z) : string :=
  match mark with
  | Some c => String c (signed_decimal z)
  | None => signed_decimal z
  end.

(** a character that marks an adjustable bound: anything that does not
    start a number or end the string *)
Definition bound_mark (mark : option ascii) : Prop :=
  forall c, mark = Some c ->
    CStr.isdigit c = false /\ c <> "-"%char /\ c <> CStr.NUL.

(** the bounds that the sink gets *)
Definition array_bounds (lower_mark upper_mark : option ascii) (lower upper : Z) : Z * Z :=
  match lower_mark, upper_mark with
  | None, None => (lower, upper)
  | _, _ => (0, -1)
  end.

(** ** Base classes as the producer writes them *)

(** the character of a visibility; [9] is the one that the comment on the
    fields of a structure gives for a member to ignore *)
Definition visibility_char (v : debug_visibility) : ascii :=
  match v with
  | DEBUG_VISIBILITY_PRIVATE => "0"
  | DEBUG_VISIBILITY_PROTECTED => "1"
  | DEBUG_VISIBILITY_PUBLIC => "2"
  | DEBUG_VISIBILITY_IGNORE => "9"
  end.

(** a base class: whether it is virtual, its visibility, its offset in
    bits and the number of its type with the type *)
Record base_class := mkBase
  { bc_virtual : bool;
    bc_visibility : debug_visibility;
    bc_bitpos : Z;
    bc_number : Z * Z;
    bc_type : dtype }.

(** [VIRTUAL VISIBILITY BITPOS,TYPE;] for each base class *)
Fixpoint baseclasses_text (l : list base_class) : string :=
  match l with
  | [] => ""
  | b :: r =>
      String (if bc_virtual b then "1" else "0")
        (String (visibility_char (bc_visibility b))
           (signed_decimal (bc_bitpos b) ++ "," ++ type_reference (bc_number b) ++ ";"
            ++ baseclasses_text r))
  end.

Definition base_ok (w : world) (b : base_class) : Prop :=
  bc_visibility b <> DEBUG_VISIBILITY_IGNORE /\ 0 <= bc_bitpos b < 2 ^ 63 /\
  type_recorded w (bc_number b) (bc_type b).

Definition baseclass_of (b : base_class) : dbaseclass :=
  DBaseclass (bc_type b) (bc_bitpos b) (bc_virtual b) (bc_visibility b).

(** ** Class names as the mangler writes them *)

(** a name after its length *)
Definition counted_name (name : string) : string := decimal (String.length name) ++ name.

(** * Stabs in sections: the linker's side of stabs.c

    A [.stab] section is an array of 12-byte symbols.  The linker keeps,
    for each input section, the string index of every symbol, or -1 for a
    symbol that is left out of the output, and from these the number of
    bytes left out before each symbol. *)

Module Link.

Definition STRDXOFF : Z := 0.
Definition TYPEOFF : Z := 4.
Definition OTHEROFF : Z := 5.
Definition DESCOFF : Z := 6.
Definition VALOFF : Z := 8.
Definition STABSIZE : Z := 12.

(** [struct stab_excl_list], as a list *)
Record stab_excl := mkExcl
  { e_offset : Z;
    e_val : Z;
    e_type : Z }.

(** [struct stab_section_info]; [cumulative_skips] is NULL or an array *)
Record stab_section_info := mkSecinfo
  { excls : list stab_excl;
    cumulative_skips : option (list Z);
    stridxs : list Z }.

(** what the functions read of the output section of an [asection] *)
Record output_sec := mkOutput
  { is_abs_section : bool;
    out_size : Z }.

(** what the functions read and write of an [asection] *)
Record asection := mkSection
  { size : Z;
    rawsize : Z;
    flags : Z;
    output_section : option output_sec;
    output_offset : Z }.

(** [n] bytes at offset [p] of a buffer; nothing outside of it *)
Definition peek_bytes (p : Z) (n : nat) (buf : list Z) : option (list Z) :=
  if (0 <=? p) && (p + Z.of_nat n <=? Z.of_nat (length buf))
  then Some (take n (drop (Z.to_nat p) buf)) else None.

(** a buffer with [bytes] in the place of the bytes at [p] *)
Definition store (p : nat) (bytes : list Z) (buf : list Z) : list Z :=
  (take p buf ++ bytes ++ drop (p + length bytes) buf)%list.

(** [bytes] stored at offset [p] of a buffer; nothing outside of it *)
Definition poke_bytes (p : Z) (bytes : list Z) (buf : list Z) : option (list Z) :=
  if (0 <=? p) && (p + Z.of_nat (length bytes) <=? Z.of_nat (length buf))
  then Some (store (Z.to_nat p) bytes buf) else None.

(** an element of an array of [bfd_size_type]; nothing outside of it *)
Definition peek_index (i : Z) (a : list Z) : option Z :=
  if 0 <=? i then a !! Z.to_nat i else None.

Definition poke_index (i : Z) (v : Z) (a : list Z) : option (list Z) :=
  if (0 <=? i) && (i <? Z.of_nat (length a)) then Some (<[Z.to_nat i := v]> a) else None.

(** the number of turns of [for (sym = buf; sym < buf + rawsize; sym += STABSIZE)] *)
Definition symbol_turns (rawsize : Z) : nat := Z.to_nat ((rawsize + STABSIZE - 1) / STABSIZE).

(** [_bfd_stab_section_offset]; nothing when an array is read outside of
    its bounds *)
Definition _bfd_stab_section_offset (stabsec : asection)
    (psecinfo : option stab_section_info) (offset : Z) : option Z :=
  match psecinfo with
  | None => Some offset
  | Some secinfo =>
      if rawsize stabsec <=? offset
      then Some (to_vma (offset - rawsize stabsec + size stabsec))
      else
        match cumulative_skips secinfo with
        | Some skips =>
            let i := offset / STABSIZE in
            match peek_index i (stridxs secinfo) with
            | None => None
            | Some idx =>
                if idx =? all_ones then Some all_ones
                else
                  match peek_index i skips with
                  | None => None
                  | Some skip => Some (to_vma (offset - skip))
                  end
            end
        | None => Some offset
        end
  end.

Section Discard.

(** the codes of the stab types, from aout/stab_gnu.h, and the section
    flags, from bfd.h, which are not among the sources *)
Variables N_FUN N_STSYM N_LCSYM : Z.
Variables SEC_HAS_CONTENTS SEC_EXCLUDE SEC_KEEP : Z.

(** [bfd_get_32] of the target of the input file, on the four bytes it
    reads *)
Variable bfd_get_32 : list Z -> Z.

(** the callback [reloc_symbol_deleted_p] and the state behind its
    cookie *)
Variable cookie : Type.
Variable reloc_symbol_deleted_p : Z -> cookie -> bool * cookie.

(** the variables of the loop over the symbols *)
Record discard_state := mkDiscard
  { d_stridxs : list Z;
    d_skip : Z;
    d_deleting : Z;
    d_cookie : cookie }.

(** [*pstridx = -1; skip++;] *)
Definition discard_here (i : Z) (st : discard_state) : option discard_state :=
  match poke_index i all_ones (d_stridxs st) with
  | None => None
  | Some l => Some (mkDiscard l (to_vma (d_skip st + 1)) (d_deleting st) (d_cookie st))
  end.

Definition set_deleting (v : Z) (st : discard_state) : discard_state :=
  mkDiscard (d_stridxs st) (d_skip st) v (d_cookie st).

(** [( *reloc_symbol_deleted_p) (sym + VALOFF - stabbuf, cookie)] *)
Definition symbol_deleted (i : Z) (st : discard_state) : bool * discard_state :=
  let '(b, c) := reloc_symbol_deleted_p (to_vma (i * STABSIZE + VALOFF)) (d_cookie st) in
  (b, mkDiscard (d_stridxs st) (d_skip st) (d_deleting st) c).

(** the part of the loop body after the test for [N_FUN] *)
Definition discard_by_state (type : Z) (i : Z) (st : discard_state) : option discard_state :=
  if d_deleting st =? 1 then discard_here i st
  else if d_deleting st =? -1 then
    if (type =? N_STSYM) || (type =? N_LCSYM) then
      let '(b, st) := symbol_deleted i st in
      if b then discard_here i st else Some st
    else Some st
  else Some st.

(** the body of the loop over the symbols, for the symbol of index [i] *)
Definition discard_symbol (stabbuf : list Z) (i : Z) (st : discard_state)
  : option discard_state :=
  match peek_index i (d_stridxs st) with
  | None => None
  | Some idx =>
      if idx =? all_ones then Some st
      else
        match peek_bytes (i * STABSIZE + TYPEOFF) 1 stabbuf with
        | Some [type] =>
            if type =? N_FUN then
              match peek_bytes (i * STABSIZE + STRDXOFF) 4 stabbuf with
              | None => None
              | Some bytes =>
                  let strx := to_int (bfd_get_32 bytes) in
                  if strx =? 0 then
                    match (if negb (d_deleting st =? 0) then discard_here i st
                           else Some st) with
                    | None => None
                    | Some st => Some (set_deleting (-1) st)
                    end
                  else
                    let st := set_deleting 0 st in
                    let '(b, st) := symbol_deleted i st in
                    let st := if b then set_deleting 1 st else st in
                    discard_by_state type i st
              end
            else discard_by_state type i st
        | _ => None
        end
  end.

Fixpoint discard_symbols (stabbuf : list Z) (turns : nat) (i : Z) (st : discard_state)
  : option discard_state :=
  match turns with
  | O => Some st
  | S n =>
      match discard_symbol stabbuf i st with
      | None => None
      | Some st => discard_symbols stabbuf n (i + 1) st
      end
  end.

(** [for (i = 0; i < count; i++, pskips++, pstridx++) { *pskips = offset;
    if ( *pstridx == -1) offset += STABSIZE; }]: the array and [offset]
    after the loop *)
Fixpoint recalculate_skips (turns : nat) (i : Z) (pstridx pskips : list Z) (offset : Z)
  : option (list Z * Z) :=
  match turns with
  | O => Some (pskips, offset)
  | S n =>
      match poke_index i offset pskips with
      | None => None
      | Some pskips =>
          match peek_index i pstridx with
          | None => None
          | Some idx =>
              recalculate_skips n (i + 1) pstridx pskips
                (if idx =? all_ones then to_vma (offset + STABSIZE) else offset)
          end
      end
  end.

(** what a call of [_bfd_discard_section_stabs] leaves: its answer, the
    section, the section information, the state of the cookie, and
    whether [BFD_ASSERT (offset != 0)] was reached and failed, which BFD
    reports before it goes on *)
Record discard_result := mkResult
  { r_answer : bool;
    r_section : asection;
    r_secinfo : option stab_section_info;
    r_cookie : cookie;
    r_assert_failed : bool }.

(** [_bfd_discard_section_stabs].  [stabbuf] is what
    [bfd_malloc_and_get_section] reads, nothing when it fails, and
    [alloc_ok] says whether [bfd_alloc] succeeds.  The result is nothing
    when an array is read or written outside of its bounds. *)
Definition _bfd_discard_section_stabs (stabsec : asection)
    (psecinfo : option stab_section_info) (stabbuf : option (list Z)) (alloc_ok : bool)
    (c : cookie) : option discard_result :=
  if (size stabsec =? 0) || (Z.land (flags stabsec) SEC_HAS_CONTENTS =? 0)
  then Some (mkResult false stabsec psecinfo c false)
  else if negb (size stabsec mod STABSIZE =? 0)
  then Some (mkResult false stabsec psecinfo c false)
  else if match output_section stabsec with
          | Some o => is_abs_section o
          | None => false
          end
  then Some (mkResult false stabsec psecinfo c false)
  else
    match psecinfo with
    | None => Some (mkResult false stabsec psecinfo c false)
    | Some secinfo =>
        let count := rawsize stabsec / STABSIZE in
        match stabbuf with
        | None => Some (mkResult false stabsec psecinfo c false)
        | Some buf =>
            match discard_symbols buf (symbol_turns (rawsize stabsec)) 0
                    (mkDiscard (stridxs secinfo) 0 (-1) c) with
            | None => None
            | Some st =>
                let skip := d_skip st in
                let size' := to_vma (size stabsec - skip * STABSIZE) in
                let flags' :=
                  if size' =? 0 then Z.lor (flags stabsec) (Z.lor SEC_EXCLUDE SEC_KEEP)
                  else flags stabsec in
                let stabsec := mkSection size' (rawsize stabsec) flags' (output_section stabsec)
                                 (output_offset stabsec) in
                let secinfo := mkSecinfo (excls secinfo) (cumulative_skips secinfo)
                                 (d_stridxs st) in
                if negb (skip =? 0) then
                  match (match cumulative_skips secinfo with
                         | Some a => Some a
                         | None =>
                             if alloc_ok then Some (replicate (Z.to_nat count) 0) else None
                         end) with
                  | None => Some (mkResult false stabsec (Some secinfo) (d_cookie st) false)
                  | Some pskips =>
                      match recalculate_skips (Z.to_nat count) 0 (d_stridxs st) pskips 0 with
                      | None => None
                      | Some (pskips, offset) =>
                          Some (mkResult (0 <? skip) stabsec
                                  (Some (mkSecinfo (excls secinfo) (Some pskips) (d_stridxs st)))
                                  (d_cookie st) (offset =? 0))
                      end
                  end
                else Some (mkResult (0 <? skip) stabsec (Some secinfo) (d_cookie st) false)
            end
        end
    end.

End Discard.

Section Write.

(** [bfd_put_32] and [bfd_put_16] of the target of the output file: the
    bytes they store *)
Variables bfd_put_32 bfd_put_16 : Z -> list Z.

(** [_bfd_stringtab_size (sinfo->strings)] *)
Variable stringtab_size : Z.

(** [bfd_set_section_contents] of BFD, on the output section, the bytes
    handed over and the offset in the section *)
Variable bfd_set_section_contents : option output_sec -> list Z -> Z -> bool.

(** the contents of the section and which of the assertions failed, which
    BFD reports before it goes on *)
Record write_state := mkWrite
  { w_contents : list Z;
    w_excl_outside : bool;
    w_header_not_first : bool }.

(** the body of the loop over the N_BINCL entries *)
Definition write_excl (rawsize : Z) (e : stab_excl) (st : write_state)
  : option write_state :=
  let outside := negb (e_offset e <? rawsize) in
  match poke_bytes (e_offset e + VALOFF) (bfd_put_32 (e_val e)) (w_contents st) with
  | None => None
  | Some c =>
      match poke_bytes (e_offset e + TYPEOFF) [e_type e mod 256] c with
      | None => None
      | Some c => Some (mkWrite c (w_excl_outside st || outside) (w_header_not_first st))
      end
  end.

Fixpoint write_excls (rawsize : Z) (l : list stab_excl) (st : write_state)
  : option write_state :=
  match l with
  | [] => Some st
  | e :: r =>
      match write_excl rawsize e st with
      | None => None
      | Some st => write_excls rawsize r st
      end
  end.

(** the header symbol of the section: the size of the string table and
    the number of symbols of the output section *)
Definition write_header (stabsec : asection) (i tosym : Z) (st : write_state)
  : option write_state :=
  match poke_bytes (tosym + VALOFF) (bfd_put_32 stringtab_size) (w_contents st) with
  | None => None
  | Some c =>
      match output_section stabsec with
      | None => None
      | Some o =>
          match poke_bytes (tosym + DESCOFF)
                  (bfd_put_16 (to_vma (out_size o / STABSIZE - 1))) c with
          | None => None
          | Some c =>
              Some (mkWrite c (w_excl_outside st) (w_header_not_first st || negb (i =? 0)))
          end
      end
  end.

(** the body of the loop that copies the symbols, for the symbol of index
    [i]: the state and [tosym] after it *)
Definition write_symbol (stabsec : asection) (pstridx : list Z) (i : Z)
    (st : write_state) (tosym : Z) : option (write_state * Z) :=
  let sym := i * STABSIZE in
  match peek_index i pstridx with
  | None => None
  | Some idx =>
      if negb (idx =? all_ones) then
        match (if negb (tosym =? sym) then
                 match peek_bytes sym (Z.to_nat STABSIZE) (w_contents st) with
                 | None => None
                 | Some bytes => poke_bytes tosym bytes (w_contents st)
                 end
               else Some (w_contents st)) with
        | None => None
        | Some c =>
            match poke_bytes (tosym + STRDXOFF) (bfd_put_32 idx) c with
            | None => None
            | Some c =>
                let st := mkWrite c (w_excl_outside st) (w_header_not_first st) in
                match peek_bytes (sym + TYPEOFF) 1 c with
                | Some [type] =>
                    match (if type =? 0 then write_header stabsec i tosym st
                           else Some st) with
                    | None => None
                    | Some st => Some (st, tosym + STABSIZE)
                    end
                | _ => None
                end
            end
        end
      else Some (st, tosym)
  end.

Fixpoint write_symbols (stabsec : asection) (pstridx : list Z) (turns : nat) (i : Z)
    (st : write_state) (tosym : Z) : option (write_state * Z) :=
  match turns with
  | O => Some (st, tosym)
  | S n =>
      match write_symbol stabsec pstridx i st tosym with
      | None => None
      | Some (st, tosym) => write_symbols stabsec pstridx n (i + 1) st tosym
      end
  end.

(** what a call of [_bfd_write_section_stabs] does: its answer, the bytes
    it hands to [bfd_set_section_contents], and which assertions failed *)
Record write_result := mkWritten
  { wr_answer : bool;
    wr_written : list Z;
    wr_excl_outside : bool;
    wr_header_not_first : bool;
    wr_size_differs : bool }.

(** [_bfd_write_section_stabs]; nothing when the contents or an array are
    read or written outside of their bounds *)
Definition _bfd_write_section_stabs (stabsec : asection)
    (psecinfo : option stab_section_info) (contents : list Z) : option write_result :=
  match psecinfo with
  | None =>
      match peek_bytes 0 (Z.to_nat (size stabsec)) contents with
      | None => None
      | Some data =>
          Some (mkWritten
                  (bfd_set_section_contents (output_section stabsec) data
                     (output_offset stabsec))
                  data false false false)
      end
  | Some secinfo =>
      match write_excls (rawsize stabsec) (excls secinfo) (mkWrite contents false false) with
      | None => None
      | Some st =>
          match write_symbols stabsec (stridxs secinfo) (symbol_turns (rawsize stabsec)) 0
                  st 0 with
          | None => None
          | Some (st, tosym) =>
              match peek_bytes 0 (Z.to_nat (size stabsec)) (w_contents st) with
              | None => None
              | Some data =>
                  Some (mkWritten
                          (bfd_set_section_contents (output_section stabsec) data
                             (output_offset stabsec))
                          data (w_excl_outside st) (w_header_not_first st)
                          (negb (tosym =? size stabsec)))
              end
          end
      end
  end.

End Write.

Arguments mkDiscard {cookie}.
Arguments d_stridxs {cookie}.
Arguments d_skip {cookie}.
Arguments d_deleting {cookie}.
Arguments d_cookie {cookie}.
Arguments discard_here {cookie}.
Arguments set_deleting {cookie}.
Arguments mkResult {cookie}.
Arguments r_answer {cookie}.
Arguments r_section {cookie}.
Arguments r_secinfo {cookie}.
Arguments r_cookie {cookie}.
Arguments r_assert_failed {cookie}.

End Link.

(** ** The symbols that are kept *)

(** the number of symbols among the first [i] that are kept *)
Definition kept_before (stridxs : list Z) (i : nat) : nat :=
  length (filter (fun idx => idx <> all_ones) (take i stridxs)).

(** the number of symbols that are left out *)
Definition deleted (l : list Z) : nat := length (filter (fun idx => idx = all_ones) l).

(** what the loop over the symbols keeps true: the array keeps its length,
    an entry changes only to -1, and [skip] counts the entries that
    changed *)
Definition discard_inv {cookie : Type} (l0 : list Z) (st : Link.discard_state cookie) : Prop :=
  length (Link.d_stridxs st) = length l0 /\
  (forall i idx, Link.d_stridxs st !! i = Some idx -> idx = all_ones \/ l0 !! i = Some idx) /\
  Link.d_skip st = Z.of_nat (deleted (Link.d_stridxs st)) - Z.of_nat (deleted l0) /\
  (deleted l0 <= deleted (Link.d_stridxs st))%nat.

(** the symbol that is written for the symbol [s] with the string index
    [idx]: the index is stored over the first four bytes, and a symbol of
    type 0, the header of the section, gets the size of the string table
    as its value and the number of symbols of the output section, less
    one, as its description *)
Definition written_symbol (bfd_put_32 bfd_put_16 : Z -> list Z) (stringtab_size : Z)
    (o : Link.output_sec) (s : list Z) (idx : Z) : list Z :=
  let s1 := Link.store 0 (bfd_put_32 idx) s in
  if bool_decide (s !! 4%nat = Some 0)
  then Link.store 6 (bfd_put_16 (to_vma (Link.out_size o / Link.STABSIZE - 1)))
         (Link.store 8 (bfd_put_32 stringtab_size) s1)
  else s1.

(** the symbol of index [i] of the contents of a section *)
Definition symbol_at (contents : list Z) (i : nat) : list Z :=
  take 12 (drop (12 * i) contents).

(** what the loop that copies the symbols keeps true before the symbol of
    index [i], for the contents [c1] it started from: the symbols from [i]
    on are untouched, [tosym] is after the symbols kept so far, and each
    of these is in its place, as [written_symbol] says *)
Definition write_inv (bfd_put_32 bfd_put_16 : Z -> list Z) (stringtab_size : Z)
    (o : Link.output_sec) (c1 l : list Z) (i : nat) (st : Link.write_state) (tosym : Z)
  : Prop :=
  length (Link.w_contents st) = length c1 /\
  tosym = Z.of_nat (12 * kept_before l i) /\
  drop (12 * i) (Link.w_contents st) = drop (12 * i) c1 /\
  (forall j idx, (j < i)%nat -> l !! j = Some idx -> idx <> all_ones ->
     symbol_at (Link.w_contents st) (kept_before l j)
     = written_symbol bfd_put_32 bfd_put_16 stringtab_size o (symbol_at c1 j) idx) /\
  (Link.w_header_not_first st = true ->
   exists j idx, j <> O /\ l !! j = Some idx /\ idx <> all_ones /\
                 c1 !! (12 * j + 4)%nat = Some 0).

(** * Proofs *)

(** ** The type number registry *)

Lemma rank_le l b b' : b <= b' -> (rank l b' <= rank l b)%nat.
Proof.
  intros Hb. unfold rank. induction l as [|x l IH]; [done|].
  rewrite !filter_cons. repeat case_decide; simpl; lia.
Qed.

Lemma rank_lt l b i ch :
  l !! i = Some ch -> b < base_index ch -> (rank l (base_index ch) < rank l b)%nat.
Proof.
  revert i. induction l as [|x l IH]; intros i Hi Hb; [done|].
  unfold rank in *. rewrite !filter_cons.
  destruct i as [|i]; simpl in Hi.
  - injection Hi as ->.
    pose proof (rank_le l b (base_index ch) ltac:(lia)) as Hle. unfold rank in Hle.
    repeat case_decide; simpl; lia.
  - specialize (IH i Hi Hb). repeat case_decide; simpl; lia.
Qed.

Lemma rank_lt_length l i ch :
  l !! i = Some ch -> (rank l (base_index ch) < length l)%nat.
Proof.
  revert i. induction l as [|x l IH]; intros i Hi; [done|].
  unfold rank in *. rewrite filter_cons.
  destruct i as [|i]; simpl in Hi.
  - injection Hi as ->. case_decide; [lia|].
    pose proof (length_filter (fun ch0 => base_index ch < base_index ch0) l). simpl. lia.
  - specialize (IH i Hi). case_decide; simpl; lia.
Qed.

Lemma read_cell_Some w ps c :
  types_wf w -> read_cell ps w = Some c -> is_Some (chunks w !! c).
Proof.
  intros (_ & Hf & Hc) Hr. destruct ps as [f|p]; simpl in Hr.
  - destruct (file_types w !! f) as [[c'|]|] eqn:Hl; simpl in Hr; try done.
    injection Hr as ->. eauto.
  - destruct (chunks w !! p) as [chp|] eqn:Hp; simpl in Hr; [|done].
    destruct (Hc _ _ Hp) as [_ Hn]. rewrite Hr in Hn. destruct Hn as (ch' & -> & _). eauto.
Qed.

Lemma seek_chunk_total w base : types_wf w ->
  forall fuel ps,
    cell_ok w ps ->
    (forall c ch, read_cell ps w = Some c -> chunks w !! c = Some ch ->
                  (rank (chunks w) (base_index ch) < fuel)%nat) ->
    exists ps', seek_chunk fuel w ps base = Some ps' /\ seek_post w ps base ps'.
Proof.
  intros Hwf. induction fuel as [|k IH]; intros ps Hok Hrank.
  - simpl. destruct (read_cell ps w) as [c|] eqn:Hr.
    + destruct (read_cell_Some _ _ _ Hwf Hr) as [ch Hch]. rewrite Hch.
      specialize (Hrank _ _ eq_refl Hch). lia.
    + exists ps. split; [done|]. split; [done|]. split; [by left|]. by rewrite Hr.
  - simpl. destruct (read_cell ps w) as [c|] eqn:Hr.
    + destruct (read_cell_Some _ _ _ Hwf Hr) as [ch Hch]. rewrite Hch.
      destruct (base_index ch <? base) eqn:Hlt.
      * apply Z.ltb_lt in Hlt.
        destruct (IH (NextCell c)) as (ps' & Hs & Hok' & Hfrom & Hstop).
        { simpl. eauto. }
        { intros d chd Hrd Hd. simpl in Hrd. rewrite Hch in Hrd. simpl in Hrd.
          destruct Hwf as (_ & _ & Hc). destruct (Hc _ _ Hch) as [_ Hn].
          rewrite Hrd in Hn. destruct Hn as (ch' & Hd' & Hb). rewrite Hd in Hd'.
          injection Hd' as <-.
          pose proof (rank_lt _ _ _ _ Hd Hb). specialize (Hrank _ _ eq_refl Hch). lia. }
        exists ps'. split; [done|]. split; [done|]. split; [|done].
        right. destruct Hfrom as [->|(p & chp & -> & Hp & Hb)]; eauto.
      * apply Z.ltb_ge in Hlt. exists ps. split; [done|]. split; [done|].
        split; [by left|]. rewrite Hr. eauto.
    + exists ps. split; [done|]. split; [done|]. split; [by left|]. by rewrite Hr.
Qed.

Lemma stab_find_slot_unfold n w :
  to_uint (fst n) < files w ->
  stab_find_slot n w =
    let tindex := to_uint (snd n) in
    let base := tindex / STAB_TYPES_SLOTS * STAB_TYPES_SLOTS in
    match seek_chunk (length (chunks w)) w (FileCell (Z.to_nat (to_uint (fst n)))) base with
    | None => None
    | Some ps =>
        match lookup_slot n w with
        | Some sl => Some (Some sl, w)
        | None => Some (Some (TypeSlot (length (chunks w)) (Z.to_nat (tindex - base))),
                        link_chunk ps base w)
        end
    end.
Proof.
  intros Hf. unfold stab_find_slot, lookup_slot, link_chunk, bind, get.
  destruct (files w <=? to_uint (fst n)) eqn:Hle; [apply Z.leb_le in Hle; lia|].
  cbv zeta.
  destruct (seek_chunk _ _ _ _) as [ps|]; [|done].
  destruct (read_cell ps w) as [c|]; [|reflexivity].
  destruct (chunks w !! c) as [ch|]; [|reflexivity].
  destruct (base_index ch =? _); reflexivity.
Qed.

Lemma chunks_link_old ps base w c ch :
  chunks w !! c = Some ch ->
  exists ch', chunks (link_chunk ps base w) !! c = Some ch' /\
              base_index ch' = base_index ch /\ types ch' = types ch /\
              st_next ch' = (match ps with
                             | NextCell p => if decide (p = c) then Some (length (chunks w)) else st_next ch
                             | FileCell _ => st_next ch
                             end).
Proof.
  intros Hc. unfold link_chunk, write_cell. destruct ps as [f|p]; simpl.
  - exists ch. rewrite lookup_app_l; [done|]. by apply lookup_lt_Some in Hc.
  - destruct (decide (p = c)) as [->|Hne].
    + eexists. rewrite list_lookup_alter_eq, lookup_app_l by (by apply lookup_lt_Some in Hc).
      rewrite Hc. simpl. done.
    + exists ch. rewrite list_lookup_alter_ne by done.
      rewrite lookup_app_l; [done|]. by apply lookup_lt_Some in Hc.
Qed.

Lemma chunks_link_new ps base w :
  cell_ok w ps ->
  chunks (link_chunk ps base w) !! length (chunks w)
  = Some (mkChunk (read_cell ps w) base (replicate (Z.to_nat STAB_TYPES_SLOTS) DEBUG_TYPE_NULL)).
Proof.
  intros Hok. unfold link_chunk, write_cell. destruct ps as [f|p]; simpl.
  - by rewrite lookup_app_r, Nat.sub_diag by lia.
  - simpl in Hok. destruct Hok as [chp Hp]. apply lookup_lt_Some in Hp.
    rewrite list_lookup_alter_ne by lia.
    by rewrite lookup_app_r, Nat.sub_diag by lia.
Qed.

Lemma chunks_link_length ps base w :
  length (chunks (link_chunk ps base w)) = S (length (chunks w)).
Proof.
  unfold link_chunk, write_cell. destruct ps as [f|p]; simpl.
  - rewrite length_app. simpl. lia.
  - rewrite length_alter, length_app. simpl. lia.
Qed.

Lemma read_cell_link_same ps base w :
  cell_ok w ps -> read_cell ps (link_chunk ps base w) = Some (length (chunks w)).
Proof.
  intros Hok. destruct ps as [f|p].
  - simpl in Hok. unfold link_chunk, write_cell. simpl.
    by rewrite list_lookup_insert_eq.
  - destruct Hok as [chp Hp].
    destruct (chunks_link_old (NextCell p) base w p chp Hp) as (ch' & Hl & _ & _ & Hn).
    unfold read_cell. rewrite Hl. simpl. rewrite Hn. by rewrite decide_True.
Qed.

Lemma read_cell_link_other ps ps' base w :
  cell_ok w ps' -> ps' <> ps -> read_cell ps' (link_chunk ps base w) = read_cell ps' w.
Proof.
  intros Hok Hne. destruct ps' as [f|p].
  - unfold link_chunk, write_cell. destruct ps as [f'|p']; simpl; [|done].
    rewrite list_lookup_insert_ne; [done|]. congruence.
  - destruct Hok as [chp Hp].
    destruct (chunks_link_old ps base w p chp Hp) as (ch' & Hl & _ & _ & Hn).
    unfold read_cell. rewrite Hl, Hp. simpl. rewrite Hn. destruct ps as [f'|p']; [done|].
    rewrite decide_False; [done|]. congruence.
Qed.

Lemma seek_chunk_link w base ps :
  match read_cell ps w with
  | None => True
  | Some c => exists ch, chunks w !! c = Some ch /\ base <= base_index ch
  end ->
  forall fuel ps0, cell_ok w ps0 ->
    seek_chunk fuel w ps0 base = Some ps ->
    seek_chunk (S fuel) (link_chunk ps base w) ps0 base = Some ps.
Proof.
  intros Hstop.
  assert (Hat : forall fuel, cell_ok w ps ->
             seek_chunk fuel (link_chunk ps base w) ps base = Some ps).
  { intros fuel Hok. destruct fuel; simpl; rewrite read_cell_link_same by done;
      rewrite chunks_link_new by done; simpl; by rewrite Z.ltb_irrefl. }
  induction fuel as [|k IH]; intros ps0 Hok Hs.
  - simpl in Hs. destruct (read_cell ps0 w) as [c|] eqn:Hr.
    + destruct (chunks w !! c) as [ch|] eqn:Hc; [|done].
      destruct (base_index ch <? base); [done|]. injection Hs as <-. by apply Hat.
    + injection Hs as <-. by apply Hat.
  - simpl in Hs. destruct (read_cell ps0 w) as [c|] eqn:Hr.
    + destruct (chunks w !! c) as [ch|] eqn:Hc; [|done].
      destruct (base_index ch <? base) eqn:Hlt.
      * assert (ps0 <> ps) as Hne.
        { intros ->. rewrite Hr in Hstop. destruct Hstop as (ch' & Hc' & Hb).
          rewrite Hc in Hc'. injection Hc' as <-. apply Z.ltb_lt in Hlt. lia. }
        cbn [seek_chunk]. rewrite read_cell_link_other by done. rewrite Hr.
        destruct (chunks_link_old ps base w c ch Hc) as (ch' & -> & Hb & _ & _).
        rewrite Hb, Hlt. apply IH; [|done]. simpl. eauto.
      * injection Hs as <-. by apply Hat.
    + injection Hs as <-. by apply Hat.
Qed.

Lemma files_link ps base w : files (link_chunk ps base w) = files w.
Proof. by destruct ps. Qed.

Lemma file_types_link_length ps base w :
  length (file_types (link_chunk ps base w)) = length (file_types w).
Proof. destruct ps; simpl; [apply length_insert|done]. Qed.

Lemma link_chunk_wf w ps base :
  types_wf w -> cell_ok w ps ->
  (match ps with
   | FileCell _ => True
   | NextCell p => exists chp, chunks w !! p = Some chp /\ base_index chp < base
   end) ->
  (match read_cell ps w with
   | None => True
   | Some c => exists ch, chunks w !! c = Some ch /\ base < base_index ch
   end) ->
  types_wf (link_chunk ps base w).
Proof.
  intros (Hfiles & Hft & Hch) Hok Hprev Hnext. split; [|split].
  - by rewrite files_link, file_types_link_length.
  - intros f c Hl.
    assert (c = length (chunks w) \/ file_types w !! f = Some (Some c)) as [->|Hold].
    { destruct ps as [f0|p]; simpl in Hl; [|by right].
      destruct (decide (f0 = f)) as [->|Hne].
      - simpl in Hok. rewrite list_lookup_insert_eq in Hl by done. left. congruence.
      - rewrite list_lookup_insert_ne in Hl by done. by right. }
    + rewrite chunks_link_new by done. eauto.
    + destruct (Hft _ _ Hold) as [ch Hc].
      destruct (chunks_link_old ps base w c ch Hc) as (ch' & -> & _). eauto.
  - intros c ch' Hl.
    pose proof (lookup_lt_Some _ _ _ Hl) as Hlt. rewrite chunks_link_length in Hlt.
    destruct (decide (c = length (chunks w))) as [->|Hne].
    + rewrite chunks_link_new in Hl by done. injection Hl as <-. split; [reflexivity|].
      simpl. destruct (read_cell ps w) as [q|]; [|done].
      destruct Hnext as (chq & Hq & Hb).
      destruct (chunks_link_old ps base w q chq Hq) as (chq' & Hq' & Hb' & _).
      exists chq'. split; [done|]. lia.
    + destruct (lookup_lt_is_Some_2 (chunks w) c ltac:(lia)) as [ch Hc].
      destruct (chunks_link_old ps base w c ch Hc) as (ch'' & Hl' & Hb & Ht & Hn).
      rewrite Hl in Hl'. injection Hl' as <-.
      destruct (Hch _ _ Hc) as [Hlen Hnx]. split; [by rewrite Ht|].
      rewrite Hn.
      assert (Hkeep : match st_next ch with
                      | Some d => exists chd, chunks (link_chunk ps base w) !! d = Some chd
                                              /\ base_index ch' < base_index chd
                      | None => True
                      end).
      { destruct (st_next ch) as [d|]; [|done]. destruct Hnx as (chd & Hd & Hbd).
        destruct (chunks_link_old ps base w d chd Hd) as (chd' & Hd' & Hbd' & _).
        exists chd'. split; [done|]. lia. }
      destruct ps as [f|p]; [done|]. destruct (decide (p = c)) as [->|]; [|done].
      rewrite chunks_link_new by done. eexists. split; [done|]. simpl.
      destruct Hprev as (chp & Hp & Hbp). rewrite Hc in Hp. injection Hp as <-. lia.
Qed.

Lemma to_uint_nonneg z : 0 <= to_uint z.
Proof. unfold to_uint, two32. apply Z.mod_pos_bound. lia. Qed.

Lemma file_cell_ok w (n : Z * Z) :
  types_wf w -> to_uint (fst n) < files w ->
  cell_ok w (FileCell (Z.to_nat (to_uint (fst n)))).
Proof.
  intros [Hfl _] Hf. simpl. pose proof (to_uint_nonneg (fst n)). lia.
Qed.

Lemma lookup_slot_link n w ps :
  types_wf w -> to_uint (fst n) < files w ->
  let tindex := to_uint (snd n) in
  let base := tindex / STAB_TYPES_SLOTS * STAB_TYPES_SLOTS in
  seek_chunk (length (chunks w)) w (FileCell (Z.to_nat (to_uint (fst n)))) base = Some ps ->
  seek_post w (FileCell (Z.to_nat (to_uint (fst n)))) base ps ->
  lookup_slot n (link_chunk ps base w)
  = Some (TypeSlot (length (chunks w)) (Z.to_nat (tindex - base))).
Proof.
  intros Hwf Hf tindex base Hs (Hok & Hfrom & Hstop).
  unfold lookup_slot. fold tindex. fold base.
  rewrite chunks_link_length.
  rewrite (seek_chunk_link w base ps Hstop _ _ (file_cell_ok w n Hwf Hf) Hs).
  rewrite read_cell_link_same, chunks_link_new by done. simpl. by rewrite Z.eqb_refl.
Qed.

Lemma tindex_in_chunk t :
  0 <= t -> (Z.to_nat (t - t / STAB_TYPES_SLOTS * STAB_TYPES_SLOTS) < Z.to_nat STAB_TYPES_SLOTS)%nat.
Proof.
  intros Ht. unfold STAB_TYPES_SLOTS.
  pose proof (Z.mod_pos_bound t 16 ltac:(lia)). pose proof (Z.mod_eq t 16 ltac:(lia)). lia.
Qed.

Lemma lookup_slot_ok w n sl :
  types_wf w -> lookup_slot n w = Some sl -> slot_ok w sl.
Proof.
  intros (_ & _ & Hch). unfold lookup_slot.
  destruct (seek_chunk _ _ _ _) as [ps|]; [|done].
  destruct (read_cell ps w) as [c|]; [|done].
  destruct (chunks w !! c) as [ch|] eqn:Hc; [|done].
  destruct (base_index ch =? _); [|done]. intros [= <-].
  unfold slot_ok. simpl. rewrite Hc. simpl.
  apply lookup_lt_is_Some_2. destruct (Hch _ _ Hc) as [-> _].
  apply tindex_in_chunk, to_uint_nonneg.
Qed.

Lemma link_chunk_frame ps base w : registry_frame w (link_chunk ps base w).
Proof. by destruct ps. Qed.

Lemma write_type_slot_frame c i v w : registry_frame w (write_slot (TypeSlot c i) v w).
Proof. done. Qed.

Lemma stab_find_slot_establish w n :
  types_wf w -> to_uint (fst n) < files w ->
  exists sl w',
    stab_find_slot n w = Some (Some sl, w') /\ types_wf w' /\
    lookup_slot n w' = Some sl /\ slot_ok w' sl /\
    files w' = files w /\ sink w' = sink w /\ stderr w' = stderr w /\
    xcoff_types w' = xcoff_types w /\ registry_frame w w' /\
    (exists c i, sl = TypeSlot c i) /\
    ((lookup_slot n w = Some sl /\ w' = w)
     \/ (lookup_slot n w = None /\ read_slot sl w' = Some DEBUG_TYPE_NULL)).
Proof.
  intros Hwf Hf. rewrite stab_find_slot_unfold by done. cbv zeta.
  set (base := to_uint (snd n) / STAB_TYPES_SLOTS * STAB_TYPES_SLOTS).
  pose proof (file_cell_ok w n Hwf Hf) as Hcell.
  destruct (seek_chunk_total w base Hwf (length (chunks w)) _ Hcell) as (ps & Hs & Hpost).
  { intros c ch _ Hc. by eapply rank_lt_length. }
  rewrite Hs. destruct (lookup_slot n w) as [sl|] eqn:Hl.
  - exists sl, w. split; [done|]. split; [done|]. split; [done|].
    split; [by eapply lookup_slot_ok|]. do 5 (split; [done|]).
    split; [|by left]. unfold lookup_slot in Hl.
    destruct (seek_chunk _ _ _ _); [|done]. destruct (read_cell _ _); [|done].
    destruct (chunks w !! _); [|done]. destruct (_ =? _); [|done].
    injection Hl as <-. eauto.
  - pose proof (lookup_slot_link n w ps Hwf Hf Hs Hpost) as Hl'. fold base in Hl'.
    eexists _, _. split; [done|].
    destruct Hpost as (Hok & Hfrom & Hstop).
    assert (types_wf (link_chunk ps base w)) as Hwf'.
    { apply link_chunk_wf; try done.
      - destruct Hfrom as [->|(p & chp & -> & Hp & Hb)]; [done|eauto].
      - unfold lookup_slot in Hl. fold base in Hl. rewrite Hs in Hl.
        destruct (read_cell ps w) as [c|]; [|done].
        destruct Hstop as (ch & Hc & Hb). rewrite Hc in Hl.
        destruct (base_index ch =? base) eqn:He; [done|].
        apply Z.eqb_neq in He. exists ch. split; [done|lia]. }
    split; [done|]. split; [done|]. split; [by eapply lookup_slot_ok|].
    split; [apply files_link|]. split; [by destruct ps|]. split; [by destruct ps|].
    split; [by destruct ps|]. split; [apply link_chunk_frame|]. split; [eauto|].
    right. split; [done|].
    simpl. rewrite chunks_link_new by done. simpl.
    apply (lookup_replicate_2 16 DEBUG_TYPE_NULL). apply tindex_in_chunk, to_uint_nonneg.
Qed.

(** *** Writing a slot *)

Lemma read_cell_write_slot ps sl v w : read_cell ps (write_slot sl v w) = read_cell ps w.
Proof.
  destruct sl as [c i|t]; [|by destruct ps]. destruct ps as [f|p]; [done|].
  unfold read_cell, write_slot. simpl.
  destruct (decide (c = p)) as [->|Hne].
  - rewrite list_lookup_alter_eq. by destruct (chunks w !! p).
  - by rewrite list_lookup_alter_ne.
Qed.

Lemma chunks_write_slot sl v w c :
  exists f, chunks (write_slot sl v w) !! c = f <$> chunks w !! c /\
            (forall ch, base_index (f ch) = base_index ch /\ st_next (f ch) = st_next ch
                        /\ length (types (f ch)) = length (types ch)).
Proof.
  destruct sl as [c0 i|t]; simpl.
  - destruct (decide (c0 = c)) as [->|Hne].
    + eexists. rewrite list_lookup_alter_eq. split; [done|].
      intros ch. simpl. by rewrite length_insert.
    + exists id. rewrite list_lookup_alter_ne by done. split; [by rewrite option_fmap_id|done].
  - exists id. split; [by rewrite option_fmap_id|done].
Qed.

Lemma chunks_write_slot_length sl v w :
  length (chunks (write_slot sl v w)) = length (chunks w).
Proof. destruct sl; simpl; [apply length_alter|done]. Qed.

Lemma seek_chunk_write_slot sl v w base fuel ps :
  seek_chunk fuel (write_slot sl v w) ps base = seek_chunk fuel w ps base.
Proof.
  revert ps. induction fuel as [|k IH]; intros ps; simpl;
    rewrite read_cell_write_slot; destruct (read_cell ps w) as [c|]; try done;
    destruct (chunks_write_slot sl v w c) as (f & -> & Hf);
    destruct (chunks w !! c) as [ch|]; simpl; try done;
    destruct (Hf ch) as (-> & _); destruct (base_index ch <? base); done.
Qed.

Lemma lookup_slot_write_slot sl v w n :
  lookup_slot n (write_slot sl v w) = lookup_slot n w.
Proof.
  unfold lookup_slot. rewrite chunks_write_slot_length, seek_chunk_write_slot.
  destruct (seek_chunk _ _ _ _) as [ps|]; [|done].
  rewrite read_cell_write_slot. destruct (read_cell ps w) as [c|]; [|done].
  destruct (chunks_write_slot sl v w c) as (f & -> & Hf).
  destruct (chunks w !! c) as [ch|]; simpl; [|done].
  by destruct (Hf ch) as (-> & _).
Qed.

Lemma write_slot_wf sl v w : types_wf w -> types_wf (write_slot sl v w).
Proof.
  intros (Hfl & Hft & Hch). split; [|split].
  - by destruct sl.
  - intros f c Hl. assert (file_types w !! f = Some (Some c)) as Hl' by (by destruct sl).
    destruct (Hft _ _ Hl') as [ch Hc].
    destruct (chunks_write_slot sl v w c) as (g & -> & _). rewrite Hc. simpl. eauto.
  - intros c ch' Hl. destruct (chunks_write_slot sl v w c) as (g & Hg & Hprop).
    rewrite Hg in Hl. destruct (chunks w !! c) as [ch|] eqn:Hc; [|done].
    injection Hl as <-. destruct (Hprop ch) as (Hb & Hn & Hlen).
    destruct (Hch _ _ Hc) as [Hlen' Hnx]. split; [lia|]. rewrite Hn.
    destruct (st_next ch) as [d|]; [|done]. destruct Hnx as (chd & Hd & Hbd).
    destruct (chunks_write_slot sl v w d) as (g' & Hg' & Hprop').
    rewrite Hg', Hd. simpl. eexists. split; [done|].
    destruct (Hprop' chd) as (-> & _). lia.
Qed.

Lemma read_write_slot sl v w : slot_ok w sl -> read_slot sl (write_slot sl v w) = Some v.
Proof.
  intros [x Hx]. destruct sl as [c i|t]; simpl in *.
  - rewrite list_lookup_alter_eq. destruct (chunks w !! c) as [ch|]; [|done]. simpl in *.
    apply list_lookup_insert_eq. by eapply lookup_lt_Some.
  - rewrite list_lookup_alter_eq. by destruct (tag_nodes w !! t).
Qed.

Lemma stab_find_slot_found n w sl :
  to_uint (fst n) < files w -> lookup_slot n w = Some sl ->
  stab_find_slot n w = Some (Some sl, w).
Proof.
  intros Hf Hl. rewrite stab_find_slot_unfold by done. cbv zeta. rewrite Hl.
  unfold lookup_slot in Hl. by destruct (seek_chunk _ _ _ _).
Qed.

Lemma start_stab_wf leading in_sections symbols :
  types_wf (start_stab leading in_sections symbols).
Proof.
  split; [done|]. split.
  - intros [|f] c Hl; simpl in Hl; [done|]. by destruct f.
  - intros c ch Hl. done.
Qed.

Lemma stab_find_type_slot E n w sl :
  is_xcoff_number n = false -> to_uint (fst n) < files w ->
  lookup_slot n w = Some sl ->
  stab_find_type E n w =
    match read_slot sl w with
    | Some None => Some (debug_make_indirect_type sl None, w)
    | Some (Some t) => Some (Some t, w)
    | None => None
    end.
Proof.
  intros Hx Hf Hl. unfold stab_find_type. unfold is_xcoff_number in Hx. rewrite Hx.
  unfold bind. rewrite (stab_find_slot_found n w sl Hf Hl). unfold load.
  destruct (read_slot sl w) as [[t|]|]; done.
Qed.

Lemma stab_record_type_slot n v w sl :
  to_uint (fst n) < files w -> lookup_slot n w = Some sl ->
  stab_record_type n v w = Some (true, write_slot sl v w).
Proof.
  intros Hf Hl. unfold stab_record_type, bind.
  by rewrite (stab_find_slot_found n w sl Hf Hl).
Qed.

Lemma files_write_slot sl v w : files (write_slot sl v w) = files w.
Proof. by destruct sl. Qed.

Lemma stderr_write_slot sl v w : stderr (write_slot sl v w) = stderr w.
Proof. by destruct sl. Qed.

(** C1 (amended).  Indirection transparency of the type number registry.
    Let [n] be a type number whose file index is in range and which is not
    an XCOFF builtin number (a negative number in file 0), in a state whose
    slot tables are well formed and where [n] has no definition yet.  Then
    [stab_find_type] answers an indirect type on the slot of [n], which
    resolves to nothing; [stab_record_type n h] succeeds and writes [h] in
    that very slot, so the indirect type handed out before resolves to [h];
    and [stab_find_type] after it answers [h] itself.  The slot tables stay
    well formed. *)
Theorem indirection_transparency E w n h :
  types_wf w -> to_uint (fst n) < files w -> is_xcoff_number n = false ->
  (forall sl, lookup_slot n w = Some sl -> read_slot sl w = Some DEBUG_TYPE_NULL) ->
  exists sl w1 w2,
    stab_find_type E n w = Some (Some (DIndirect sl None), w1) /\
    resolve w1 (DIndirect sl None) = DEBUG_TYPE_NULL /\
    stab_record_type n (Some h) w1 = Some (true, w2) /\
    resolve w2 (DIndirect sl None) = Some h /\
    stab_find_type E n w2 = Some (Some h, w2) /\
    types_wf w2.
Proof.
  intros Hwf Hf Hx Hempty.
  destruct (stab_find_slot_establish w n Hwf Hf)
    as (sl & w1 & Hfind & Hwf1 & Hl1 & Hok1 & Hf1 & _ & _ & _ & _ & _ & Hcase).
  assert (read_slot sl w1 = Some DEBUG_TYPE_NULL) as Hr1.
  { destruct Hcase as [[Hl ->]|[_ Hr]]; [by apply Hempty|done]. }
  exists sl, w1, (write_slot sl (Some h) w1).
  split.
  { unfold stab_find_type. unfold is_xcoff_number in Hx. rewrite Hx.
    unfold bind. rewrite Hfind. unfold load. by rewrite Hr1. }
  split; [simpl; by rewrite Hr1|].
  split; [apply stab_record_type_slot; [lia|done]|].
  assert (read_slot sl (write_slot sl (Some h) w1) = Some (Some h)) as Hr2
    by (by apply read_write_slot).
  split; [simpl; by rewrite Hr2|].
  split; [|by apply write_slot_wf].
  rewrite (stab_find_type_slot E n _ sl Hx).
  - by rewrite Hr2.
  - rewrite files_write_slot. lia.
  - by rewrite lookup_slot_write_slot.
Qed.

Lemma sink_write_slot sl v w : sink (write_slot sl v w) = sink w.
Proof. by destruct sl. Qed.

(** C5 (amended).  For a type number [n] with a file index in range, in a
    state whose slot tables are well formed, [stab_record_type n h1]
    followed by [stab_record_type n h2] succeeds both times, prints
    nothing, and the slot of [n] holds [h2].  A lookup with
    [stab_find_type] then answers [h2] when [n] is not an XCOFF builtin
    number (a negative number in file 0).  The slot tables stay well
    formed. *)
Theorem redefinition_overwrites E w n h1 h2 :
  types_wf w -> to_uint (fst n) < files w ->
  exists sl w1 w2,
    stab_record_type n (Some h1) w = Some (true, w1) /\
    stab_record_type n (Some h2) w1 = Some (true, w2) /\
    stderr w2 = stderr w /\ sink w2 = sink w /\
    stab_find_slot n w2 = Some (Some sl, w2) /\
    read_slot sl w2 = Some (Some h2) /\
    (is_xcoff_number n = false -> stab_find_type E n w2 = Some (Some h2, w2)) /\
    types_wf w2.
Proof.
  intros Hwf Hf.
  destruct (stab_find_slot_establish w n Hwf Hf)
    as (sl & w0 & Hfind & Hwf0 & Hl0 & Hok0 & Hf0 & Hsink & Herr & _).
  exists sl, (write_slot sl (Some h1) w0),
    (write_slot sl (Some h2) (write_slot sl (Some h1) w0)).
  split; [unfold stab_record_type, bind; by rewrite Hfind|].
  assert (lookup_slot n (write_slot sl (Some h1) w0) = Some sl) as Hl1
    by (by rewrite lookup_slot_write_slot).
  split; [apply stab_record_type_slot; [rewrite files_write_slot; lia|done]|].
  split; [by rewrite !stderr_write_slot|].
  split; [by rewrite !sink_write_slot|].
  assert (read_slot sl (write_slot sl (Some h2) (write_slot sl (Some h1) w0))
          = Some (Some h2)) as Hread.
  { rewrite read_write_slot; [done|].
    unfold slot_ok. rewrite read_write_slot by done. eauto. }
  split.
  { apply stab_find_slot_found; [rewrite !files_write_slot; lia|].
    by rewrite !lookup_slot_write_slot. }
  split; [done|].
  split; [|by do 2 apply write_slot_wf].
  intros Hx. rewrite (stab_find_type_slot E n _ sl Hx).
  - by rewrite Hread.
  - rewrite !files_write_slot. lia.
  - by rewrite !lookup_slot_write_slot.
Qed.

(** C5, instance: (0, 5) defined as void, then as a 4-byte integer. *)
Lemma redefinition_overwrites_witness :
  exists sl w1 w2,
    stab_record_type (0, 5) (Some DVoid) (start_stab "000" false []) = Some (true, w1) /\
    stab_record_type (0, 5) (Some (DInt 4 false)) w1 = Some (true, w2) /\
    stderr w2 = [] /\ sink w2 = [] /\
    stab_find_slot (0, 5) w2 = Some (Some sl, w2) /\
    read_slot sl w2 = Some (Some (DInt 4 false)) /\
    (is_xcoff_number (0, 5) = false ->
     stab_find_type plain_sink (0, 5) w2 = Some (Some (DInt 4 false), w2)) /\
    types_wf w2.
Proof.
  apply (redefinition_overwrites plain_sink (start_stab "000" false []) (0, 5)
           DVoid (DInt 4 false)).
  - apply start_stab_wf.
  - reflexivity.
Defined.

(** C1, instance: type number (0, 5) in a new session, defined as void. *)
Lemma indirection_transparency_witness :
  exists sl w1 w2,
    stab_find_type plain_sink (0, 5) (start_stab "000" false []) = Some (Some (DIndirect sl None), w1) /\
    resolve w1 (DIndirect sl None) = DEBUG_TYPE_NULL /\
    stab_record_type (0, 5) (Some DVoid) w1 = Some (true, w2) /\
    resolve w2 (DIndirect sl None) = Some DVoid /\
    stab_find_type plain_sink (0, 5) w2 = Some (Some DVoid, w2) /\
    types_wf w2.
Proof.
  apply (indirection_transparency plain_sink (start_stab "000" false []) (0, 5) DVoid).
  - apply start_stab_wf.
  - reflexivity.
  - reflexivity.
  - intros sl H. vm_compute in H. discriminate H.
Defined.

(** C1, the claim as written fails at the two guards of the lookup and on
    a number that is defined already.  In a new session, [stab_find_type]
    on (0, -3) answers the XCOFF builtin type "short", not an indirect
    type, and still answers it after [stab_record_type] stored void under
    (0, -3); on (5, 1), whose file number is out of range,
    [stab_find_type] answers [DEBUG_TYPE_NULL] with a message and
    [stab_record_type] fails; and on (0, 5) once it is defined as void, a
    lookup before the next [stab_record_type] answers void itself, which
    stays void when (0, 5) is defined again as an integer. *)
Lemma lookup_guards_type_numbers :
  (exists w1,
     stab_find_type plain_sink (0, -3) (start_stab "000" false [])
     = Some (Some (DNamed "short" (DInt 2 false)), w1)) /\
  (exists w1 w2,
     stab_record_type (0, -3) (Some DVoid) (start_stab "000" false []) = Some (true, w1) /\
     stab_find_type plain_sink (0, -3) w1
     = Some (Some (DNamed "short" (DInt 2 false)), w2)) /\
  (exists w1,
     stab_find_type plain_sink (5, 1) (start_stab "000" false [])
     = Some (DEBUG_TYPE_NULL, w1) /\
     stderr w1 = [Type_file_number_out_of_range 5]) /\
  (exists w1,
     stab_record_type (5, 1) (Some DVoid) (start_stab "000" false []) = Some (false, w1)) /\
  (exists w1 w2 w3,
     stab_record_type (0, 5) (Some DVoid) (start_stab "000" false []) = Some (true, w1) /\
     stab_find_type plain_sink (0, 5) w1 = Some (Some DVoid, w2) /\
     stab_record_type (0, 5) (Some (DInt 4 false)) w2 = Some (true, w3) /\
     resolve w3 DVoid = Some DVoid).
Proof.
  split; [eexists; vm_compute; reflexivity|].
  split; [eexists _, _; split; vm_compute; reflexivity|].
  split; [eexists; split; vm_compute; reflexivity|].
  split; [eexists; vm_compute; reflexivity|].
  eexists _, _, _. repeat split; vm_compute; reflexivity.
Qed.

(** C5, the claim as written fails on a negative number of file 0: (0, -3)
    recorded as void and then as a 4-byte integer, both with success, is
    still looked up as the XCOFF builtin type "short". *)
Lemma redefined_xcoff_number_keeps_builtin :
  exists w1 w2 w3,
    stab_record_type (0, -3) (Some DVoid) (start_stab "000" false []) = Some (true, w1) /\
    stab_record_type (0, -3) (Some (DInt 4 false)) w1 = Some (true, w2) /\
    stab_find_type plain_sink (0, -3) w2
    = Some (Some (DNamed "short" (DInt 2 false)), w3).
Proof. eexists _, _, _. repeat split; vm_compute; reflexivity. Qed.

(** ** Tags and cross references *)

Lemma find_tag_Some nodes name : forall l i,
  find_tag nodes l name = Some i ->
  In i l /\ exists st, nodes !! i = Some st /\ tag_name st = name.
Proof.
  induction l as [|j l IH]; intros i Hf; simpl in Hf; [done|].
  destruct (nodes !! j) as [st|] eqn:Hj.
  - destruct (CStr.cheq _ _ && CStr.streq (tag_name st) name) eqn:Ht.
    + injection Hf as <-. split; [by left|]. exists st. split; [done|].
      apply andb_true_iff in Ht as [_ Ht]. by apply String.eqb_eq in Ht.
    + destruct (IH _ Hf) as [Hin Hst]. split; [by right|done].
  - destruct (IH _ Hf) as [Hin Hst]. split; [by right|done].
Qed.

Section TaggedType.

Variable E : externals.


End TaggedType.

Lemma strchr_app_skip c name : forall rest,
  no_char c name -> CStr.strchr (name ++ rest) c = CStr.strchr rest c.
Proof.
  induction name as [|d name IH]; intros rest Hn; [done|]. simpl.
  unfold no_char in Hn. simpl in Hn.
  destruct (Ascii.eqb_spec d c) as [->|Hne]; [tauto|]. apply IH. unfold no_char. tauto.
Qed.

Lemma strchr_here c rest : CStr.strchr (String c rest) c = Some (String c rest).
Proof. simpl. by rewrite Ascii.eqb_refl. Qed.

Lemma length_app_string a b : String.length (a ++ b) = (String.length a + String.length b)%nat.
Proof. induction a as [|c a IH]; simpl; [done|]. by rewrite IH. Qed.

Lemma diff_app name rest : CStr.diff (name ++ rest) rest = String.length name.
Proof. unfold CStr.diff. rewrite length_app_string. lia. Qed.

Lemma take_app name rest : CStr.take (String.length name) (name ++ rest) = name.
Proof. induction name as [|c name IH]; simpl; [by destruct rest|]. by rewrite IH. Qed.










Section SelfCrossReference.

Variables (E : externals) (name rest : string) (k : ascii).
Hypothesis name_no_colon : no_char ":" name.
Hypothesis name_no_angle : no_char "<" name.
Hypothesis k_not_nul : k <> CStr.NUL.


End SelfCrossReference.




Lemma seek_chunk_same w w' :
  chunks w' = chunks w -> file_types w' = file_types w ->
  forall fuel ps base, seek_chunk fuel w' ps base = seek_chunk fuel w ps base.
Proof.
  intros Hch Hft.
  assert (forall ps, read_cell ps w' = read_cell ps w) as Hcell
      by (intros []; simpl; by rewrite ?Hft, ?Hch).
  induction fuel as [|f IH]; intros ps base; simpl; rewrite Hcell, Hch; [done|].
  destruct (read_cell ps w); [|done].
  destruct (chunks w !! n); [|done]. destruct (_ <? _); [apply IH|done].
Qed.

Lemma lookup_slot_same w w' n :
  chunks w' = chunks w -> file_types w' = file_types w ->
  lookup_slot n w' = lookup_slot n w.
Proof.
  intros Hch Hft. unfold lookup_slot. rewrite Hch, (seek_chunk_same w w' Hch Hft).
  destruct (seek_chunk _ _ _ _) as [ps|]; [|done].
  assert (read_cell ps w' = read_cell ps w) as ->
      by (destruct ps; simpl; by rewrite ?Hft, ?Hch).
  done.
Qed.

Lemma append_assoc (a b c : string) : (a ++ b) ++ c = a ++ (b ++ c).
Proof. induction a as [|x a IH]; simpl; [done|by rewrite IH]. Qed.

Section SelfReferentialTag.

Variables (E : externals) (rec : parser) (name rest : string) (k : ascii).
Hypothesis Hname : plain_tag_name name.
Hypothesis Hk : k <> CStr.NUL.
Local Abbreviation body := (String k (name ++ String ":" rest)).
Local Abbreviation xref := (String "x" body).


End SelfReferentialTag.


Lemma peek_app a b : a <> "" -> CStr.peek (a ++ b) = CStr.peek a.
Proof. by destruct a. Qed.

Lemma stab_symbol_name_plain name p w :
  plain_tag_name name -> CStr.peek p = ":"%char ->
  stab_symbol_name (name ++ p) p w = Some (Some name, w).
Proof.
  intros (Hne & _ & _ & Hd & Hs) Hp. unfold stab_symbol_name.
  destruct name as [|c name]; [done|]. simpl in Hd, Hs.
  change (CStr.at_ (String c name ++ p) 0) with c.
  unfold CStr.cheq at 1. destruct (Ascii.eqb_spec c "$") as [?|_]; [done|].
  unfold bind, ret. f_equal. f_equal.
  unfold CStr.cheq. destruct (Ascii.eqb_spec c " ") as [?|_]; [done|].
  rewrite andb_false_l, orb_false_r.
  rewrite length_app_string.
  destruct (Nat.eqb_spec (String.length p) (String.length (String c name) + String.length p))
    as [Heq|_]; [simpl in Heq; lia|].
  by rewrite diff_app, take_app.
Qed.



Lemma start_stab_tags_wf leading in_sections symbols :
  tags_wf (start_stab leading in_sections symbols).
Proof. intros j Hj. destruct Hj. Qed.


(** ** Stub methods *)

Lemma skip_length_app a b : CStr.skip (String.length a) (a ++ b) = b.
Proof. induction a as [|c a IH]; [done|exact IH]. Qed.

Section StubDemangleFailure.

Variables (E : externals) (rec : parser).
Variables (orig : string) (tagname : option string) (typenums : Z * Z) (name : string).
Variables (pp pp1 : string) (look : debug_type) (h : variant_head).
Variables (w w1 w2 w3 : world) (class_type return_type : dtype).
Variables (physname : string) (physname_len : nat) (va : bool).
Hypothesis Hhead :
  parse_member_variant_head E rec orig name pp look w = Some ((Some h, pp1), w1).
Hypothesis Hstub : vh_stub h = true.
Hypothesis Hclass : stab_find_type E typenums w1 = Some (Some class_type, w2).
Hypothesis Hreturn : debug_get_return_type E w2 (vh_type h) = Some return_type.
Hypothesis Hmangled :
  mangled_physname name tagname (vh_argtypes h) (vh_constp h) (vh_volatilep h)
    (vh_argtypes h) = Some (physname, physname_len).
Hypothesis Hargs :
  CStr.cheq (CStr.peek (vh_argtypes h)) CStr.NUL || is_destructor_name (vh_argtypes h)
  = false.
Hypothesis Hdemangle :
  stab_demangle_argtypes E physname physname_len w2 = Some ((None, va), w3).

Lemma parse_stab_argtypes_fails :
  parse_stab_argtypes E (Some class_type) name tagname (Some return_type)
    (vh_argtypes h) (vh_constp h) (vh_volatilep h) (vh_argtypes h) w2
  = Some ((DEBUG_TYPE_NULL, physname), w3).
Proof.
  unfold parse_stab_argtypes. rewrite Hmangled, Hargs.
  unfold bind. by rewrite Hdemangle.
Qed.

Lemma parse_stub_method_type_fails :
  parse_stub_method_type E orig tagname typenums name (vh_type h) (vh_argtypes h)
    (vh_constp h) (vh_volatilep h) w1
  = Some ((DEBUG_TYPE_NULL, physname), w3).
Proof.
  unfold parse_stub_method_type. unfold bind at 1. rewrite Hclass. cbv beta iota.
  unfold bind at 1, query, get. rewrite Hreturn. cbv beta iota.
  apply parse_stab_argtypes_fails.
Qed.

Lemma parse_stab_member_variant_fails :
  parse_stab_member_variant E rec orig tagname typenums name pp look w
  = Some ((None, pp1), w3).
Proof.
  unfold parse_stab_member_variant. unfold bind at 1. rewrite Hhead. cbv beta iota.
  rewrite Hstub. unfold bind at 1. by rewrite parse_stub_method_type_fails.
Qed.

Lemma parse_stab_member_variants_fails fuel variants :
  parse_stab_member_variants E fuel rec orig tagname typenums name pp look variants w
  = Some ((None, pp1), w3).
Proof.
  destruct fuel; simpl; unfold bind at 1; by rewrite parse_stab_member_variant_fails.
Qed.

Lemma parse_stab_members_loop_fails fuel methods q :
  method_start q name pp -> look = DEBUG_TYPE_NULL ->
  parse_stab_members_loop E fuel rec orig tagname typenums q methods w
  = Some ((None, pp1), w3).
Proof.
  intros (Hq & Hcolon & Hsemi & Hop) Hl.
  assert (forall k,
    parse_stab_member_variants E k rec orig tagname typenums name pp
      look [] w = Some ((None, pp1), w3)) as Hv
      by (intros k; apply parse_stab_member_variants_fails).
  rewrite Hl in Hv. clear Hl.
  change ("::" ++ pp) with (String ":" (String ":" pp)) in Hq. subst q.
  destruct fuel; simpl; rewrite Hsemi;
    rewrite (strchr_app_skip ":" name _ Hcolon), strchr_here;
    change (CStr.at_ (String ":" (String ":" pp)) 1) with ":"%char;
    change (CStr.cheq ":" ":") with true; cbn [negb];
    rewrite Hop; cbn [negb];
    unfold bind at 1; unfold ret at 1; cbv beta iota;
    change (CStr.skip 2 (String ":" (String ":" pp))) with pp;
    rewrite diff_app, take_app; unfold bind at 1; by rewrite Hv.
Qed.

Lemma parse_stab_members_fails q :
  method_start q name pp -> look = DEBUG_TYPE_NULL -> orig = q ->
  parse_stab_members E rec tagname q typenums w = Some ((false, None, pp1), w3).
Proof.
  intros Hq Hl Ho. unfold parse_stab_members. rewrite <- Ho. rewrite <- Ho in Hq.
  assert (at_end orig = false) as ->.
  { destruct Hq as (Hq & _). rewrite Hq. unfold at_end. by destruct name. }
  unfold bind at 1.
  by rewrite (parse_stab_members_loop_fails _ None orig Hq Hl).
Qed.

(** C4 (amended).  A stub method variant whose physical name does not
    demangle ([stab_demangle_argtypes] gives no argument list) is not a
    local failure.  [parse_stab_argtypes] returns [DEBUG_TYPE_NULL]; the
    loop over the variants of the method takes the [goto fail] whatever
    variants it has collected; so does the loop over the methods whatever
    methods it has collected; [parse_stab_members] returns false with no
    method list, and [parse_stab_struct_type] returns [DEBUG_TYPE_NULL] for
    the aggregate. *)
Theorem stub_demangle_failure_fails_aggregate :
  parse_stab_argtypes E (Some class_type) name tagname (Some return_type)
    (vh_argtypes h) (vh_constp h) (vh_volatilep h) (vh_argtypes h) w2
  = Some ((DEBUG_TYPE_NULL, physname), w3) /\
  (forall fuel variants,
     parse_stab_member_variants E fuel rec orig tagname typenums name pp look variants w
     = Some ((None, pp1), w3)) /\
  (forall q, method_start q name pp -> look = DEBUG_TYPE_NULL ->
     (forall fuel methods,
        parse_stab_members_loop E fuel rec orig tagname typenums q methods w
        = Some ((None, pp1), w3)) /\
     (orig = q ->
      parse_stab_members E rec tagname q typenums w = Some ((false, None, pp1), w3) /\
      forall s structp w0 size s1 ov wa bc s2 wb fields statics,
        parse_number s false w0 = Some ((size, s1, ov), wa) ->
        parse_stab_baseclasses E s1 wa = Some ((true, bc, s2), wb) ->
        parse_stab_struct_fields E s2 wb = Some ((true, fields, statics, q), w) ->
        parse_stab_struct_type E rec tagname s structp typenums w0
        = Some ((DEBUG_TYPE_NULL, pp1), w3))).
Proof.
  split; [apply parse_stab_argtypes_fails|].
  split; [apply parse_stab_member_variants_fails|].
  intros q Hq Hl. split; [intros; by apply parse_stab_members_loop_fails|].
  intros Ho. pose proof (parse_stab_members_fails q Hq Hl Ho) as Hm.
  split; [done|].
  intros s structp w0 size s1 ov wa bc s2 wb fields statics Hsize Hbase Hfields.
  unfold parse_stab_struct_type. unfold bind at 1. rewrite Hsize. cbv beta iota.
  unfold bind at 1. rewrite Hbase. cbv beta iota. cbn [negb].
  unfold bind at 1. rewrite Hfields. cbv beta iota. cbn [negb].
  unfold bind at 1. rewrite Hm. reflexivity.
Qed.

End StubDemangleFailure.

(** C4, instance: the method [bar] with the variant [##2;:_x;2A.;], whose
    name [bar___x] has a signature that starts with an underscore. *)
Lemma stub_demangle_failure_fails_aggregate_witness :
  exists w3,
    parse_stab_members plain_sink (parse_stab_type plain_sink 5) None
      "bar::##2;:_x;2A.;;" (0, 1) (start_stab "000" false [])
    = Some ((false, None, ";;"), w3).
Proof.
  eexists.
  edestruct (stub_demangle_failure_fails_aggregate plain_sink (parse_stab_type plain_sink 5)
               "bar::##2;:_x;2A.;;" None (0, 1) "bar" "##2;:_x;2A.;;" ";;" None
               (mkVariantHead (Some (DMethod (DIndirect (TypeSlot 0 2) None) None None false))
                  "_x" DEBUG_VISIBILITY_PUBLIC false false false 0 None None true)
               (start_stab "000" false []))
    as (_ & _ & H).
  - vm_compute. reflexivity.
  - reflexivity.
  - vm_compute. reflexivity.
  - vm_compute. reflexivity.
  - vm_compute. reflexivity.
  - reflexivity.
  - vm_compute. reflexivity.
  - refine (proj1 (proj2 (H "bar::##2;:_x;2A.;;" _ eq_refl) eq_refl)).
    repeat split. intros Hin. vm_compute in Hin. intuition discriminate.
Defined.

(** C4, the claim as written fails: the method list [foo] alone is read,
    and the same list followed by a stub [bar] that does not demangle gives
    no method list at all: [parse_stab_members] returns false and the
    method [foo] is lost with it. *)
Lemma one_bad_stub_loses_every_method :
  (exists w1,
     parse_stab_members plain_sink (parse_stab_type plain_sink 5) None
       "foo::#1,2,3;:foo__Fi;2A.;;" (0, 1) (start_stab "000" false [])
     = Some ((true,
              Some [DMethodGroup "foo"
                      [DMethodVariant "foo__Fi"
                         (DMethod (DIndirect (TypeSlot 0 2) None)
                            (Some (DIndirect (TypeSlot 0 1) None))
                            (Some [DIndirect (TypeSlot 0 3) None]) true)
                         DEBUG_VISIBILITY_PUBLIC false false 0 None]],
              ";"), w1)) /\
  (exists w2,
     parse_stab_members plain_sink (parse_stab_type plain_sink 5) None
       "foo::#1,2,3;:foo__Fi;2A.;bar::##2;:_x;2A.;;" (0, 1) (start_stab "000" false [])
     = Some ((false, None, ";;"), w2) /\
     stderr w2 = [Bad_mangled_name "_x"]).
Proof.
  split; eexists; [vm_compute; reflexivity|].
  split; vm_compute; reflexivity.
Qed.

(** ** Include files *)










(** ** Numbers and ranges *)



(** with a flag, [parse_number] leaves the state alone *)
Lemma parse_number_flag_state pp w r w' :
  parse_number pp true w = Some (r, w') -> w' = w.
Proof.
  unfold parse_number.
  destruct (String.eqb pp ""); [by intros [= _ <-]|].
  destruct (CStr.cheq (CStr.peek pp) CStr.NUL); [by intros [= _ <-]|].
  destruct (Libc.strtoul pp) as [[ul p] erange].
  destruct (negb (to_vma (ul + 1) =? 0) || negb erange).
  - destruct (CStr.cheq (CStr.peek pp) "-"); by intros [= _ <-].
  - destruct (if sizeof_unsigned_long_long <? sizeof_bfd_vma then _ else _);
      by intros [= _ <-].
Qed.

Lemma parse_number_state_indep pp w w' r :
  parse_number pp true w = Some (r, w) -> parse_number pp true w' = Some (r, w').
Proof.
  unfold parse_number.
  destruct (String.eqb pp ""); [by intros [= <-]|].
  destruct (CStr.cheq (CStr.peek pp) CStr.NUL); [by intros [= <-]|].
  destruct (Libc.strtoul pp) as [[ul p] erange].
  destruct (negb (to_vma (ul + 1) =? 0) || negb erange).
  - destruct (CStr.cheq (CStr.peek pp) "-"); by intros [= <-].
  - destruct (if sizeof_unsigned_long_long <? sizeof_bfd_vma then _ else _);
      by intros [= <-].
Qed.

Lemma prefix_app pre : forall s, String.prefix pre s = true -> exists t, s = pre ++ t.
Proof.
  induction pre as [|c pre IH]; intros s Hp; [by exists s|].
  destruct s as [|d s]; [done|]. simpl in Hp.
  destruct (ascii_dec c d) as [->|]; [|done].
  destruct (IH _ Hp) as [t ->]. by exists t.
Qed.

Lemma long_long_bounds_fit s p n ov w :
  (CStr.startswith s LLLOW = true \/ CStr.startswith s LLHIGH = true
   \/ CStr.startswith s ULLHIGH = true) ->
  parse_number s true w = Some ((n, p, ov), w) -> ov = false.
Proof.
  intros Hpre Hn.
  assert (exists t, s = LLLOW ++ t \/ s = LLHIGH ++ t \/ s = ULLHIGH ++ t) as Hs.
  { destruct Hpre as [H|[H|H]]; apply prefix_app in H as [t ->]; eauto. }
  destruct Hs as (t & [-> | [-> | ->]]); vm_compute in Hn; congruence.
Qed.

Section RangeScan.

Variables (E : externals) (rec : parser) (type_name : option string).
Variables (pp p1 p2 rest : string) (typenums rangenums : Z * Z) (w w1 : world).
Variables (n2 n3 : Z) (ov2 ov3 : bool).
Hypothesis Hstart : pp <> "".
Hypothesis Hnum : parse_stab_type_number pp w = Some ((Some rangenums, p1), w1).
Hypothesis Hnoindex : CStr.cheq (CStr.peek p1) "=" = false.
Hypothesis Hlow :
  parse_number (if CStr.cheq (CStr.peek p1) ";" then CStr.advance p1 else p1) true w1
  = Some ((n2, String ";" p2, ov2), w1).
Hypothesis Hhigh : parse_number p2 true w1 = Some ((n3, String ";" rest, ov3), w1).

Lemma parse_stab_range_type_scanned :
  parse_stab_range_type E rec type_name pp typenums w
  = range_from_bounds E pp type_name
      ((fst rangenums =? fst typenums) && (snd rangenums =? snd typenums))
      rangenums true (to_signed_vma n2) (to_signed_vma n3) rest
      (if ov2 || ov3
       then upd_stderr (fun l => (l ++ [Warning "numeric overflow" pp])%list) w1
       else w1).
Proof.
  unfold parse_stab_range_type, at_end.
  destruct (String.eqb_spec pp "") as [?|_]; [done|].
  unfold bind at 1. rewrite Hnum. rewrite Hnoindex.
  unfold bind at 1. unfold ret at 1. cbv beta iota.
  unfold bind at 1. rewrite Hlow. cbv beta iota.
  change (CStr.cheq (CStr.peek (String ";" p2)) ";") with true.
  change (CStr.advance (String ";" p2)) with p2. cbv beta iota. change (negb true) with false. cbv iota.
  unfold bind at 1. rewrite Hhigh. cbv beta iota.
  change (CStr.cheq (CStr.peek (String ";" rest)) ";") with true.
  change (CStr.advance (String ";" rest)) with rest. change (negb true) with false. cbv iota.
  change (match DEBUG_TYPE_NULL with Some _ => false | None => true end) with true.
  cbv iota.
  rewrite andb_true_r.
  assert ((if ov2 || ov3
           then if CStr.startswith
                     (if CStr.cheq (CStr.peek p1) ";" then CStr.advance p1 else p1) LLLOW
                   && CStr.startswith p2 LLHIGH
                then Some (debug_make_int_type 8 false)
                else if negb ov2 && (to_signed_vma n2 =? 0) && CStr.startswith p2 ULLHIGH
                     then Some (debug_make_int_type 8 true) else None
           else None) = None) as ->.
  { destruct (ov2 || ov3) eqn:Hov; [|done].
    destruct (CStr.startswith _ LLLOW) eqn:H1; simpl.
    - destruct (CStr.startswith p2 LLHIGH) eqn:H2; simpl.
      + rewrite (long_long_bounds_fit _ _ _ _ _ (or_introl H1) Hlow) in Hov.
        rewrite (long_long_bounds_fit _ _ _ _ _ (or_intror (or_introl H2)) Hhigh) in Hov.
        done.
      + destruct (CStr.startswith p2 ULLHIGH) eqn:H3; [|by rewrite andb_false_r].
        rewrite (long_long_bounds_fit _ _ _ _ _ (or_introl H1) Hlow) in Hov.
        rewrite (long_long_bounds_fit _ _ _ _ _ (or_intror (or_intror H3)) Hhigh) in Hov.
        done.
    - destruct (CStr.startswith p2 ULLHIGH) eqn:H3; [|by rewrite andb_false_r].
      rewrite (long_long_bounds_fit _ _ _ _ _ (or_intror (or_intror H3)) Hhigh) in Hov.
      rewrite orb_false_r in Hov. by rewrite Hov. }
  unfold bind at 1. destruct (ov2 || ov3); reflexivity.
Qed.

Lemma parse_stab_range_type_builtin t :
  range_builtin_type type_name
    ((fst rangenums =? fst typenums) && (snd rangenums =? snd typenums))
    (to_signed_vma n2) (to_signed_vma n3) = Some t ->
  parse_stab_range_type E rec type_name pp typenums w
  = Some ((t, rest),
          if ov2 || ov3
          then upd_stderr (fun l => (l ++ [Warning "numeric overflow" pp])%list) w1
          else w1).
Proof.
  intros Ht. rewrite parse_stab_range_type_scanned.
  unfold range_from_bounds. by rewrite Ht.
Qed.

End RangeScan.

Lemma to_signed_to_vma z : - 2 ^ 63 <= z < 2 ^ 63 -> to_signed_vma (to_vma z) = z.
Proof.
  intros Hz. unfold to_signed_vma, to_vma, two64. rewrite Z.mod_mod by lia.
  destruct (Z.ltb_spec (z mod 2 ^ 64) (2 ^ 63)) as [Hlt|Hge].
  - destruct (Z.lt_ge_cases z 0) as [Hneg|Hpos].
    + rewrite <- (Z.mod_add z 1 (2 ^ 64)) in Hlt by lia.
      rewrite Z.mod_small in Hlt by lia. lia.
    + apply Z.mod_small. lia.
  - destruct (Z.lt_ge_cases z 0) as [Hneg|Hpos].
    + rewrite <- (Z.mod_add z 1 (2 ^ 64)) by lia. rewrite Z.mod_small by lia. lia.
    + rewrite Z.mod_small in Hge by lia. lia.
Qed.

Ltac zb :=
  repeat match goal with
    | H : (_ && _) = true |- _ => apply andb_true_iff in H; destruct H
    | H : (_ =? _) = true |- _ => apply Z.eqb_eq in H
    | H : String.eqb _ _ = true |- _ => apply String.eqb_eq in H
    end.

Lemma bound_synthesis_table type_name self lower upper t :
  bound_synthesis type_name self lower upper = Some t ->
  range_builtin_type type_name self lower upper = Some (Some t).
Proof.
  unfold bound_synthesis.
  destruct (self && (lower =? 0) && (upper =? 0)) eqn:H1.
  { intros [= <-]. zb. subst. reflexivity. }
  destruct (self && (lower =? 0) && (upper =? 127)) eqn:H2.
  { intros [= <-]. zb. subst. reflexivity. }
  destruct ((lower =? 0) && (upper =? -1)) eqn:H3.
  { zb. subst. destruct self; destruct type_name as [name|]; simpl;
      unfold range_builtin_type, CStr.streq; simpl;
      try (destruct (String.eqb name "long long int");
           [|destruct (String.eqb name "long long unsigned int")]);
      by intros [= <-]. }
  destruct (lower =? - upper - 1) eqn:H4; [|done]. zb.
  destruct (upper =? 127) eqn:U1; [zb; subst; intros [= <-]; by destruct self|].
  destruct (upper =? 32767) eqn:U2; [zb; subst; intros [= <-]; by destruct self|].
  destruct (upper =? 2147483647) eqn:U3; [zb; subst; intros [= <-]; by destruct self|].
  destruct (upper =? 9223372036854775807) eqn:U4; [zb; subst; intros [= <-]; by destruct self|].
  done.
Qed.

(** C2 (amended).  Bound synthesis of [parse_stab_range_type], for a range
    without explicit index type whose two bounds are scanned without
    overflow: the result is the type of [bound_synthesis].  A
    self-referential (0, 0) is void; a self-referential (0, 127) is the
    signed 1-byte integer; (0, -1) is the signed 8-byte integer under the
    name "long long int", the unsigned 8-byte integer under "long long
    unsigned int" and the unsigned 4-byte integer otherwise; lower =
    -upper-1 with upper 0x7f, 0x7fff, 0x7fffffff or 0x7fffffffffffffff is
    the signed integer of 1, 2, 4 or 8 bytes. *)
Theorem range_bound_synthesis E rec type_name pp typenums w self lower upper rest w1 t :
  scans_range pp typenums w self lower upper rest w1 ->
  bound_synthesis type_name self lower upper = Some t ->
  parse_stab_range_type E rec type_name pp typenums w = Some ((Some t, rest), w1).
Proof.
  intros (rangenums & p1 & p2 & Hne & Hnum & Hidx & -> & Hlow & Hhigh & Hl & Hu) Ht.
  apply bound_synthesis_table in Ht.
  rewrite (parse_stab_range_type_builtin E rec type_name pp p1 p2 rest typenums rangenums
             w w1 _ _ false false Hne Hnum Hidx Hlow Hhigh (Some t)); [done|].
  by rewrite !to_signed_to_vma.
Qed.

(** C2, instance: the range of [signed char], -128 to 127. *)
Lemma range_bound_synthesis_witness :
  exists w1,
    parse_stab_range_type plain_sink (parse_stab_type plain_sink 0) None
      "1;-128;127;" (0, 7) (start_stab "000" false [])
    = Some ((Some (DInt 1 false), ""), w1).
Proof.
  exists (start_stab "000" false []).
  apply (range_bound_synthesis plain_sink (parse_stab_type plain_sink 0) None
           "1;-128;127;" (0, 7) (start_stab "000" false []) false (-128) 127 "").
  - exists (0, 1), ";-128;127;", "127;".
    repeat split; try reflexivity; try discriminate.
  - reflexivity.
Defined.

(** C2, the claim as written fails: the self-referential range (0, 127)
    is the signed 1-byte integer ([debug_make_int_type (1, false)]) and the
    range (0, -1) named "long long int" is the signed 8-byte integer; the
    unsigned ones are other nodes. *)
Lemma range_0_127_is_signed :
  (exists w1,
     parse_stab_range_type plain_sink (parse_stab_type plain_sink 0) None
       "2;0;127;" (0, 2) (start_stab "000" false [])
     = Some ((Some (DInt 1 false), ""), w1)) /\
  (exists w1,
     parse_stab_range_type plain_sink (parse_stab_type plain_sink 0)
       (Some "long long int") "1;0;-1;" (0, 6) (start_stab "000" false [])
     = Some ((Some (DInt 8 false), ""), w1)) /\
  debug_make_int_type 1 true = Some (DInt 1 true) /\
  debug_make_int_type 8 true = Some (DInt 8 true).
Proof.
  split; [eexists; vm_compute; reflexivity|].
  split; [eexists; vm_compute; reflexivity|].
  split; reflexivity.
Qed.





(** ** Pending variables and the dispatcher *)

Section Pending.

Variable E : externals.
Hypothesis accepts_variables :
  forall trace name t kind val,
    sink_accepts E trace (Ev_record_variable name t kind val) = true.

Lemma record_variables_queue vars : forall w,
  within_function w = true ->
  (gcc_compiled w =? 0) && n_opt_found w = false ->
  Forall (fun v => is_global_or_static (pv_kind v) = false) vars ->
  record_variables E vars w = Some (true, upd_pending (fun p => (rev vars ++ p)%list) w).
Proof.
  induction vars as [|v vars IH]; intros w Hin Hgcc Hk.
  - simpl. unfold ret. destruct w. reflexivity.
  - inversion Hk as [|? ? Hv Hrest]; subst. simpl.
    unfold bind at 1. unfold stab_record_variable, bind, get.
    rewrite Hin, Hv, Hgcc. simpl. unfold bind, modify, ret.
    rewrite IH; try done. f_equal. f_equal.
    unfold upd_pending; simpl. destruct v; simpl. by rewrite <- app_assoc.
Qed.

Lemma emit_pending_loop_all p : forall w,
  emit_pending_loop E p w
  = Some (true, upd_sink (fun s => (s ++ map variable_event p)%list) w).
Proof.
  induction p as [|v p IH]; intros w.
  - simpl. unfold ret, upd_sink. rewrite app_nil_r. by destruct w.
  - simpl. unfold bind, debug_record_variable, sink_call.
    rewrite accepts_variables. simpl. rewrite IH. f_equal. f_equal.
    unfold upd_sink; simpl. by rewrite <- app_assoc.
Qed.

Lemma stab_emit_pending_vars_all w :
  stab_emit_pending_vars E w
  = Some (true, set_pending [] (upd_sink (fun s => (s ++ map variable_event (pending w))%list) w)).
Proof.
  unfold stab_emit_pending_vars, bind, get. rewrite emit_pending_loop_all. done.
Qed.

End Pending.

Lemma stab_emit_pending_vars_idle E w :
  pending w = [] -> stab_emit_pending_vars E w = Some (true, w).
Proof.
  intros Hp. unfold stab_emit_pending_vars, bind, get. rewrite Hp.
  cbn [emit_pending_loop]. unfold ret, modify. cbn [negb].
  destruct w; cbn in *; subst; reflexivity.
Qed.

(** C3 (amended).  Variables recorded inside a function (other than global
    and static ones, and not in the mode where N_OPT was seen without gcc)
    are queued and reach the sink at the next flush, each once, in the
    reverse of the order they were queued in: the queue is a list that
    grows and is emitted at its head.  A second flush with nothing queued
    in between emits nothing. *)
Theorem pending_flushed_in_reverse E w vars :
  (forall trace name t kind val,
     sink_accepts E trace (Ev_record_variable name t kind val) = true) ->
  within_function w = true ->
  (gcc_compiled w =? 0) && n_opt_found w = false ->
  Forall (fun v => is_global_or_static (pv_kind v) = false) vars ->
  pending w = [] ->
  exists w1 w2,
    record_variables E vars w = Some (true, w1) /\ sink w1 = sink w /\
    stab_emit_pending_vars E w1 = Some (true, w2) /\
    sink w2 = (sink w ++ map variable_event (rev vars))%list /\
    stab_emit_pending_vars E w2 = Some (true, w2).
Proof.
  intros Hacc Hin Hgcc Hk Hp.
  eexists _, _. split; [by apply record_variables_queue|]. split; [done|].
  split; [by apply stab_emit_pending_vars_all|]. split.
  - simpl. by rewrite Hp, app_nil_r.
  - apply stab_emit_pending_vars_idle. reflexivity.
Qed.

Lemma strchr_None s c :
  ~ In c (list_ascii_of_string s) -> CStr.strchr s c = None.
Proof.
  induction s as [|d s IH]; intros Hn; [done|]. simpl in *.
  destruct (Ascii.eqb_spec d c) as [->|Hne]; [tauto|]. apply IH. tauto.
Qed.

(** C9.  A stab string with no colon: [parse_stab_string] returns true and
    leaves the state as it is, so nothing is printed and nothing reaches
    the sink. *)
Theorem no_colon_ignored E parse_type stabtype desc value s w :
  ~ In ":"%char (list_ascii_of_string s) ->
  parse_stab_string E parse_type stabtype desc value s w = Some (true, w).
Proof.
  intros Hn. unfold parse_stab_string. by rewrite strchr_None.
Qed.

Lemma start_compilation_unit_frame E type value s w ok w0 :
  start_compilation_unit E type value s w = Some (ok, w0) ->
  bincl_stack w0 = bincl_stack w /\ block_depth w0 = block_depth w /\
  pending w0 = pending w.
Proof.
  unfold start_compilation_unit, bind, get.
  destruct (so_string w) as [copy|]; [|intros [= <- <-]; by split].
  destruct (negb (is_N_SO type) || CStr.cheq (CStr.peek s) CStr.NUL
            || negb (value =? so_value w)); [|intros [= <- <-]; by split].
  unfold debug_set_filename, sink_call.
  destruct (sink_accepts E (sink w) (Ev_set_filename copy)); simpl;
    intros [= <- <-]; destruct (sections w);
    (split; [reflexivity|split; reflexivity]).
Qed.

(** C10.  N_EINCL with no open N_BINCL frame, after the start of the
    compilation unit (if one is pending) went through: [pop_bincl] returns
    the main file name, [parse_stab] makes it the current source and
    returns true when the sink accepts that.  By contrast N_RBRAC with no
    open block returns false after printing "Too many N_RBRACs". *)
Theorem unbalanced_eincl_tolerated E fuel :
  (forall desc value s w w0,
     bincl_stack w = [] ->
     start_compilation_unit E N_EINCL value s w = Some (true, w0) ->
     sink_accepts E (sink w0) (Ev_start_source (main_filename w0)) = true ->
     pop_bincl w0 = Some (main_filename w0, w0) /\
     parse_stab E fuel N_EINCL desc value s w
     = Some (true, upd_sink (fun l => (l ++ [Ev_start_source (main_filename w0)])%list) w0)) /\
  (forall desc value s w w0,
     block_depth w = 0 -> pending w = [] ->
     start_compilation_unit E N_RBRAC value s w = Some (true, w0) ->
     n_opt_found w0 && (desc =? 1) = false ->
     sink_accepts E (sink w0)
       (Ev_end_block (to_vma (value + file_start_offset w0 + function_start_offset w0)))
     = true ->
     exists w',
       parse_stab E fuel N_RBRAC desc value s w = Some (false, w') /\
       stderr w' = (stderr w0 ++ [Too_many_N_RBRACs])%list).
Proof.
  split.
  - intros desc value s w w0 Hstack Hstart Hacc.
    destruct (start_compilation_unit_frame _ _ _ _ _ _ _ Hstart) as (Hs & _).
    assert (pop_bincl w0 = Some (main_filename w0, w0)) as Hpop.
    { unfold pop_bincl, bind, get. by rewrite Hs, Hstack. }
    split; [done|]. unfold parse_stab. unfold bind at 1. rewrite Hstart.
    cbv beta iota. cbn [negb]. unfold bind at 1. rewrite Hpop. cbv beta iota.
    unfold debug_start_source, sink_call. by rewrite Hacc.
  - intros desc value s w w0 Hdepth Hpending Hstart Hopt Hacc.
    destruct (start_compilation_unit_frame _ _ _ _ _ _ _ Hstart) as (_ & Hd & Hp).
    unfold parse_stab. unfold bind at 1. rewrite Hstart.
    cbv beta iota. cbn [negb]. unfold bind at 1, get at 1. cbv beta iota. rewrite Hopt.
    assert (stab_emit_pending_vars E w0 = Some (true, w0)) as Hidle
      by (apply stab_emit_pending_vars_idle; congruence).
    unfold bind at 1. rewrite Hidle. cbv beta iota. cbn [negb].
    unfold bind at 1, get at 1. cbv beta iota.
    unfold bind at 1. unfold debug_end_block, sink_call. rewrite Hacc.
    cbv beta iota. cbn [negb].
    unfold bind at 1, modify at 1. cbv beta iota.
    unfold bind at 1, get at 1. cbv beta iota.
    cbn [block_depth upd_block_depth upd_sink].
    rewrite Hd, Hdepth. change (0 - 1 <? 0) with true. cbv iota.
    eexists. split; [reflexivity|]. reflexivity.
Qed.

(** C10, instance: N_EINCL and N_RBRAC as the first record of a
    session. *)
Lemma unbalanced_eincl_tolerated_witness :
  parse_stab plain_sink 0 N_EINCL 0 0 "" (start_stab "000" false [])
  = Some (true, upd_sink (fun l => (l ++ [Ev_start_source None])%list)
                  (start_stab "000" false [])) /\
  exists w',
    parse_stab plain_sink 0 N_RBRAC 0 0 "" (start_stab "000" false []) = Some (false, w') /\
    stderr w' = [Too_many_N_RBRACs].
Proof.
  pose proof (unbalanced_eincl_tolerated plain_sink 0) as [Heincl Hrbrac].
  split.
  - apply (Heincl 0 0 "" (start_stab "000" false []) (start_stab "000" false []));
      reflexivity.
  - apply (Hrbrac 0 0 "" (start_stab "000" false []) (start_stab "000" false []));
      reflexivity.
Defined.

(** C9, instance: the string [gcc2_compiled.]. *)
Lemma no_colon_ignored_witness :
  parse_stab_string plain_sink (parse_stab_type plain_sink 0) (N_other 128) 0 0
    "gcc2_compiled." (start_stab "000" false [])
  = Some (true, start_stab "000" false []).
Proof.
  apply (no_colon_ignored plain_sink (parse_stab_type plain_sink 0) (N_other 128) 0 0
           "gcc2_compiled." (start_stab "000" false [])).
  intros H. vm_compute in H. intuition discriminate.
Defined.

(** C3, instance: two variables [a] and [b]. *)
Lemma pending_flushed_in_reverse_witness :
  exists w1 w2,
    record_variables plain_sink
      [mkPending (Some "a") (Some DVoid) DEBUG_LOCAL 4;
       mkPending (Some "b") (Some DVoid) DEBUG_REGISTER 8]
      (set_within_function true (start_stab "000" false []))
    = Some (true, w1) /\ sink w1 = [] /\
    stab_emit_pending_vars plain_sink w1 = Some (true, w2) /\
    sink w2 = [Ev_record_variable (Some "b") (Some DVoid) DEBUG_REGISTER 8;
               Ev_record_variable (Some "a") (Some DVoid) DEBUG_LOCAL 4] /\
    stab_emit_pending_vars plain_sink w2 = Some (true, w2).
Proof.
  apply (pending_flushed_in_reverse plain_sink
           (set_within_function true (start_stab "000" false []))
           [mkPending (Some "a") (Some DVoid) DEBUG_LOCAL 4;
            mkPending (Some "b") (Some DVoid) DEBUG_REGISTER 8]).
  - intros. reflexivity.
  - reflexivity.
  - reflexivity.
  - repeat constructor.
  - reflexivity.
Defined.

(** C3, the claim as written fails: two locals [a] then [b] declared
    before the block of [main] reach the sink at the N_LBRAC as [b] then
    [a]. *)
Lemma pending_variables_leave_last_first :
  exists w',
    bind (parse_stab plain_sink 1 N_SO 0 0 "a.c") (fun _ =>
    bind (parse_stab plain_sink 1 N_FUN 0 16 "main:F1") (fun _ =>
    bind (parse_stab plain_sink 1 (N_other 128) 0 4 "a:1") (fun _ =>
    bind (parse_stab plain_sink 1 (N_other 128) 0 8 "b:2") (fun _ =>
    parse_stab plain_sink 1 N_LBRAC 0 0 ""))))
      (start_stab "000" false [])
    = Some (true, w') /\
    sink w' =
      [Ev_set_filename "a.c";
       Ev_record_function (Some "main") (Some (DIndirect (TypeSlot 0 1) None)) true 16;
       Ev_start_block 0;
       Ev_record_variable (Some "b") (Some (DIndirect (TypeSlot 0 2) None)) DEBUG_LOCAL 8;
       Ev_record_variable (Some "a") (Some (DIndirect (TypeSlot 0 1) None)) DEBUG_LOCAL 4].
Proof. eexists. split; vm_compute; reflexivity. Qed.

(** ** Numbers *)

From Stdlib Require DecimalNat.

Lemma digits_decimal rest : CStr.isdigit (CStr.peek rest) = false ->
  forall d acc any,
    Libc.digits 10 (NilEmpty.string_of_uint d ++ rest) (Z.of_nat acc) any
    = (Z.of_nat (Nat.of_uint_acc d acc), rest,
       match d with Decimal.Nil => any | _ => true end).
Proof.
  intros Hrest. induction d as [|d IH|d IH|d IH|d IH|d IH|d IH|d IH|d IH|d IH|d IH];
    intros acc any.
  1: { simpl. destruct rest as [|c r]; [done|]. simpl in *.
    unfold Libc.digit_val. rewrite Hrest.
    destruct (CStr.islower c) eqn:Hl.
    { unfold CStr.islower in Hl. destruct (CStr.code c - 87 <? 10) eqn:Hlt; [lia|done]. }
    destruct (CStr.isupper c) eqn:Hu; [|done].
    unfold CStr.isupper in Hu. destruct (CStr.code c - 55 <? 10) eqn:Hlt; [lia|done]. }
  all: cbn [NilEmpty.string_of_uint append Libc.digits Nat.of_uint_acc];
    change (Libc.digit_val _) with (Some 0) || change (Libc.digit_val _) with (Some 1)
    || change (Libc.digit_val _) with (Some 2) || change (Libc.digit_val _) with (Some 3)
    || change (Libc.digit_val _) with (Some 4) || change (Libc.digit_val _) with (Some 5)
    || change (Libc.digit_val _) with (Some 6) || change (Libc.digit_val _) with (Some 7)
    || change (Libc.digit_val _) with (Some 8) || change (Libc.digit_val _) with (Some 9);
    cbv beta iota; change (_ <? 10) with true; cbv iota;
    match goal with
    | |- Libc.digits 10 _ ?z true = (Z.of_nat (Nat.of_uint_acc _ ?a), _, _) =>
        replace z with (Z.of_nat a) by (rewrite Nat.tail_mul_spec; lia)
    end;
    rewrite IH; match goal with |- (_, _, match ?x with _ => _ end) = _ => by destruct x end.
Qed.

Lemma to_uint_normal n :
  Nat.to_uint n = Decimal.D0 Decimal.Nil /\ n = O
  \/ (n <> O /\ match Nat.to_uint n with
                | Decimal.Nil | Decimal.D0 _ => False
                | _ => True
                end).
Proof.
  pose proof (DecimalNat.Unsigned.to_of (Nat.to_uint n)) as Hn.
  rewrite DecimalNat.Unsigned.of_to in Hn.
  pose proof (DecimalNat.Unsigned.of_to n) as Hof.
  destruct (Nat.to_uint n) as [|d|d|d|d|d|d|d|d|d|d] eqn:Hd.
  1: discriminate Hn.
  1: { left. unfold Decimal.unorm in Hn.
    destruct (Decimal.nzhead (Decimal.D0 d)) eqn:Hz; try discriminate Hn.
    + injection Hn as Hnil. subst d. split; [done|]. exact (eq_sym Hof).
    + by destruct (DecimalFacts.nzhead_nonzero (Decimal.D0 d) u). }
  all: right; split; [|done]; intros ->; discriminate Hd.
Qed.

Lemma strtoul_digits d rest :
  match d with Decimal.Nil | Decimal.D0 _ => False | _ => True end ->
  CStr.isdigit (CStr.peek rest) = false ->
  Libc.strtoul (NilEmpty.string_of_uint d ++ rest)
  = if ULONG_MAX <? Z.of_nat (Nat.of_uint d)
    then (ULONG_MAX, rest, true)
    else (Z.of_nat (Nat.of_uint d), rest, false).
Proof.
  intros Hd Hrest.
  pose proof (digits_decimal rest Hrest d O false) as Hdig.
  destruct d as [|d|d|d|d|d|d|d|d|d|d]; try done.
  all: unfold Libc.strtoul;
    cbn [NilEmpty.string_of_uint append Libc.skip_spaces CStr.peek CStr.advance] in *;
    change (CStr.isspace _) with false; cbv iota;
    cbn [CStr.peek CStr.advance CStr.cheq Ascii.eqb Bool.eqb];
    cbv iota; change (Z.of_nat 0) with 0 in Hdig; rewrite Hdig; cbn [negb]; cbv iota;
    reflexivity.
Qed.

Lemma strtoul_zero rest :
  ends_number rest = true -> Libc.strtoul (String "0" rest) = (0, rest, false).
Proof.
  unfold ends_number. intros H. apply andb_prop in H as [H HX]. apply andb_prop in H as [Hd Hx].
  apply negb_true_iff in Hd, Hx, HX.
  unfold Libc.strtoul. cbn [Libc.skip_spaces]. change (CStr.isspace "0") with false. cbv iota.
  cbn [CStr.peek CStr.advance CStr.cheq Ascii.eqb Bool.eqb]. cbv iota.
  unfold CStr.at_ at 1 2. cbn [CStr.skip CStr.advance]. rewrite Hx, HX. cbn [orb andb].
  cbn [Libc.digits]. change (Libc.digit_val "0") with (Some 0). cbv iota beta.
  change (0 <? 8) with true. cbv iota.
  assert (Libc.digits 8 rest (0 * 8 + 0) true = (0, rest, true)) as ->; [|done].
  destruct rest as [|c r]; [done|]. cbn [CStr.peek] in Hd. cbn [Libc.digits].
  unfold Libc.digit_val. rewrite Hd.
  destruct (CStr.islower c) eqn:Hl.
  { unfold CStr.islower in Hl. destruct (CStr.code c - 87 <? 8) eqn:Hlt; [lia|done]. }
  destruct (CStr.isupper c) eqn:Hu; [|done].
  unfold CStr.isupper in Hu. destruct (CStr.code c - 55 <? 8) eqn:Hlt; [lia|done].
Qed.

Lemma ends_number_digit rest : ends_number rest = true -> CStr.isdigit (CStr.peek rest) = false.
Proof.
  unfold ends_number. intros H. apply andb_prop in H as [H _]. apply andb_prop in H as [H _].
  by apply negb_true_iff in H.
Qed.

Lemma strtoul_decimal n rest :
  Z.of_nat n <= ULONG_MAX -> ends_number rest = true ->
  Libc.strtoul (decimal n ++ rest) = (Z.of_nat n, rest, false).
Proof.
  intros Hn Hrest. unfold decimal.
  destruct (to_uint_normal n) as [[-> ->]|[_ Hd]]; [by apply strtoul_zero|].
  rewrite strtoul_digits; [|done|by apply ends_number_digit].
  rewrite DecimalNat.Unsigned.of_to.
  destruct (ULONG_MAX <? Z.of_nat n) eqn:E; [lia|done].
Qed.

Lemma strtoul_negative_digits d rest :
  match d with Decimal.Nil | Decimal.D0 _ => False | _ => True end ->
  CStr.isdigit (CStr.peek rest) = false ->
  Libc.strtoul (String "-" (NilEmpty.string_of_uint d ++ rest))
  = if ULONG_MAX <? Z.of_nat (Nat.of_uint d)
    then (ULONG_MAX, rest, true)
    else (to_vma (- Z.of_nat (Nat.of_uint d)), rest, false).
Proof.
  intros Hd Hrest.
  pose proof (digits_decimal rest Hrest d O false) as Hdig.
  destruct d as [|d|d|d|d|d|d|d|d|d|d]; try done.
  all: unfold Libc.strtoul;
    cbn [NilEmpty.string_of_uint append Libc.skip_spaces CStr.peek CStr.advance] in *;
    change (CStr.isspace _) with false; cbv iota;
    cbn [CStr.peek CStr.advance CStr.cheq Ascii.eqb Bool.eqb];
    cbv iota; change (Z.of_nat 0) with 0 in Hdig; rewrite Hdig; cbn [negb]; cbv iota;
    reflexivity.
Qed.

Lemma decimal_first n :
  exists c s, decimal n = String c s /\ CStr.isdigit c = true.
Proof.
  unfold decimal. destruct (to_uint_normal n) as [[-> _]|[_ Hd]]; [by eexists _, _|].
  destruct (Nat.to_uint n); try done; by eexists _, _.
Qed.

Lemma to_vma_signed z : to_vma (to_signed_vma z) = to_vma z.
Proof.
  unfold to_vma, to_signed_vma, two64.
  destruct (z mod 2 ^ 64 <? 2 ^ 63); [apply Z.mod_mod; lia|].
  rewrite Zminus_mod, Z.mod_mod, Z_mod_same_full, Z.sub_0_r, Z.mod_mod; lia.
Qed.

Lemma to_vma_small z : 0 <= z < 2 ^ 64 -> to_vma z = z.
Proof. intros Hz. unfold to_vma, two64. by rewrite Z.mod_small. Qed.

Lemma parse_number_signed_decimal z rest flag w :
  - 2 ^ 63 <= z < 2 ^ 64 -> ends_number rest = true ->
  parse_number (signed_decimal z ++ rest) flag w = Some ((to_vma z, rest, false), w).
Proof.
  intros Hz Hrest. unfold signed_decimal.
  destruct (z <? 0) eqn:Hneg.
  - apply Z.ltb_lt in Hneg.
    assert (Libc.strtoul (String "-" (decimal (Z.to_nat (- z))) ++ rest)
            = (to_vma z, rest, false)) as Hs.
    { unfold decimal. cbn [append].
      destruct (to_uint_normal (Z.to_nat (- z))) as [[_ H0]|[_ Hd]]; [lia|].
      rewrite strtoul_negative_digits; [|done|by apply ends_number_digit].
      rewrite DecimalNat.Unsigned.of_to, Z2Nat.id by lia.
      destruct (ULONG_MAX <? - z) eqn:E; [unfold ULONG_MAX, two64 in E; lia|].
      by rewrite Z.opp_involutive. }
    unfold parse_number. cbn [append String.eqb CStr.peek CStr.cheq Ascii.eqb Bool.eqb].
    cbv iota. cbn [append] in Hs. rewrite Hs. cbn [negb orb].
    rewrite orb_true_r, to_vma_signed. unfold to_vma. by rewrite Z.mod_mod.
  - apply Z.ltb_ge in Hneg.
    pose proof (strtoul_decimal (Z.to_nat z) rest) as Hs.
    rewrite Z2Nat.id in Hs by lia.
    specialize (Hs ltac:(unfold ULONG_MAX, two64; lia) Hrest).
    destruct (decimal_first (Z.to_nat z)) as (c & s & Hc & Hdig).
    unfold parse_number. rewrite Hs. rewrite Hc. cbn [append String.eqb CStr.peek].
    assert (CStr.cheq c CStr.NUL = false) as ->.
    { destruct (CStr.cheq c CStr.NUL) eqn:E; [|done].
      apply Ascii.eqb_eq in E. subst c. done. }
    assert (CStr.cheq c "-" = false) as ->.
    { destruct (CStr.cheq c "-") eqn:E; [|done].
      apply Ascii.eqb_eq in E. subst c. done. }
    cbn [negb orb]. rewrite orb_true_r.
    unfold to_vma. by rewrite (Z.mod_small z) by (unfold two64; lia).
Qed.

Lemma signed_decimal_first z :
  exists c s, signed_decimal z = String c s /\ (CStr.isdigit c = true \/ c = "-"%char).
Proof.
  unfold signed_decimal. destruct (z <? 0); [by eexists _, _; split; [|right]|].
  destruct (decimal_first (Z.to_nat z)) as (c & s & -> & Hc). eexists _, _. by split; [|left].
Qed.

Lemma to_int_to_vma z : - 2 ^ 31 <= z < 2 ^ 31 -> to_int (to_vma z) = z.
Proof.
  intros Hz. unfold to_int, to_vma, two64, two32.
  replace ((z mod 2 ^ 64) mod 2 ^ 32) with (z mod 2 ^ 32).
  2: { symmetry. apply Z.mod_mod_divide. by exists (2 ^ 32). }
  destruct (Z.ltb_spec z 0).
  - replace (z mod 2 ^ 32) with (z + 2 ^ 32).
    2: { apply Z.mod_unique with (-1); lia. }
    destruct (Z.ltb_spec (z + 2 ^ 32) (2 ^ 31)); lia.
  - rewrite Z.mod_small by lia. destruct (Z.ltb_spec z (2 ^ 31)); lia.
Qed.

Lemma parse_stab_type_number_pair filenum index rest w :
  - 2 ^ 31 <= filenum < 2 ^ 31 -> - 2 ^ 31 <= index < 2 ^ 31 ->
  parse_stab_type_number
    ("(" ++ signed_decimal filenum ++ "," ++ signed_decimal index ++ ")" ++ rest) w
  = Some ((Some (filenum, index), rest), w).
Proof.
  intros Hf Hi.
  unfold parse_stab_type_number. cbn [append CStr.peek CStr.cheq Ascii.eqb Bool.eqb negb].
  cbv iota. cbn [CStr.advance]. unfold bind at 1.
  rewrite parse_number_signed_decimal by (done || lia).
  cbv beta iota. cbn [CStr.peek CStr.cheq Ascii.eqb Bool.eqb negb CStr.advance]. cbv iota.
  unfold bind at 1. rewrite parse_number_signed_decimal by (done || lia).
  cbv beta iota. cbn [CStr.peek CStr.cheq Ascii.eqb Bool.eqb negb CStr.advance]. cbv iota.
  unfold ret. by rewrite !to_int_to_vma.
Qed.

Lemma parse_stab_type_number_plain index rest w :
  - 2 ^ 31 <= index < 2 ^ 31 -> ends_number rest = true ->
  parse_stab_type_number (signed_decimal index ++ rest) w
  = Some ((Some (0, index), rest), w).
Proof.
  intros Hi Hrest. unfold parse_stab_type_number.
  destruct (signed_decimal_first index) as (c & s & Hc & Hdig).
  assert (CStr.cheq (CStr.peek (signed_decimal index ++ rest)) "(" = false) as ->.
  { rewrite Hc. cbn [append CStr.peek].
    destruct (CStr.cheq c "(") eqn:E; [|done]. apply Ascii.eqb_eq in E. subst c.
    by destruct Hdig. }
  cbn [negb]. cbv iota. unfold bind at 1.
  rewrite parse_number_signed_decimal by (done || lia).
  cbv beta iota. unfold ret. by rewrite to_int_to_vma.
Qed.

(** X1.  A number is read back as it was written: the decimal text of a
    value of [long] range, followed by a character that does not continue
    it, gives that value in two's complement, the cursor ends after the
    text, no overflow is flagged and nothing is printed. *)
Theorem number_round_trip z rest flag w :
  - 2 ^ 63 <= z < 2 ^ 63 -> ends_number rest = true ->
  exists v,
    parse_number (signed_decimal z ++ rest) flag w = Some ((v, rest, false), w) /\
    to_signed_vma v = z /\ (0 <= z -> v = z).
Proof.
  intros Hz Hrest. exists (to_vma z).
  split; [apply parse_number_signed_decimal; [lia|done]|].
  split; [by apply to_signed_to_vma|]. intros Hpos. apply to_vma_small. lia.
Qed.

Lemma number_round_trip_witness :
  exists v,
    parse_number "-128;127;" true (start_stab "000" false [])
    = Some ((v, ";127;", false), start_stab "000" false []) /\
    to_signed_vma v = -128 /\ (0 <= -128 -> v = -128).
Proof. apply (number_round_trip (-128) ";127;"); [lia|reflexivity]. Defined.

(** X2.  A type number is read back as it was written: the plain form [N]
    stands for type [N] of file 0, the form [(F,N)] for type [N] of file
    [F].  The cursor ends after the number and nothing is printed. *)
Theorem type_number_round_trip filenum index rest w :
  - 2 ^ 31 <= filenum < 2 ^ 31 -> - 2 ^ 31 <= index < 2 ^ 31 ->
  parse_stab_type_number
    ("(" ++ signed_decimal filenum ++ "," ++ signed_decimal index ++ ")" ++ rest) w
  = Some ((Some (filenum, index), rest), w) /\
  (ends_number rest = true ->
   parse_stab_type_number (signed_decimal index ++ rest) w
   = Some ((Some (0, index), rest), w)).
Proof.
  intros Hf Hi. split; [by apply parse_stab_type_number_pair|].
  intros Hrest. by apply parse_stab_type_number_plain.
Qed.

Lemma type_number_round_trip_witness :
  parse_stab_type_number "(1,-26);" (start_stab "000" false [])
  = Some ((Some (1, -26), ";"), start_stab "000" false []) /\
  (ends_number ";" = true ->
   parse_stab_type_number "-26;" (start_stab "000" false [])
   = Some ((Some (0, -26), ";"), start_stab "000" false [])).
Proof. apply (type_number_round_trip 1 (-26) ";"); lia. Defined.

(** ** The descriptors of the Sun compiler and enumerations *)

(** the tests of the character under the cursor, evaluated where the
    character is known *)
Ltac eval_chars :=
  repeat match goal with
    | |- context [CStr.cheq ?a ?b] =>
        let v := eval vm_compute in (CStr.cheq a b) in
        match v with
        | true => change (CStr.cheq a b) with true
        | false => change (CStr.cheq a b) with false
        end
    | |- context [CStr.isdigit ?a] =>
        let v := eval vm_compute in (CStr.isdigit a) in
        match v with
        | true => change (CStr.isdigit a) with true
        | false => change (CStr.isdigit a) with false
        end
    end.

Ltac cursor :=
  cbn [CStr.peek CStr.advance append]; eval_chars; cbn [negb orb andb]; cbv iota.

(** X3.  The Sun floating-point descriptor never reads its size: after the
    details and their semicolon the cursor is not advanced, so the second
    number is read at the semicolon, where there is none.  The type made
    has size 0, whatever the text says, and the cursor is left at the
    first semicolon. *)
Theorem sun_floating_size_is_never_read c1 c2 c3 details tail w :
  0 <= details < 2 ^ 64 ->
  Unfolded.parse_stab_sun_floating_type c1 c2 c3
    (signed_decimal details ++ String ";" tail) w
  = Some ((if (details =? to_vma c1) || (details =? to_vma c2) || (details =? to_vma c3)
           then Some (DComplex 0) else Some (DFloat 0),
           String ";" tail), w).
Proof.
  intros Hd. unfold Unfolded.parse_stab_sun_floating_type.
  destruct (signed_decimal_first details) as (c & s & Hc & _).
  assert (at_end (signed_decimal details ++ String ";" tail) = false) as ->.
  { by rewrite Hc. }
  unfold bind at 1. rewrite parse_number_signed_decimal by (done || lia).
  cbv beta iota. cbn [CStr.peek CStr.cheq Ascii.eqb Bool.eqb negb]. cbv iota.
  unfold bind at 1.
  assert (parse_number (String ";" tail) false w = Some ((0, String ";" tail, false), w)) as ->.
  { done. }
  cbv beta iota. cbn [CStr.peek CStr.cheq Ascii.eqb Bool.eqb negb]. cbv iota.
  rewrite !(to_vma_small details) by done.
  by destruct ((details =? to_vma c1) || (details =? to_vma c2) || (details =? to_vma c3)).
Qed.

Lemma sun_floating_size_is_never_read_witness :
  Unfolded.parse_stab_sun_floating_type 3 4 5 "1;8;" (start_stab "000" false [])
  = Some ((Some (DFloat 0), ";8;"), start_stab "000" false []).
Proof. apply (sun_floating_size_is_never_read 3 4 5 1 "8;"). lia. Defined.

(** X4.  The Sun builtin integer descriptor: the sign letter gives the
    signedness, the two numbers after it are skipped, and the third, the
    width in bits, gives the size in bytes, rounded down; a width of 0
    makes the void type.  The closing semicolon is consumed. *)
Theorem sun_builtin_type_width (unsignedp : bool) format a b bits rest w :
  In format [""; "c"; "b"; "v"] ->
  0 <= a < 2 ^ 64 -> 0 <= b < 2 ^ 64 -> 0 <= bits < 2 ^ 64 ->
  Unfolded.parse_stab_sun_builtin_type
    ((if unsignedp then "u" else "s") ++ format ++ signed_decimal a ++ ";"
     ++ signed_decimal b ++ ";" ++ signed_decimal bits ++ ";" ++ rest) w
  = Some ((if bits =? 0 then Some DVoid
           else Some (DInt (to_uint (bits / 8)) unsignedp), rest), w).
Proof.
  intros Hf Ha Hb Hbits.
  set (numbers := signed_decimal a ++ ";" ++ signed_decimal b ++ ";"
                  ++ signed_decimal bits ++ ";" ++ rest).
  assert (forall orig p, p = numbers ->
            (r <- parse_number p false ;;
             let '(_, pp, _) := r in
             if negb (CStr.cheq (CStr.peek pp) ";") then
               bad_stab orig ;;; ret (DEBUG_TYPE_NULL, pp)
             else
               r <- parse_number (CStr.advance pp) false ;;
               let '(_, pp, _) := r in
               if negb (CStr.cheq (CStr.peek pp) ";") then
                 bad_stab orig ;;; ret (DEBUG_TYPE_NULL, pp)
               else
                 r <- parse_number (CStr.advance pp) false ;;
                 let '(bits, pp, _) := r in
                 let pp := if CStr.cheq (CStr.peek pp) ";" then CStr.advance pp else pp in
                 if bits =? 0 then ret (debug_make_void_type, pp)
                 else ret (debug_make_int_type (bits / 8) unsignedp, pp)) w
            = Some ((if bits =? 0 then Some DVoid
                     else Some (DInt (to_uint (bits / 8)) unsignedp), rest), w)) as Hnum.
  { intros orig p ->. unfold numbers. unfold bind at 1.
    rewrite parse_number_signed_decimal by (done || lia). cbv beta iota.
    cbn [CStr.peek CStr.cheq Ascii.eqb Bool.eqb negb CStr.advance append]. cbv iota.
    unfold bind at 1.
    rewrite parse_number_signed_decimal by (done || lia). cbv beta iota.
    cbn [CStr.peek CStr.cheq Ascii.eqb Bool.eqb negb CStr.advance append]. cbv iota.
    unfold bind at 1.
    rewrite parse_number_signed_decimal by (done || lia). cbv beta iota.
    cbn [CStr.peek CStr.cheq Ascii.eqb Bool.eqb negb CStr.advance append]. cbv iota.
    rewrite (to_vma_small bits) by done. by destruct (bits =? 0). }
  destruct (signed_decimal_first a) as (c & s & Hc & Hdig).
  assert (CStr.cheq c "c" || CStr.cheq c "b" || CStr.cheq c "v" = false) as Hnofmt.
  { destruct Hdig as [Hdig| ->]; [|done].
    destruct (CStr.cheq c "c") eqn:E1; [apply Ascii.eqb_eq in E1; by subst c|].
    destruct (CStr.cheq c "b") eqn:E2; [apply Ascii.eqb_eq in E2; by subst c|].
    destruct (CStr.cheq c "v") eqn:E3; [apply Ascii.eqb_eq in E3; by subst c|]. done. }
  unfold Unfolded.parse_stab_sun_builtin_type.
  simpl in Hf. destruct Hf as [<-|[<-|[<-|[<-|[]]]]]; destruct unsignedp;
    cbn [append at_end String.eqb CStr.peek CStr.cheq Ascii.eqb Bool.eqb negb andb orb
         CStr.advance];
    cbv iota; fold numbers;
    try (apply Hnum; reflexivity).
  all: assert (CStr.peek numbers = c) as Hpeek by (unfold numbers; by rewrite Hc).
  all: rewrite Hpeek, Hnofmt; by apply Hnum.
Qed.

Lemma sun_builtin_type_width_witness :
  Unfolded.parse_stab_sun_builtin_type "uc1;0;8;rest" (start_stab "000" false [])
  = Some ((Some (DInt 1 true), "rest"), start_stab "000" false []).
Proof.
  apply (sun_builtin_type_width true "c" 1 0 8 "rest"); [simpl; tauto|lia|lia|lia].
Defined.

Lemma scan_to_colon_app name : forall tail,
  no_char ":" name -> no_char CStr.NUL name ->
  Unfolded.scan_to_colon (name ++ String ":" tail) = String ":" tail.
Proof.
  unfold no_char. induction name as [|c name IH]; intros tail Hc Hn; [done|].
  cbn [append Unfolded.scan_to_colon]. simpl in Hc, Hn.
  destruct (CStr.cheq c ":") eqn:E1; [apply Ascii.eqb_eq in E1; tauto|].
  destruct (CStr.cheq c CStr.NUL) eqn:E2; [apply Ascii.eqb_eq in E2; tauto|].
  cbn [orb]. apply IH; tauto.
Qed.

Lemma peek_not c d : c <> d -> CStr.cheq c d = false.
Proof. intros H. destruct (CStr.cheq c d) eqn:E; [|done]. by apply Ascii.eqb_eq in E. Qed.

Lemma enum_name_peek name tail :
  enum_name name ->
  CStr.peek (name ++ tail) = CStr.peek name /\ CStr.peek name <> CStr.NUL.
Proof.
  intros (_ & Hn & Hne & _). destruct name as [|c name]; [done|]. split; [done|].
  simpl. intros Heq. subst c. apply Hn. by left.
Qed.

Lemma parse_enum_members_all orig rest w : forall l fuel names values,
  Forall (fun m => enum_name (fst m) /\ - 2 ^ 63 <= snd m < 2 ^ 63) l ->
  (length l <= fuel)%nat ->
  Unfolded.parse_enum_members fuel orig (enum_members l ++ String ";" rest) names values w
  = Some ((Some ((names ++ map fst l)%list, (values ++ map snd l)%list), String ";" rest), w).
Proof.
  induction l as [|[name v] l IH]; intros fuel names values Hl Hfuel.
  - destruct fuel; simpl; by rewrite !app_nil_r.
  - apply Forall_cons in Hl as [[Hname Hv] Hl]. simpl in Hname, Hv.
    destruct fuel as [|fuel]; [simpl in Hfuel; lia|].
    cbn [enum_members]. rewrite !append_assoc.
    cbn [Unfolded.parse_enum_members].
    pose proof (fun tail => proj1 (enum_name_peek name tail Hname)) as Hpeek.
    pose proof (proj2 (enum_name_peek name "" Hname)) as Hnul.
    rewrite Hpeek.
    destruct Hname as (Hcolon & Hn & Hne & Hsemi & Hcomma & Hdash).
    rewrite (peek_not _ _ Hnul), (peek_not _ _ Hsemi), (peek_not _ _ Hcomma).
    cbn [orb]. cbn [append]. rewrite scan_to_colon_app by done.
    cursor. rewrite diff_app, take_app, ?append_assoc.
    unfold bind at 1. rewrite parse_number_signed_decimal by (done || lia).
    cbv beta iota. cursor. rewrite to_signed_to_vma by done.
    rewrite IH by (done || simpl in Hfuel; lia).
    by rewrite <- !app_assoc.
Qed.

Lemma enum_members_length l tail :
  (length l <= String.length (enum_members l ++ tail))%nat.
Proof.
  induction l as [|[name v] l IH]; [simpl; lia|].
  rewrite length_app_string in IH. cbn [enum_members length].
  repeat (rewrite ?length_app_string; cbn [String.length append]). lia.
Qed.

(** X5.  An enumeration is read back as it was written: the names and the
    values of the members, in order, up to the semicolon that closes the
    list, which is consumed.  Nothing is printed. *)
Theorem enum_round_trip l rest w :
  Forall (fun m => enum_name (fst m) /\ - 2 ^ 63 <= snd m < 2 ^ 63) l ->
  Unfolded.parse_stab_enum_type (enum_members l ++ String ";" rest) w
  = Some ((Some (DEnum (map fst l) (map snd l)), rest), w).
Proof.
  intros Hl. unfold Unfolded.parse_stab_enum_type.
  assert (at_end (enum_members l ++ String ";" rest) = false
          /\ CStr.cheq (CStr.peek (enum_members l ++ String ";" rest)) "-" = false)
    as [-> ->].
  { destruct l as [|[name v] l]; [done|].
    apply Forall_cons in Hl as [[Hname _] _]. simpl in Hname. cbn [enum_members].
    rewrite !append_assoc.
    rewrite (proj1 (enum_name_peek name _ Hname)).
    destruct Hname as (_ & _ & Hne & _ & _ & Hdash).
    split; [by destruct name|by apply peek_not]. }
  unfold bind at 1.
  rewrite parse_enum_members_all by (done || apply enum_members_length).
  cbv beta iota. by cbn [CStr.peek CStr.cheq Ascii.eqb Bool.eqb CStr.advance app].
Qed.

Lemma enum_round_trip_witness :
  Unfolded.parse_stab_enum_type "red:0,green:1,blue:-2,;x" (start_stab "000" false [])
  = Some ((Some (DEnum ["red"; "green"; "blue"] [0; 1; -2]), "x"),
          start_stab "000" false []).
Proof.
  apply (enum_round_trip [("red", 0); ("green", 1); ("blue", -2)] "x").
  repeat constructor; simpl; try lia; try discriminate;
    unfold no_char; simpl; intros H; decompose [or] H; discriminate || done.
Defined.

(** ** More on the type number registry *)

Lemma seek_chunk_unique w b : forall f1 f2 q r1 r2,
  seek_chunk f1 w q b = Some r1 -> seek_chunk f2 w q b = Some r2 -> r1 = r2.
Proof.
  induction f1 as [|k IH]; intros f2 q r1 r2 H1 H2; destruct f2; simpl in H1, H2;
    destruct (read_cell q w) as [d|]; try congruence;
    destruct (chunks w !! d) as [chd|]; try congruence;
    destruct (base_index chd <? b); try congruence; eauto.
Qed.

Lemma read_cell_ok w q d : read_cell q w = Some d -> cell_ok w q.
Proof.
  destruct q as [f|p]; simpl.
  - destruct (file_types w !! f) eqn:E; [|done]. intros _. by apply lookup_lt_Some in E.
  - destruct (chunks w !! p); [eauto|done].
Qed.

#[local] Instance chunk_cell_eq_dec : EqDecision chunk_cell.
Proof. solve_decision. Defined.

Lemma seek_chunk_link_found w ps bn bm c ch psm :
  cell_ok w ps ->
  match read_cell ps w with
  | None => True
  | Some d => exists chd, chunks w !! d = Some chd /\ bn < base_index chd
  end ->
  read_cell psm w = Some c -> chunks w !! c = Some ch -> base_index ch = bm ->
  forall fuel q,
    seek_chunk fuel w q bm = Some psm ->
    exists F psm', seek_chunk F (link_chunk ps bn w) q bm = Some psm' /\
                   read_cell psm' (link_chunk ps bn w) = Some c.
Proof.
  intros Hok Hstop Hread Hc Hb.
  assert (Hnew : read_cell (NextCell (length (chunks w))) (link_chunk ps bn w)
                 = read_cell ps w).
  { unfold read_cell at 1. by rewrite chunks_link_new. }
  induction fuel as [|k IH]; intros q Hs.
  - simpl in Hs. destruct (read_cell q w) as [d|] eqn:Hr.
    2: { injection Hs as <-. congruence. }
    destruct (chunks w !! d) as [chd|] eqn:Hd; [|done].
    destruct (base_index chd <? bm) eqn:Hlt; [done|]. injection Hs as <-.
    rewrite Hread in Hr. injection Hr as <-. rewrite Hc in Hd. injection Hd as <-.
    destruct (chunks_link_old ps bn w c ch Hc) as (ch' & Hc' & Hb' & _).
    destruct (decide (q = ps)) as [->|Hne].
    + rewrite Hread in Hstop. destruct Hstop as (chd & Hd & Hbn).
      rewrite Hc in Hd. injection Hd as <-.
      exists 1%nat, (NextCell (length (chunks w))). split; [|by rewrite Hnew].
      assert ((bn <? bm) = true) as Hbn' by (apply Z.ltb_lt; lia).
      cbn [seek_chunk]. rewrite read_cell_link_same, chunks_link_new by done.
      cbn [base_index]. rewrite Hbn'. cbn [seek_chunk].
      rewrite Hnew, Hread, Hc', Hb', Hlt. done.
    + assert (read_cell q (link_chunk ps bn w) = Some c) as Hq.
      { rewrite read_cell_link_other; [done|by eapply read_cell_ok|done]. }
      exists 0%nat, q. split; [|done]. simpl. by rewrite Hq, Hc', Hb', Hlt.
  - simpl in Hs. destruct (read_cell q w) as [d|] eqn:Hr.
    2: { injection Hs as <-. congruence. }
    destruct (chunks w !! d) as [chd|] eqn:Hd; [|done].
    destruct (chunks_link_old ps bn w d chd Hd) as (chd' & Hd' & Hbd' & _).
    destruct (base_index chd <? bm) eqn:Hlt.
    + destruct (IH _ Hs) as (F & psm' & HF & Hr').
      destruct (decide (q = ps)) as [->|Hne].
      * rewrite Hr in Hstop. destruct Hstop as (chd0 & Hd0 & Hbn).
        rewrite Hd in Hd0. injection Hd0 as <-.
        exists (S (S F)), psm'. split; [|done].
        assert ((bn <? bm) = true) as Hbn'.
        { apply Z.ltb_lt. apply Z.ltb_lt in Hlt. lia. }
        cbn [seek_chunk]. rewrite read_cell_link_same, chunks_link_new by done.
        cbn [base_index]. rewrite Hbn'. cbn [seek_chunk].
        rewrite Hnew, Hr, Hd', Hbd', Hlt. done.
      * exists (S F), psm'. split; [|done]. cbn [seek_chunk].
        rewrite read_cell_link_other; [|by eapply read_cell_ok|done].
        by rewrite Hr, Hd', Hbd', Hlt.
    + injection Hs as <-.
      rewrite Hread in Hr. injection Hr as <-. rewrite Hc in Hd. injection Hd as <-.
      destruct (decide (q = ps)) as [->|Hne].
      * rewrite Hread in Hstop. destruct Hstop as (chd & Hd & Hbn).
        rewrite Hc in Hd. injection Hd as <-.
        exists 1%nat, (NextCell (length (chunks w))). split; [|by rewrite Hnew].
        assert ((bn <? bm) = true) as Hbn' by (apply Z.ltb_lt; lia).
        cbn [seek_chunk]. rewrite read_cell_link_same, chunks_link_new by done.
        cbn [base_index]. rewrite Hbn'. cbn [seek_chunk].
        rewrite Hnew, Hread, Hd', Hbd', Hlt. done.
      * assert (read_cell q (link_chunk ps bn w) = Some c) as Hq.
        { rewrite read_cell_link_other; [done|by eapply read_cell_ok|done]. }
        exists 0%nat, q. split; [|done]. simpl. by rewrite Hq, Hd', Hbd', Hlt.
Qed.

Lemma seek_chunk_start fuel w q b r c :
  seek_chunk fuel w q b = Some r -> read_cell r w = Some c -> is_Some (read_cell q w).
Proof.
  intros Hs Hr. destruct (read_cell q w) as [d|] eqn:E; [eauto|].
  destruct fuel; simpl in Hs; rewrite E in Hs; injection Hs as <-; congruence.
Qed.

Lemma lookup_slot_link_other m w ps bn slm :
  types_wf w -> types_wf (link_chunk ps bn w) -> cell_ok w ps ->
  match read_cell ps w with
  | None => True
  | Some d => exists chd, chunks w !! d = Some chd /\ bn < base_index chd
  end ->
  lookup_slot m w = Some slm ->
  lookup_slot m (link_chunk ps bn w) = Some slm /\
  read_slot slm (link_chunk ps bn w) = read_slot slm w.
Proof.
  intros Hwf Hwf' Hok Hstop Hl. unfold lookup_slot in Hl.
  set (bm := to_uint (snd m) / STAB_TYPES_SLOTS * STAB_TYPES_SLOTS) in *.
  set (q := FileCell (Z.to_nat (to_uint (fst m)))) in *.
  destruct (seek_chunk (length (chunks w)) w q bm) as [psm|] eqn:Hs; [|done].
  destruct (read_cell psm w) as [c|] eqn:Hr; [|done].
  destruct (chunks w !! c) as [ch|] eqn:Hc; [|done].
  destruct (base_index ch =? bm) eqn:Hb; [|done]. apply Z.eqb_eq in Hb.
  injection Hl as <-.
  destruct (seek_chunk_link_found w ps bn bm c ch psm Hok Hstop Hr Hc Hb _ _ Hs)
    as (F & psm' & HF & Hr').
  assert (cell_ok (link_chunk ps bn w) q) as Hq.
  { assert (cell_ok w q) as Hq.
    { destruct (seek_chunk_start _ _ _ _ _ _ Hs Hr) as [d Hd]. by eapply read_cell_ok. }
    unfold q in *. simpl in *. by rewrite file_types_link_length. }
  destruct (seek_chunk_total _ bm Hwf' (length (chunks (link_chunk ps bn w))) q Hq)
    as (r & Hsr & _).
  { intros d chd _ Hd. by eapply rank_lt_length. }
  assert (r = psm') as -> by (by eapply seek_chunk_unique).
  destruct (chunks_link_old ps bn w c ch Hc) as (ch' & Hc' & Hb' & Ht' & _).
  split.
  - unfold lookup_slot. fold bm. fold q. rewrite Hsr, Hr', Hc', Hb'.
    apply Z.eqb_eq in Hb. by rewrite Hb.
  - simpl. rewrite Hc', Hc. simpl. by rewrite Ht'.
Qed.

(** X6.  Recording a type under one number leaves every other index
    alone: a type number with another index that already has a slot keeps
    that slot, and the slot keeps its content, whether the recording has
    to allocate a new chunk of slots or not. *)
Theorem record_type_frame n v m w slm :
  types_wf w -> to_uint (fst n) < files w ->
  lookup_slot m w = Some slm ->
  to_uint (snd m) <> to_uint (snd n) ->
  exists w',
    stab_record_type n v w = Some (true, w') /\ types_wf w' /\
    lookup_slot m w' = Some slm /\ read_slot slm w' = read_slot slm w.
Proof.
  intros Hwf Hf Hm Hne.
  pose proof (stab_find_slot_unfold n w Hf) as Hu. cbv zeta in Hu.
  set (bn := to_uint (snd n) / STAB_TYPES_SLOTS * STAB_TYPES_SLOTS) in *.
  pose proof (file_cell_ok w n Hwf Hf) as Hcell.
  destruct (seek_chunk_total w bn Hwf (length (chunks w)) _ Hcell) as (ps & Hs & Hpost).
  { intros c ch _ Hc. by eapply rank_lt_length. }
  rewrite Hs in Hu.
  destruct (stab_find_slot_establish w n Hwf Hf)
    as (sl & w1 & Hfind & Hwf1 & Hl1 & Hok1 & Hfiles1 & _ & _ & _ & _ & _ & Hcase).
  assert (lookup_slot m w1 = Some slm /\ read_slot slm w1 = read_slot slm w /\ slm <> sl)
    as (Hm1 & Hread1 & Hdiff).
  { destruct Hcase as [[Hl ->]|[Hl _]].
    - split; [done|]. split; [done|]. intros ->.
      unfold lookup_slot in Hm, Hl.
      destruct (seek_chunk _ w _ (to_uint (snd m) / _ * _)) as [pm|]; [|done].
      destruct (read_cell pm w) as [cm|]; [|done].
      destruct (chunks w !! cm) as [chm|] eqn:Hcm; [|done].
      destruct (base_index chm =? _) eqn:Hbm; [|done]. injection Hm as <-.
      destruct (seek_chunk _ w _ (to_uint (snd n) / _ * _)) as [pn|]; [|done].
      destruct (read_cell pn w) as [cn|]; [|done].
      destruct (chunks w !! cn) as [chn|] eqn:Hcn; [|done].
      destruct (base_index chn =? _) eqn:Hbn; [|done]. injection Hl as <- Hoff.
      rewrite Hcm in Hcn. injection Hcn as <-.
      apply Z.eqb_eq in Hbm, Hbn. rewrite Hbm in Hbn.
      pose proof (to_uint_nonneg (snd m)). pose proof (to_uint_nonneg (snd n)).
      unfold STAB_TYPES_SLOTS in *.
      pose proof (Z.mod_pos_bound (to_uint (snd m)) 16 ltac:(lia)).
      pose proof (Z.mod_pos_bound (to_uint (snd n)) 16 ltac:(lia)).
      pose proof (Z.mod_eq (to_uint (snd m)) 16 ltac:(lia)).
      pose proof (Z.mod_eq (to_uint (snd n)) 16 ltac:(lia)). lia.
    - rewrite Hl in Hu. rewrite Hu in Hfind. injection Hfind as <- <-.
      destruct Hpost as (Hok & Hfrom & Hstop).
      assert (match read_cell ps w with
              | None => True
              | Some d => exists chd, chunks w !! d = Some chd /\ bn < base_index chd
              end) as Hstop'.
      { unfold lookup_slot in Hl. fold bn in Hl. rewrite Hs in Hl.
        destruct (read_cell ps w) as [d|]; [|done].
        destruct Hstop as (chd & Hd & Hb). rewrite Hd in Hl.
        destruct (base_index chd =? bn) eqn:He; [done|]. apply Z.eqb_neq in He.
        exists chd. split; [done|lia]. }
      destruct (lookup_slot_link_other m w ps bn slm Hwf Hwf1 Hok Hstop' Hm) as [H1 H2].
      split; [done|]. split; [done|]. intros ->.
      destruct (lookup_slot_ok w m _ Hwf Hm) as [x Hx]. simpl in Hx.
      destruct (chunks w !! length (chunks w)) eqn:E; [|done].
      apply lookup_lt_Some in E. lia. }
  exists (write_slot sl v w1). split.
  { unfold stab_record_type, bind. rewrite Hfind. done. }
  split; [by apply write_slot_wf|].
  split; [by rewrite lookup_slot_write_slot|].
  rewrite <- Hread1. clear - Hdiff.
  destruct sl as [c i|t], slm as [c' i'|t']; simpl; try done.
  - destruct (decide (c = c')) as [->|Hc].
    + rewrite list_lookup_alter_eq. destruct (chunks w1 !! c'); [|done]. simpl.
      rewrite list_lookup_insert_ne; [done|]. congruence.
    + by rewrite list_lookup_alter_ne.
  - destruct (decide (t = t')) as [->|Ht]; [congruence|]. by rewrite list_lookup_alter_ne.
Qed.

Lemma record_type_frame_witness :
  exists w',
    stab_record_type (0, 40) (Some DVoid)
      (state_after (stab_record_type (0, 2) (Some (DInt 4 false)))
         (start_stab "000" false [])) = Some (true, w') /\ types_wf w' /\
    lookup_slot (0, 2) w' = Some (TypeSlot 0 2) /\
    read_slot (TypeSlot 0 2) w'
    = read_slot (TypeSlot 0 2)
        (state_after (stab_record_type (0, 2) (Some (DInt 4 false)))
           (start_stab "000" false [])).
Proof.
  apply (record_type_frame (0, 40) (Some DVoid) (0, 2)); [|done|done|done].
  destruct (stab_find_slot_establish (start_stab "000" false []) (0, 2)
              (start_stab_wf _ _ _) ltac:(done)) as (sl & w1 & Hfind & Hwf1 & _).
  unfold state_after, stab_record_type, bind. rewrite Hfind. simpl.
  by apply write_slot_wf.
Defined.




(** ** More on include files *)

Lemma pop_bincl_top w o rest node :
  bincl_stack w = o :: rest ->
  bincl_nodes w !! o = Some node ->
  bf_file node < files w ->
  (forall top, head rest = Some top -> top <> o /\ is_Some (bincl_nodes w !! top)) ->
  pop_bincl w
  = Some (match rest with
          | [] => main_filename w
          | top :: _ => bf_name <$> bincl_nodes w !! top
          end,
          upd_bincl_nodes
            (alter (fun b => mkBincl (bf_name b) (bf_hash b) (bf_file b)
                               (default None (file_types w !! Z.to_nat (bf_file node)))) o)
            (set_bincl_stack rest w)).
Proof.
  intros Hstack Hnode Hfile Htop. unfold pop_bincl.
  unfold bind at 1, get at 1. rewrite Hstack. cbv beta iota.
  unfold bind at 1, modify at 1. cbv beta iota.
  cbn [bincl_nodes set_bincl_stack upd_bincl_stack files file_types]. rewrite Hnode.
  destruct (Z.leb_spec (files w) (bf_file node)) as [?|_]; [lia|].
  destruct rest as [|top rest']; [reflexivity|].
  destruct (Htop top eq_refl) as [Hne [t Ht]].
  cbn [bincl_nodes upd_bincl_nodes]. rewrite list_lookup_alter_ne by done.
  cbn [bincl_nodes set_bincl_stack upd_bincl_stack]. by rewrite Ht.
Qed.

Lemma pop_bincl_frame w st f :
  bincl_stack (upd_bincl_nodes f (set_bincl_stack st w)) = st /\
  bincl_list (upd_bincl_nodes f (set_bincl_stack st w)) = bincl_list w /\
  bincl_nodes (upd_bincl_nodes f (set_bincl_stack st w)) = f (bincl_nodes w) /\
  files (upd_bincl_nodes f (set_bincl_stack st w)) = files w /\
  file_types (upd_bincl_nodes f (set_bincl_stack st w)) = file_types w.
Proof. repeat split; reflexivity. Qed.

(** X9.  An include file that is opened and closed again leaves the stack
    of open includes as it was and gives the name of the file to return
    to: the include that encloses it, or the main file.  The file number
    it was given stays taken, with an empty table of types, and the frame
    stays on the list that N_EXCL searches. *)
Theorem include_push_pop name hash w :
  files_wf w ->
  (forall top, head (bincl_stack w) = Some top -> is_Some (bincl_nodes w !! top)) ->
  exists w',
    bind (push_bincl name hash) (fun _ => pop_bincl) w
    = Some (match bincl_stack w with
            | [] => main_filename w
            | top :: _ => bf_name <$> bincl_nodes w !! top
            end, w') /\
    bincl_stack w' = bincl_stack w /\
    bincl_list w' = length (bincl_nodes w) :: bincl_list w /\
    bincl_nodes w' = (bincl_nodes w ++ [mkBincl name hash (files w) None])%list /\
    files w' = files w + 1 /\
    file_types w' = (file_types w ++ [None])%list.
Proof.
  intros [Hlen Hfit] Htop.
  assert (to_uint (files w + 1) = files w + 1) as Hfiles.
  { unfold to_uint. apply Z.mod_small. lia. }
  assert (<[Z.to_nat (files w) := None]> (resize (Z.to_nat (files w + 1)) None (file_types w))
          = (file_types w ++ [None])%list) as Htypes.
  { rewrite Hlen, Z2Nat.inj_add, !Nat2Z.id by lia. change (Z.to_nat 1) with 1%nat.
    rewrite resize_ge by lia. replace (_ + 1 - _)%nat with 1%nat by lia.
    simpl. rewrite insert_app_r_alt, Nat.sub_diag by lia. done. }
  set (node := mkBincl name hash (files w) None).
  set (w1 := upd_file_types (fun l => <[Z.to_nat (files w) := None]> l)
               (upd_file_types (resize (Z.to_nat (to_uint (files w + 1))) None)
                  (upd_files (fun f => to_uint (f + 1))
                     (upd_bincl_stack (cons (length (bincl_nodes w)))
                        (upd_bincl_list (cons (length (bincl_nodes w)))
                           (upd_bincl_nodes (fun l => (l ++ [node])%list) w)))))).
  assert (push_bincl name hash w = Some (tt, w1)) as Hpush by reflexivity.
  assert (bincl_stack w1 = length (bincl_nodes w) :: bincl_stack w) as Hstack by reflexivity.
  assert (bincl_list w1 = length (bincl_nodes w) :: bincl_list w) as Hlist by reflexivity.
  assert (bincl_nodes w1 = (bincl_nodes w ++ [node])%list) as Hbn by reflexivity.
  assert (main_filename w1 = main_filename w) as Hmain by reflexivity.
  assert (files w1 = files w + 1) as Hf1 by (rewrite <- Hfiles; reflexivity).
  assert (file_types w1 = (file_types w ++ [None])%list) as Hft1.
  { rewrite <- Htypes, <- Hfiles. reflexivity. }
  clearbody w1.
  assert (bincl_nodes w1 !! length (bincl_nodes w) = Some node) as Hnode.
  { rewrite Hbn, lookup_app_r, Nat.sub_diag by lia. done. }
  pose proof (pop_bincl_top w1 _ _ node Hstack Hnode) as Hpop.
  exists (upd_bincl_nodes
            (alter (fun b => mkBincl (bf_name b) (bf_hash b) (bf_file b)
                               (default None (file_types w1 !! Z.to_nat (bf_file node))))
               (length (bincl_nodes w)))
            (set_bincl_stack (bincl_stack w) w1)).
  split.
  - unfold bind. rewrite Hpush, Hpop.
    + rewrite Hmain. destruct (bincl_stack w) as [|top rest]; [reflexivity|].
      destruct (Htop top eq_refl) as [t Ht].
      rewrite Hbn, lookup_app_l by (by apply lookup_lt_Some in Ht). reflexivity.
    + rewrite Hf1. unfold node. cbn [bf_file]. lia.
    + intros top Hhead. destruct (Htop top Hhead) as [t Ht].
      pose proof (lookup_lt_Some _ _ _ Ht) as Hlt. split; [lia|].
      rewrite Hbn, lookup_app_l by done. eauto.
  - destruct (pop_bincl_frame w1 (bincl_stack w)
                (alter (fun b => mkBincl (bf_name b) (bf_hash b) (bf_file b)
                                   (default None (file_types w1 !! Z.to_nat (bf_file node))))
                   (length (bincl_nodes w))))
      as (-> & -> & -> & -> & ->).
    split; [reflexivity|]. split; [exact Hlist|].
    split; [|split; [exact Hf1|exact Hft1]].
    rewrite Hft1, Hbn. unfold node at 1. cbn [bf_file].
    assert ((file_types w ++ [None])%list !! Z.to_nat (files w) = Some None) as ->.
    { rewrite Hlen, Nat2Z.id, lookup_app_r, Nat.sub_diag by lia. done. }
    apply list_eq. intros i. destruct (decide (i = length (bincl_nodes w))) as [->|Hi].
    + rewrite list_lookup_alter_eq, lookup_app_r, Nat.sub_diag by lia. done.
    + by rewrite list_lookup_alter_ne.
Qed.

Lemma include_push_pop_witness :
  exists w',
    bind (push_bincl "b.h" 7) (fun _ => pop_bincl)
      (state_after (push_bincl "a.h" 5) (start_stab "000" false []))
    = Some (Some "a.h", w') /\
    bincl_stack w' = [0%nat] /\
    bincl_list w' = [1%nat; 0%nat] /\
    bincl_nodes w' = [mkBincl "a.h" 5 1 None; mkBincl "b.h" 7 2 None] /\
    files w' = 3 /\
    file_types w' = [None; None; None].
Proof.
  assert (files_wf (state_after (push_bincl "a.h" 5) (start_stab "000" false [])))
    as Hwf by (split; vm_compute; reflexivity).
  pose proof (include_push_pop "b.h" 7 _ Hwf) as H.
  vm_compute in H. vm_compute. apply H. intros top [= <-]. by eexists.
Defined.

(** ** More on tags *)

Lemma find_tag_names nodes nodes' name : forall l,
  (forall i, tag_name <$> nodes' !! i = tag_name <$> nodes !! i) ->
  find_tag nodes' l name = find_tag nodes l name.
Proof.
  intros l Hn. induction l as [|j l IH]; [done|]. simpl. specialize (Hn j).
  destruct (nodes' !! j) as [s'|], (nodes !! j) as [s|]; simpl in Hn; try done.
  injection Hn as ->. by rewrite IH.
Qed.

Lemma find_tag_head nodes name i l st :
  nodes !! i = Some st -> tag_name st = name -> find_tag nodes (i :: l) name = Some i.
Proof.
  intros Hi Hn. simpl. rewrite Hi, Hn. unfold CStr.cheq, CStr.streq.
  by rewrite Ascii.eqb_refl, String.eqb_refl.
Qed.

Lemma tags_wf_bound w i : tags_wf w -> In i (tags w) -> (i < length (tag_nodes w))%nat.
Proof. intros Hwf Hi. destruct (Hwf i Hi) as (st & Hst & _). by eapply lookup_lt_Some. Qed.

Lemma stab_find_tagged_type_node E p len kind w :
  tags_wf w ->
  debug_find_tagged_type E (sink w) (CStr.take len p) = None ->
  exists w',
    stab_find_tagged_type E p len kind w
    = Some (Some (DIndirect (TagSlot (tag_index (CStr.take len p) w))
                    (Some (CStr.take len p))), w') /\
    find_tag (tag_nodes w') (tags w') (CStr.take len p)
    = Some (tag_index (CStr.take len p) w) /\
    tags_wf w' /\ sink w' = sink w /\ stderr w' = stderr w /\
    (NoDup (tags w) -> NoDup (tags w')) /\
    (forall i, find_tag (tag_nodes w) (tags w) (CStr.take len p) = Some i ->
       tags w' = tags w /\ length (tag_nodes w') = length (tag_nodes w) /\
       forall st, tag_nodes w !! i = Some st ->
         tag_kind <$> tag_nodes w' !! i
         = Some (if kind_is_illegal (tag_kind st) then kind else tag_kind st)) /\
    (find_tag (tag_nodes w) (tags w) (CStr.take len p) = None ->
     tags w' = length (tag_nodes w) :: tags w).
Proof.
  intros Hwf Hq. unfold stab_find_tagged_type, bind, query, get. rewrite Hq.
  unfold tag_index.
  destruct (find_tag (tag_nodes w) (tags w) (CStr.take len p)) as [i|] eqn:Hf.
  - destruct (find_tag_Some _ _ _ _ Hf) as (Hin & st & Hst & Hname).
    destruct (Hwf i Hin) as (st' & Hst' & Hslot & Htype).
    rewrite Hst in Hst'. injection Hst' as <-.
    set (f := fun st0 : stab_tag =>
                if kind_is_illegal (tag_kind st0)
                then mkTag (tag_name st0) kind (tag_slot st0) (tag_type st0) else st0).
    assert (Hf_keeps : forall s, tag_name (f s) = tag_name s /\ tag_slot (f s) = tag_slot s
                                 /\ tag_type (f s) = tag_type s).
    { intros s. unfold f. by destruct (kind_is_illegal (tag_kind s)). }
    exists (upd_tag_nodes (alter f i) w).
    destruct (Hf_keeps st) as (Hn & Hs & Ht).
    split.
    { f_equal. f_equal. simpl. rewrite list_lookup_alter_eq, Hst. simpl.
      rewrite Ht, Htype, Hname. done. }
    split.
    { simpl. rewrite <- Hf. apply find_tag_names. intros j.
      destruct (decide (i = j)) as [->|Hne].
      - rewrite list_lookup_alter_eq. destruct (tag_nodes w !! j) as [s|]; [|done].
        simpl. by destruct (Hf_keeps s) as (-> & _).
      - by rewrite list_lookup_alter_ne. }
    split.
    { intros j Hj. simpl in Hj. destruct (Hwf j Hj) as (sj & Hsj & Hslj & Htj). simpl.
      destruct (decide (i = j)) as [->|Hne].
      - rewrite list_lookup_alter_eq, Hsj. simpl. exists (f sj).
        destruct (Hf_keeps sj) as (-> & -> & ->). done.
      - rewrite list_lookup_alter_ne by done. eauto. }
    do 3 (split; [done|]). split; [|done].
    intros i' [= <-]. split; [done|]. split; [simpl; apply length_alter|].
    intros st0 Hst0. rewrite Hst in Hst0. injection Hst0 as <-. simpl.
    rewrite list_lookup_alter_eq, Hst. simpl. unfold f.
    by destruct (kind_is_illegal (tag_kind st)).
  - set (i := length (tag_nodes w)). cbn [default].
    eexists. split; [reflexivity|]. simpl.
    split.
    { rewrite lookup_app_r, Nat.sub_diag by lia. simpl. unfold CStr.cheq, CStr.streq.
      by rewrite Ascii.eqb_refl, String.eqb_refl. }
    split.
    { intros j [<-|Hj]; simpl.
      - rewrite lookup_app_r, Nat.sub_diag by (unfold i; lia). simpl. eauto.
      - destruct (Hwf j Hj) as (sj & Hsj & Hslj & Htj).
        rewrite lookup_app_l by (by eapply lookup_lt_Some). eauto. }
    do 2 (split; [done|]). split; [|done].
    intros Hnd. apply NoDup_cons. split; [|done].
    rewrite list_elem_of_In. intros Hin. pose proof (tags_wf_bound w _ Hwf Hin). lia.
Qed.

(** X10.  An undefined tag has one node.  Referring to the tag again gives
    the same indirect type and allocates nothing, and a node made by a
    reference of unknown kind takes the kind of the next reference. *)
Theorem tag_reference_is_shared E p len kind1 kind2 w :
  tags_wf w ->
  debug_find_tagged_type E (sink w) (CStr.take len p) = None ->
  exists i w1 w2,
    stab_find_tagged_type E p len kind1 w
    = Some (Some (DIndirect (TagSlot i) (Some (CStr.take len p))), w1) /\
    stab_find_tagged_type E p len kind2 w1
    = Some (Some (DIndirect (TagSlot i) (Some (CStr.take len p))), w2) /\
    tags w2 = tags w1 /\ length (tag_nodes w2) = length (tag_nodes w1) /\
    (forall st, tag_nodes w1 !! i = Some st ->
       tag_kind <$> tag_nodes w2 !! i
       = Some (if kind_is_illegal (tag_kind st) then kind2 else tag_kind st)) /\
    sink w2 = sink w /\ tags_wf w2.
Proof.
  intros Hwf Hq.
  destruct (stab_find_tagged_type_node E p len kind1 w Hwf Hq)
    as (w1 & H1 & Hfind1 & Hwf1 & Hsink1 & _).
  assert (debug_find_tagged_type E (sink w1) (CStr.take len p) = None) as Hq1
    by (by rewrite Hsink1).
  destruct (stab_find_tagged_type_node E p len kind2 w1 Hwf1 Hq1)
    as (w2 & H2 & _ & Hwf2 & Hsink2 & _ & _ & Hsame & _).
  assert (tag_index (CStr.take len p) w1 = tag_index (CStr.take len p) w) as Hi.
  { unfold tag_index at 1. by rewrite Hfind1. }
  rewrite Hi in H2. destruct (Hsame _ Hfind1) as (Ht & Hl & Hk).
  exists (tag_index (CStr.take len p) w), w1, w2.
  do 4 (split; [done|]). split; [done|]. split; [congruence|done].
Qed.

Lemma tag_reference_is_shared_witness :
  exists i w1 w2,
    stab_find_tagged_type plain_sink "node:" 4 DEBUG_KIND_ILLEGAL (start_stab "000" false [])
    = Some (Some (DIndirect (TagSlot i) (Some (CStr.take 4 "node:"))), w1) /\
    stab_find_tagged_type plain_sink "node:" 4 DEBUG_KIND_UNION w1
    = Some (Some (DIndirect (TagSlot i) (Some (CStr.take 4 "node:"))), w2) /\
    tags w2 = tags w1 /\ length (tag_nodes w2) = length (tag_nodes w1) /\
    (forall st, tag_nodes w1 !! i = Some st ->
       tag_kind <$> tag_nodes w2 !! i
       = Some (if kind_is_illegal (tag_kind st) then DEBUG_KIND_UNION else tag_kind st)) /\
    sink w2 = sink (start_stab "000" false []) /\ tags_wf w2.
Proof.
  apply (tag_reference_is_shared plain_sink "node:" 4 DEBUG_KIND_ILLEGAL DEBUG_KIND_UNION
           (start_stab "000" false [])); [apply start_stab_tags_wf|reflexivity].
Defined.

Lemma delete_first_NoDup (i : nat) l k :
  NoDup l -> l !! k = Some i -> ~ In i (delete k l) /\ forall j, In j (delete k l) -> In j l.
Proof.
  intros Hnd Hk. rewrite <- (take_drop_middle l k i Hk) in Hnd.
  rewrite delete_take_drop.
  apply NoDup_app in Hnd as (_ & Hdisj & Hnd2). apply NoDup_cons in Hnd2 as [Hni _].
  split.
  - rewrite <- list_elem_of_In, elem_of_app. intros [H|H]; [|done].
    apply (Hdisj i H). by left.
  - intros j. rewrite <- !list_elem_of_In. intros Hj.
    rewrite <- (take_drop_middle l k i Hk). rewrite elem_of_app in Hj.
    rewrite elem_of_app, elem_of_cons. tauto.
Qed.

(** X11.  The definition of a tag reaches the references made before it:
    the indirect type that a forward reference got stands for nothing
    until the tag is defined, and for the defined type afterwards; the tag
    leaves the list of undefined tags, so that the end of the session does
    not overwrite it. *)
Theorem tag_definition_fills_forward_reference E p len kind d w :
  tags_wf w -> NoDup (tags w) ->
  debug_find_tagged_type E (sink w) (CStr.take len p) = None ->
  exists i w1 w2,
    stab_find_tagged_type E p len kind w
    = Some (Some (DIndirect (TagSlot i) (Some (CStr.take len p))), w1) /\
    resolve w1 (DIndirect (TagSlot i) (Some (CStr.take len p))) = DEBUG_TYPE_NULL /\
    fill_in_tag (CStr.take len p) (Some d) w1 = Some (tt, w2) /\
    resolve w2 (DIndirect (TagSlot i) (Some (CStr.take len p))) = Some d /\
    ~ In i (tags w2) /\ tags_wf w2 /\ NoDup (tags w2) /\
    (forall j, In j (tags w2) -> In j (tags w1)).
Proof.
  intros Hwf Hnd Hq.
  destruct (stab_find_tagged_type_node E p len kind w Hwf Hq)
    as (w1 & H1 & Hfind1 & Hwf1 & _ & _ & Hnd1 & _).
  specialize (Hnd1 Hnd). set (i := tag_index (CStr.take len p) w) in *.
  destruct (find_tag_Some _ _ _ _ Hfind1) as (Hin & st & Hst & Hname).
  destruct (Hwf1 i Hin) as (st' & Hst' & Hslot & Htype).
  rewrite Hst in Hst'. injection Hst' as <-.
  destruct (list_find (fun j => j = i) (tags w1)) as [[k x]|] eqn:Hlf.
  2: { apply list_find_None in Hlf. rewrite Forall_forall in Hlf.
       destruct (Hlf i); [by apply list_elem_of_In|done]. }
  pose proof Hlf as Hlf'. apply list_find_Some in Hlf' as (Hk & -> & _).
  destruct (delete_first_NoDup i (tags w1) k Hnd1 Hk) as [Hgone Hsub].
  set (w2 := upd_tags (fun l => match list_find (fun j => j = i) l with
                                | Some (k, _) => delete k l
                                | None => l
                                end)
               (write_slot (TagSlot i) (Some d) w1)).
  assert (tags w2 = delete k (tags w1)) as Htags.
  { unfold w2. cbn [tags upd_tags write_slot upd_tag_nodes]. by rewrite Hlf. }
  assert (tag_nodes w2
          = alter (fun st => mkTag (tag_name st) (tag_kind st) (Some d) (tag_type st)) i
              (tag_nodes w1)) as Hnodes by reflexivity.
  assert (fill_in_tag (CStr.take len p) (Some d) w1 = Some (tt, w2)) as Hfill.
  { unfold fill_in_tag. by rewrite Hfind1. }
  clearbody w2.
  exists i, w1, w2. split; [done|].
  split; [unfold resolve, read_slot; rewrite Hst; exact Hslot|].
  split; [done|].
  split.
  { unfold resolve, read_slot. by rewrite Hnodes, list_lookup_alter_eq, Hst. }
  rewrite Htags. split; [done|]. split.
  { intros j Hj. rewrite Htags in Hj.
    destruct (Hwf1 j (Hsub j Hj)) as (sj & Hsj & Hslj & Htj).
    rewrite Hnodes, list_lookup_alter_ne by (intros ->; done). eauto. }
  split; [|done]. rewrite delete_take_drop.
  rewrite <- (take_drop_middle _ k i Hk) in Hnd1.
  apply NoDup_app in Hnd1 as (Ha & Hdisj & Hb). apply NoDup_cons in Hb as [_ Hb].
  apply NoDup_app. split; [done|]. split; [|done].
  intros y Hy Hy'. apply (Hdisj y Hy). by right.
Qed.

Lemma tag_definition_fills_forward_reference_witness :
  exists i w1 w2,
    stab_find_tagged_type plain_sink "node:" 4 DEBUG_KIND_STRUCT (start_stab "000" false [])
    = Some (Some (DIndirect (TagSlot i) (Some (CStr.take 4 "node:"))), w1) /\
    resolve w1 (DIndirect (TagSlot i) (Some (CStr.take 4 "node:"))) = DEBUG_TYPE_NULL /\
    fill_in_tag (CStr.take 4 "node:") (Some (DStruct true 8 None)) w1 = Some (tt, w2) /\
    resolve w2 (DIndirect (TagSlot i) (Some (CStr.take 4 "node:")))
    = Some (DStruct true 8 None) /\
    ~ In i (tags w2) /\ tags_wf w2 /\ NoDup (tags w2) /\
    (forall j, In j (tags w2) -> In j (tags w1)).
Proof.
  apply (tag_definition_fills_forward_reference plain_sink "node:" 4 DEBUG_KIND_STRUCT
           (DStruct true 8 None) (start_stab "000" false []));
    [apply start_stab_tags_wf|apply NoDup_nil_2|reflexivity].
Defined.

Lemma finish_tags_all : forall l w0,
  (forall i, In i l -> is_Some (tag_nodes w0 !! i)) ->
  exists w',
    finish_tags l w0 = Some (true, w') /\
    sink w' = sink w0 /\ stderr w' = stderr w0 /\ tags w' = tags w0 /\
    chunks w' = chunks w0 /\ file_types w' = file_types w0 /\ files w' = files w0 /\
    length (tag_nodes w') = length (tag_nodes w0) /\
    forall i st0, tag_nodes w0 !! i = Some st0 ->
      exists st', tag_nodes w' !! i = Some st' /\
        tag_name st' = tag_name st0 /\ tag_kind st' = tag_kind st0 /\
        tag_type st' = tag_type st0 /\
        (In i l -> tag_slot st' = Some (undefined_tag st0)) /\
        (~ In i l -> tag_slot st' = tag_slot st0).
Proof.
  induction l as [|i l IH]; intros w0 Hin.
  - exists w0. split; [done|]. do 7 (split; [done|]). intros i st0 Hi. exists st0.
    do 4 (split; [done|]). split; [intros []|done].
  - destruct (Hin i ltac:(by left)) as [st Hst].
    set (w1 := write_slot (TagSlot i) (Some (undefined_tag st)) w0).
    assert (tag_nodes w1
            = alter (fun s => mkTag (tag_name s) (tag_kind s) (Some (undefined_tag st))
                                (tag_type s)) i (tag_nodes w0)) as Hnodes by reflexivity.
    assert (finish_tags (i :: l) w0 = finish_tags l w1) as Hstep.
    { cbn [finish_tags]. unfold bind at 1. rewrite Hst. cbv beta iota.
      unfold bind at 1, modify at 1. cbv beta iota. reflexivity. }
    assert (sink w1 = sink w0 /\ stderr w1 = stderr w0 /\ tags w1 = tags w0 /\
            chunks w1 = chunks w0 /\ file_types w1 = file_types w0 /\ files w1 = files w0)
      as (Hs & He & Ht & Hc & Hft & Hfl) by (by repeat split).
    clearbody w1.
    destruct (IH w1) as (w' & Hf & Hs' & He' & Ht' & Hc' & Hft' & Hfl' & Hlen' & Hall).
    { intros j Hj. destruct (Hin j ltac:(by right)) as [sj Hsj]. rewrite Hnodes.
      destruct (decide (i = j)) as [->|Hne].
      - rewrite list_lookup_alter_eq, Hsj. by eexists.
      - rewrite list_lookup_alter_ne by done. by eexists. }
    exists w'. rewrite Hstep. split; [done|].
    split; [congruence|]. split; [congruence|]. split; [congruence|].
    split; [congruence|]. split; [congruence|]. split; [congruence|].
    split; [by rewrite Hlen', Hnodes, length_alter|].
    intros j st0 Hj. destruct (decide (i = j)) as [->|Hne].
    + rewrite Hst in Hj. injection Hj as <-.
      destruct (Hall j (mkTag (tag_name st) (tag_kind st) (Some (undefined_tag st))
                          (tag_type st)))
        as (st' & Hj' & Hn & Hk & Hty & Hyes & Hno).
      { by rewrite Hnodes, list_lookup_alter_eq, Hst. }
      exists st'. do 4 (split; [done|]). split; [|intros H; destruct H; by left].
      intros _. destruct (in_dec Nat.eq_dec j l) as [Hjl|Hjl].
      * by rewrite (Hyes Hjl).
      * by rewrite (Hno Hjl).
    + destruct (Hall j st0) as (st' & Hj' & Hn & Hk & Hty & Hyes & Hno).
      { by rewrite Hnodes, list_lookup_alter_ne. }
      exists st'. do 4 (split; [done|]). split.
      * intros [->|Hjl]; [done|]. by apply Hyes.
      * intros Hjl. apply Hno. intros H. apply Hjl. by right.
Qed.

(** X12.  At the end of a session every tag that was referred to and never
    defined is given an undefined tagged type of its name and kind, a
    struct when no reference told the kind; each indirect type handed out
    for the tag stands for that type from then on.  The sink is told
    nothing and nothing is printed. *)
Theorem finish_stab_defines_every_tag E w :
  within_function w = false -> tags_wf w ->
  exists w',
    finish_stab E true w = Some (true, w') /\
    sink w' = sink w /\ stderr w' = stderr w /\
    forall i, In i (tags w) ->
      exists st, tag_nodes w !! i = Some st /\
        resolve w (DIndirect (TagSlot i) (Some (tag_name st))) = DEBUG_TYPE_NULL /\
        resolve w' (DIndirect (TagSlot i) (Some (tag_name st))) = Some (undefined_tag st).
Proof.
  intros Hout Hwf.
  destruct (finish_tags_all (tags w) w) as (w' & Hf & Hs & He & _ & _ & _ & _ & _ & Hall).
  { intros i Hi. destruct (Hwf i Hi) as (st & -> & _). by eexists. }
  exists w'. split.
  { unfold finish_stab. unfold bind at 1, get at 1. rewrite Hout.
    cbn [andb]. unfold bind at 1, ret at 1. cbn [andb]. cbv beta iota.
    unfold bind at 1, get at 1. exact Hf. }
  do 2 (split; [done|]). intros i Hi.
  destruct (Hwf i Hi) as (st & Hst & Hslot & _). exists st. split; [done|].
  destruct (Hall i st Hst) as (st' & Hst' & _ & _ & _ & Hyes & _).
  unfold resolve, read_slot. rewrite Hst, Hst'. simpl. by rewrite Hslot, (Hyes Hi).
Qed.

Lemma finish_stab_defines_every_tag_witness :
  exists w',
    finish_stab plain_sink true
      (state_after (stab_find_tagged_type plain_sink "node:" 4 DEBUG_KIND_ILLEGAL)
         (start_stab "000" false []))
    = Some (true, w') /\
    sink w' = [] /\ stderr w' = [] /\
    forall i, In i [0%nat] ->
      exists st,
        [mkTag "node" DEBUG_KIND_ILLEGAL None (Some (DIndirect (TagSlot 0) (Some "node")))]
        !! i = Some st /\
        resolve (state_after (stab_find_tagged_type plain_sink "node:" 4 DEBUG_KIND_ILLEGAL)
                   (start_stab "000" false []))
          (DIndirect (TagSlot i) (Some (tag_name st))) = DEBUG_TYPE_NULL /\
        resolve w' (DIndirect (TagSlot i) (Some (tag_name st))) = Some (undefined_tag st).
Proof.
  apply (finish_stab_defines_every_tag plain_sink
           (state_after (stab_find_tagged_type plain_sink "node:" 4 DEBUG_KIND_ILLEGAL)
              (start_stab "000" false []))); [reflexivity|].
  intros j [<-|[]]. eexists. by repeat split.
Defined.

(** ** More on the dispatcher *)

Lemma start_compilation_unit_idle E type value s w :
  so_string w = None -> start_compilation_unit E type value s w = Some (true, w).
Proof.
  intros Hso. unfold start_compilation_unit.
  unfold bind at 1, get at 1. cbv beta iota. unfold bind at 1, get at 1. cbv beta iota.
  by rewrite Hso.
Qed.

Lemma sink_call_accepted E e w :
  sink_accepts E (sink w) e = true ->
  sink_call E e w = Some (true, upd_sink (fun l => (l ++ [e])%list) w).
Proof. intros H. unfold sink_call. by rewrite H. Qed.



(** X14.  The two N_SO records of a compilation unit, the directory and
    the file name, with the same value: the names are joined, unless the
    second is an absolute path, and nothing is told to the sink yet.  The
    next record that is not such an N_SO starts the unit: the sink gets
    the joined name as the file name, once. *)
Theorem so_names_are_joined E fuel desc1 desc2 value dir file type value' s w :
  so_string w = None -> within_function w = false ->
  CStr.peek dir <> CStr.NUL -> CStr.peek file <> CStr.NUL ->
  IS_ABSOLUTE_PATH E file = false ->
  negb (is_N_SO type) || CStr.cheq (CStr.peek s) CStr.NUL || negb (value' =? value) = true ->
  sink_accepts E (sink w) (Ev_set_filename (dir ++ file)) = true ->
  exists w2 w3,
    bind (parse_stab E fuel N_SO desc1 value dir)
      (fun _ => parse_stab E fuel N_SO desc2 value file) w = Some (true, w2) /\
    so_string w2 = Some (dir ++ file) /\ sink w2 = sink w /\
    start_compilation_unit E type value' s w2 = Some (true, w3) /\
    sink w3 = (sink w ++ [Ev_set_filename (dir ++ file)])%list /\
    main_filename w3 = Some (dir ++ file) /\ so_string w3 = None.
Proof.
  intros Hso Hout Hdir Hfile Habs Hnext Hsink.
  set (w1 := set_so_value value (upd_so_string (fun _ => Some dir) w)).
  set (w2 := set_so_value value (upd_so_string (fun _ => Some (dir ++ file)) w1)).
  assert (so_string w1 = Some dir /\ so_value w1 = value /\ within_function w1 = false)
    as (Hso1 & Hval1 & Hout1) by (by repeat split).
  assert (so_string w2 = Some (dir ++ file) /\ so_value w2 = value /\ sink w2 = sink w)
    as (Hso2 & Hval2 & Hsink2) by (by repeat split).
  assert (parse_stab E fuel N_SO desc1 value dir w = Some (true, w1)) as H1.
  { unfold parse_stab. unfold bind at 1. rewrite start_compilation_unit_idle by done.
    cbv beta iota. cbn [negb]. cbv iota.
    unfold bind at 1, get at 1. cbv beta iota. rewrite Hout.
    unfold bind at 1, ret at 1. cbv beta iota. cbn [negb]. cbv iota.
    rewrite (peek_not _ _ Hdir).
    unfold bind at 1, modify at 1. cbv beta iota.
    unfold bind at 1, modify at 1. cbv beta iota. unfold ret.
    unfold w1. do 3 f_equal. unfold upd_so_string. by rewrite Hso. }
  assert (parse_stab E fuel N_SO desc2 value file w1 = Some (true, w2)) as H2.
  { assert (start_compilation_unit E N_SO value file w1 = Some (true, w1)) as Hidle.
    { unfold start_compilation_unit.
      unfold bind at 1, get at 1. cbv beta iota. unfold bind at 1, get at 1. cbv beta iota.
      rewrite Hso1, Hval1. cbn [is_N_SO negb orb]. rewrite (peek_not _ _ Hfile).
      by rewrite Z.eqb_refl. }
    unfold parse_stab. unfold bind at 1. rewrite Hidle.
    cbv beta iota. cbn [negb]. cbv iota.
    unfold bind at 1, get at 1. cbv beta iota. rewrite Hout1.
    unfold bind at 1, ret at 1. cbv beta iota. cbn [negb]. cbv iota.
    rewrite (peek_not _ _ Hfile).
    unfold bind at 1, modify at 1. cbv beta iota.
    unfold bind at 1, modify at 1. cbv beta iota. unfold ret.
    unfold w2. do 3 f_equal. unfold upd_so_string. by rewrite Hso1, Habs. }
  clearbody w2. clearbody w1.
  assert (exists w3, start_compilation_unit E type value' s w2 = Some (true, w3) /\
                     sink w3 = (sink w2 ++ [Ev_set_filename (dir ++ file)])%list /\
                     main_filename w3 = Some (dir ++ file) /\ so_string w3 = None)
    as (w3 & H3 & Hsink3 & Hmain3 & Hso3).
  { unfold start_compilation_unit.
    unfold bind at 1, get at 1. cbv beta iota. unfold bind at 1, get at 1. cbv beta iota.
    rewrite Hso2, Hval2, Hnext.
    unfold bind at 1, debug_set_filename.
    rewrite sink_call_accepted by (by rewrite Hsink2). cbv beta iota. cbn [negb]. cbv iota.
    eexists. split; [reflexivity|]. repeat split; cbn; by destruct (sections w2). }
  exists w2, w3. split; [by unfold bind; rewrite H1|].
  do 3 (split; [done|]). split; [by rewrite Hsink3, Hsink2|done].
Qed.

Lemma so_names_are_joined_witness :
  exists w2 w3,
    bind (parse_stab plain_sink 0 N_SO 0 4096 "/src/")
      (fun _ => parse_stab plain_sink 0 N_SO 0 4096 "a.c") (start_stab "000" false [])
    = Some (true, w2) /\
    so_string w2 = Some ("/src/" ++ "a.c") /\ sink w2 = [] /\
    start_compilation_unit plain_sink N_SLINE 4096 "" w2 = Some (true, w3) /\
    sink w3 = [Ev_set_filename ("/src/" ++ "a.c")] /\
    main_filename w3 = Some ("/src/" ++ "a.c") /\ so_string w3 = None.
Proof.
  apply (so_names_are_joined plain_sink 0 0 0 4096 "/src/" "a.c" N_SLINE 4096 ""
           (start_stab "000" false [])); done.
Defined.

(** X15.  A compilation unit starts with an empty table of types: when the
    pending N_SO name is handed to the sink, the decoder is left with one
    file whose table is empty, so that no type number of the unit before
    has a slot any more. *)
Theorem new_unit_forgets_type_numbers E type value s f w :
  so_string w = Some f ->
  negb (is_N_SO type) || CStr.cheq (CStr.peek s) CStr.NUL || negb (value =? so_value w) = true ->
  sink_accepts E (sink w) (Ev_set_filename f) = true ->
  exists w',
    start_compilation_unit E type value s w = Some (true, w') /\
    files w' = 1 /\ file_types w' = [None] /\ chunks w' = chunks w /\
    forall n, lookup_slot n w' = None.
Proof.
  intros Hso Hnext Hsink.
  assert (exists w', start_compilation_unit E type value s w = Some (true, w') /\
            files w' = 1 /\
            file_types w' = <[O := None]> (resize (Z.to_nat 1) None (file_types w)) /\
            chunks w' = chunks w) as (w' & H & Hfiles & Hft & Hch).
  { unfold start_compilation_unit.
    unfold bind at 1, get at 1. cbv beta iota. unfold bind at 1, get at 1. cbv beta iota.
    rewrite Hso, Hnext.
    unfold bind at 1, debug_set_filename.
    rewrite sink_call_accepted by done. cbv beta iota. cbn [negb]. cbv iota.
    eexists. split; [reflexivity|]. split; [reflexivity|].
    split; cbn; by destruct (sections w). }
  assert (file_types w' = [None]) as Hft'.
  { rewrite Hft. change (Z.to_nat 1) with 1%nat. by destruct (file_types w) as [|x [|y l]]. }
  exists w'. do 4 (split; [done|]). intros n. unfold lookup_slot.
  assert (forall fuel b, seek_chunk fuel w' (FileCell (Z.to_nat (to_uint (fst n)))) b
                         = Some (FileCell (Z.to_nat (to_uint (fst n))))) as Hseek.
  { intros fuel b. assert (read_cell (FileCell (Z.to_nat (to_uint (fst n)))) w' = None) as Hr.
    { simpl. rewrite Hft'. by destruct (Z.to_nat (to_uint (fst n))) as [|[|k]]. }
    destruct fuel; cbn [seek_chunk]; by rewrite Hr. }
  rewrite Hseek. simpl. rewrite Hft'. by destruct (Z.to_nat (to_uint (fst n))) as [|[|k]].
Qed.

Lemma new_unit_forgets_type_numbers_witness :
  exists w',
    start_compilation_unit plain_sink N_SO 8192 "b.c"
      (state_after (bind (parse_stab plain_sink 0 N_SO 0 4096 "a.c")
                      (fun _ => stab_record_type (0, 5) (Some DVoid)))
         (start_stab "000" false []))
    = Some (true, w') /\
    files w' = 1 /\ file_types w' = [None] /\
    chunks w' = [mkChunk None 0 (<[5%nat := Some DVoid]> (replicate 16 None))] /\
    forall n, lookup_slot n w' = None.
Proof.
  apply (new_unit_forgets_type_numbers plain_sink N_SO 8192 "b.c" "a.c"
           (state_after (bind (parse_stab plain_sink 0 N_SO 0 4096 "a.c")
                           (fun _ => stab_record_type (0, 5) (Some DVoid)))
              (start_stab "000" false []))); done.
Defined.

(** X16.  An N_FUN record with an empty string ends the function: the
    variables still pending are handed to the sink, then the end of the
    function, at the value of the record, taken relative to the start of
    the function when the stabs come from sections.  The decoder is then
    outside any function, and a second such record does nothing. *)
Theorem empty_fun_record_ends_function E fuel desc value w :
  so_string w = None -> within_function w = true ->
  (forall trace name t kind val,
     sink_accepts E trace (Ev_record_variable name t kind val) = true) ->
  let addr := if sections w then to_vma (value + function_start_offset w) else value in
  sink_accepts E (sink w ++ map variable_event (pending w)) (Ev_end_function addr) = true ->
  exists w',
    parse_stab E fuel N_FUN desc value "" w = Some (true, w') /\
    sink w' = (sink w ++ map variable_event (pending w) ++ [Ev_end_function addr])%list /\
    within_function w' = false /\ pending w' = [] /\ function_end w' = all_ones /\
    forall desc' value', parse_stab E fuel N_FUN desc' value' "" w' = Some (true, w').
Proof.
  intros Hso Hin Hvars addr Hend.
  set (w1 := set_pending [] (upd_sink (fun s => (s ++ map variable_event (pending w))%list) w)).
  set (w2 := set_function_end all_ones
               (set_within_function false
                  (upd_sink (fun l => (l ++ [Ev_end_function addr])%list) w1))).
  assert (sink w1 = (sink w ++ map variable_event (pending w))%list) as Hsink1
    by reflexivity.
  assert (sink w2 = (sink w1 ++ [Ev_end_function addr])%list /\
          within_function w2 = false /\ pending w2 = [] /\ function_end w2 = all_ones /\
          so_string w2 = so_string w) as (Hsink2 & Hin2 & Hpend2 & Hfe2 & Hso2)
    by (by repeat split).
  assert (parse_stab E fuel N_FUN desc value "" w = Some (true, w2)) as H.
  { unfold parse_stab. unfold bind at 1. rewrite start_compilation_unit_idle by done.
    cbv beta iota. cbn [negb CStr.peek]. cbv iota.
    change (CStr.cheq CStr.NUL CStr.NUL) with true. cbv iota.
    unfold bind at 1, get at 1. cbv beta iota. rewrite Hin.
    unfold bind at 1, get at 1. cbv beta iota. fold addr.
    unfold bind at 1, end_function.
    unfold bind at 1. rewrite (stab_emit_pending_vars_all E Hvars). cbv beta iota.
    cbn [negb]. cbv iota. fold w1. unfold debug_end_function.
    rewrite sink_call_accepted by (by rewrite Hsink1). cbv beta iota. cbn [negb]. cbv iota.
    reflexivity. }
  clearbody w2. exists w2. split; [done|].
  split; [by rewrite Hsink2, Hsink1, <- app_assoc|]. do 3 (split; [done|]).
  intros desc' value'. unfold parse_stab. unfold bind at 1.
  rewrite start_compilation_unit_idle by congruence.
  cbv beta iota. cbn [negb CStr.peek]. cbv iota.
  change (CStr.cheq CStr.NUL CStr.NUL) with true. cbv iota.
  unfold bind at 1, get at 1. cbv beta iota. by rewrite Hin2.
Qed.

Lemma empty_fun_record_ends_function_witness :
  exists w',
    parse_stab plain_sink 0 N_FUN 0 64 ""
      (upd_pending (cons (mkPending (Some "i") (Some DVoid) DEBUG_LOCAL 4))
         (set_within_function true (start_stab "000" false [])))
    = Some (true, w') /\
    sink w' = ([] ++ [Ev_record_variable (Some "i") (Some DVoid) DEBUG_LOCAL 4]
               ++ [Ev_end_function 64])%list /\
    within_function w' = false /\ pending w' = [] /\ function_end w' = all_ones /\
    forall desc' value', parse_stab plain_sink 0 N_FUN desc' value' "" w' = Some (true, w').
Proof.
  apply (empty_fun_record_ends_function plain_sink 0 0 64
           (upd_pending (cons (mkPending (Some "i") (Some DVoid) DEBUG_LOCAL 4))
              (set_within_function true (start_stab "000" false [])))); done.
Defined.

(** ** Type expressions *)

Lemma type_number_text_app filenum index rest :
  type_number_text filenum index ++ rest
  = "(" ++ signed_decimal filenum ++ "," ++ signed_decimal index ++ ")" ++ rest.
Proof.
  unfold type_number_text. cbn [append].
  rewrite append_assoc. cbn [append]. rewrite append_assoc. by cbn [append].
Qed.

Lemma parse_stab_type_number_text filenum index rest w :
  - 2 ^ 31 <= filenum < 2 ^ 31 -> - 2 ^ 31 <= index < 2 ^ 31 ->
  parse_stab_type_number (type_number_text filenum index ++ rest) w
  = Some ((Some (filenum, index), rest), w).
Proof. intros. rewrite type_number_text_app. by apply parse_stab_type_number_pair. Qed.

Lemma type_number_text_peek filenum index rest :
  CStr.peek (type_number_text filenum index ++ rest) = "("%char.
Proof. reflexivity. Qed.

Lemma type_number_text_head filenum index rest :
  exists s, type_number_text filenum index ++ rest = String "(" s.
Proof. by eexists. Qed.


Lemma stab_find_type_recorded E n t w sl :
  is_xcoff_number n = false -> to_uint (fst n) < files w ->
  lookup_slot n w = Some sl -> read_slot sl w = Some (Some t) ->
  stab_find_type E n w = Some (Some t, w).
Proof. intros Hx Hf Hl Hr. rewrite (stab_find_type_slot E n w sl) by done. by rewrite Hr. Qed.





(** ** Types given by their number *)

Lemma type_recorded_after n t k w : type_recorded w n t -> type_recorded (after_types k w) n t.
Proof.
  destruct k; [done|]. intros (Hf & Hfile & Hi & sl & Hl & Hr).
  split; [done|]. split; [done|]. split; [done|]. exists sl. split; [|done].
  by rewrite (lookup_slot_same w).
Qed.

Lemma after_types_after n k w : after_types n (after_types k w) = after_types (n + k) w.
Proof. by destruct n, k. Qed.

Lemma parse_stab_type_reference E fuel n t rest w :
  type_recorded w n t -> CStr.cheq (CStr.peek rest) "=" = false ->
  parse_stab_type E (S fuel) None (type_reference n ++ rest) false w
  = Some ((Some t, None, rest), after_types 1 w).
Proof.
  intros (Hf & Hfile & Hi & sl & Hl & Hr) Hrest. destruct n as [filenum index].
  cbn [fst snd] in *. unfold type_reference. cbn [fst snd].
  assert (to_uint filenum = filenum) as Hfu by (unfold to_uint, two32; apply Z.mod_small; lia).
  assert (is_xcoff_number (filenum, index) = false) as Hx.
  { unfold is_xcoff_number. cbn [fst snd]. destruct (Z.ltb_spec index 0); [lia|].
    apply andb_false_r. }
  cbn [after_types]. set (w4 := set_self_crossref false w).
  assert (stab_find_type E (filenum, index) w4 = Some (Some t, w4)) as Hfind4.
  { apply (stab_find_type_recorded E _ _ _ sl); try done.
    - cbn [fst]. change (files w4) with (files w). lia.
    - by rewrite (lookup_slot_same w w4). }
  cbn [parse_stab_type]. unfold parse_stab_type_body.
  destruct (type_number_text_head filenum index rest) as [s Hs].
  assert (at_end (type_number_text filenum index ++ rest) = false) as -> by (by rewrite Hs).
  unfold bind at 1, modify at 1. cbv beta iota. fold w4. clearbody w4.
  unfold bind at 1. unfold parse_type_header.
  rewrite !type_number_text_peek. eval_chars. cbn [negb andb orb]. cbv iota.
  unfold bind at 1. rewrite parse_stab_type_number_text by lia. cbv beta iota.
  rewrite Hrest. cbn [negb]. cbv iota.
  unfold bind at 1. rewrite Hfind4. reflexivity.
Qed.

(** ** Structures *)

Lemma null_terminated_Some {A : Type} (l : list A) : null_terminated (map Some l) = l.
Proof. induction l as [|x l IH]; [done|]. simpl. by rewrite IH. Qed.

Lemma member_ok_after k w m : member_ok w m -> member_ok (after_types k w) m.
Proof. intros (Hn & Ht & Hp & Hs). split; [done|]. split; [by apply type_recorded_after|done]. Qed.

Lemma type_reference_peek n rest : CStr.peek (type_reference n ++ rest) = "("%char.
Proof. reflexivity. Qed.

Lemma parse_stab_one_struct_field_member E fuel m tail statics w :
  member_ok w m ->
  Unfolded.parse_stab_one_struct_field (parse_stab_type E (S fuel))
    (dm_name m ++ ":" ++ type_reference (dm_number m) ++ ","
     ++ signed_decimal (dm_bitpos m) ++ "," ++ signed_decimal (dm_bitsize m) ++ ";" ++ tail)
    (":" ++ type_reference (dm_number m) ++ ","
     ++ signed_decimal (dm_bitpos m) ++ "," ++ signed_decimal (dm_bitsize m) ++ ";" ++ tail)
    statics w
  = Some ((true, Some (field_of m), statics, tail), after_types 1 w).
Proof.
  intros ((Hne & Hcolon & _) & Ht & Hp & Hs).
  unfold Unfolded.parse_stab_one_struct_field.
  assert (at_end (dm_name m ++ ":" ++ type_reference (dm_number m) ++ ","
     ++ signed_decimal (dm_bitpos m) ++ "," ++ signed_decimal (dm_bitsize m) ++ ";" ++ tail)
          = false) as ->.
  { by destruct (dm_name m). }
  rewrite diff_app, take_app. cbn [append CStr.advance].
  rewrite type_reference_peek. eval_chars. cbn [negb]. cbv iota.
  unfold bind at 1, ret at 1. cbv beta iota.
  unfold bind at 1. rewrite (parse_stab_type_reference E fuel _ _ _ _ Ht) by done.
  cbv beta iota. cursor.
  unfold bind at 1. rewrite parse_number_signed_decimal by (done || lia).
  cbv beta iota. cursor.
  unfold bind at 1. rewrite parse_number_signed_decimal by (done || lia).
  cbv beta iota. cursor.
  rewrite !to_vma_small by lia. reflexivity.
Qed.

Lemma parse_struct_field_list_all E get fuel0 orig rest : forall l w fuel fields statics,
  Forall (member_ok w) l -> (length l <= fuel)%nat ->
  Unfolded.parse_struct_field_list get fuel (parse_stab_type E (S fuel0)) orig
    (struct_fields_text l ++ String ";" rest) fields statics w
  = Some ((Some (fields ++ map Some (map field_of l))%list, statics, String ";" rest),
          after_types (length l) w).
Proof.
  induction l as [|m l IH]; intros w fuel fields statics Hl Hfuel.
  - destruct fuel; simpl; by rewrite !app_nil_r.
  - apply Forall_cons in Hl as [Hm Hl].
    destruct fuel as [|fuel]; [simpl in Hfuel; lia|].
    pose proof Hm as ((Hne & Hcolon & _ & Hsemi & Hdollar & Hdot) & _).
    cbn [struct_fields_text]. rewrite !append_assoc.
    cbn [Unfolded.parse_struct_field_list].
    rewrite !(peek_app _ _ Hne).
    rewrite (peek_not _ _ Hsemi), (peek_not _ _ Hdollar), (peek_not _ _ Hdot).
    cbn [orb andb]. cbv iota.
    rewrite (strchr_app_skip ":" _ _ Hcolon). cbn [append]. rewrite strchr_here.
    unfold CStr.at_. cbn [CStr.skip CStr.advance]. rewrite type_reference_peek.
    eval_chars. cbv iota.
    unfold bind at 1.
    pose proof (parse_stab_one_struct_field_member E fuel0 m
                  (struct_fields_text l ++ String ";" rest) statics w Hm) as H1.
    cbn [append] in H1. rewrite ?append_assoc in H1. cbn [append] in H1.
    rewrite ?append_assoc. cbn [append]. rewrite H1. cbv beta iota. cbn [negb]. cbv iota.
    rewrite IH.
    + cbn [map length]. rewrite <- app_assoc. cbn [app]. by destruct (length l).
    + eapply Forall_impl; [exact Hl|]. intros x. apply member_ok_after.
    + simpl in Hfuel. lia.
Qed.

Lemma struct_fields_text_length l tail :
  (length l <= String.length (struct_fields_text l ++ tail))%nat.
Proof.
  induction l as [|m l IH]; [simpl; lia|].
  rewrite length_app_string in IH. cbn [struct_fields_text length].
  repeat (rewrite ?length_app_string; cbn [String.length append]). lia.
Qed.

(** X18.  The data members of a structure are read back as they were
    written: for the members [NAME:TYPE,BITPOS,BITSIZE;], with types given
    by numbers that are defined, the sink gets the fields in order, each
    with its name, the type its number stands for, its position and its
    size; a member at bit 0 of size 0 is marked as one to ignore, every
    other one is public.  The cursor is left at the semicolon that closes
    the list, no static member is reported and nothing is printed. *)
Theorem struct_fields_round_trip E get fuel l rest w :
  Forall (member_ok w) l ->
  Unfolded.parse_stab_struct_fields get (parse_stab_type E (S fuel))
    (struct_fields_text l ++ String ";" rest) w
  = Some ((true, Some (map field_of l), false, String ";" rest), after_types (length l) w).
Proof.
  intros Hl. unfold Unfolded.parse_stab_struct_fields.
  assert (at_end (struct_fields_text l ++ String ";" rest) = false) as ->.
  { destruct l as [|m l]; [done|]. apply Forall_cons in Hl as [((Hne & _) & _) _].
    cbn [struct_fields_text]. by destruct (dm_name m). }
  unfold bind at 1.
  rewrite parse_struct_field_list_all by (done || apply struct_fields_text_length).
  cbv beta iota. cbn [app]. by rewrite null_terminated_Some.
Qed.

Lemma struct_fields_round_trip_witness :
  Unfolded.parse_stab_struct_fields (fun _ _ => None) (parse_stab_type plain_sink 1)
    "x:(0,1),0,32;pad:(0,1),0,0;;rest"
    (state_after (stab_record_type (0, 1) (Some (DInt 4 false))) (start_stab "000" false []))
  = Some ((true,
           Some [DField "x" (DInt 4 false) 0 32 DEBUG_VISIBILITY_PUBLIC;
                 DField "pad" (DInt 4 false) 0 0 DEBUG_VISIBILITY_IGNORE],
           false, ";rest"),
          set_self_crossref false
            (state_after (stab_record_type (0, 1) (Some (DInt 4 false)))
               (start_stab "000" false []))).
Proof.
  apply (struct_fields_round_trip plain_sink (fun _ _ => None) 0
           [mkMember "x" (0, 1) (DInt 4 false) 0 32; mkMember "pad" (0, 1) (DInt 4 false) 0 0]
           "rest").
  repeat constructor; simpl; try lia; try discriminate;
    try (unfold no_char; simpl; intros H; decompose [or] H; discriminate || done).
  all: exists (TypeSlot 0 1); vm_compute; done.
Defined.

(** ** Arrays *)

Lemma adjustable_bound_text mark z tail adj :
  bound_mark mark ->
  Unfolded.adjustable_bound (bound_text mark z ++ tail) adj
  = (match mark with Some _ => true | None => adj end, signed_decimal z ++ tail).
Proof.
  intros Hmark. unfold Unfolded.adjustable_bound. destruct mark as [c|]; cbn [bound_text].
  - destruct (Hmark c eq_refl) as (Hd & Hm & Hn). cbn [append CStr.peek CStr.advance].
    by rewrite Hd, (peek_not _ _ Hm), (peek_not _ _ Hn).
  - destruct (signed_decimal_first z) as (c & s & -> & [Hd| ->]); cbn [append CStr.peek].
    + by rewrite Hd.
    + done.
Qed.

Lemma adjustable_bound_number z tail adj :
  Unfolded.adjustable_bound (signed_decimal z ++ tail) adj = (adj, signed_decimal z ++ tail).
Proof. apply (adjustable_bound_text None z tail adj). by intros c Hc. Qed.

(** X19.  An array is read back as it was written: the index type and
    the element type are the types their numbers stand for and the bounds
    are the numbers written.  When either bound carries the letter of an
    adjustable bound, both numbers are dropped and the array gets the
    bounds 0 and -1.  Nothing is printed. *)
Theorem array_round_trip E find fuel ni ti ne te lower_mark upper_mark lower upper
    stringp rest w :
  type_recorded w ni ti -> type_recorded w ne te -> ni <> (0, 0) ->
  bound_mark lower_mark -> bound_mark upper_mark ->
  - 2 ^ 63 <= lower < 2 ^ 63 -> - 2 ^ 63 <= upper < 2 ^ 63 ->
  CStr.cheq (CStr.peek rest) "=" = false ->
  Unfolded.parse_stab_array_type find (parse_stab_type E (S fuel))
    (type_reference ni ++ ";" ++ bound_text lower_mark lower ++ ";"
     ++ bound_text upper_mark upper ++ ";" ++ type_reference ne ++ rest) stringp w
  = Some ((Some (DArray te ti (fst (array_bounds lower_mark upper_mark lower upper))
                   (snd (array_bounds lower_mark upper_mark lower upper)) stringp), rest),
          after_types 2 w).
Proof.
  intros Hti Hte Hni Hlm Hum Hl Hu Hrest.
  pose proof Hti as (Hf & _ & Hi & _).
  unfold Unfolded.parse_stab_array_type.
  assert (at_end (type_reference ni ++ ";" ++ bound_text lower_mark lower ++ ";"
     ++ bound_text upper_mark upper ++ ";" ++ type_reference ne ++ rest) = false) as -> by done.
  unfold bind at 1. unfold type_reference at 1.
  rewrite parse_stab_type_number_text by lia. cbv beta iota. cbn [fst snd].
  assert ((fst ni =? 0) && (snd ni =? 0) = false) as ->.
  { destruct ni as [f i]. cbn [fst snd].
    destruct (Z.eqb_spec f 0) as [->|]; [|done]. destruct (Z.eqb_spec i 0) as [->|]; done. }
  cbn [andb]. cbv iota.
  unfold bind at 1 2.
  rewrite (parse_stab_type_reference E fuel _ _ _ _ Hti) by done.
  cbv beta iota. unfold ret at 1. cbv beta iota. cursor.
  rewrite ?append_assoc. rewrite adjustable_bound_text by done. cbv beta iota.
  unfold bind at 1. rewrite parse_number_signed_decimal by (done || lia).
  cbv beta iota. cursor.
  rewrite ?append_assoc. rewrite adjustable_bound_text by done. cbv beta iota.
  unfold bind at 1. rewrite parse_number_signed_decimal by (done || lia).
  cbv beta iota. cursor.
  unfold bind at 1.
  rewrite (parse_stab_type_reference E fuel ne te rest) by (done || by apply type_recorded_after).
  cbv beta iota. rewrite !to_signed_to_vma by done.
  unfold array_bounds. destruct lower_mark, upper_mark; reflexivity.
Qed.

Lemma array_round_trip_witness :
  Unfolded.parse_stab_array_type (fun _ _ => None) (parse_stab_type plain_sink 1)
    "(0,1);0;T9;(0,2)" false
    (state_after (stab_record_type (0, 2) (Some (DFloat 8)))
       (state_after (stab_record_type (0, 1) (Some (DInt 4 false)))
          (start_stab "000" false [])))
  = Some ((Some (DArray (DFloat 8) (DInt 4 false) 0 (-1) false), ""),
          set_self_crossref false
            (state_after (stab_record_type (0, 2) (Some (DFloat 8)))
               (state_after (stab_record_type (0, 1) (Some (DInt 4 false)))
                  (start_stab "000" false [])))).
Proof.
  apply (array_round_trip plain_sink (fun _ _ => None) 0 (0, 1) (DInt 4 false)
           (0, 2) (DFloat 8) None (Some "T"%char) 0 9 false "").
  1, 2: repeat split; simpl; try lia; eexists; vm_compute; done.
  1: done.
  1: by intros c Hc.
  1: { intros c Hc. injection Hc as <-. done. }
  all: done || lia.
Defined.

(** X20.  An index type written as type number 0, in either form, is
    taken as [int] without a look at the types recorded: the index type of
    the array is the type that the sink knows under the name [int], or a
    signed integer of 4 bytes when it knows none. *)
Theorem array_index_zero_is_int E find fuel index_text ne te lower upper stringp rest w :
  In index_text ["0"; "(0,0)"] ->
  type_recorded w ne te ->
  - 2 ^ 63 <= lower < 2 ^ 63 -> - 2 ^ 63 <= upper < 2 ^ 63 ->
  CStr.cheq (CStr.peek rest) "=" = false ->
  Unfolded.parse_stab_array_type find (parse_stab_type E (S fuel))
    (index_text ++ ";" ++ signed_decimal lower ++ ";" ++ signed_decimal upper ++ ";"
     ++ type_reference ne ++ rest) stringp w
  = Some ((Some (DArray te (default (DInt 4 false) (find (sink w) "int")) lower upper stringp),
           rest), after_types 1 w).
Proof.
  intros Hidx Hte Hl Hu Hrest.
  set (tail := ";" ++ signed_decimal lower ++ ";" ++ signed_decimal upper ++ ";"
               ++ type_reference ne ++ rest).
  assert (parse_stab_type_number (index_text ++ tail) w = Some ((Some (0, 0), tail), w)
          /\ CStr.cheq (CStr.peek (index_text ++ tail)) "=" = false
          /\ at_end (index_text ++ tail) = false) as (Hnum & Hpeek & Hend).
  { simpl in Hidx. destruct Hidx as [<-|[<-|[]]].
    - split; [|done]. by apply (parse_stab_type_number_plain 0 tail w).
    - split; [|done]. by apply (parse_stab_type_number_text 0 0 tail w). }
  unfold Unfolded.parse_stab_array_type. rewrite Hend.
  unfold bind at 1. rewrite Hnum. cbv beta iota. cbn [fst snd].
  rewrite Hpeek. change (0 =? 0) with true. cbn [andb negb]. cbv iota.
  unfold bind at 1 2, query at 1, get at 1. cbv beta iota.
  assert (forall ti,
    (let '(index_type, pp) := (ti, tail) in
     if negb (CStr.cheq (CStr.peek pp) ";") then
       bad_stab (index_text ++ tail) ;;; ret (DEBUG_TYPE_NULL, pp)
     else
       let pp := CStr.advance pp in
       let '(adjustable, pp) := Unfolded.adjustable_bound pp false in
       r <- parse_number pp false ;;
       let '(lower, pp, _) := r in
       let lower := to_signed_vma lower in
       if negb (CStr.cheq (CStr.peek pp) ";") then
         bad_stab (index_text ++ tail) ;;; ret (DEBUG_TYPE_NULL, pp)
       else
         let pp := CStr.advance pp in
         let '(adjustable, pp) := Unfolded.adjustable_bound pp adjustable in
         r <- parse_number pp false ;;
         let '(upper, pp, _) := r in
         let upper := to_signed_vma upper in
         if negb (CStr.cheq (CStr.peek pp) ";") then
           bad_stab (index_text ++ tail) ;;; ret (DEBUG_TYPE_NULL, pp)
         else
           let pp := CStr.advance pp in
           r <- parse_stab_type E (S fuel) None pp false ;;
           let '(element_type, _, pp) := r in
           match element_type with
           | None => ret (DEBUG_TYPE_NULL, pp)
           | Some _ =>
               let '(lower, upper) := if adjustable then (0, -1) else (lower, upper) in
               ret (debug_make_array_type element_type ti lower upper stringp, pp)
           end) w
    = Some ((option_map (fun t => DArray te t lower upper stringp) ti, rest),
            after_types 1 w)) as Htail.
  { intros ti. cbv beta iota. unfold tail. cursor.
    rewrite adjustable_bound_number. cbv beta iota.
    unfold bind at 1. rewrite parse_number_signed_decimal by (done || lia).
    cbv beta iota. cursor.
    rewrite adjustable_bound_number. cbv beta iota.
    unfold bind at 1. rewrite parse_number_signed_decimal by (done || lia).
    cbv beta iota. cursor.
    unfold bind at 1.
    rewrite (parse_stab_type_reference E fuel ne te rest) by done.
    cbv beta iota. rewrite !to_signed_to_vma by done. by destruct ti. }
  destruct (find (sink w) "int") as [t|] eqn:Hfind; cbv beta iota.
  - unfold ret at 1. cbv beta iota. apply (Htail (Some t)).
  - change (debug_make_int_type 4 false) with (Some (DInt 4 false)). cbv iota.
    unfold ret at 1. cbv beta iota. apply (Htail (Some (DInt 4 false))).
Qed.

Lemma array_index_zero_is_int_witness :
  Unfolded.parse_stab_array_type (fun _ _ => None) (parse_stab_type plain_sink 1)
    "0;0;9;(0,0)" false
    (state_after (stab_record_type (0, 0) (Some (DFloat 8))) (start_stab "000" false []))
  = Some ((Some (DArray (DFloat 8) (DInt 4 false) 0 9 false), ""),
          set_self_crossref false
            (state_after (stab_record_type (0, 0) (Some (DFloat 8)))
               (start_stab "000" false []))).
Proof.
  apply (array_index_zero_is_int plain_sink (fun _ _ => None) 0 "0" (0, 0) (DFloat 8)
           0 9 false "").
  1: by left.
  1: repeat split; simpl; try lia; eexists; vm_compute; done.
  all: done || lia.
Defined.

(** ** Base classes *)

Lemma parse_visibility_char orig v what w :
  v <> DEBUG_VISIBILITY_IGNORE ->
  Unfolded.parse_visibility orig (visibility_char v) what w = Some (Some v, w).
Proof. by destruct v. Qed.

Lemma base_ok_after k w b : base_ok w b -> base_ok (after_types k w) b.
Proof. intros (Hv & Hp & Ht). split; [done|]. split; [done|]. by apply type_recorded_after. Qed.

Lemma parse_baseclass_list_all E fuel orig rest : forall l w classes,
  Forall (base_ok w) l ->
  Unfolded.parse_baseclass_list (parse_stab_type E (S fuel)) orig (length l)
    (baseclasses_text l ++ rest) classes w
  = Some ((Some (classes ++ map baseclass_of l)%list, rest), after_types (length l) w).
Proof.
  induction l as [|b l IH]; intros w classes Hl.
  - simpl. by rewrite app_nil_r.
  - apply Forall_cons in Hl as [Hb Hl]. pose proof Hb as (Hv & Hp & Ht).
    cbn [length baseclasses_text Unfolded.parse_baseclass_list append CStr.peek CStr.advance].
    assert (CStr.cheq (if bc_virtual b then "1"%char else "0"%char) CStr.NUL = false) as ->
      by (by destruct (bc_virtual b)).
    unfold bind at 1.
    assert ((if CStr.cheq (if bc_virtual b then "1"%char else "0"%char) "0" then ret false
             else if CStr.cheq (if bc_virtual b then "1"%char else "0"%char) "1" then ret true
             else warn_stab orig "unknown virtual character for baseclass" ;;; ret false) w
            = Some (bc_virtual b, w)) as -> by (by destruct (bc_virtual b)).
    cbv beta iota. unfold bind at 1. rewrite parse_visibility_char by done. cbv beta iota.
    rewrite ?append_assoc.
    unfold bind at 1. rewrite parse_number_signed_decimal by (done || lia).
    cbv beta iota. cursor. rewrite ?append_assoc.
    unfold bind at 1. rewrite (parse_stab_type_reference E fuel _ _ _ _ Ht) by done.
    cbv beta iota. rewrite to_vma_small by lia.
    cbn [debug_make_baseclass option_map]. cbv iota. cursor.
    rewrite IH.
    + cbn [map]. rewrite <- app_assoc. cbn [app]. by destruct (length l).
    + eapply Forall_impl; [exact Hl|]. intros x. apply base_ok_after.
Qed.

(** X21.  The base classes of a class are read back as they were written:
    after [!] and their number, each base class gives its virtual flag,
    its visibility, its offset and the type its number stands for, in
    order.  The cursor ends after the semicolon of the last one and
    nothing is printed. *)
Theorem baseclasses_round_trip E fuel l rest w :
  Forall (base_ok w) l -> Z.of_nat (length l) < 2 ^ 32 ->
  Unfolded.parse_stab_baseclasses (parse_stab_type E (S fuel))
    ("!" ++ signed_decimal (Z.of_nat (length l)) ++ "," ++ baseclasses_text l ++ rest) w
  = Some ((true, Some (map baseclass_of l), rest), after_types (length l) w).
Proof.
  intros Hl Hlen. unfold Unfolded.parse_stab_baseclasses.
  cbn [append at_end String.eqb]. cbv iota. cursor.
  unfold bind at 1. rewrite parse_number_signed_decimal by (done || lia).
  cbv beta iota. cursor.
  assert (Z.to_nat (to_uint (to_vma (Z.of_nat (length l)))) = length l) as ->.
  { rewrite to_vma_small by lia. unfold to_uint, two32. rewrite Z.mod_small by lia. lia. }
  unfold bind at 1. rewrite parse_baseclass_list_all by done. reflexivity.
Qed.

Lemma baseclasses_round_trip_witness :
  Unfolded.parse_stab_baseclasses (parse_stab_type plain_sink 1)
    "!2,020,(0,1);1164,(0,1);rest"
    (state_after (stab_record_type (0, 1) (Some (DInt 4 false))) (start_stab "000" false []))
  = Some ((true,
           Some [DBaseclass (DInt 4 false) 0 false DEBUG_VISIBILITY_PUBLIC;
                 DBaseclass (DInt 4 false) 64 true DEBUG_VISIBILITY_PROTECTED],
           "rest"),
          set_self_crossref false
            (state_after (stab_record_type (0, 1) (Some (DInt 4 false)))
               (start_stab "000" false []))).
Proof.
  apply (baseclasses_round_trip plain_sink 0
           [mkBase false DEBUG_VISIBILITY_PUBLIC 0 (0, 1) (DInt 4 false);
            mkBase true DEBUG_VISIBILITY_PROTECTED 64 (0, 1) (DInt 4 false)] "rest");
    [|simpl; lia].
  repeat constructor; simpl; try lia; try discriminate.
  all: eexists; vm_compute; done.
Defined.

(** ** The virtual function table of a class *)

(** X22.  The field [~%TYPE;] after the methods of a class names the
    class that holds the pointer to the virtual function table.  When the
    number is the one of the class being defined, the class holds its own
    pointer: no type is looked up and the cursor stays at the semicolon
    after the number.  Otherwise the answer is the type the number stands
    for and the semicolon is consumed.  A semicolon before the field and
    one of the obsolete flags [=], [+] and [-] after the tilde are
    skipped. *)
Theorem tilde_field_vptr E fuel semi flag n t typenums rest w :
  In semi [""; ";"] -> In flag [""; "="; "+"; "-"] ->
  0 <= fst n < 2 ^ 31 -> 0 <= snd n < 2 ^ 31 ->
  (n <> typenums -> type_recorded w n t) ->
  Unfolded.parse_stab_tilde_field (parse_stab_type E (S fuel))
    (semi ++ "~" ++ flag ++ "%" ++ type_reference n ++ ";" ++ rest) typenums w
  = if (fst n =? fst typenums) && (snd n =? snd typenums)
    then Some ((true, DEBUG_TYPE_NULL, true, String ";" rest), w)
    else Some ((true, Some t, false, rest), after_types 1 w).
Proof.
  intros Hsemi Hflag Hf Hi Ht.
  assert (forall orig,
    (r <- parse_stab_type_number (type_reference n ++ ";" ++ rest) ;;
     let '(vtn, pp) := r in
     match vtn with
     | None => ret (false, DEBUG_TYPE_NULL, false, pp)
     | Some vtypenums =>
         if (fst vtypenums =? fst typenums) && (snd vtypenums =? snd typenums)
         then ret (true, DEBUG_TYPE_NULL, true, pp)
         else
           r <- parse_stab_type E (S fuel) None (type_reference n ++ ";" ++ rest) false ;;
           let '(vtype, _, pp) := r in
           match scan_attribute pp with
           | None => bad_stab orig ;;; ret (false, DEBUG_TYPE_NULL, false, pp)
           | Some p => ret (true, vtype, false, CStr.advance p)
           end
     end) w
    = if (fst n =? fst typenums) && (snd n =? snd typenums)
      then Some ((true, DEBUG_TYPE_NULL, true, String ";" rest), w)
      else Some ((true, Some t, false, rest), after_types 1 w)) as Hnum.
  { intros orig. unfold bind at 1. unfold type_reference at 1.
    rewrite parse_stab_type_number_text by lia. cbv beta iota. cbn [fst snd].
    destruct ((fst n =? fst typenums) && (snd n =? snd typenums)) eqn:Hown; [done|].
    assert (n <> typenums) as Hne.
    { intros ->. by rewrite !Z.eqb_refl in Hown. }
    unfold bind at 1. rewrite (parse_stab_type_reference E fuel n t) by (done || by apply Ht).
    cbv beta iota. cbn [append scan_attribute]. eval_chars. by cbv iota. }
  unfold Unfolded.parse_stab_tilde_field.
  simpl in Hsemi, Hflag.
  destruct Hsemi as [<-|[<-|[]]]; destruct Hflag as [<-|[<-|[<-|[<-|[]]]]];
    cbn [append at_end String.eqb CStr.peek CStr.advance]; eval_chars;
    cbn [negb orb andb]; cbv iota; cbn [CStr.peek CStr.advance]; eval_chars;
    cbn [negb orb andb]; cbv iota; try apply Hnum.
  all: rewrite type_reference_peek; eval_chars; cbn [negb orb andb]; cbv iota;
    cbn [CStr.peek CStr.advance]; eval_chars; cbn [negb orb andb]; cbv iota; apply Hnum.
Qed.

Lemma tilde_field_vptr_witness :
  Unfolded.parse_stab_tilde_field (parse_stab_type plain_sink 1) ";~%(0,1);rest" (0, 7)
    (state_after (stab_record_type (0, 1) (Some (DInt 4 false))) (start_stab "000" false []))
  = Some ((true, Some (DInt 4 false), false, "rest"),
          set_self_crossref false
            (state_after (stab_record_type (0, 1) (Some (DInt 4 false)))
               (start_stab "000" false []))).
Proof.
  apply (tilde_field_vptr plain_sink 0 ";" "" (0, 1) (DInt 4 false) (0, 7) "rest");
    simpl; try lia; try tauto.
  intros _. repeat split; simpl; try lia. eexists; vm_compute; done.
Defined.

(** ** The visibility of a member *)

Lemma type_recorded_log msgs n t w : type_recorded w n t -> type_recorded (log msgs w) n t.
Proof.
  intros (Hf & Hfile & Hi & sl & Hl & Hr).
  split; [done|]. split; [done|]. split; [done|]. exists sl. split; [|done].
  by rewrite (lookup_slot_same w).
Qed.



(** ** The abbreviations of GNU C++ *)

(** X24.  The abbreviated members of GNU C++, [vfCONTEXT:TYPE,BITPOS;]
    and [vbCONTEXT:TYPE,BITPOS;] after the marker: the member is private
    and has size 0.  For [vf] its name is [_vptr$]; for [vb] it is [_vb$]
    followed by the name the sink knows the context type by, or by [FOO],
    with a warning, when the type has no name. *)
Theorem cpp_abbrev_field E name_of fuel (vb : bool) nc tc n t bitpos tail w :
  type_recorded w nc tc -> type_recorded w n t -> 0 <= bitpos < 2 ^ 63 ->
  Unfolded.parse_stab_cpp_abbrev name_of (parse_stab_type E (S fuel))
    ("v" ++ (if vb then "b" else "f") ++ type_reference nc ++ ":" ++ type_reference n ++ ","
     ++ signed_decimal bitpos ++ ";" ++ tail) w
  = Some ((true,
           Some (DField (if vb
                         then "_vb$" ++ default "FOO" (name_of (after_types 1 w) (Some tc))
                         else "_vptr$")
                   t bitpos 0 DEBUG_VISIBILITY_PRIVATE),
           tail),
          after_types 1
            (if vb && negb (bool_decide (is_Some (name_of (after_types 1 w) (Some tc))))
             then log [Warning "unnamed $vb type"
                         ("vb" ++ type_reference nc ++ ":" ++ type_reference n ++ ","
                          ++ signed_decimal bitpos ++ ";" ++ tail)]
                    (after_types 1 w)
             else w)).
Proof.
  intros Hc Ht Hb. unfold Unfolded.parse_stab_cpp_abbrev.
  destruct vb; cbn [append at_end String.eqb CStr.peek CStr.advance]; eval_chars;
    cbn [negb]; cbv iota;
    unfold bind at 1; rewrite (parse_stab_type_reference E fuel nc tc) by done;
    cbv beta iota; unfold bind at 1.
  - unfold bind at 1, query at 1, get at 1. cbv beta iota.
    destruct (name_of (after_types 1 w) (Some tc)) as [name|] eqn:Hname; cbv iota.
    + unfold ret at 1. cbv beta iota. cursor.
      unfold bind at 1.
      rewrite (parse_stab_type_reference E fuel n t)
        by (done || by apply (type_recorded_after _ _ 1)).
      cbv beta iota. cursor.
      unfold bind at 1. rewrite parse_number_signed_decimal by (done || lia).
      cbv beta iota. cursor. rewrite to_vma_small by lia. reflexivity.
    + unfold bind at 1, warn_stab at 1, print at 1, modify at 1. cbv beta iota.
      unfold ret at 1. cbv beta iota. cursor.
      match goal with
      | |- context [upd_stderr (fun l => (l ++ [?d])%list) ?w0] =>
          change (upd_stderr (fun l => (l ++ [d])%list) w0) with (log [d] w0)
      end.
      unfold bind at 1.
      rewrite (parse_stab_type_reference E fuel n t)
        by (done || by apply type_recorded_log, (type_recorded_after _ _ 1)).
      cbv beta iota. cursor.
      unfold bind at 1. rewrite parse_number_signed_decimal by (done || lia).
      cbv beta iota. cursor. rewrite to_vma_small by lia. reflexivity.
  - unfold ret at 1. cbv beta iota. cursor.
    unfold bind at 1.
    rewrite (parse_stab_type_reference E fuel n t)
      by (done || by apply (type_recorded_after _ _ 1)).
    cbv beta iota. cursor.
    unfold bind at 1. rewrite parse_number_signed_decimal by (done || lia).
    cbv beta iota. cursor. rewrite to_vma_small by lia. reflexivity.
Qed.

Lemma cpp_abbrev_field_witness :
  Unfolded.parse_stab_cpp_abbrev (fun _ _ => Some "Base") (parse_stab_type plain_sink 1)
    "vb(0,1):(0,2),64;rest"
    (state_after (stab_record_type (0, 2) (Some (DPointer (DInt 4 false))))
       (state_after (stab_record_type (0, 1) (Some (DInt 4 false)))
          (start_stab "000" false [])))
  = Some ((true,
           Some (DField "_vb$Base" (DPointer (DInt 4 false)) 64 0 DEBUG_VISIBILITY_PRIVATE),
           "rest"),
          set_self_crossref false
            (state_after (stab_record_type (0, 2) (Some (DPointer (DInt 4 false))))
               (state_after (stab_record_type (0, 1) (Some (DInt 4 false)))
                  (start_stab "000" false [])))).
Proof.
  assert (forall n t, In (n, t) [((0, 1), DInt 4 false); ((0, 2), DPointer (DInt 4 false))] ->
            type_recorded
              (state_after (stab_record_type (0, 2) (Some (DPointer (DInt 4 false))))
                 (state_after (stab_record_type (0, 1) (Some (DInt 4 false)))
                    (start_stab "000" false []))) n t) as Hrec.
  { intros n t [H|[H|[]]]; injection H as <- <-.
    all: repeat split; simpl; try lia; eexists; vm_compute; done. }
  pose proof (cpp_abbrev_field plain_sink (fun _ _ => Some "Base") 0 true (0, 1) (DInt 4 false)
                (0, 2) (DPointer (DInt 4 false)) 64 "rest" _
                (Hrec _ _ ltac:(by left)) (Hrec _ _ ltac:(by right; left)) ltac:(lia)) as H.
  vm_compute in H. vm_compute. exact H.
Defined.

(** ** Counts and class names of the demangler *)

Lemma to_uint_idem z : to_uint (to_uint z) = to_uint z.
Proof. unfold to_uint, two32. apply Z.mod_mod. lia. Qed.

Lemma count_digit_nat acc c k :
  CStr.code c - CStr.code "0" = Z.of_nat k ->
  Unfolded.count_digit (to_uint (Z.of_nat acc)) c = to_uint (Z.of_nat (Nat.tail_mul 10 acc + k)).
Proof.
  intros Hc. unfold Unfolded.count_digit. rewrite Hc, Nat.tail_mul_spec.
  unfold to_uint, two32.
  rewrite Z.add_mod_idemp_l by lia.
  rewrite (Z.add_mod (Z.of_nat acc mod 2 ^ 32 * 10)) by lia.
  rewrite Z.mul_mod_idemp_l by lia. rewrite <- Z.add_mod by lia. f_equal. lia.
Qed.

Lemma count_digits_stop rest count :
  CStr.isdigit (CStr.peek rest) = false -> Unfolded.count_digits rest count = (count, rest).
Proof. destruct rest as [|c r]; [done|]. simpl. by intros ->. Qed.

Lemma count_digits_decimal rest : CStr.isdigit (CStr.peek rest) = false ->
  forall d acc,
    Unfolded.count_digits (NilEmpty.string_of_uint d ++ rest) (to_uint (Z.of_nat acc))
    = (to_uint (Z.of_nat (Nat.of_uint_acc d acc)), rest).
Proof.
  intros Hrest. induction d as [|d IH|d IH|d IH|d IH|d IH|d IH|d IH|d IH|d IH|d IH];
    intros acc.
  1: by apply count_digits_stop.
  all: cbn [NilEmpty.string_of_uint append Unfolded.count_digits Nat.of_uint_acc];
    eval_chars; cbv iota.
  1: rewrite (count_digit_nat acc _ 0) by reflexivity.
  2: rewrite (count_digit_nat acc _ 1) by reflexivity.
  3: rewrite (count_digit_nat acc _ 2) by reflexivity.
  4: rewrite (count_digit_nat acc _ 3) by reflexivity.
  5: rewrite (count_digit_nat acc _ 4) by reflexivity.
  6: rewrite (count_digit_nat acc _ 5) by reflexivity.
  7: rewrite (count_digit_nat acc _ 6) by reflexivity.
  8: rewrite (count_digit_nat acc _ 7) by reflexivity.
  9: rewrite (count_digit_nat acc _ 8) by reflexivity.
  10: rewrite (count_digit_nat acc _ 9) by reflexivity.
  all: rewrite IH; do 2 f_equal; f_equal; f_equal; lia.
Qed.

Lemma stab_demangle_count_decimal n rest :
  CStr.isdigit (CStr.peek rest) = false ->
  Unfolded.stab_demangle_count (decimal n ++ rest) = (to_uint (Z.of_nat n), rest).
Proof.
  intros Hrest. unfold Unfolded.stab_demangle_count, decimal.
  change 0 with (to_uint (Z.of_nat 0)). rewrite count_digits_decimal by done.
  change (Nat.of_uint_acc (Nat.to_uint n) 0) with (Nat.of_uint (Nat.to_uint n)).
  by rewrite DecimalNat.Unsigned.of_to.
Qed.

Lemma skip_app name rest : CStr.skip (String.length name) (name ++ rest) = rest.
Proof. induction name as [|c name IH]; [done|]. simpl. apply IH. Qed.

(** X25.  A class name in a mangled name is a count and that many
    characters.  The count is checked against the length of what is left:
    when the string is shorter, the name is reported as a bad mangled name
    and the answer is false; otherwise the name starts after the count and
    the cursor ends that many characters further, so a name written after
    its length is read back. *)
Theorem demangle_class_length_checked n rest w :
  CStr.isdigit (CStr.peek rest) = false -> Z.of_nat n < 2 ^ 32 ->
  Unfolded.stab_demangle_class (decimal n ++ rest) w
  = (if (String.length rest <? n)%nat
     then Some ((false, None, rest), log [Bad_mangled_name (decimal n ++ rest)] w)
     else Some ((true, Some rest, CStr.skip n rest), w)) /\
  forall name tail, rest = name ++ tail -> n = String.length name ->
    Unfolded.stab_demangle_class (counted_name name ++ tail) w
    = Some ((true, Some (name ++ tail), tail), w).
Proof.
  intros Hrest Hn.
  assert (Unfolded.stab_demangle_class (decimal n ++ rest) w
          = if (String.length rest <? n)%nat
            then Some ((false, None, rest), log [Bad_mangled_name (decimal n ++ rest)] w)
            else Some ((true, Some rest, CStr.skip n rest), w)) as Hclass.
  { unfold Unfolded.stab_demangle_class. rewrite stab_demangle_count_decimal by done.
    assert (to_uint (Z.of_nat n) = Z.of_nat n) as ->
      by (unfold to_uint, two32; apply Z.mod_small; lia).
    destruct (Nat.ltb_spec (String.length rest) n) as [Hlt|Hge].
    - assert ((Z.of_nat (String.length rest) <? Z.of_nat n) = true) as ->
        by (apply Z.ltb_lt; lia).
      reflexivity.
    - assert ((Z.of_nat (String.length rest) <? Z.of_nat n) = false) as ->
        by (apply Z.ltb_ge; lia).
      by rewrite Nat2Z.id. }
  split; [done|].
  intros name tail -> ->. unfold counted_name. rewrite append_assoc, Hclass.
  assert ((String.length (name ++ tail) <? String.length name)%nat = false) as ->.
  { apply Nat.ltb_ge. rewrite length_app_string. lia. }
  by rewrite skip_app.
Qed.

Lemma demangle_class_length_checked_witness :
  Unfolded.stab_demangle_class "3FooRest" (start_stab "000" false [])
  = Some ((true, Some "FooRest", "Rest"), start_stab "000" false []) /\
  forall name tail, "FooRest" = name ++ tail -> 3%nat = String.length name ->
    Unfolded.stab_demangle_class (counted_name name ++ tail) (start_stab "000" false [])
    = Some ((true, Some (name ++ tail), tail), start_stab "000" false []).
Proof.
  apply (demangle_class_length_checked 3 "FooRest" (start_stab "000" false []));
    [reflexivity|lia].
Defined.

Lemma string_of_uint_digit d rest :
  d <> Decimal.Nil -> CStr.isdigit (CStr.peek (NilEmpty.string_of_uint d ++ rest)) = true.
Proof. by destruct d. Qed.

Lemma count_digits_first p count :
  CStr.isdigit (CStr.peek p) = true ->
  Unfolded.count_digits (CStr.advance p) (Unfolded.count_digit count (CStr.peek p))
  = Unfolded.count_digits p count.
Proof. destruct p as [|c r]; [done|]. simpl. by intros ->. Qed.

Lemma of_uint_acc_ge d : forall acc, (acc <= Nat.of_uint_acc d acc)%nat.
Proof.
  induction d as [|d IH|d IH|d IH|d IH|d IH|d IH|d IH|d IH|d IH|d IH]; intros acc;
    cbn [Nat.of_uint_acc]; [lia|..].
  all: etransitivity; [|apply IH]; rewrite Nat.tail_mul_spec; lia.
Qed.

(** X26.  A repeat count or a type index in a mangled name: one digit
    stands for itself; a number of several digits counts only when an
    underscore follows, which is consumed.  Without the underscore only
    the first digit is the count and the cursor is left on the second
    digit.  An underscore after a single digit is not consumed. *)
Theorem demangle_get_count_forms n rest :
  CStr.isdigit (CStr.peek rest) = false ->
  Unfolded.stab_demangle_get_count (decimal n ++ rest)
  = if (n <? 10)%nat then Some (Z.of_nat n, rest)
    else if CStr.cheq (CStr.peek rest) "_" then Some (to_uint (Z.of_nat n), CStr.advance rest)
    else Some (CStr.code (CStr.peek (decimal n)) - CStr.code "0",
               CStr.advance (decimal n) ++ rest).
Proof.
  intros Hrest.
  destruct (Nat.ltb_spec n 10) as [Hlt|Hge].
  - do 10 (destruct n as [|n];
           [unfold Unfolded.stab_demangle_get_count;
            cbn [decimal Nat.to_uint Nat.to_little_uint Decimal.rev Decimal.revapp
                 Decimal.Little.succ NilEmpty.string_of_uint append CStr.peek CStr.advance];
            eval_chars; cbn [negb]; cbv iota; rewrite Hrest; reflexivity|]).
    lia.
  - pose proof (DecimalNat.Unsigned.of_to n) as Hof. unfold decimal.
    unfold Nat.of_uint in Hof.
    assert (forall c d k,
              CStr.isdigit c = true -> CStr.code c - CStr.code "0" = Z.of_nat k ->
              (k < 10)%nat -> Nat.of_uint_acc d k = n ->
              Unfolded.stab_demangle_get_count (String c (NilEmpty.string_of_uint d ++ rest))
              = if CStr.cheq (CStr.peek rest) "_"
                then Some (to_uint (Z.of_nat n), CStr.advance rest)
                else Some (CStr.code c - CStr.code "0", NilEmpty.string_of_uint d ++ rest))
      as Hform.
    { intros c d k Hc Hk Hk10 Hd.
      assert (d <> Decimal.Nil) as Hnil by (intros ->; simpl in Hd; lia).
      unfold Unfolded.stab_demangle_get_count. cbn [CStr.peek CStr.advance].
      rewrite Hc. cbn [negb]. cbv iota.
      rewrite string_of_uint_digit by done.
      rewrite count_digits_first by (by apply string_of_uint_digit).
      rewrite Hk.
      assert (Z.of_nat k = to_uint (Z.of_nat k)) as Hku
        by (unfold to_uint, two32; rewrite Z.mod_small; lia).
      rewrite Hku at 1. rewrite count_digits_decimal by done. rewrite Hd.
      reflexivity. }
    destruct (Nat.to_uint n) as [|d|d|d|d|d|d|d|d|d|d]; cbn [Nat.of_uint_acc] in Hof.
    1: lia.
    all: cbn [NilEmpty.string_of_uint append CStr.peek CStr.advance].
    1: apply (Hform "0"%char d 0%nat); [reflexivity|reflexivity|lia|exact Hof].
    1: apply (Hform "1"%char d 1%nat); [reflexivity|reflexivity|lia|exact Hof].
    1: apply (Hform "2"%char d 2%nat); [reflexivity|reflexivity|lia|exact Hof].
    1: apply (Hform "3"%char d 3%nat); [reflexivity|reflexivity|lia|exact Hof].
    1: apply (Hform "4"%char d 4%nat); [reflexivity|reflexivity|lia|exact Hof].
    1: apply (Hform "5"%char d 5%nat); [reflexivity|reflexivity|lia|exact Hof].
    1: apply (Hform "6"%char d 6%nat); [reflexivity|reflexivity|lia|exact Hof].
    1: apply (Hform "7"%char d 7%nat); [reflexivity|reflexivity|lia|exact Hof].
    1: apply (Hform "8"%char d 8%nat); [reflexivity|reflexivity|lia|exact Hof].
    1: apply (Hform "9"%char d 9%nat); [reflexivity|reflexivity|lia|exact Hof].
Qed.

Lemma demangle_get_count_forms_witness :
  Unfolded.stab_demangle_get_count "12i" = Some (1, "2i").
Proof. apply (demangle_get_count_forms 12 "i"). reflexivity. Defined.

(** ** Stabs in sections *)

Lemma kept_deleted l i :
  (kept_before l i + deleted (take i l) = length (take i l))%nat.
Proof.
  unfold kept_before, deleted. induction (take i l) as [|x t IH]; [done|].
  rewrite !filter_cons. destruct (decide (x <> all_ones)), (decide (x = all_ones));
    simpl; try lia; tauto.
Qed.

Lemma kept_before_all l : (kept_before l (length l) + deleted l = length l)%nat.
Proof. pose proof (kept_deleted l (length l)) as H. by rewrite firstn_all in H. Qed.

Lemma kept_before_S l i idx :
  l !! i = Some idx ->
  kept_before l (S i) = (kept_before l i + if decide (idx = all_ones) then 0 else 1)%nat.
Proof.
  intros Hi. unfold kept_before. rewrite (take_S_r l i idx Hi), filter_app, length_app.
  rewrite filter_cons, filter_nil.
  destruct (decide (idx <> all_ones)), (decide (idx = all_ones)); simpl; try lia; tauto.
Qed.

Lemma kept_before_le l i : (kept_before l i <= i)%nat.
Proof.
  unfold kept_before. etransitivity; [apply length_filter|]. rewrite length_take. lia.
Qed.

Lemma deleted_insert l i idx :
  l !! i = Some idx -> idx <> all_ones ->
  deleted (<[i := all_ones]> l) = S (deleted l).
Proof.
  intros Hi Hidx. unfold deleted.
  rewrite <- (take_drop_middle l i idx Hi) at 2.
  rewrite insert_take_drop by (by apply lookup_lt_Some in Hi).
  rewrite !filter_app, !filter_cons, !length_app.
  destruct (decide (all_ones = all_ones)); [|done].
  destruct (decide (idx = all_ones)); [done|]. simpl. lia.
Qed.

Lemma deleted_le l : (deleted l <= length l)%nat.
Proof. apply length_filter. Qed.

Lemma peek_index_Some i (a : list Z) :
  (i < length a)%nat -> exists x, Link.peek_index (Z.of_nat i) a = Some x /\ a !! i = Some x.
Proof.
  intros Hi. destruct (lookup_lt_is_Some_2 a i Hi) as [x Hx]. exists x.
  unfold Link.peek_index. destruct (Z.leb_spec 0 (Z.of_nat i)); [|lia]. by rewrite Nat2Z.id.
Qed.

Lemma poke_index_Some i v (a : list Z) :
  (i < length a)%nat -> Link.poke_index (Z.of_nat i) v a = Some (<[i := v]> a).
Proof.
  intros Hi. unfold Link.poke_index.
  destruct (Z.leb_spec 0 (Z.of_nat i)); [|lia].
  destruct (Z.ltb_spec (Z.of_nat i) (Z.of_nat (length a))); [|lia]. by rewrite Nat2Z.id.
Qed.

Lemma peek_bytes_one p (buf : list Z) :
  0 <= p < Z.of_nat (length buf) -> exists x, Link.peek_bytes p 1 buf = Some [x].
Proof.
  intros Hp. unfold Link.peek_bytes.
  destruct (Z.leb_spec 0 p); [|lia].
  destruct (Z.leb_spec (p + Z.of_nat 1) (Z.of_nat (length buf))); [|lia]. cbn [andb].
  destruct (drop (Z.to_nat p) buf) as [|x r] eqn:Hd.
  - apply (f_equal length) in Hd. rewrite length_drop in Hd. simpl in Hd. lia.
  - by exists x.
Qed.

Lemma peek_bytes_Some p n (buf : list Z) :
  0 <= p -> p + Z.of_nat n <= Z.of_nat (length buf) -> is_Some (Link.peek_bytes p n buf).
Proof.
  intros Hp Hn. unfold Link.peek_bytes.
  destruct (Z.leb_spec 0 p); [|lia].
  destruct (Z.leb_spec (p + Z.of_nat n) (Z.of_nat (length buf))); [|lia]. by eexists.
Qed.

Section DiscardProofs.

Variables N_FUN N_STSYM N_LCSYM : Z.
Variables SEC_HAS_CONTENTS SEC_EXCLUDE SEC_KEEP : Z.
Variable bfd_get_32 : list Z -> Z.
Variable cookie : Type.
Variable reloc_symbol_deleted_p : Z -> cookie -> bool * cookie.

Local Abbreviation discard_state := (Link.discard_state cookie).
Local Abbreviation discard_here := (@Link.discard_here cookie).
Local Abbreviation symbol_deleted := (Link.symbol_deleted cookie reloc_symbol_deleted_p).
Local Abbreviation discard_by_state :=
  (Link.discard_by_state N_STSYM N_LCSYM cookie reloc_symbol_deleted_p).
Local Abbreviation discard_symbol :=
  (Link.discard_symbol N_FUN N_STSYM N_LCSYM bfd_get_32 cookie reloc_symbol_deleted_p).
Local Abbreviation discard_symbols :=
  (Link.discard_symbols N_FUN N_STSYM N_LCSYM bfd_get_32 cookie reloc_symbol_deleted_p).

Lemma discard_here_inv l0 (st : discard_state) i idx :
  Z.of_nat (length l0) < 2 ^ 64 ->
  discard_inv l0 st -> Link.d_stridxs st !! i = Some idx -> idx <> all_ones ->
  exists st', discard_here (Z.of_nat i) st = Some st' /\ discard_inv l0 st' /\
              Link.d_deleting st' = Link.d_deleting st.
Proof.
  intros Hn (Hlen & Hent & Hskip & Hle) Hi Hidx.
  pose proof (lookup_lt_Some _ _ _ Hi) as Hlt.
  unfold Link.discard_here. rewrite poke_index_Some by done.
  eexists. split; [done|]. split; [|done].
  pose proof (deleted_insert _ _ _ Hi Hidx) as Hdel.
  pose proof (deleted_le (<[i:=all_ones]> (Link.d_stridxs st))) as Hbound.
  rewrite length_insert in Hbound.
  unfold discard_inv. cbn [Link.d_stridxs Link.d_skip].
  split; [by rewrite length_insert|]. split; [|split].
  - intros j x Hj. destruct (decide (j = i)) as [->|Hne].
    + rewrite list_lookup_insert_eq in Hj by done. left. congruence.
    + rewrite list_lookup_insert_ne in Hj by done. by apply Hent.
  - rewrite Hdel, Hskip. unfold to_vma, two64. rewrite Z.mod_small; lia.
  - lia.
Qed.

Lemma discard_by_state_inv l0 (st : discard_state) type i idx :
  Z.of_nat (length l0) < 2 ^ 64 ->
  discard_inv l0 st -> Link.d_stridxs st !! i = Some idx -> idx <> all_ones ->
  exists st', discard_by_state type (Z.of_nat i) st = Some st' /\ discard_inv l0 st'.
Proof.
  intros Hn Hinv Hi Hidx. unfold Link.discard_by_state.
  destruct (Link.d_deleting st =? 1).
  { destruct (discard_here_inv l0 st i idx) as (st' & -> & Hinv' & _); eauto. }
  destruct (Link.d_deleting st =? -1); [|eauto].
  destruct ((type =? N_STSYM) || (type =? N_LCSYM)); [|eauto].
  unfold Link.symbol_deleted.
  destruct (reloc_symbol_deleted_p _ _) as [b c]. destruct b; [|eauto].
  destruct (discard_here_inv l0
              (Link.mkDiscard (Link.d_stridxs st) (Link.d_skip st)
                 (Link.d_deleting st) c) i idx) as (st' & -> & Hinv' & _); eauto.
Qed.

Lemma discard_symbol_inv l0 buf (st : discard_state) i :
  Z.of_nat (length l0) < 2 ^ 64 ->
  length buf = (12 * length l0)%nat -> (i < length l0)%nat ->
  discard_inv l0 st ->
  exists st', discard_symbol buf (Z.of_nat i) st = Some st' /\ discard_inv l0 st'.
Proof.
  intros Hn Hbuf Hi Hinv. pose proof Hinv as (Hlen & _).
  destruct (peek_index_Some i (Link.d_stridxs st)) as (idx & Hpeek & Hidx); [lia|].
  unfold Link.discard_symbol. rewrite Hpeek.
  destruct (Z.eqb_spec idx all_ones) as [->|Hne]; [eauto|].
  destruct (peek_bytes_one (Z.of_nat i * Link.STABSIZE + Link.TYPEOFF) buf) as [type ->].
  { unfold Link.STABSIZE, Link.TYPEOFF. lia. }
  destruct (type =? N_FUN); [|by apply (discard_by_state_inv l0 st type i idx)].
  destruct (peek_bytes_Some (Z.of_nat i * Link.STABSIZE + Link.STRDXOFF) 4 buf)
    as [bytes ->].
  { unfold Link.STABSIZE, Link.STRDXOFF. lia. }
  { unfold Link.STABSIZE, Link.STRDXOFF. lia. }
  destruct (to_int (bfd_get_32 bytes) =? 0).
  - destruct (negb (Link.d_deleting st =? 0)); [|eauto].
    destruct (discard_here_inv l0 st i idx) as (st' & -> & Hinv' & _); eauto.
  - unfold Link.symbol_deleted. cbn [Link.set_deleting Link.d_cookie Link.d_stridxs Link.d_skip
                                     Link.d_deleting].
    destruct (reloc_symbol_deleted_p _ _) as [b c].
    destruct b; by apply (discard_by_state_inv l0 _ type i idx).
Qed.

Lemma discard_symbols_inv l0 buf : forall turns i (st : discard_state),
  Z.of_nat (length l0) < 2 ^ 64 ->
  length buf = (12 * length l0)%nat -> (i + turns <= length l0)%nat ->
  discard_inv l0 st ->
  exists st', discard_symbols buf turns (Z.of_nat i) st = Some st' /\ discard_inv l0 st'.
Proof.
  induction turns as [|turns IH]; intros i st Hn Hbuf Hi Hinv; [by eexists|].
  cbn [Link.discard_symbols].
  destruct (discard_symbol_inv l0 buf st i) as (st1 & -> & Hinv1); [done|done|lia|done|].
  replace (Z.of_nat i + 1) with (Z.of_nat (S i)) by lia. apply IH; [done|done|lia|done].
Qed.

Lemma deleted_take_S l i idx :
  l !! i = Some idx ->
  deleted (take (S i) l) = (deleted (take i l) + if decide (idx = all_ones) then 1 else 0)%nat.
Proof.
  intros Hi. unfold deleted. rewrite (take_S_r l i idx Hi), filter_app, length_app.
  rewrite filter_cons, filter_nil. by destruct (decide (idx = all_ones)).
Qed.

Lemma recalculate_skips_all l : forall turns i pskips offset,
  12 * Z.of_nat (length l) < 2 ^ 64 ->
  length pskips = length l -> (i + turns <= length l)%nat ->
  offset = 12 * Z.of_nat (deleted (take i l)) ->
  (forall j, (j < i)%nat -> pskips !! j = Some (12 * Z.of_nat (deleted (take j l)))) ->
  exists pskips' offset',
    Link.recalculate_skips turns (Z.of_nat i) l pskips offset = Some (pskips', offset') /\
    length pskips' = length l /\
    offset' = 12 * Z.of_nat (deleted (take (i + turns) l)) /\
    forall j, (j < i + turns)%nat ->
      pskips' !! j = Some (12 * Z.of_nat (deleted (take j l))).
Proof.
  induction turns as [|turns IH]; intros i pskips offset Hn Hlen Hi Hoff Hpre.
  - exists pskips, offset. rewrite Nat.add_0_r. by repeat split.
  - cbn [Link.recalculate_skips]. rewrite poke_index_Some by lia.
    destruct (peek_index_Some i l) as (idx & -> & Hidx); [lia|].
    replace (Z.of_nat i + 1) with (Z.of_nat (S i)) by lia.
    destruct (IH (S i) (<[i:=offset]> pskips)
                (if idx =? all_ones then to_vma (offset + Link.STABSIZE) else offset))
      as (pskips' & offset' & Hrec & Hlen' & Hoff' & Hall).
    + done.
    + by rewrite length_insert.
    + lia.
    + rewrite (deleted_take_S l i idx Hidx).
      pose proof (deleted_le (take i l)) as Hd. rewrite length_take in Hd.
      destruct (Z.eqb_spec idx all_ones) as [->|Hne].
      * destruct (decide (all_ones = all_ones)); [|done].
        unfold to_vma, two64, Link.STABSIZE. rewrite Z.mod_small; lia.
      * destruct (decide (idx = all_ones)); [done|]. rewrite Nat.add_0_r. done.
    + intros j Hj. destruct (decide (j = i)) as [->|Hne].
      * rewrite list_lookup_insert_eq by lia. by rewrite Hoff.
      * rewrite list_lookup_insert_ne by done. apply Hpre. lia.
    + exists pskips', offset'. rewrite Hrec. split; [done|]. split; [done|].
      replace (i + S turns)%nat with (S i + turns)%nat by lia. done.
Qed.

Lemma symbol_turns_whole n : Link.symbol_turns (12 * Z.of_nat n) = n.
Proof.
  unfold Link.symbol_turns, Link.STABSIZE.
  replace (12 * Z.of_nat n + 12 - 1) with (Z.of_nat n * 12 + 11) by lia.
  rewrite Z.div_add_l by lia. change (11 / 12) with 0. lia.
Qed.

(** X27.  Discarding symbols and mapping offsets agree.  For a section of
    [n] symbols whose size counts the symbols kept so far, the call
    returns, its assertion holds, and when it answers true: the entries of
    the symbols it discarded are -1 and the other entries are as before,
    fewer symbols are kept, the size of the section counts them, and
    [_bfd_stab_section_offset] maps every offset inside a kept symbol to
    the same offset inside the place of that symbol among the kept ones,
    and every offset inside a discarded symbol to -1. *)
Theorem discard_then_offset sec info buf alloc_ok c n :
  length (Link.stridxs info) = n -> Link.rawsize sec = 12 * Z.of_nat n ->
  12 * Z.of_nat n < 2 ^ 64 -> length buf = (12 * n)%nat ->
  Link.size sec = 12 * Z.of_nat (kept_before (Link.stridxs info) n) ->
  match Link.cumulative_skips info with Some a => length a = n | None => True end ->
  exists r,
    Link._bfd_discard_section_stabs N_FUN N_STSYM N_LCSYM SEC_HAS_CONTENTS SEC_EXCLUDE
      SEC_KEEP bfd_get_32 cookie reloc_symbol_deleted_p sec (Some info) (Some buf) alloc_ok c
    = Some r /\
    Link.r_assert_failed r = false /\
    (Link.r_answer r = true ->
     exists info',
       Link.r_secinfo r = Some info' /\
       length (Link.stridxs info') = n /\
       (forall i idx, Link.stridxs info' !! i = Some idx ->
          idx = all_ones \/ Link.stridxs info !! i = Some idx) /\
       (kept_before (Link.stridxs info') n < kept_before (Link.stridxs info) n)%nat /\
       Link.size (Link.r_section r) = 12 * Z.of_nat (kept_before (Link.stridxs info') n) /\
       forall i k idx, Link.stridxs info' !! i = Some idx -> 0 <= k < 12 ->
         Link._bfd_stab_section_offset (Link.r_section r) (Link.r_secinfo r)
           (12 * Z.of_nat i + k)
         = Some (if idx =? all_ones then all_ones
                 else 12 * Z.of_nat (kept_before (Link.stridxs info') i) + k)).
Proof.
  intros Hlen Hraw Hn Hbuf Hsize Hskips.
  unfold Link._bfd_discard_section_stabs.
  destruct ((Link.size sec =? 0) || (Z.land (Link.flags sec) SEC_HAS_CONTENTS =? 0));
    [by eexists|].
  destruct (negb (Link.size sec mod Link.STABSIZE =? 0)); [by eexists|].
  destruct (match Link.output_section sec with
            | Some o => Link.is_abs_section o
            | None => false
            end); [by eexists|].
  rewrite Hraw, symbol_turns_whole.
  set (l0 := Link.stridxs info) in *.
  destruct (discard_symbols_inv l0 buf n 0 (Link.mkDiscard l0 0 (-1) c))
    as (st & Hloop & Hlen' & Hent & Hskip & Hle).
  { lia. }
  { by rewrite Hlen. }
  { lia. }
  { unfold discard_inv. cbn [Link.d_stridxs Link.d_skip]. repeat split; eauto; lia. }
  change (Z.of_nat 0) with 0 in Hloop. rewrite Hloop.
  set (l := Link.d_stridxs st) in *.
  pose proof (kept_before_all l0) as Hk0. pose proof (kept_before_all l) as Hk.
  rewrite Hlen in Hk0. rewrite Hlen', Hlen in Hk.
  destruct (Z.eqb_spec (Link.d_skip st) 0) as [Hzero|Hnz]; cbn [negb].
  { eexists. split; [done|]. split; [done|]. cbn [Link.r_answer]. rewrite Hzero. done. }
  assert (Z.to_nat (12 * Z.of_nat n / Link.STABSIZE) = n) as Hcount.
  { unfold Link.STABSIZE. rewrite Z.mul_comm, Z.div_mul by lia. lia. }
  rewrite Hcount. cbn [Link.cumulative_skips].
  assert ((exists pskips,
             match Link.cumulative_skips info with
             | Some a => Some a
             | None => if alloc_ok then Some (replicate n 0) else None
             end = Some pskips /\ length pskips = n)
          \/ match Link.cumulative_skips info with
             | Some a => Some a
             | None => if alloc_ok then Some (replicate n 0) else None
             end = None) as [(pskips & -> & Hplen)| ->].
  { destruct (Link.cumulative_skips info) as [a|]; [left; by exists a|].
    destruct alloc_ok; [left|by right]. eexists. split; [done|]. by rewrite length_replicate. }
  2: { eexists. split; [done|]. split; [done|]. done. }
  destruct (recalculate_skips_all l n 0 pskips 0)
    as (pskips' & offset' & Hrec & Hplen' & Hoff' & Hall).
  { rewrite Hlen', Hlen. lia. }
  { by rewrite Hlen', Hlen. }
  { rewrite Hlen', Hlen. lia. }
  { done. }
  { intros j Hj. lia. }
  change (Z.of_nat 0) with 0 in Hrec. rewrite Hrec.
  rewrite Nat.add_0_l in Hoff', Hall.
  rewrite (take_ge l n) in Hoff' by lia.
  eexists. split; [done|]. cbn [Link.r_assert_failed Link.r_answer Link.r_secinfo Link.r_section].
  split.
  { apply Z.eqb_neq. lia. }
  intros _. eexists. split; [done|]. cbn [Link.stridxs Link.size].
  split; [by rewrite Hlen', Hlen|]. split; [done|]. split; [lia|]. split.
  { rewrite Hsize, Hskip. unfold to_vma, two64, Link.STABSIZE. rewrite Z.mod_small; lia. }
  intros i k idx Hi Hk12.
  pose proof (lookup_lt_Some _ _ _ Hi) as Hilt. rewrite Hlen', Hlen in Hilt.
  unfold Link._bfd_stab_section_offset. cbn [Link.rawsize Link.cumulative_skips Link.stridxs].
  rewrite ?Hraw.
  destruct (Z.leb_spec (12 * Z.of_nat n) (12 * Z.of_nat i + k)); [lia|].
  assert ((12 * Z.of_nat i + k) / Link.STABSIZE = Z.of_nat i) as ->.
  { unfold Link.STABSIZE. symmetry. apply (Z.div_unique _ _ _ k); lia. }
  destruct (peek_index_Some i l) as (x & -> & Hx); [rewrite Hlen', Hlen; lia|].
  assert (x = idx) as -> by congruence.
  destruct (idx =? all_ones); [done|].
  destruct (peek_index_Some i pskips') as (y & -> & Hy); [rewrite Hplen', Hlen', Hlen; lia|].
  rewrite (Hall i Hilt) in Hy. injection Hy as <-.
  pose proof (kept_deleted l i) as Hkd. rewrite length_take in Hkd.
  f_equal. unfold to_vma, two64. rewrite Z.mod_small; lia.
Qed.

End DiscardProofs.

Lemma discard_then_offset_witness :
  exists r,
    Link._bfd_discard_section_stabs 36 38 40 256 32768 2097152
      (fun bytes => match bytes with [a; b; c; d] => a + 256 * (b + 256 * (c + 256 * d)) | _ => 0 end)
      unit (fun offset c => (offset =? 20, c))
      (Link.mkSection 36 36 256 None 0) (Some (Link.mkSecinfo [] None [0; 1; 5]))
      (Some [0; 0; 0; 0; 0; 0; 2; 0; 9; 0; 0; 0;
             1; 0; 0; 0; 38; 0; 0; 0; 0; 0; 0; 0;
             5; 0; 0; 0; 128; 0; 0; 0; 0; 0; 0; 0]) true tt
    = Some r /\
    Link.r_assert_failed r = false /\
    (Link.r_answer r = true ->
     exists info',
       Link.r_secinfo r = Some info' /\
       length (Link.stridxs info') = 3%nat /\
       (forall i idx, Link.stridxs info' !! i = Some idx ->
          idx = all_ones \/ [0; 1; 5] !! i = Some idx) /\
       (kept_before (Link.stridxs info') 3 < kept_before [0; 1; 5]%Z 3)%nat /\
       Link.size (Link.r_section r) = 12 * Z.of_nat (kept_before (Link.stridxs info') 3) /\
       forall i k idx, Link.stridxs info' !! i = Some idx -> 0 <= k < 12 ->
         Link._bfd_stab_section_offset (Link.r_section r) (Link.r_secinfo r)
           (12 * Z.of_nat i + k)
         = Some (if idx =? all_ones then all_ones
                 else 12 * Z.of_nat (kept_before (Link.stridxs info') i) + k)).
Proof.
  apply (discard_then_offset 36 38 40 256 32768 2097152 _ unit _
           (Link.mkSection 36 36 256 None 0) (Link.mkSecinfo [] None [0; 1; 5]) _ true tt 3);
    try reflexivity; try done.
Defined.

(** ** Writing the section *)

Lemma store_length q b (s : list Z) :
  (q + length b <= length s)%nat -> length (Link.store q b s) = length s.
Proof.
  intros H. unfold Link.store. rewrite !length_app, length_take, length_drop. lia.
Qed.

Lemma store_middle (P S R : list Z) q b :
  (q + length b <= length S)%nat ->
  Link.store (length P + q) b (P ++ S ++ R) = (P ++ Link.store q b S ++ R)%list.
Proof.
  intros H. unfold Link.store.
  rewrite take_app_add, (take_app_le S R) by lia.
  rewrite <- Nat.add_assoc, drop_app_add, (drop_app_le S R) by lia.
  by rewrite <- !app_assoc.
Qed.

Lemma poke_bytes_store p b (buf : list Z) :
  (p + length b <= length buf)%nat ->
  Link.poke_bytes (Z.of_nat p) b buf = Some (Link.store p b buf).
Proof.
  intros H. unfold Link.poke_bytes.
  destruct (Z.leb_spec 0 (Z.of_nat p)); [|lia].
  destruct (Z.leb_spec (Z.of_nat p + Z.of_nat (length b)) (Z.of_nat (length buf))); [|lia].
  by rewrite Nat2Z.id.
Qed.

Lemma peek_bytes_take p n (buf : list Z) :
  (p + n <= length buf)%nat ->
  Link.peek_bytes (Z.of_nat p) n buf = Some (take n (drop p buf)).
Proof.
  intros H. unfold Link.peek_bytes.
  destruct (Z.leb_spec 0 (Z.of_nat p)); [|lia].
  destruct (Z.leb_spec (Z.of_nat p + Z.of_nat n) (Z.of_nat (length buf))); [|lia].
  by rewrite Nat2Z.id.
Qed.

Lemma peek_bytes_prefix n (buf : list Z) :
  (n <= length buf)%nat -> Link.peek_bytes 0 n buf = Some (take n buf).
Proof. intros H. apply (peek_bytes_take 0 n buf). lia. Qed.

Lemma peek_bytes_lookup p (buf : list Z) x :
  buf !! p = Some x -> Link.peek_bytes (Z.of_nat p) 1 buf = Some [x].
Proof.
  intros Hx. pose proof (lookup_lt_Some _ _ _ Hx) as Hlt.
  rewrite peek_bytes_take by lia.
  destruct (drop p buf) as [|y r] eqn:Hd.
  - apply (f_equal length) in Hd. rewrite length_drop in Hd. simpl in Hd. lia.
  - assert (drop p buf !! 0%nat = Some x) as H0 by (rewrite lookup_drop, Nat.add_0_r; done).
    rewrite Hd in H0. simpl in H0. by injection H0 as ->.
Qed.

Lemma symbol_at_length c i n :
  length c = (12 * n)%nat -> (i < n)%nat -> length (symbol_at c i) = 12%nat.
Proof. intros Hc Hi. unfold symbol_at. rewrite length_take, length_drop. lia. Qed.

Lemma symbol_at_lookup c i k : (k < 12)%nat -> symbol_at c i !! k = c !! (12 * i + k)%nat.
Proof. intros Hk. unfold symbol_at. by rewrite lookup_take_lt, lookup_drop. Qed.

Lemma symbol_at_drop c c' i :
  drop (12 * i) c = drop (12 * i) c' -> symbol_at c i = symbol_at c' i.
Proof. unfold symbol_at. by intros ->. Qed.

Section WriteProofs.

Variables bfd_put_32 bfd_put_16 : Z -> list Z.
Variable stringtab_size : Z.
Variable bfd_set_section_contents : option Link.output_sec -> list Z -> Z -> bool.
Hypothesis put_32_length : forall v, length (bfd_put_32 v) = 4%nat.
Hypothesis put_16_length : forall v, length (bfd_put_16 v) = 2%nat.

Local Abbreviation written := (written_symbol bfd_put_32 bfd_put_16 stringtab_size).
Local Abbreviation write_symbol := (Link.write_symbol bfd_put_32 bfd_put_16 stringtab_size).
Local Abbreviation write_symbols := (Link.write_symbols bfd_put_32 bfd_put_16 stringtab_size).
Local Abbreviation write_excls := (Link.write_excls bfd_put_32).

Lemma written_length o s idx : length s = 12%nat -> length (written o s idx) = 12%nat.
Proof.
  intros Hs. unfold written_symbol.
  assert (length (Link.store 0 (bfd_put_32 idx) s) = 12%nat) as H1.
  { rewrite store_length; [done|]. rewrite put_32_length. lia. }
  destruct (bool_decide _); [|done].
  rewrite store_length; rewrite store_length; rewrite ?put_32_length, ?put_16_length, ?H1; lia.
Qed.

Lemma written_type s idx :
  length s = 12%nat -> Link.store 0 (bfd_put_32 idx) s !! 4%nat = s !! 4%nat.
Proof.
  intros Hs. unfold Link.store. rewrite take_0, app_nil_l.
  rewrite lookup_app_r by (rewrite put_32_length; lia).
  rewrite put_32_length, lookup_drop. done.
Qed.

(** the body of the copy loop for a symbol that is kept *)
Lemma write_symbol_kept sec o l n i idx (st : Link.write_state) t :
  length (Link.w_contents st) = (12 * n)%nat -> (i < n)%nat ->
  t = (12 * i)%nat \/ (t + 12 <= 12 * i)%nat ->
  Link.output_section sec = Some o ->
  l !! i = Some idx -> idx <> all_ones ->
  write_symbol sec l (Z.of_nat i) st (Z.of_nat t)
  = Some (Link.mkWrite
            (take t (Link.w_contents st)
             ++ written o (symbol_at (Link.w_contents st) i) idx
             ++ drop (t + 12) (Link.w_contents st))%list
            (Link.w_excl_outside st)
            (Link.w_header_not_first st
             || (bool_decide (symbol_at (Link.w_contents st) i !! 4%nat = Some 0)
                 && negb (Z.of_nat i =? 0))),
          Z.of_nat (t + 12)).
Proof.
  intros Hlen Hi Ht Hout Hidx Hkept.
  set (cur := Link.w_contents st) in *. set (s := symbol_at cur i).
  assert (length s = 12%nat) as Hs by (by apply (symbol_at_length cur i n)).
  assert (t + 12 <= 12 * n)%nat as Htn by lia.
  set (P := take t cur). set (R := drop (t + 12) cur).
  assert (length P = t) as HP by (unfold P; rewrite length_take; lia).
  unfold Link.write_symbol.
  destruct (peek_index_Some i l) as (x & -> & Hx); [by apply lookup_lt_Some in Hidx|].
  assert (x = idx) as -> by congruence.
  destruct (Z.eqb_spec idx all_ones) as [|_]; [done|]. cbn [negb].
  replace (Z.of_nat i * Link.STABSIZE) with (Z.of_nat (12 * i)) by (unfold Link.STABSIZE; lia).
  change (Z.to_nat Link.STABSIZE) with 12%nat. fold cur.
  (* the symbol at [tosym] after the copy *)
  assert ((if negb (Z.of_nat t =? Z.of_nat (12 * i))
           then match Link.peek_bytes (Z.of_nat (12 * i)) 12 cur with
                | Some bytes => Link.poke_bytes (Z.of_nat t) bytes cur
                | None => None
                end
           else Some cur) = Some (P ++ s ++ R)%list) as ->.
  { destruct (Z.eqb_spec (Z.of_nat t) (Z.of_nat (12 * i))) as [Heq|Hne]; cbn [negb].
    - assert (t = (12 * i)%nat) as Hti by lia. f_equal. unfold P, R, s, symbol_at.
      rewrite <- Hti. rewrite <- (take_drop t cur) at 1. f_equal.
      rewrite <- (take_drop 12 (drop t cur)) at 1. by rewrite drop_drop.
    - rewrite peek_bytes_take by lia. fold (symbol_at cur i). fold s.
      rewrite poke_bytes_store by lia. unfold Link.store. by rewrite Hs. }
  replace (Z.of_nat t + Link.STRDXOFF) with (Z.of_nat (length P + 0))
    by (unfold Link.STRDXOFF; lia).
  rewrite poke_bytes_store
    by (rewrite !length_app, Hs, put_32_length, HP; unfold R; rewrite length_drop; lia).
  rewrite store_middle by (rewrite put_32_length; lia).
  set (s1 := Link.store 0 (bfd_put_32 idx) s).
  assert (length s1 = 12%nat) as Hs1.
  { unfold s1. rewrite store_length; [done|]. rewrite put_32_length. lia. }
  (* the type is read at [sym], after the copy *)
  assert ((P ++ s1 ++ R)%list !! (12 * i + 4)%nat = s !! 4%nat) as Htype.
  { destruct Ht as [->|Hlt].
    - rewrite lookup_app_r by lia. rewrite HP.
      replace (12 * i + 4 - 12 * i)%nat with 4%nat by lia.
      rewrite lookup_app_l by lia. by apply written_type.
    - rewrite lookup_app_r by lia. rewrite lookup_app_r by lia.
      unfold R. rewrite lookup_drop, HP, Hs1. unfold s. rewrite symbol_at_lookup by lia.
      f_equal. lia. }
  destruct (s !! 4%nat) as [type|] eqn:Hty.
  2: { apply lookup_ge_None in Hty. lia. }
  replace (Z.of_nat (12 * i) + Link.TYPEOFF) with (Z.of_nat (12 * i + 4))
    by (unfold Link.TYPEOFF; lia).
  rewrite (peek_bytes_lookup _ _ type Htype).
  unfold written_symbol. fold s. fold s1. rewrite Hty.
  destruct (Z.eqb_spec type 0) as [->|Hnz].
  - rewrite bool_decide_eq_true_2 by done. cbn [andb].
    unfold Link.write_header. cbn [Link.w_contents Link.w_excl_outside Link.w_header_not_first].
    replace (Z.of_nat t + Link.VALOFF) with (Z.of_nat (length P + 8))
      by (unfold Link.VALOFF; lia).
    rewrite poke_bytes_store
      by (rewrite !length_app, Hs1, put_32_length, HP; unfold R; rewrite length_drop; lia).
    rewrite store_middle by (rewrite put_32_length; lia).
    rewrite Hout.
    replace (Z.of_nat t + Link.DESCOFF) with (Z.of_nat (length P + 6))
      by (unfold Link.DESCOFF; lia).
    assert (length (Link.store 8 (bfd_put_32 stringtab_size) s1) = 12%nat) as Hs2.
    { rewrite store_length; [done|]. rewrite put_32_length. lia. }
    rewrite poke_bytes_store
      by (rewrite !length_app, Hs2, put_16_length, HP; unfold R; rewrite length_drop; lia).
    rewrite store_middle by (rewrite put_16_length; lia).
    do 3 f_equal. unfold Link.STABSIZE. lia.
  - rewrite bool_decide_eq_false_2 by congruence. cbn [andb]. rewrite orb_false_r.
    do 3 f_equal. unfold Link.STABSIZE. lia.
Qed.

Local Abbreviation inv := (write_inv bfd_put_32 bfd_put_16 stringtab_size).

Lemma kept_before_mono l j i : (j <= i)%nat -> (kept_before l j <= kept_before l i)%nat.
Proof.
  intros Hji. unfold kept_before.
  replace (take j l) with (take j (take i l)) by (rewrite take_take; f_equal; lia).
  rewrite <- (take_drop j (take i l)) at 2. rewrite filter_app, length_app. lia.
Qed.

Lemma write_symbol_inv sec o c1 l n i (st : Link.write_state) tosym :
  length c1 = (12 * n)%nat -> length l = n -> (i < n)%nat ->
  Link.output_section sec = Some o ->
  inv o c1 l i st tosym ->
  exists st' tosym',
    write_symbol sec l (Z.of_nat i) st tosym = Some (st', tosym') /\
    inv o c1 l (S i) st' tosym' /\
    Link.w_excl_outside st' = Link.w_excl_outside st.
Proof.
  intros Hc1 Hl Hi Hout (Hlen & Hto & Hdrop & Hsyms & Hhdr).
  destruct (lookup_lt_is_Some_2 l i) as [idx Hidx]; [lia|].
  pose proof (kept_before_S l i idx Hidx) as HkS.
  pose proof (kept_before_le l i) as Hkle.
  assert (drop (12 * S i) (Link.w_contents st) = drop (12 * S i) c1) as Hdrop'.
  { replace (12 * S i)%nat with (12 * i + 12)%nat by lia. by rewrite <- !drop_drop, Hdrop. }
  destruct (decide (idx = all_ones)) as [->|Hkept].
  - exists st, tosym. split.
    { unfold Link.write_symbol.
      destruct (peek_index_Some i l) as (x & -> & Hx); [lia|].
      assert (x = all_ones) as -> by congruence. by rewrite Z.eqb_refl. }
    split; [|done]. rewrite Nat.add_0_r in HkS.
    split; [done|]. split; [by rewrite HkS|]. split; [done|]. split; [|done].
    intros j idx Hj Hjx Hjk. apply Hsyms; [|done|done].
    destruct (decide (j = i)) as [->|]; [congruence|lia].
  - subst tosym. set (t := (12 * kept_before l i)%nat) in *.
    rewrite (write_symbol_kept sec o l n i idx st t); try done; try lia.
    set (cur := Link.w_contents st) in *.
    assert (symbol_at cur i = symbol_at c1 i) as Hsym by (by apply symbol_at_drop).
    rewrite Hsym.
    set (W := written o (symbol_at c1 i) idx).
    assert (length W = 12%nat) as HW.
    { apply written_length. by apply (symbol_at_length c1 i n). }
    assert (length (take t cur) = t) as HP by (rewrite length_take; lia).
    eexists _, _. split; [done|]. split; [|done].
    unfold write_inv. cbn [Link.w_contents Link.w_header_not_first].
    split; [|split; [|split; [|split]]].
    + rewrite !length_app, HP, HW, length_drop. lia.
    + rewrite HkS. destruct (decide (idx = all_ones)); [done|]. f_equal. lia.
    + rewrite <- Hdrop'.
      rewrite drop_app_ge by lia. rewrite drop_app_ge by lia.
      rewrite drop_drop, HP, HW. f_equal. lia.
    + intros j x Hj Hjx Hjk. destruct (decide (j = i)) as [->|Hne].
      * assert (x = idx) as -> by congruence. unfold symbol_at. fold t.
        rewrite drop_app_length' by done. by rewrite take_app_length' by done.
      * assert (j < i)%nat as Hji by lia.
        rewrite <- (Hsyms j x Hji Hjx Hjk).
        pose proof (kept_before_S l j x Hjx) as HjS.
        destruct (decide (x = all_ones)); [done|].
        pose proof (kept_before_mono l (S j) i ltac:(lia)) as Hmono.
        unfold symbol_at.
        rewrite drop_app_le by lia. rewrite take_app_le by (rewrite length_drop; lia).
        rewrite !take_drop_commute, take_take. do 2 f_equal. lia.
    + intros Hflag. apply orb_true_iff in Hflag as [Hflag|Hflag]; [by apply Hhdr|].
      apply andb_true_iff in Hflag as [Hty Hnz]. apply bool_decide_eq_true in Hty.
      exists i, idx. split; [|split; [done|split; [done|]]].
      * intros ->. by rewrite Z.eqb_refl in Hnz.
      * rewrite <- Hty. by rewrite symbol_at_lookup by lia.
Qed.

Lemma write_symbols_inv sec o c1 l n : forall turns i (st : Link.write_state) tosym,
  length c1 = (12 * n)%nat -> length l = n -> (i + turns <= n)%nat ->
  Link.output_section sec = Some o ->
  inv o c1 l i st tosym ->
  exists st' tosym',
    write_symbols sec l turns (Z.of_nat i) st tosym = Some (st', tosym') /\
    inv o c1 l (i + turns) st' tosym' /\
    Link.w_excl_outside st' = Link.w_excl_outside st.
Proof.
  induction turns as [|turns IH]; intros i st tosym Hc1 Hl Hi Hout Hinv.
  - exists st, tosym. by rewrite Nat.add_0_r.
  - cbn [Link.write_symbols].
    destruct (write_symbol_inv sec o c1 l n i st tosym)
      as (st1 & tosym1 & -> & Hinv1 & Hex1); [done|done|lia|done|done|].
    replace (Z.of_nat i + 1) with (Z.of_nat (S i)) by lia.
    destruct (IH (S i) st1 tosym1) as (st' & tosym' & -> & Hinv' & Hex');
      [done|done|lia|done|done|].
    exists st', tosym'. replace (i + S turns)%nat with (S i + turns)%nat by lia.
    split; [done|]. split; [done|]. congruence.
Qed.

Lemma write_excls_all rawsize n : forall l (st : Link.write_state),
  length (Link.w_contents st) = (12 * n)%nat ->
  Forall (fun e => 0 <= Link.e_offset e < rawsize
                   /\ Link.e_offset e + 12 <= 12 * Z.of_nat n) l ->
  exists st',
    write_excls rawsize l st = Some st' /\
    length (Link.w_contents st') = (12 * n)%nat /\
    Link.w_excl_outside st' = Link.w_excl_outside st /\
    Link.w_header_not_first st' = Link.w_header_not_first st.
Proof.
  induction l as [|e l IH]; intros st Hlen Hl; [by exists st|].
  apply Forall_cons in Hl as [(Hoff & Hin) Hl]. cbn [Link.write_excls].
  unfold Link.write_excl.
  replace (Link.e_offset e + Link.VALOFF) with (Z.of_nat (Z.to_nat (Link.e_offset e) + 8))
    by (unfold Link.VALOFF; lia).
  rewrite poke_bytes_store by (rewrite put_32_length; lia).
  replace (Link.e_offset e + Link.TYPEOFF) with (Z.of_nat (Z.to_nat (Link.e_offset e) + 4))
    by (unfold Link.TYPEOFF; lia).
  rewrite poke_bytes_store
    by (rewrite store_length; rewrite ?put_32_length; cbn [length]; lia).
  destruct (Z.ltb_spec (Link.e_offset e) rawsize); [|lia]. cbn [negb].
  destruct (IH (Link.mkWrite
                  (Link.store (Z.to_nat (Link.e_offset e) + 4) [Link.e_type e mod 256]
                     (Link.store (Z.to_nat (Link.e_offset e) + 8)
                        (bfd_put_32 (Link.e_val e)) (Link.w_contents st)))
                  (Link.w_excl_outside st || false) (Link.w_header_not_first st)))
    as (st' & -> & Hlen' & Hex' & Hhd'); [|done|].
  { cbn [Link.w_contents]. rewrite store_length; rewrite store_length;
      rewrite ?put_32_length; cbn [length]; lia. }
  exists st'. split; [done|]. split; [done|]. cbn in Hex', Hhd'.
  rewrite orb_false_r in Hex'. done.
Qed.

(** X28.  Writing the section compacts it in place, in agreement with the
    offset map.  For a section of [n] symbols whose size counts the
    symbols that are kept, the call returns and hands to
    [bfd_set_section_contents] exactly the kept symbols: the symbol of
    index [j] is written as the symbol number [kept_before j], the place
    that [_bfd_stab_section_offset] maps it to, with its string index in
    the first four bytes.  The assertion on the size holds, and the one on
    the header symbol fails only when a kept symbol other than the first
    has the type 0. *)
Theorem write_compacts sec info contents n o :
  length (Link.stridxs info) = n -> Link.rawsize sec = 12 * Z.of_nat n ->
  length contents = (12 * n)%nat ->
  Link.size sec = 12 * Z.of_nat (kept_before (Link.stridxs info) n) ->
  Link.output_section sec = Some o ->
  Forall (fun e => 0 <= Link.e_offset e < Link.rawsize sec
                   /\ Link.e_offset e + 12 <= 12 * Z.of_nat n) (Link.excls info) ->
  exists st1 r,
    write_excls (Link.rawsize sec) (Link.excls info) (Link.mkWrite contents false false)
    = Some st1 /\
    Link._bfd_write_section_stabs bfd_put_32 bfd_put_16 stringtab_size
      bfd_set_section_contents sec (Some info) contents = Some r /\
    Link.wr_answer r
    = bfd_set_section_contents (Some o) (Link.wr_written r) (Link.output_offset sec) /\
    length (Link.wr_written r) = (12 * kept_before (Link.stridxs info) n)%nat /\
    Link.wr_size_differs r = false /\ Link.wr_excl_outside r = false /\
    (forall j idx, Link.stridxs info !! j = Some idx -> idx <> all_ones ->
       symbol_at (Link.wr_written r) (kept_before (Link.stridxs info) j)
       = written o (symbol_at (Link.w_contents st1) j) idx) /\
    (Link.wr_header_not_first r = true ->
     exists j idx, j <> O /\ Link.stridxs info !! j = Some idx /\ idx <> all_ones /\
                   Link.w_contents st1 !! (12 * j + 4)%nat = Some 0).
Proof.
  intros Hl Hraw Hc Hsize Hout Hexcl.
  set (l := Link.stridxs info) in *.
  destruct (write_excls_all (Link.rawsize sec) n (Link.excls info)
              (Link.mkWrite contents false false) Hc Hexcl)
    as (st1 & Hex & Hlen1 & Hout1 & Hhd1).
  cbn [Link.w_excl_outside Link.w_header_not_first] in Hout1, Hhd1.
  destruct (write_symbols_inv sec o (Link.w_contents st1) l n n 0 st1 0)
    as (st2 & tosym & Hloop & (Hlen2 & Hto & _ & Hsyms & Hhdr) & Hout2);
    [done|done|lia|done| |].
  { split; [done|]. split; [done|]. split; [done|]. split; [intros j idx Hj; lia|].
    intros Hflag. congruence. }
  rewrite Nat.add_0_l in Hto, Hsyms.
  exists st1. unfold Link._bfd_write_section_stabs. rewrite Hex.
  rewrite Hraw, symbol_turns_whole. fold l. change (Z.of_nat 0) with 0 in Hloop. rewrite Hloop.
  pose proof (kept_before_le l n) as Hkn.
  rewrite peek_bytes_prefix by (rewrite Hsize, Hlen2, Hlen1; lia).
  rewrite Hsize.
  replace (Z.to_nat (12 * Z.of_nat (kept_before l n))) with (12 * kept_before l n)%nat by lia.
  eexists. split; [done|]. split; [done|].
  cbn [Link.wr_answer Link.wr_written Link.wr_size_differs Link.wr_excl_outside
       Link.wr_header_not_first].
  split; [by rewrite Hout|]. split; [rewrite length_take; lia|]. split.
  { rewrite Hto. apply negb_false_iff, Z.eqb_eq. lia. }
  split; [congruence|]. split; [|done].
  intros j idx Hj Hkept. pose proof (lookup_lt_Some _ _ _ Hj) as Hjn. rewrite Hl in Hjn.
  rewrite <- (Hsyms j idx Hjn Hj Hkept).
  pose proof (kept_before_S l j idx Hj) as HjS.
  destruct (decide (idx = all_ones)); [done|].
  pose proof (kept_before_mono l (S j) n ltac:(lia)) as Hmono.
  unfold symbol_at. rewrite !take_drop_commute, take_take. do 2 f_equal. lia.
Qed.

End WriteProofs.

Lemma write_compacts_witness :
  exists st1 r,
    Link.write_excls (fun v => [v mod 256; v / 256 mod 256; v / 65536 mod 256; v / 16777216 mod 256])
      36 [] (Link.mkWrite
               [1; 0; 0; 0; 0; 0; 2; 0; 9; 0; 0; 0;
                1; 0; 0; 0; 38; 0; 0; 0; 0; 0; 0; 0;
                7; 0; 0; 0; 128; 0; 0; 0; 3; 0; 0; 0] false false)
    = Some st1 /\
    Link._bfd_write_section_stabs
      (fun v => [v mod 256; v / 256 mod 256; v / 65536 mod 256; v / 16777216 mod 256])
      (fun v => [v mod 256; v / 256 mod 256]) 77 (fun _ _ _ => true)
      (Link.mkSection 24 36 256 (Some (Link.mkOutput false 120)) 0)
      (Some (Link.mkSecinfo [] (Some [0; 0; 12]) [0; all_ones; 5]))
      [1; 0; 0; 0; 0; 0; 2; 0; 9; 0; 0; 0;
       1; 0; 0; 0; 38; 0; 0; 0; 0; 0; 0; 0;
       7; 0; 0; 0; 128; 0; 0; 0; 3; 0; 0; 0]
    = Some r /\
    Link.wr_answer r = true /\
    length (Link.wr_written r) = (12 * kept_before [0; all_ones; 5]%Z 3)%nat /\
    Link.wr_size_differs r = false /\ Link.wr_excl_outside r = false /\
    (forall j idx, [0; all_ones; 5] !! j = Some idx -> idx <> all_ones ->
       symbol_at (Link.wr_written r) (kept_before [0; all_ones; 5] j)
       = written_symbol
           (fun v => [v mod 256; v / 256 mod 256; v / 65536 mod 256; v / 16777216 mod 256])
           (fun v => [v mod 256; v / 256 mod 256]) 77 (Link.mkOutput false 120)
           (symbol_at (Link.w_contents st1) j) idx) /\
    (Link.wr_header_not_first r = true ->
     exists j idx, j <> O /\ [0; all_ones; 5] !! j = Some idx /\ idx <> all_ones /\
                   Link.w_contents st1 !! (12 * j + 4)%nat = Some 0).
Proof.
  apply (write_compacts
           (fun v => [v mod 256; v / 256 mod 256; v / 65536 mod 256; v / 16777216 mod 256])
           (fun v => [v mod 256; v / 256 mod 256]) 77 (fun _ _ _ => true)
           ltac:(done) ltac:(done)
           (Link.mkSection 24 36 256 (Some (Link.mkOutput false 120)) 0)
           (Link.mkSecinfo [] (Some [0; 0; 12]) [0; all_ones; 5]) _ 3
           (Link.mkOutput false 120)); try reflexivity.
  constructor.
Defined.

(** ** Symbols *)

(** a record [name:...] reaches the switch on the symbol descriptor with
    [name]; a type number right after the colon stands for the
    descriptor [l] *)
Lemma parse_stab_string_symbol E rec stabtype desc value name body w :
  plain_tag_name name -> CStr.peek body <> ":"%char -> CStr.peek body <> CStr.NUL ->
  parse_stab_string E rec stabtype desc value (name ++ String ":" body) w
  = parse_symbol_descriptor E rec stabtype value (name ++ String ":" body) (Some name)
      (if starts_type_number body then "l"%char else CStr.peek body)
      (if starts_type_number body then body else CStr.advance body) w.
Proof.
  intros Hname Hcolon2 Hnul. unfold parse_stab_string.
  pose proof Hname as (Hne & Hcolon & Hangle & Hd & Hs).
  rewrite (strchr_app_skip ":" name _ Hcolon), strchr_here.
  simpl String.length. cbn [skip_double_colons].
  change (CStr.at_ (String ":" body) 1) with (CStr.peek body).
  rewrite (peek_not _ _ Hcolon2). cbv iota.
  unfold bind at 1. unfold ret at 1. cbv beta iota.
  unfold bind at 1. rewrite stab_symbol_name_plain; [|done|reflexivity]. cbv beta iota.
  change (CStr.advance (String ":" body)) with body.
  rewrite (peek_not _ _ Hnul), andb_false_r. cbv iota.
  unfold starts_type_number.
  by destruct (CStr.isdigit (CStr.peek body) || CStr.cheq (CStr.peek body) "("
               || CStr.cheq (CStr.peek body) "-").
Qed.

(** X29.  The address of a global variable comes from the symbol table:
    for the record [NAME:GTYPE] the sink gets the global variable [NAME]
    of the type that the number stands for, at the value of the first
    symbol of the table whose name, less the leading character of the
    object format, is [NAME]; the value of the record is used only when
    there is no such symbol. *)
Theorem global_variable_value_from_symbol_table E fuel stabtype desc value name n t rest w :
  plain_tag_name name -> type_recorded w n t ->
  CStr.cheq (CStr.peek rest) "=" = false ->
  let addr := default value (find_symbol (leading_char w) (syms w) name) in
  sink_accepts E (sink w) (Ev_record_variable (Some name) (Some t) DEBUG_GLOBAL addr) = true ->
  parse_stab_string E (parse_stab_type E (S fuel)) stabtype desc value
    (name ++ ":G" ++ type_reference n ++ rest) w
  = Some (true,
          upd_sink (fun l => (l ++ [Ev_record_variable (Some name) (Some t) DEBUG_GLOBAL addr])%list)
            (after_types 1 w)) /\
  forall v ps, leading_char w <> CStr.NUL ->
    find_symbol (leading_char w) ((String (leading_char w) name, v) :: ps) name = Some v.
Proof.
  intros Hname Ht Hrest addr Hsink. split.
  - change (":G" ++ type_reference n ++ rest)
      with (String ":" (String "G" (type_reference n ++ rest))).
    rewrite parse_stab_string_symbol by done.
    change (starts_type_number (String "G" (type_reference n ++ rest))) with false. cbv iota.
    cbn [CStr.peek CStr.advance]. unfold parse_symbol_descriptor. eval_chars.
    cbn [orb]. cbv iota.
    unfold bind at 1. rewrite (parse_stab_type_reference E fuel n t rest) by done.
    cbv beta iota. unfold bind at 1, get at 1. cbv beta iota.
    unfold stab_record_variable. unfold bind at 1, get at 1. cbv beta iota.
    unfold bind at 1, get at 1. cbv beta iota. unfold bind at 1, get at 1. cbv beta iota.
    cbn [is_global_or_static orb]. cbv iota.
    unfold debug_record_variable, sink_call.
    change (sink (after_types 1 w)) with (sink w).
    change (leading_char (after_types 1 w)) with (leading_char w).
    change (syms (after_types 1 w)) with (syms w).
    fold addr. by rewrite Hsink.
  - intros v ps Hlead. destruct Hname as (Hne & _). destruct name as [|c name]; [done|].
    cbn [find_symbol CStr.peek CStr.advance].
    rewrite (peek_not _ _ Hlead). unfold CStr.cheq at 1. rewrite Ascii.eqb_refl.
    cbn [negb andb]. unfold CStr.cheq, CStr.streq. by rewrite Ascii.eqb_refl, String.eqb_refl.
Qed.

Lemma global_variable_value_from_symbol_table_witness :
  parse_stab_string plain_sink (parse_stab_type plain_sink 1) (N_other 32) 0 0
    "counter:G(0,1)"
    (set_syms [("_main", 4096); ("_counter", 8192)]
       (set_leading_char "_"
          (state_after (stab_record_type (0, 1) (Some (DInt 4 false)))
             (start_stab "000" false []))))
  = Some (true,
          upd_sink (fun l => (l ++ [Ev_record_variable (Some "counter") (Some (DInt 4 false))
                                      DEBUG_GLOBAL 8192])%list)
            (set_self_crossref false
               (set_syms [("_main", 4096); ("_counter", 8192)]
                  (set_leading_char "_"
                     (state_after (stab_record_type (0, 1) (Some (DInt 4 false)))
                        (start_stab "000" false [])))))) /\
  forall v ps, "_"%char <> CStr.NUL ->
    find_symbol "_" ((String "_" "counter", v) :: ps) "counter" = Some v.
Proof.
  apply (global_variable_value_from_symbol_table plain_sink 0 (N_other 32) 0 0 "counter"
           (0, 1) (DInt 4 false) ""
           (set_syms [("_main", 4096); ("_counter", 8192)]
              (set_leading_char "_"
                 (state_after (stab_record_type (0, 1) (Some (DInt 4 false)))
                    (start_stab "000" false []))))).
  - repeat split; try discriminate;
      unfold no_char; simpl; intros H; decompose [or] H; discriminate || done.
  - repeat split; simpl; try lia. eexists; vm_compute; done.
  - reflexivity.
  - reflexivity.
Defined.

(** X30.  A symbol without a descriptor is a local variable: in the
    record [NAME:TYPE] the type number follows the colon at once.  Inside
    a function the variable is queued, first in the list of pending
    variables, and the sink is told nothing; outside of a function, or for
    a compiler other than gcc that gave an N_OPT record, the sink gets the
    variable at once. *)
Theorem undescribed_symbol_is_local_variable E fuel stabtype desc value name n t rest w :
  plain_tag_name name -> type_recorded w n t ->
  CStr.cheq (CStr.peek rest) "=" = false ->
  sink_accepts E (sink w) (Ev_record_variable (Some name) (Some t) DEBUG_LOCAL value) = true ->
  parse_stab_string E (parse_stab_type E (S fuel)) stabtype desc value
    (name ++ ":" ++ type_reference n ++ rest) w
  = Some (true,
          if within_function w && negb ((gcc_compiled w =? 0) && n_opt_found w)
          then upd_pending (cons (mkPending (Some name) (Some t) DEBUG_LOCAL value))
                 (after_types 1 w)
          else upd_sink (fun l => (l ++ [Ev_record_variable (Some name) (Some t)
                                           DEBUG_LOCAL value])%list)
                 (after_types 1 w)).
Proof.
  intros Hname Ht Hrest Hsink.
  change (":" ++ type_reference n ++ rest) with (String ":" (type_reference n ++ rest)).
  rewrite parse_stab_string_symbol by done.
  change (starts_type_number (type_reference n ++ rest)) with true. cbv iota.
  unfold parse_symbol_descriptor. eval_chars. cbn [orb]. cbv iota.
  unfold parse_then. unfold bind at 1.
  rewrite (parse_stab_type_reference E fuel n t rest) by done. cbv beta iota.
  unfold stab_record_variable. unfold bind at 1, get at 1. cbv beta iota.
  unfold bind at 1, get at 1. cbv beta iota. unfold bind at 1, get at 1. cbv beta iota.
  cbn [is_global_or_static orb].
  change (within_function (after_types 1 w)) with (within_function w).
  change (gcc_compiled (after_types 1 w)) with (gcc_compiled w).
  change (n_opt_found (after_types 1 w)) with (n_opt_found w).
  destruct (within_function w); cbn [negb orb andb].
  - destruct ((gcc_compiled w =? 0) && n_opt_found w); cbn [negb].
    + unfold debug_record_variable, sink_call.
      change (sink (after_types 1 w)) with (sink w). by rewrite Hsink.
    + reflexivity.
  - unfold debug_record_variable, sink_call.
    change (sink (after_types 1 w)) with (sink w). by rewrite Hsink.
Qed.

Lemma undescribed_symbol_is_local_variable_witness :
  parse_stab_string plain_sink (parse_stab_type plain_sink 1) (N_other 128) 0 (-8)
    "i:(0,1)"
    (set_within_function true
       (state_after (stab_record_type (0, 1) (Some (DInt 4 false)))
          (start_stab "000" false [])))
  = Some (true,
          upd_pending (cons (mkPending (Some "i") (Some (DInt 4 false)) DEBUG_LOCAL (-8)))
            (set_self_crossref false
               (set_within_function true
                  (state_after (stab_record_type (0, 1) (Some (DInt 4 false)))
                     (start_stab "000" false []))))).
Proof.
  apply (undescribed_symbol_is_local_variable plain_sink 0 (N_other 128) 0 (-8) "i"
           (0, 1) (DInt 4 false) ""
           (set_within_function true
              (state_after (stab_record_type (0, 1) (Some (DInt 4 false)))
                 (start_stab "000" false [])))).
  - repeat split; try discriminate;
      unfold no_char; simpl; intros H; decompose [or] H; discriminate || done.
  - repeat split; simpl; try lia. eexists; vm_compute; done.
  - reflexivity.
  - reflexivity.
Defined.
